(** * Shopping-cart API: soft-delete lifecycle, validation and pagination

    A shallow embedding of the controllers, validators and model hooks of
    the shopping-cart API (Express + Sequelize), and the properties of its
    specification checked against that embedding.

    Layout:
    - [JS]: the JavaScript values the code manipulates (request payloads,
      query strings, instance attributes) with truthiness, strict equality
      with [null], [parseInt], relational comparison and a few [String]
      methods;
    - [Orm]: the part of the ORM the code relies on: paranoid tables,
      default scopes, attribute setters, hooks, save / destroy / restore;
    - [CategoryModel], [ProductModel], [UserModel], [AdminProfileModel]:
      the model definitions of [src/models];
    - [CategoryValidation], [AdminValidation]: the validator chains;
    - [CategoryController], [ProductController], [AdminController];
    - the theorems, one block per property. *)

From Stdlib Require Import ZArith Lia String Ascii List Bool.
From stdpp Require Import base option list gmap strings pretty.

Local Open Scope Z_scope.
Local Open Scope string_scope.

(** ** JavaScript values *)

Module JS.

(** A request body, a query string and the [dataValues] of a model
    instance are JavaScript objects whose fields hold primitive values.
    [undefined] is the absence of a field (a lookup that yields [None]).
    Numbers are integers here: decimal columns are read as fixed-point
    quantities, and [Date] objects are their epoch time stamps. *)
Inductive value :=
  | VNull
  | VBool (b : bool)
  | VNum (n : Z)
  | VStr (s : string)
  | VDate (t : Z).

#[export] Instance value_eq_dec : EqDecision value.
Proof. solve_decision. Defined.

(** An object with string keys whose key order is irrelevant. *)
Abbreviation obj := (gmap string value).

(** A request payload keeps the order of its keys, which is the order in
    which [Model.set] visits them. *)
Abbreviation payload := (list (string * value)).

(** [o.k] on a payload: the entry of the key, [None] for [undefined]. *)
Fixpoint pget (k : string) (p : payload) : option value :=
  match p with
  | [] => None
  | (k', v) :: p' => if String.eqb k k' then Some v else pget k p'
  end.

(** [o.k = v]: replaces the value in place when the key exists and
    appends the key otherwise. *)
Fixpoint pset (k : string) (v : value) (p : payload) : payload :=
  match p with
  | [] => [(k, v)]
  | (k', v') :: p' =>
      if String.eqb k k' then (k, v) :: p' else (k', v') :: pset k v p'
  end.

(** ToBoolean. *)
Definition truthy (o : option value) : bool :=
  match o with
  | None | Some VNull => false
  | Some (VBool b) => b
  | Some (VNum n) => negb (Z.eqb n 0)
  | Some (VStr s) => negb (String.eqb s "")
  | Some (VDate _) => true
  end.

(** [x === null] and [x !== null]. *)
Definition is_null (o : option value) : bool :=
  match o with Some VNull => true | _ => false end.

(** [x !== undefined]. *)
Definition is_defined (o : option value) : bool :=
  match o with Some _ => true | None => false end.

(** [x === "s"] for a string literal. *)
Definition strict_eq_str (o : option value) (s : string) : bool :=
  match o with Some (VStr t) => String.eqb t s | _ => false end.

Definition is_space (c : ascii) : bool :=
  let n := nat_of_ascii c in
  ((n =? 32) || ((9 <=? n) && (n <=? 13)))%nat.

Definition is_digit (c : ascii) : bool :=
  let n := nat_of_ascii c in ((48 <=? n) && (n <=? 57))%nat.

Definition digit_val (c : ascii) : Z := Z.of_nat (nat_of_ascii c) - 48.

Fixpoint trim_start (s : string) : string :=
  match s with
  | String c s' => if is_space c then trim_start s' else s
  | EmptyString => EmptyString
  end.

Fixpoint string_rev_acc (s acc : string) : string :=
  match s with
  | EmptyString => acc
  | String c s' => string_rev_acc s' (String c acc)
  end.

Definition string_rev (s : string) : string := string_rev_acc s EmptyString.

(** [String.prototype.trim]. *)
Definition trim (s : string) : string :=
  string_rev (trim_start (string_rev (trim_start s))).

(** [String.prototype.toLowerCase] on the ASCII letters; other bytes are
    left as they are. *)
Definition lower_ascii (c : ascii) : ascii :=
  let n := nat_of_ascii c in
  if ((65 <=? n) && (n <=? 90))%nat then ascii_of_nat (n + 32) else c.

Fixpoint toLowerCase (s : string) : string :=
  match s with
  | EmptyString => EmptyString
  | String c s' => String (lower_ascii c) (toLowerCase s')
  end.

(** [String.prototype.toUpperCase], ASCII letters. *)
Definition upper_ascii (c : ascii) : ascii :=
  let n := nat_of_ascii c in
  if ((97 <=? n) && (n <=? 122))%nat then ascii_of_nat (n - 32) else c.

Fixpoint toUpperCase (s : string) : string :=
  match s with
  | EmptyString => EmptyString
  | String c s' => String (upper_ascii c) (toUpperCase s')
  end.

(** The longest prefix of decimal digits, read as a number; [None] when
    the string does not start with a digit. [acc] holds the digits read so
    far. *)
Fixpoint digits_prefix (s : string) (acc : option Z) : option Z :=
  match s with
  | String c s' =>
      if is_digit c
      then digits_prefix s' (Some (10 * default 0 acc + digit_val c))
      else acc
  | EmptyString => acc
  end.

(** [true] when the string is a non-empty run of decimal digits. *)
Fixpoint all_digits (s : string) : bool :=
  match s with
  | EmptyString => false
  | String c EmptyString => is_digit c
  | String c s' => is_digit c && all_digits s'
  end.

Definition signed (s : string) (f : string -> option Z) : option Z :=
  match s with
  | String "-"%char s' => Z.opp <$> f s'
  | String "+"%char s' => f s'
  | _ => f s
  end.

(** [parseInt(x)]: white space is skipped, then an optional sign and the
    longest run of digits are read; [None] is [NaN]. A number is its own
    integer part. *)
Definition parseInt (o : option value) : option Z :=
  match o with
  | Some (VNum n) => Some n
  | Some (VStr s) => signed (trim_start s) (fun t => digits_prefix t None)
  | _ => None
  end.

(** ToNumber, as the relational operators and [/] apply it; [None] is
    [NaN]. The empty string is 0 and a decimal integer literal is its
    value. The numbers of this development are integers: a literal with a
    fraction or an exponent part, or in hexadecimal, octal or binary
    notation, denotes a number in JavaScript that [Z] does not hold and is
    read as [NaN] here, so the statements that compare such a string say
    so in their hypotheses. *)
Definition to_number (o : option value) : option Z :=
  match o with
  | None => None
  | Some VNull => Some 0
  | Some (VBool b) => Some (if b then 1 else 0)
  | Some (VNum n) => Some n
  | Some (VDate t) => Some t
  | Some (VStr s) =>
      let t := trim s in
      if String.eqb t "" then Some 0
      else signed t (fun u => if all_digits u then digits_prefix u None else None)
  end.

(** [a < b]: two strings are compared by code units, anything else as
    numbers, and a comparison with [NaN] is false. *)
Definition js_lt (a b : option value) : bool :=
  match a, b with
  | Some (VStr s), Some (VStr t) => String.ltb s t
  | _, _ =>
      match to_number a, to_number b with
      | Some x, Some y => Z.ltb x y
      | _, _ => false
      end
  end.

(** [a > b]. *)
Definition js_gt (a b : option value) : bool := js_lt b a.

(** [a <= b] and [a >= b]. *)
Definition js_le (a b : option value) : bool :=
  match a, b with
  | Some (VStr s), Some (VStr t) => String.leb s t
  | _, _ =>
      match to_number a, to_number b with
      | Some x, Some y => Z.leb x y
      | _, _ => false
      end
  end.

Definition js_ge (a b : option value) : bool := js_le b a.

(** The result of a division: a number, an infinity or [NaN]. *)
Inductive quotient :=
  | Finite (n : Z)
  | Infinite (negative : bool)
  | NotANumber.

(** [Math.ceil(n / l)] on integers: the ceiling of the exact quotient;
    division by zero gives [NaN] for 0, [Infinity] for a positive and
    [-Infinity] for a negative numerator. *)
Definition ceil_div (n l : Z) : quotient :=
  if Z.eqb l 0
  then (if Z.eqb n 0 then NotANumber else Infinite (Z.ltb n 0))
  else Finite (- ((- n) / l)).

(** [a < q] for a number [a] that may be [NaN] and a quotient. *)
Definition lt_quotient (a : option Z) (q : quotient) : bool :=
  match a, q with
  | Some x, Finite y => Z.ltb x y
  | Some _, Infinite negative => negb negative
  | _, _ => false
  end.

End JS.

Import JS.

(** ** The store and the ORM *)

(** A stored row maps column names to values; a table lists its rows in
    insertion order. *)
Abbreviation row := (gmap string value).
Abbreviation table := (list row).

Record db := {
  users : table;
  admin_profiles : table;
  categories : table;
  products : table;
}.

(** Errors that a controller hands to [next(error)]. *)
Inductive error :=
  | SequelizeValidationError (msgs : list string)
  | SequelizeUniqueConstraintError (msgs : list string)
  | SequelizeForeignKeyConstraintError
  | SequelizeDatabaseError (msg : string)
  | Error (msg : string)
  | TypeError (msg : string).

(** The terms of a [where] object. *)
Inductive cond :=
  | CEq (k : string) (v : value)               (* { k: v } *)
  | CNotId (v : value)                         (* [Op.not]: { id: v } *)
  | CGte (k : string) (n : Z)                  (* { k: { [Op.gte]: n } } *)
  | CLte (k : string) (n : Z)                  (* { k: { [Op.lte]: n } } *)
  | COrILike (ks : list string) (pat : string) (* [Op.or]: [{ k: { [Op.iLike]: pat } }, ...] *).

(** The key a term occupies in the [where] object. *)
Definition cond_key (c : cond) : string :=
  match c with
  | CEq k _ | CGte k _ | CLte k _ => k
  | CNotId _ => "Op.not"
  | COrILike _ _ => "Op.or"
  end.

(** SQL [NULL]: a column that holds [null] or was never written. *)
Definition sql_null (o : option value) : bool :=
  match o with None | Some VNull => true | Some _ => false end.

(** The input function of the store for a 32-bit integer column
    ([int4in]), which reads the string bound to a comparison with such a
    column: white space, an optional sign, decimal digits, white space, and
    the value must fit the type. The store refuses any other string with
    the message at the left. (The hexadecimal, octal and binary literals
    and the digit separators that PostgreSQL reads from version 16 on are
    refused here as they are before that version; no statement is made
    about them.) *)
Definition dquote : string := String (ascii_of_nat 34) EmptyString.

Definition int4_in (s : string) : string + Z :=
  match signed (trim s) (fun u => if all_digits u then digits_prefix u None else None) with
  | None => inl ("invalid input syntax for type integer: " ++ dquote ++ s ++ dquote)
  | Some n =>
      if (-2147483648 <=? n)%Z && (n <=? 2147483647)%Z then inr n
      else inl ("value " ++ dquote ++ s ++ dquote ++ " is out of range for type integer")
  end.

(** SQL [=] between a column and a bound value: a string bound against a
    number is read as an integer literal (an id taken from the URL against
    an integer column) and equals the number it denotes, and [NULL] equals
    nothing. A string that is no integer literal equals no number; the
    query that binds it fails, see [id_error]. *)
Definition sql_eq (col : option value) (v : value) : bool :=
  match col, v with
  | None, _ | Some VNull, _ | _, VNull => false
  | Some (VNum a), VStr s =>
      match int4_in s with inr x => Z.eqb x a | inl _ => false end
  | Some (VStr _), VNum a =>
      match to_number col with Some y => Z.eqb a y | None => false end
  | Some c, _ => bool_decide (c = v)
  end.

Fixpoint is_prefix (p s : string) : bool :=
  match p, s with
  | EmptyString, _ => true
  | String a p', String b s' => Ascii.eqb a b && is_prefix p' s'
  | String _ _, EmptyString => false
  end.

Fixpoint contains (sub s : string) : bool :=
  is_prefix sub s ||
  match s with
  | EmptyString => false
  | String _ s' => contains sub s'
  end.

(** [col ILIKE '%pat%'], the pattern taken literally. *)
Definition ilike (col : option value) (pat : string) : bool :=
  match col with
  | Some (VStr s) => contains (toLowerCase pat) (toLowerCase s)
  | _ => false
  end.

Definition row_matches (r : row) (c : cond) : bool :=
  match c with
  | CEq k v => sql_eq (r !! k) v
  | CNotId v => negb (sql_eq (r !! "id") v)
  | CGte k n => match to_number (r !! k) with
                | Some x => negb (sql_null (r !! k)) && Z.leb n x
                | None => false
                end
  | CLte k n => match to_number (r !! k) with
                | Some x => negb (sql_null (r !! k)) && Z.leb x n
                | None => false
                end
  | COrILike ks pat => existsb (fun k => ilike (r !! k) pat) ks
  end.

(** The part of a model definition the controllers depend on. *)
Record model := {
  tbl : db -> table;
  set_tbl : table -> db -> db;
  (** the columns, time stamps included *)
  rawAttributes : list string;
  defaultValues : list (string * value);
  (** the columns of type BOOLEAN *)
  booleanAttributes : list string;
  (** [defaultScope.where] *)
  scopeWhere : list (string * value);
  (** [defaultScope.attributes.exclude] *)
  scopeExclude : list string;
  (** custom attribute setters: [None] when the attribute has none,
      otherwise the instance values after the setter ran, or the error it
      threw *)
  customSetter : string -> option (value -> row -> error + row);
  (** the [beforeValidate] hook *)
  beforeValidate : row -> error + row;
  (** the validators of one attribute, given the whole instance and the
      time: the messages of those that fail *)
  validators : Z -> string -> row -> list string;
  (** [beforeCreate] and [beforeUpdate]: the time, the values the
      instance was loaded with, its current values *)
  beforeCreate : Z -> row -> error + row;
  beforeUpdate : Z -> row -> row -> error + row;
  (** [beforeSave]: the message of the error it throws, if any *)
  beforeSave : row -> option string;
  (** columns with a unique index and the message of the violation *)
  uniqueColumns : list (string * string);
  (** columns that refer to the id of another table *)
  foreignKeys : list (string * (db -> table));
}.

(** Query options: the [where] terms, [paranoid] (true unless given) and
    any [attributes.exclude] of the call itself. *)
Record find_options := {
  fo_where : list cond;
  fo_paranoid : bool;
  fo_exclude : list string;
}.

(** [Object.assign(scope.where, options.where)]: a key of the call
    replaces the same key of the default scope. *)
Definition effective_where (m : model) (w : list cond) : list cond :=
  map (fun kv => CEq kv.1 kv.2)
      (filter (fun kv => negb (existsb (fun c => String.eqb (cond_key c) kv.1) w))
              (scopeWhere m))
  ++ w.

(** The rows a query selects: the merged [where], and for a paranoid query
    [deletedAt IS NULL]. *)
Definition selects (m : model) (o : find_options) (r : row) : bool :=
  forallb (row_matches r) (effective_where m (fo_where o))
  && (negb (fo_paranoid o) || sql_null (r !! "deletedAt")).

(** The attributes a query loads: all columns but those the default scope
    or the call excludes. *)
Definition selected_attributes (m : model) (o : find_options) : list string :=
  filter (fun a => negb (existsb (String.eqb a) (scopeExclude m ++ fo_exclude o)))
         (rawAttributes m).

Definition project (attrs : list string) (r : row) : row :=
  filter (fun kv => existsb (String.eqb kv.1) attrs) r.

(** A model instance: its current values and the values it was loaded
    with, from which [changed()] is computed. *)
Record instance := {
  dataValues : row;
  previous : row;
  isNewRecord : bool;
}.

Definition load (m : model) (o : find_options) (r : row) : instance :=
  let dv := project (selected_attributes m o) r in
  {| dataValues := dv; previous := dv; isNewRecord := false |}.

(** [instance.attr] *)
Definition get (i : instance) (k : string) : option value := dataValues i !! k.

Definition findAll (m : model) (o : find_options) (d : db) : list instance :=
  map (load m o) (filter (fun r => selects m o r) (tbl m d)).

Definition findOne (m : model) (o : find_options) (d : db) : option instance :=
  head (findAll m o d).

(** *** Writing *)

Definition readOnlyAttributes : list string := ["createdAt"; "updatedAt"; "deletedAt"].

Definition mem (k : string) (l : list string) : bool := existsb (String.eqb k) l.

(** The sanitizer of the BOOLEAN type: the strings "true" and "false"
    and the numbers 1 and 0 become booleans, any other value is kept. *)
Definition to_boolean (v : value) : option bool :=
  match v with
  | VBool b => Some b
  | VStr s => if String.eqb s "true" then Some true
              else if String.eqb s "false" then Some false else None
  | VNum n => if Z.eqb n 1 then Some true
              else if Z.eqb n 0 then Some false else None
  | _ => None
  end.

(** The type sanitizer [set] applies to the value of an attribute. (The
    sanitizer of the DATE type, which parses a string into a date, is not
    modelled: a date reaches the instance as a [VDate].) *)
Definition sanitize (m : model) (k : string) (v : value) : value :=
  if mem k (booleanAttributes m)
  then match to_boolean v with Some b => VBool b | None => v end
  else v.

(** [instance.set(key, value)]: a custom setter runs first; otherwise a
    key that is no attribute is ignored, and so are the primary key once it
    is defined and, on a stored record, the time stamps; any other value
    is stored as its type sanitizer returns it. *)
Definition set_attr (m : model) (k : string) (v : value) (i : instance)
  : error + instance :=
  match customSetter m k with
  | Some f =>
      match f v (dataValues i) with
      | inl e => inl e
      | inr dv => inr {| dataValues := dv; previous := previous i;
                         isNewRecord := isNewRecord i |}
      end
  | None =>
      if negb (mem k (rawAttributes m)) then inr i
      else if String.eqb k "id" && truthy (dataValues i !! "id") then inr i
      else if negb (isNewRecord i) && mem k readOnlyAttributes then inr i
      else inr {| dataValues := <[k := sanitize m k v]> (dataValues i);
                  previous := previous i; isNewRecord := isNewRecord i |}
  end.

(** [instance.set(values)]: the keys are visited in order. *)
Fixpoint set_all (m : model) (p : payload) (i : instance) : error + instance :=
  match p with
  | [] => inr i
  | (k, v) :: p' =>
      match set_attr m k v i with
      | inl e => inl e
      | inr i' => set_all m p' i'
      end
  end.

(** [instance.changed()]: the attributes whose value differs from the
    loaded one. *)
Definition changed (m : model) (i : instance) : list string :=
  filter (fun k => bool_decide (dataValues i !! k <> previous i !! k))
         (rawAttributes m).

Definition uniq_concat (a b : list string) : list string :=
  a ++ filter (fun k => negb (mem k a)) b.

(** The rows of a table other than the one with the given id that hold
    value [v] in column [c]: the rows a unique index on [c] would clash
    with. *)
Definition clashes (t : table) (id : option value) (c : string) (v : value) : bool :=
  existsb (fun r => bool_decide (r !! c = Some v)
                    && negb (bool_decide (r !! "id" = id))) t.

Definition unique_violations (m : model) (t : table) (fields : list string)
    (dv : row) : list string :=
  flat_map (fun cm : string * string =>
              match dv !! cm.1 with
              | Some v =>
                  if mem cm.1 fields && negb (sql_null (Some v))
                     && clashes t (dv !! "id") cm.1 v
                  then [cm.2] else []
              | None => []
              end)
           (uniqueColumns m).

(** Copy the written fields of the instance into the stored row; a field
    the instance does not define is written as [NULL] on insert and left
    alone on update. *)
Definition write_fields (fields : list string) (dv : row) (r : row) : row :=
  foldr (fun k acc => match dv !! k with
                      | Some v => <[k := v]> acc
                      | None => acc
                      end) r fields.

(** The written foreign keys that refer to no row. *)
Definition dangling (m : model) (d : db) (fields : list string) (dv : row) : bool :=
  existsb (fun ft : string * (db -> table) =>
             mem ft.1 fields && negb (sql_null (dv !! ft.1))
             && negb (existsb (fun r : row => sql_eq (r !! "id")
                                                (default VNull (dv !! ft.1)))
                              (ft.2 d)))
          (foreignKeys m).

Definition update_row (id : option value) (f : row -> row) (t : table) : table :=
  map (fun r => if bool_decide (r !! "id" = id) then f r else r) t.

(** The value the sequence of the id column hands out. The sequence is
    taken to stand just behind the largest stored id, as it does while
    every row was inserted through it and no insert was refused; the
    statements about a created row rely on no more than its id being a
    number that no stored row has. *)
Definition next_id (t : table) : Z :=
  1 + foldr (fun r acc => match r !! "id" with
                          | Some (VNum n) => Z.max n acc
                          | _ => acc
                          end) 0 t.

(** The fields a save writes: [updatedAt] joins any non-empty list, and
    [createdAt] the list of a new record. *)
Definition save_fields (new : bool) (fields0 : list string) : list string :=
  let fields1 := if (0 <? Z.of_nat (length fields0))%Z
                 then uniq_concat fields0 ["updatedAt"] else fields0 in
  if new then uniq_concat fields1 ["createdAt"] else fields1.

(** The time stamps a save sets on the instance. *)
Definition stamp (new : bool) (now : Z) (fields : list string) (dv : row) : row :=
  let dv1 := if mem "updatedAt" fields
             then <["updatedAt" := VDate now]> dv else dv in
  if new && negb (truthy (dv1 !! "createdAt"))
  then <["createdAt" := VDate now]> dv1 else dv1.

(** Validation and hooks of a save, in the order the ORM runs them:
    [beforeValidate], the validators of the saved fields,
    [beforeCreate] or [beforeUpdate], [beforeSave]. Without hooks only the
    validators run. The result is the instance values after validation and
    after the hooks. *)
Definition run_hooks (m : model) (hooks new : bool) (now : Z) (fields : list string)
    (prev dv : row) : error + (row * row) :=
  match (if hooks then beforeValidate m dv else inr dv) with
  | inl e => inl e
  | inr dv3 =>
      match flat_map (fun k => validators m now k dv3) fields with
      | (_ :: _) as msgs => inl (SequelizeValidationError msgs)
      | [] =>
          match (if hooks
                 then (if new then beforeCreate m now dv3
                       else beforeUpdate m now prev dv3)
                 else inr dv3) with
          | inl e => inl e
          | inr dv4 =>
              match (if hooks then beforeSave m dv4 else None) with
              | Some msg => inl (Error msg)
              | None => inr (dv3, dv4)
              end
          end
      end
  end.

(** INSERT: the id is generated unless given, every column is written,
    the unique indexes and foreign keys of the table are enforced. *)
Definition insert_row (m : model) (dv : row) (d : db) : error + (instance * db) :=
  let id := match dv !! "id" with
            | Some v => v
            | None => VNum (next_id (tbl m d))
            end in
  let dv5 := <["id" := id]> dv in
  match unique_violations m (tbl m d) (rawAttributes m) dv5 with
  | (_ :: _) as msgs => inl (SequelizeUniqueConstraintError msgs)
  | [] =>
      if dangling m d (rawAttributes m) dv5
      then inl SequelizeForeignKeyConstraintError else
      let blank : row := list_to_map (map (fun k => (k, VNull)) (rawAttributes m)) in
      inr ({| dataValues := dv5; previous := dv5; isNewRecord := false |},
           set_tbl m (tbl m d ++ [write_fields (rawAttributes m) dv5 blank]) d)
  end.

(** UPDATE ... WHERE id: the given fields of the rows with the id of the
    instance are written. *)
Definition update_rows (m : model) (fields : list string) (dv : row) (d : db)
  : error + (instance * db) :=
  match unique_violations m (tbl m d) fields dv with
  | (_ :: _) as msgs => inl (SequelizeUniqueConstraintError msgs)
  | [] =>
      if dangling m d fields dv
      then inl SequelizeForeignKeyConstraintError else
      inr ({| dataValues := dv; previous := dv; isNewRecord := false |},
           set_tbl m (update_row (dv !! "id") (write_fields fields dv) (tbl m d)) d)
  end.

(** [instance.save(options)] with [options.fields] given. A stored
    instance with nothing to write or nothing changed is returned as it
    is. *)
Definition save (m : model) (hooks : bool) (now : Z) (fields0 : list string)
    (i : instance) (d : db) : error + (instance * db) :=
  let new := isNewRecord i in
  let fields := save_fields new fields0 in
  match run_hooks m hooks new now fields (previous i)
                  (stamp new now fields (dataValues i)) with
  | inl e => inl e
  | inr (dv3, dv4) =>
      let hookChanged :=
        filter (fun k => bool_decide (dv4 !! k <> dv3 !! k)) (rawAttributes m) in
      let fields' := uniq_concat fields hookChanged in
      let i' := {| dataValues := dv4; previous := previous i;
                   isNewRecord := new |} in
      if new then insert_row m dv4 d
      else if (Z.of_nat (length fields') =? 0)%Z then inr (i', d)
      else if (Z.of_nat (length (changed m i')) =? 0)%Z then inr (i', d)
      else update_rows m fields' dv4 d
  end.

(** [Model.create(values)]: build the instance (defaults for the keys the
    payload leaves undefined, then [set] in key order) and save every
    attribute. *)
Definition create (m : model) (now : Z) (p : payload) (d : db)
  : error + (instance * db) :=
  let defaults : row :=
    list_to_map (filter (fun kv => negb (is_defined (pget kv.1 p))) (defaultValues m)) in
  match set_all m p {| dataValues := defaults; previous := ∅; isNewRecord := true |} with
  | inl e => inl e
  | inr i => save m true now (rawAttributes m) i d
  end.

(** [instance.update(values)]: [set], then save the attributes named by
    the payload and those the setters touched. *)
Definition update (m : model) (now : Z) (p : payload) (i : instance) (d : db)
  : error + (instance * db) :=
  match set_all m p i with
  | inl e => inl e
  | inr i' =>
      let fields := filter (fun k => mem k (uniq_concat (map fst p) (changed m i')))
                           (rawAttributes m) in
      save m true now fields i' d
  end.

Definition setDataValue (k : string) (v : value) (i : instance) : instance :=
  {| dataValues := <[k := v]> (dataValues i); previous := previous i;
     isNewRecord := isNewRecord i |}.

(** [instance.destroy()] on a paranoid model: [deletedAt] is stamped when
    it is not set yet, and the changed fields are saved without hooks. *)
Definition destroy (m : model) (now : Z) (i : instance) (d : db)
  : error + (instance * db) :=
  let i' := if sql_null (get i "deletedAt")
            then setDataValue "deletedAt" (VDate now) i else i in
  save m false now (changed m i') i' d.

(** [instance.restore()]: [deletedAt] becomes [null] and the changed
    fields are saved without hooks. *)
Definition restore (m : model) (now : Z) (i : instance) (d : db)
  : error + (instance * db) :=
  let i' := setDataValue "deletedAt" VNull i in
  save m false now (changed m i') i' d.

(** ** Requests and responses *)

#[warnings="-register-all"]
Inductive json :=
  | JVal (v : value)
  | JObj (fields : list (string * json))
  | JArr (items : list json).

Record response := {
  status : Z;
  body : json;
}.

Record request := {
  params_id : option value;   (* req.params.id *)
  query : payload;            (* req.query *)
  rbody : payload;            (* req.body *)
  url : string;               (* protocol, host, baseUrl and path *)
}.

Definition jstr (s : string) : json := JVal (VStr s).
Definition jbool (b : bool) : json := JVal (VBool b).

(** [JSON.stringify] drops the fields that are [undefined]. *)
Definition jfields (l : list (string * option json)) : json :=
  JObj (omap (fun kv : string * option json =>
                match kv.2 with Some j => Some (kv.1, j) | None => None end) l).

(** [Model.prototype.toJSON]: the values of the instance. *)
Definition toJSON (i : instance) : json :=
  JObj (map (fun kv : string * value => (kv.1, JVal kv.2))
            (map_to_list (dataValues i))).

(** [res.status(code).json({ success: false, message })] *)
Definition fail (code : Z) (msg : string) : response :=
  {| status := code;
     body := JObj [("success", jbool false); ("message", jstr msg)] |}.

(** The error-handling middleware (errorHandler): validation and
    unique-index errors of the ORM become a 400 with their messages, a
    foreign-key error a 400, any other error a 500 with its message. *)
Definition errorHandler (e : error) : response :=
  match e with
  | SequelizeValidationError msgs | SequelizeUniqueConstraintError msgs =>
      {| status := 400;
         body := JObj [("success", jbool false);
                       ("message", JArr (map jstr msgs))] |}
  | SequelizeForeignKeyConstraintError =>
      fail 400 "Reference error: Invalid foreign key"
  | SequelizeDatabaseError msg | Error msg | TypeError msg =>
      {| status := 500;
         body := JObj [("success", jbool false);
                       ("message", jstr (if String.eqb msg "" then "Server Error"
                                         else msg))] |}
  end.

(** A query that compares the integer column [id] with the id of the
    URL fails in the store when that string is no integer literal of the
    column type, and the ORM throws what the store reports. (The id of a
    route is a string. For the other values a request of this development
    can hold: the ORM refuses an [undefined] id, the store refuses to
    compare an integer with a boolean or with a time stamp, and it
    compares with [null] and with a number without complaint.) *)
Definition id_error (req : request) : option error :=
  match params_id req with
  | Some (VStr s) =>
      match int4_in s with
      | inl msg => Some (SequelizeDatabaseError msg)
      | inr _ => None
      end
  | None =>
      Some (Error ("WHERE parameter " ++ dquote ++ "id" ++ dquote ++ " has invalid "
                   ++ dquote ++ "undefined" ++ dquote ++ " value"))
  | Some (VBool _) => Some (SequelizeDatabaseError "operator does not exist: integer = boolean")
  | Some (VDate _) =>
      Some (SequelizeDatabaseError
              "operator does not exist: integer = timestamp with time zone")
  | Some VNull | Some (VNum _) => None
  end.

(** What a handler answers when its query by id brought no row. Either
    the query threw, and the handler passed the error on to
    [errorHandler], or it returned [null], and the handler answers 404. A
    query on an ill-formed id selects no row of a table whose ids are
    numbers ([sql_eq]), so the two cases part where nothing was found. *)
Definition no_row (req : request) (msg : string) : response :=
  match id_error req with
  | Some e => errorHandler e
  | None => fail 404 msg
  end.

(** express-validator's [toString] of a field value. *)
Definition str_of (o : option value) : string :=
  match o with
  | None | Some VNull => ""
  | Some (VStr s) => s
  | Some (VNum n) => pretty n
  | Some (VBool b) => if b then "true" else "false"
  | Some (VDate t) => pretty t
  end.

Definition str_len (s : string) : Z := Z.of_nat (String.length s).

(** The character class of the slug pattern, [a-z0-9-]. *)
Definition is_slug_char (c : ascii) : bool :=
  let n := nat_of_ascii c in
  (((97 <=? n) && (n <=? 122)) || ((48 <=? n) && (n <=? 57)) || (n =? 45))%nat.

Fixpoint all_chars (f : ascii -> bool) (s : string) : bool :=
  match s with
  | EmptyString => true
  | String c s' => f c && all_chars f s'
  end.

(** [/^[a-z0-9-]+$/.test(s)] *)
Definition is_slug (s : string) : bool :=
  negb (String.eqb s "") && all_chars is_slug_char s.

(** [validator.isBoolean] *)
Definition isBoolean (s : string) : bool :=
  mem s ["true"; "false"; "1"; "0"].

(** [validator.isInt] without bounds: an optional sign and digits. *)
Definition isInt (s : string) : bool :=
  match s with
  | String "-"%char s' | String "+"%char s' => all_digits s'
  | _ => all_digits s
  end.

(** *** Ordered, paged queries *)

(** Column order of the store, ascending, [NULL] last. *)
Definition value_le (a b : option value) : bool :=
  match a, b with
  | _, (None | Some VNull) => true
  | (None | Some VNull), _ => false
  | Some (VStr s), Some (VStr t) => String.leb s t
  | Some (VBool x), Some (VBool y) => implb x y
  | _, _ => match to_number a, to_number b with
            | Some x, Some y => Z.leb x y
            | _, _ => true
            end
  end.

Fixpoint insert_by (k : string) (r : row) (l : list row) : list row :=
  match l with
  | [] => [r]
  | r' :: l' => if value_le (r !! k) (r' !! k) then r :: l
                else r' :: insert_by k r l'
  end.

Definition sort_by (k : string) (l : list row) : list row :=
  foldr (insert_by k) [] l.

Record page_options := {
  po_find : find_options;
  po_limit : option Z;      (* parseInt(limit), NaN as None *)
  po_offset : option Z;
  po_sortBy : string;
  po_sortOrder : string;
}.

(** A [where] term on a column the table does not have. *)
Definition unknown_column (m : model) (extra : list string) (c : cond) : bool :=
  match c with
  | CEq k _ | CGte k _ | CLte k _ => negb (mem k (rawAttributes m))
  | CNotId _ => false
  | COrILike ks _ => existsb (fun k => negb (mem k (rawAttributes m ++ extra))) ks
  end.

(** [Model.findAndCountAll]: the count ignores limit and offset; the rows
    are ordered, then cut to the page. [join] adds the columns of an
    included association to a row, under the names by which the [where]
    object refers to them ([extra]). An unknown column, a direction other
    than ASC and DESC, or a limit or offset that is no natural number
    makes the query fail. *)
Definition findAndCountAll (m : model) (join : row -> row) (extra : list string)
    (o : page_options) (d : db) : error + (Z * list instance) :=
  let matching := filter (fun r => selects m (po_find o) (join r)) (tbl m d) in
  if negb (mem (po_sortBy o) (rawAttributes m))
     || existsb (unknown_column m extra) (fo_where (po_find o))
  then inl (SequelizeDatabaseError "column does not exist")
  else
    match po_limit o, po_offset o with
    | Some l, Some off =>
        if (l <? 0)%Z || (off <? 0)%Z
        then inl (SequelizeDatabaseError "LIMIT and OFFSET must not be negative")
        else
          let asc := sort_by (po_sortBy o) matching in
          let ordered :=
            if String.eqb (po_sortOrder o) "ASC" then Some asc
            else if String.eqb (po_sortOrder o) "DESC" then Some (rev asc)
            else None in
          match ordered with
          | None => inl (Error "Order must be 'ASC' or 'DESC'")
          | Some rows =>
              inr (Z.of_nat (length matching),
                   map (load m (po_find o))
                       (take (Z.to_nat l) (drop (Z.to_nat off) rows)))
          end
    | _, _ => inl (SequelizeDatabaseError "invalid LIMIT or OFFSET")
    end.

(** A number in a JSON body; [NaN] is serialized as [null]. *)
Definition jnum (o : option Z) : json :=
  match o with Some n => JVal (VNum n) | None => JVal VNull end.

(** [a < b] on numbers that may be [NaN]. *)
Definition num_lt (a b : option Z) : bool :=
  match a, b with Some x, Some y => Z.ltb x y | _, _ => false end.

(** [Math.ceil(count / limit)] where limit may be [NaN]. *)
Definition total_pages (count : Z) (limit : option Z) : quotient :=
  match limit with Some l => ceil_div count l | None => NotANumber end.

(** A quotient in a JSON body: [JSON.stringify] writes [null] for the
    infinities and for [NaN]. *)
Definition jquotient (q : quotient) : json :=
  match q with Finite n => JVal (VNum n) | _ => JVal VNull end.

(** A destructuring default: [const { k = dflt } = obj]. *)
Definition with_default (k : string) (dflt : value) (q : payload) : value :=
  match pget k q with Some v => v | None => dflt end.

(** The pagination block of a list response (category and product
    controllers): [hasNext] and [hasPrev] compare the raw query values,
    the links compare the parsed ones. *)
Definition pagination_raw (req : request) (count : Z) : json :=
  let page := with_default "page" (VNum 1) (query req) in
  let limit := with_default "limit" (VNum 10) (query req) in
  let p := parseInt (Some page) in
  let l := parseInt (Some limit) in
  JObj [("currentPage", jnum p);
        ("totalPages", jquotient (total_pages count l));
        ("totalItems", JVal (VNum count));
        ("itemsPerPage", jnum l);
        ("hasNext", jbool (lt_quotient (to_number (Some page))
                                       (total_pages count (to_number (Some limit)))));
        ("hasPrev", jbool (num_lt (Some 1) (to_number (Some page))));
        ("nextPageUrl",
         if lt_quotient p (total_pages count l)
         then jstr (url req ++ "?page=" ++ str_of (VNum <$> (Z.add 1 <$> p))
                    ++ "&limit=" ++ str_of (Some limit))
         else JVal VNull);
        ("prevPageUrl",
         if num_lt (Some 1) p
         then jstr (url req ++ "?page=" ++ str_of (VNum <$> (Z.add (-1) <$> p))
                    ++ "&limit=" ++ str_of (Some limit))
         else JVal VNull)].

(** The same block in the admin controller, which parses the page
    everywhere. *)
Definition pagination_parsed (req : request) (count : Z) : json :=
  let page := with_default "page" (VNum 1) (query req) in
  let limit := with_default "limit" (VNum 10) (query req) in
  let p := parseInt (Some page) in
  let l := parseInt (Some limit) in
  JObj [("currentPage", jnum p);
        ("totalPages", jquotient (total_pages count l));
        ("totalItems", JVal (VNum count));
        ("itemsPerPage", jnum l);
        ("hasNext", jbool (lt_quotient p (total_pages count l)));
        ("hasPrev", jbool (num_lt (Some 1) p));
        ("nextPageUrl",
         if lt_quotient p (total_pages count l)
         then jstr (url req ++ "?page=" ++ str_of (VNum <$> (Z.add 1 <$> p))
                    ++ "&limit=" ++ str_of (Some limit))
         else JVal VNull);
        ("prevPageUrl",
         if num_lt (Some 1) p
         then jstr (url req ++ "?page=" ++ str_of (VNum <$> (Z.add (-1) <$> p))
                    ++ "&limit=" ++ str_of (Some limit))
         else JVal VNull)].

(** The value of a field of a JSON object. *)
Fixpoint jget (k : string) (fs : list (string * json)) : option json :=
  match fs with
  | [] => None
  | (k', j) :: fs' => if String.eqb k k' then Some j else jget k fs'
  end.

Definition field (k : string) (j : json) : option json :=
  match j with JObj fs => jget k fs | _ => None end.

(** ** Instances of the library functions

    The slugify, bcrypt and validator packages are parameters of the
    development. The functions below instantiate them on examples: an
    ASCII rendering of slugify with the options the code passes, and
    simple stand-ins for the hash and the email predicates. *)

(** The characters of the [remove] pattern. *)
Definition slug_removed (c : ascii) : bool :=
  existsb (Nat.eqb (nat_of_ascii c)) [42; 43; 126; 46; 40; 41; 39; 34; 33; 58; 64]%nat.

(** The ASCII entries of slugify's character map. *)
Definition slug_charmap (c : ascii) : string :=
  let n := nat_of_ascii c in
  if (n =? 38)%nat then "and"
  else if (n =? 36)%nat then "dollar"
  else if (n =? 37)%nat then "percent"
  else if (n =? 60)%nat then "less"
  else if (n =? 62)%nat then "greater"
  else if (n =? 124)%nat then "or"
  else if (n =? 45)%nat then " "
  else String c EmptyString.

Definition is_alnum (c : ascii) : bool :=
  let n := nat_of_ascii c in
  (((97 <=? n) && (n <=? 122)) || ((65 <=? n) && (n <=? 90))
   || ((48 <=? n) && (n <=? 57)))%nat.

Fixpoint string_filter (f : ascii -> bool) (s : string) : string :=
  match s with
  | EmptyString => EmptyString
  | String c s' => if f c then String c (string_filter f s') else string_filter f s'
  end.

(** Map, remove and (strict mode) drop what is neither alphanumeric nor
    white space. *)
Fixpoint slug_chars (s : string) : string :=
  match s with
  | EmptyString => EmptyString
  | String c s' =>
      string_filter (fun a => negb (slug_removed a) && (is_alnum a || is_space a))
                    (slug_charmap c) ++ slug_chars s'
  end.

(** Runs of white space become one hyphen. *)
Fixpoint hyphenate (in_space : bool) (s : string) : string :=
  match s with
  | EmptyString => EmptyString
  | String c s' =>
      if is_space c
      then (if in_space then hyphenate true s' else String "-"%char (hyphenate true s'))
      else String c (hyphenate false s')
  end.

Definition slugify_ascii (s : string) : string :=
  toLowerCase (hyphenate false (trim (slug_chars s))).

Definition sample_hash (s : string) : string := "$2a$12$" ++ s.

Definition sample_isEmail (s : string) : bool :=
  match index 0 "@" s with Some (S _) => true | _ => false end.

Definition sample_normalizeEmail (s : string) : string := toLowerCase s.

(** ** Models, validators and controllers *)

Section Api.

(** [slugify(s, options)] of the slugify package, with the options every
    call site passes: [lower], [strict] and the [remove] pattern. *)
Variable slugify : string -> string.

(** [bcrypt.hash(s, 12)] *)
Variable bcrypt_hash : string -> string.

(** [validator.isEmail] and the [normalizeEmail] sanitizer. *)
Variable isEmail : string -> bool.
Variable normalizeEmail : string -> string.

(** A method call on a value that must be a string. *)
Definition as_string (what : string) (o : option value) : error + string :=
  match o with
  | Some (VStr s) => inr s
  | _ => inl (TypeError (what ++ " is not a function"))
  end.

(** The [name] setter shared by Category and Product: the trimmed name is
    stored, and a slug is derived while the instance has none. (Category
    computes the slug before the test and Product inside it; the result is
    the same.) *)
Definition name_setter (v : value) (dv : row) : error + row :=
  match as_string "value.trim" (Some v) with
  | inl e => inl e
  | inr s =>
      let dv1 := <["name" := VStr (trim s)]> dv in
      inr (if negb (truthy (dv1 !! "slug"))
           then <["slug" := VStr (slugify s)]> dv1 else dv1)
  end.

(** The first two steps of both [beforeValidate] hooks: derive a missing
    slug from the name, then lower-case the slug. *)
Definition slug_hook (dv : row) : error + row :=
  match (if truthy (dv !! "name") && negb (truthy (dv !! "slug"))
         then match as_string "slugify: string argument expected" (dv !! "name") with
              | inl e => inl e
              | inr n => inr (<["slug" := VStr (slugify n)]> dv)
              end
         else inr dv) with
  | inl e => inl e
  | inr dv1 =>
      if truthy (dv1 !! "slug")
      then match as_string "slug.toLowerCase" (dv1 !! "slug") with
           | inl e => inl e
           | inr s => inr (<["slug" := VStr (toLowerCase s)]> dv1)
           end
      else inr dv1
  end.

(** Built-in validators of the ORM, on the string form of the value. *)
Definition notEmpty (s : string) : bool := negb (String.eqb (trim s) "").
Definition len (lo hi : Z) (s : string) : bool :=
  (lo <=? str_len s)%Z && (str_len s <=? hi)%Z.
(** [min]: a value that is no number passes. *)
Definition min_ok (lo : Z) (o : option value) : bool :=
  match to_number o with Some n => (lo <=? n)%Z | None => true end.

Definition check (ok : bool) (msg : string) : list string :=
  if ok then [] else [msg].

(** The validators of one attribute: with [allowNull: false] a missing
    value is the only message; otherwise the built-in validators run on a
    value that is present, and the custom ones always. *)
Definition attr_validate (required : option string) (v : option value)
    (builtin : string -> list string) (custom : list string) : list string :=
  if sql_null v then
    match required with
    | Some msg => [msg]
    | None => custom
    end
  else (builtin (str_of v) ++ custom)%list.

(** *** Category (models/category.model.js) *)

Definition Category_validators (now : Z) (k : string) (dv : row) : list string :=
  if String.eqb k "name" then
    attr_validate (Some "Category.name cannot be null") (dv !! "name")
      (fun s => (check (notEmpty s) "Please provide a category name"
                 ++ check (len 1 50 s)
                      "Category name must be between 1 and 50 characters")%list) []
  else if String.eqb k "slug" then
    attr_validate (Some "Category.slug cannot be null") (dv !! "slug")
      (fun s => (check (is_slug s) "Invalid slug format"
                 ++ check (notEmpty s) "Validation notEmpty on slug failed")%list) []
  else [].

Definition Category : model := {|
  tbl := categories;
  set_tbl := fun t d => {| users := users d; admin_profiles := admin_profiles d;
                           categories := t; products := products d |};
  rawAttributes := ["id"; "name"; "slug"; "description"; "isActive";
                    "createdAt"; "updatedAt"; "deletedAt"];
  defaultValues := [("isActive", VBool true)];
  booleanAttributes := ["isActive"];
  scopeWhere := [("isActive", VBool true)];
  scopeExclude := ["createdAt"; "updatedAt"; "deletedAt"];
  customSetter := fun k => if String.eqb k "name" then Some name_setter else None;
  beforeValidate := slug_hook;
  validators := Category_validators;
  beforeCreate := fun _ dv => inr dv;
  beforeUpdate := fun _ _ dv => inr dv;
  beforeSave := fun _ => None;
  uniqueColumns := [("slug", "This slug is already in use")];
  foreignKeys := [];
|}.

(** *** Category validation (utils/validations/category.validation.js) *)

(** [req.params?.id || 0] *)
Definition own_id (req : request) : value :=
  if truthy (params_id req) then default (VNum 0) (params_id req) else VNum 0.

Definition plain (w : list cond) : find_options :=
  {| fo_where := w; fo_paranoid := true; fo_exclude := [] |}.

(** The [idParam] chain: [isInt], then the record must exist; a deleted
    one counts only with [?includeDeleted=true]. *)
Definition idParam (m : model) (scope : list cond) (notFound invalid : string)
    (req : request) (d : db) : list string :=
  (check (isInt (str_of (params_id req))) invalid
  ++ match findOne m {| fo_where := CEq "id" (default VNull (params_id req)) :: scope;
                        fo_paranoid :=
                          negb (strict_eq_str (pget "includeDeleted" (query req)) "true");
                        fo_exclude := [] |} d with
     | Some _ => []
     | None => [notFound]
     end)%list.

(** The custom check of the [name] chain: no other category, among those
    the default scope shows, has the name. *)
Definition category_name_taken (req : request) (name : string) (d : db) : bool :=
  bool_decide (is_Some (findOne Category
                          (plain [CEq "name" (VStr name); CNotId (own_id req)]) d)).

Definition category_slug_taken (req : request) (slug : string) (d : db) : bool :=
  bool_decide (is_Some (findOne Category
                          (plain [CEq "slug" (VStr slug); CNotId (own_id req)]) d)).

(** The chains of [categoryValidations], run in order on the body. Each
    chain was made [optional()] when the update list was built from the
    same chain objects, so a field that is [undefined] is skipped in
    create requests as well. The [trim] sanitizers write the trimmed
    string back into the body. *)
Definition categoryValidations (req : request) (d : db) : list string * payload :=
  let b0 := rbody req in
  let '(e1, b1) :=
    match pget "name" b0 with
    | None => ([], b0)
    | Some v =>
        let s := trim (str_of (Some v)) in
        ((check (negb (String.eqb (str_of (Some v)) "")) "Category name is required"
          ++ check (len 1 50 s) "Category name must be between 1 and 50 characters"
          ++ check (negb (category_name_taken req s d)) "Category name already exists")%list,
         pset "name" (VStr s) b0)
    end in
  let '(e2, b2) :=
    match pget "slug" b1 with
    | None => ([], b1)
    | Some v =>
        let s := trim (str_of (Some v)) in
        ((check (str_len s <=? 100)%Z "Slug must be less than 100 characters"
          ++ check (is_slug s)
               "Slug can only contain lowercase letters, numbers and hyphens"
          ++ check (negb (negb (String.eqb s "") && category_slug_taken req s d))
               "Slug already exists")%list,
         pset "slug" (VStr s) b1)
    end in
  let '(e3, b3) :=
    match pget "description" b2 with
    | None => ([], b2)
    | Some v =>
        let s := trim (str_of (Some v)) in
        (check (str_len s <=? 1000)%Z "Description must be less than 1000 characters",
         pset "description" (VStr s) b2)
    end in
  let e4 :=
    match pget "isActive" b3 with
    | None => []
    | Some v => check (isBoolean (str_of (Some v))) "isActive must be a boolean"
    end in
  ((e1 ++ e2 ++ e3 ++ e4)%list, b3).

Definition with_body (b : payload) (req : request) : request :=
  {| params_id := params_id req; query := query req; rbody := b; url := url req |}.

(** The middleware [handleValidationErrors] (middleware/validation.js).
    The file is not among the sources; the middleware is modelled from the
    specification, as the idiom of express-validator: when the validators
    that ran before it on the request reported failures ([errors]), it
    answers 400 with their messages and the store is not touched;
    otherwise the next handler runs. *)
Definition handleValidationErrors (errors : list string) (req : request) (d : db)
    (next : request -> db -> response * db) : response * db :=
  match errors with
  | [] => next req d
  | _ :: _ =>
      ({| status := 400;
          body := JObj [("success", jbool false);
                        ("message", JArr (map jstr errors))] |}, d)
  end.

(** [validator.isInt] with bounds. *)
Definition isInt_in (lo : Z) (hi : option Z) (s : string) : bool :=
  isInt s
  && match to_number (Some (VStr s)) with
     | Some n => (lo <=? n)%Z && match hi with Some h => (n <=? h)%Z | None => true end
     | None => false
     end.

(** The chains of [queryValidations]: each one is skipped for a parameter
    that is [undefined], and none of them changes the query. *)
Definition queryValidations (req : request) : list string :=
  let on (k : string) (ok : string -> bool) (msg : string) : list string :=
    match pget k (query req) with
    | None => []
    | Some v => check (ok (str_of (Some v))) msg
    end in
  (on "page" (isInt_in 1 None) "Page must be a positive integer"
   ++ on "limit" (isInt_in 1 (Some 100)) "Limit must be between 1 and 100"
   ++ on "search" (fun s => (str_len s <=? 100)%Z)
        "Search term must be less than 100 characters"
   ++ on "isActive" isBoolean "isActive filter must be a boolean"
   ++ on "includeInactive" isBoolean "includeInactive must be a boolean"
   ++ on "includeDeleted" isBoolean "includeDeleted must be a boolean")%list.

(** *** Category controller (controller/category.controller.js) *)

Definition ok_body (msg : option string) (data : option json) : json :=
  jfields [("success", Some (jbool true));
           ("message", jstr <$> msg);
           ("data", data)].

Definition createCategory (now : Z) (req : request) (d : db) : response * db :=
  match create Category now (rbody req) d with
  | inl e => (errorHandler e, d)
  | inr (category, d') =>
      ({| status := 201;
          body := ok_body (Some "Category created successfully")
                          (Some (toJSON category)) |}, d')
  end.

(** The [where] object both list handlers start with. *)
Definition active_filter (q : payload) : list cond :=
  if is_defined (pget "isActive" q)
  then [CEq "isActive" (VBool (strict_eq_str (pget "isActive" q) "true"))]
  else if negb (truthy (Some (with_default "includeInactive" (VBool false) q)))
  then [CEq "isActive" (VBool true)]
  else [].

Definition search_filter (ks : list string) (q : payload) : list cond :=
  if truthy (pget "search" q) then [COrILike ks (str_of (pget "search" q))] else [].

(** [(parseInt(page) - 1) * parseInt(limit)] *)
Definition page_offset (q : payload) : option Z :=
  match parseInt (Some (with_default "page" (VNum 1) q)),
        parseInt (Some (with_default "limit" (VNum 10) q)) with
  | Some p, Some l => Some ((p - 1) * l)%Z
  | _, _ => None
  end.

(** The paging options of the category and product lists:
    [paranoid: !includeDeleted] on the raw query value. *)
Definition list_options (w : list cond) (q : payload) : error + page_options :=
  match as_string "sortOrder.toUpperCase"
          (Some (with_default "sortOrder" (VStr "ASC") q)) with
  | inl e => inl e
  | inr so =>
      inr {| po_find :=
               {| fo_where := w;
                  fo_paranoid :=
                    negb (truthy (Some (with_default "includeDeleted" (VBool false) q)));
                  fo_exclude := [] |};
             po_limit := parseInt (Some (with_default "limit" (VNum 10) q));
             po_offset := page_offset q;
             po_sortBy := str_of (Some (with_default "sortBy" (VStr "name") q));
             po_sortOrder := toUpperCase so |}
  end.

Definition echo (ks : list string) (q : payload) (dflt : list (string * value)) : json :=
  jfields (map (fun k => (k, match pget k q with
                             | Some v => Some (JVal v)
                             | None => JVal <$> pget k dflt
                             end)) ks).

Definition getAllCategories (req : request) (d : db) : response * db :=
  let q := query req in
  let w := (active_filter q ++ search_filter ["name"; "slug"; "description"] q)%list in
  match list_options w q with
  | inl e => (errorHandler e, d)
  | inr o =>
      match findAndCountAll Category id [] o d with
      | inl e => (errorHandler e, d)
      | inr (count, rows) =>
          ({| status := 200;
              body := JObj [("success", jbool true);
                            ("data",
                             JObj [("categories", JArr (map toJSON rows));
                                   ("pagination", pagination_raw req count);
                                   ("filters",
                                    echo ["search"; "isActive"; "includeInactive";
                                          "includeDeleted"] q
                                         [("includeInactive", VBool false);
                                          ("includeDeleted", VBool false)])])] |}, d)
      end
  end.

Definition by_id (req : request) : list cond :=
  [CEq "id" (default VNull (params_id req))].

Definition getCategoryById (req : request) (d : db) : response * db :=
  match findOne Category (plain (by_id req)) d with
  | None => (no_row req "Category not found", d)
  | Some category => ({| status := 200; body := ok_body None (Some (toJSON category)) |}, d)
  end.

(** The slug derivation both update handlers and [createProduct] start
    with: [if (data.name && !data.slug) data.slug = slugify(data.name)]. *)
Definition derive_slug (p : payload) : error + payload :=
  if truthy (pget "name" p) && negb (truthy (pget "slug" p))
  then match as_string "slugify: string argument expected" (pget "name" p) with
       | inl e => inl e
       | inr n => inr (pset "slug" (VStr (slugify n)) p)
       end
  else inr p.

Definition updateCategory (now : Z) (req : request) (d : db) : response * db :=
  match derive_slug (rbody req) with
  | inl e => (errorHandler e, d)
  | inr updateData =>
      match findOne Category (plain (by_id req)) d with
      | None => (no_row req "Category not found", d)
      | Some category =>
          match update Category now updateData category d with
          | inl e => (errorHandler e, d)
          | inr (category', d') =>
              ({| status := 200;
                  body := ok_body (Some "Category updated successfully")
                                  (Some (toJSON category')) |}, d')
          end
      end
  end.

Definition deleteCategory (now : Z) (req : request) (d : db) : response * db :=
  match findOne Category (plain (by_id req)) d with
  | None => (no_row req "Category not found", d)
  | Some category =>
      match destroy Category now category d with
      | inl e => (errorHandler e, d)
      | inr (_, d') =>
          ({| status := 200;
              body := ok_body (Some "Category deleted successfully") None |}, d')
      end
  end.

Definition with_deleted (w : list cond) : find_options :=
  {| fo_where := w; fo_paranoid := false; fo_exclude := [] |}.

Definition restoreCategory (now : Z) (req : request) (d : db) : response * db :=
  match findOne Category (with_deleted (by_id req)) d with
  | None => (no_row req "Category not found", d)
  | Some category =>
      if is_null (get category "deletedAt")
      then (fail 400 "Category is not deleted", d)
      else
        match restore Category now category d with
        | inl e => (errorHandler e, d)
        | inr (category', d') =>
            ({| status := 200;
                body := ok_body (Some "Category restored successfully")
                                (Some (toJSON category')) |}, d')
        end
  end.

(** *** Product (models/product.model.js) *)

Definition unitTypes : list string :=
  ["kg"; "g"; "lb"; "oz"; "piece"; "pack"; "bunch"; "dozen"; "liter"; "ml"].

Fixpoint skip_digits (s : string) : string :=
  match s with
  | String c s' => if is_digit c then skip_digits s' else s
  | EmptyString => EmptyString
  end.

Definition starts_with_digit (s : string) : bool :=
  match s with String c _ => is_digit c | EmptyString => false end.

(** [isDecimal] as the ORM defines it, on the string form of the value:
    the string is not empty and consists of an optional integer part (an
    optional minus sign and digits), an optional fraction part (a point
    and any number of digits) and an optional exponent part (e or E, an
    optional sign and digits), in this order. *)
Definition isDecimal (s : string) : bool :=
  let s1 := match s with
            | String "-"%char t => if starts_with_digit t then skip_digits t else s
            | _ => skip_digits s
            end in
  let s2 := match s1 with
            | String "."%char t => skip_digits t
            | _ => s1
            end in
  let s3 := match s2 with
            | String c t =>
                if Ascii.eqb c "e"%char || Ascii.eqb c "E"%char
                then let u := match t with
                              | String "+"%char u' | String "-"%char u' => u'
                              | _ => t
                              end in
                     if starts_with_digit u then skip_digits u else s2
                else s2
            | EmptyString => s2
            end in
  negb (String.eqb s "") && String.eqb s3 "".

Definition isDate (v : option value) : bool :=
  match v with Some (VDate _) => true | _ => false end.

(** The [beforeValidate] hook: slug steps, then [inStock] follows the
    quantity. (The hook also assigns a random [sku], which is no attribute
    of the model and is never stored.) *)
Definition Product_beforeValidate (dv : row) : error + row :=
  match slug_hook dv with
  | inl e => inl e
  | inr dv1 =>
      inr (if is_defined (dv1 !! "quantity")
           then <["inStock" := VBool (js_gt (dv1 !! "quantity") (Some (VNum 0)))]> dv1
           else dv1)
  end.

(** The [beforeSave] hook. *)
Definition Product_beforeSave (dv : row) : option string :=
  if negb (is_null (dv !! "minQuantity"))
     && js_lt (dv !! "quantity") (dv !! "minQuantity")
  then Some "Quantity cannot be less than minimum quantity"
  else if negb (is_null (dv !! "maxQuantity"))
          && js_gt (dv !! "quantity") (dv !! "maxQuantity")
  then Some "Quantity cannot exceed maximum quantity"
  else None.

Definition min0 (dv : row) (k msg : string) : list string :=
  attr_validate None (dv !! k) (fun _ => check (min_ok 0 (dv !! k)) msg) [].

Definition Product_validators (now : Z) (k : string) (dv : row) : list string :=
  let v := dv !! k in
  if String.eqb k "categoryId" then
    attr_validate (Some "Category is required") v (fun _ => []) []
  else if String.eqb k "name" then
    attr_validate (Some "Product.name cannot be null") v
      (fun s => (check (notEmpty s) "Product name is required"
                 ++ check (len 1 200 s)
                      "Product name must be between 1 and 200 characters")%list) []
  else if String.eqb k "slug" then
    attr_validate (Some "Product.slug cannot be null") v
      (fun s => (check (is_slug s)
                   "Slug can only contain lowercase letters, numbers, and hyphens"
                 ++ check (notEmpty s) "Validation notEmpty on slug failed")%list) []
  else if String.eqb k "description" then
    attr_validate (Some "Product.description cannot be null") v
      (fun s => (check (notEmpty s) "Product description is required"
                 ++ check (len 10 2000 s)
                      "Description must be between 10 and 2000 characters")%list) []
  else if String.eqb k "shortDescription" then
    attr_validate None v
      (fun s => check (len 0 500 s) "Short description cannot exceed 500 characters") []
  else if String.eqb k "price" then
    attr_validate (Some "Product.price cannot be null") v
      (fun s => (check (isDecimal s) "Price must be a valid decimal number"
                 ++ check (min_ok 0 v) "Price cannot be negative")%list) []
  else if String.eqb k "quantity" then
    attr_validate (Some "Product.quantity cannot be null") v
      (fun _ => check (min_ok 0 v) "Quantity cannot be negative") []
  else if String.eqb k "unitType" then
    attr_validate (Some "Product.unitType cannot be null") v
      (fun s => check (mem s unitTypes) "Invalid unit type") []
  else if String.eqb k "minQuantity" then
    min0 dv k "Minimum quantity cannot be negative"
  else if String.eqb k "maxQuantity" then
    attr_validate None v
      (fun _ => check (min_ok 0 v) "Maximum quantity cannot be negative")
      (check (negb (negb (is_null v) && negb (is_null (dv !! "minQuantity"))
                    && js_lt v (dv !! "minQuantity")))
             "Maximum quantity cannot be less than minimum quantity")
  else if String.eqb k "manufactureDate" then
    attr_validate None v
      (fun _ => check (isDate v) "Manufacture date must be a valid date")
      (check (negb (truthy v && truthy (dv !! "expiryDate")
                    && js_ge v (dv !! "expiryDate")))
             "Manufacture date must be before expiry date")
  else if String.eqb k "expiryDate" then
    attr_validate None v
      (fun _ => check (isDate v) "Expiry date must be a valid date")
      (check (negb (truthy v && truthy (dv !! "manufactureDate")
                    && js_le v (dv !! "manufactureDate")))
             "Expiry date must be after manufacture date"
       ++ check (negb (truthy v && js_lt v (Some (VDate now))))
            "Expiry date cannot be in the past")%list
  else if String.eqb k "lowStockThreshold" then
    min0 dv k "Low stock threshold cannot be negative"
  else if String.eqb k "weight" then
    min0 dv k "Weight cannot be negative"
  else [].

Definition Product : model := {|
  tbl := products;
  set_tbl := fun t d => {| users := users d; admin_profiles := admin_profiles d;
                           categories := categories d; products := t |};
  rawAttributes :=
    ["id"; "categoryId"; "name"; "slug"; "description"; "shortDescription";
     "price"; "quantity"; "unitType"; "minQuantity"; "maxQuantity";
     "manufactureDate"; "expiryDate"; "barcode"; "inStock";
     "lowStockThreshold"; "weight"; "dimensions"; "brand"; "isActive";
     "createdAt"; "updatedAt"; "deletedAt"];
  defaultValues := [("quantity", VNum 0); ("unitType", VStr "piece");
                    ("inStock", VBool true); ("lowStockThreshold", VNum 10);
                    ("isActive", VBool true)];
  booleanAttributes := ["inStock"; "isActive"];
  scopeWhere := [("isActive", VBool true)];
  scopeExclude := ["createdAt"; "updatedAt"; "deletedAt"];
  customSetter := fun k => if String.eqb k "name" then Some name_setter else None;
  beforeValidate := Product_beforeValidate;
  validators := Product_validators;
  beforeCreate := fun _ dv => inr dv;
  beforeUpdate := fun _ _ dv => inr dv;
  beforeSave := Product_beforeSave;
  uniqueColumns := [("slug", "This product slug is already in use")];
  foreignKeys := [("categoryId", categories)];
|}.

(** *** Product controller (controller/product.controller.js) *)

(** An instance serialized with its [category] association, of which the
    attributes id, name and slug are loaded. *)
Definition with_category (d : db) (product : instance) : json :=
  match toJSON product with
  | JObj fs =>
      JObj (fs ++ [("category",
                    match get product "categoryId" with
                    | Some cid =>
                        match findOne Category
                                {| fo_where := [CEq "id" cid]; fo_paranoid := true;
                                   fo_exclude := ["description"; "isActive"] |} d with
                        | Some c => toJSON c
                        | None => JVal VNull
                        end
                    | None => JVal VNull
                    end)])
  | j => j
  end.

(** [Product.findByPk(id, { include })], serialized. *)
Definition product_by_pk (id : option value) (d : db) : json :=
  match findOne Product (plain [CEq "id" (default VNull id)]) d with
  | Some product => with_category d product
  | None => JVal VNull
  end.

Definition createProduct (now : Z) (req : request) (d : db) : response * db :=
  match derive_slug (rbody req) with
  | inl e => (errorHandler e, d)
  | inr productData =>
      match create Product now productData d with
      | inl e => (errorHandler e, d)
      | inr (product, d') =>
          ({| status := 201;
              body := ok_body (Some "Product created successfully")
                              (Some (product_by_pk (get product "id") d')) |}, d')
      end
  end.

Definition truthy_filter (k : string) (q : payload) : list cond :=
  if truthy (pget k q) then [CEq k (default VNull (pget k q))] else [].

(** The [where] object of [getAllProducts]; [None] when a numeric filter
    does not parse, which the store rejects. The code reads [categoryId]
    with [parseInt] and the two price bounds with [parseFloat]; on the
    integers of this development a price bound is read by [parseInt] as
    well, which is [parseFloat] on a string without fraction and exponent
    part. *)
Definition product_where (q : payload) : option (list cond) :=
  let cat :=
    if truthy (pget "categoryId" q)
    then match parseInt (pget "categoryId" q) with
         | Some n => Some [CEq "categoryId" (VNum n)]
         | None => None
         end
    else Some [] in
  let stock :=
    if is_defined (pget "inStock" q)
    then [CEq "inStock" (VBool (strict_eq_str (pget "inStock" q) "true"))] else [] in
  let bound (k : string) (c : Z -> cond) :=
    if truthy (pget k q)
    then match parseInt (pget k q) with
         | Some n => Some [c n]
         | None => None
         end
    else Some [] in
  match cat, bound "minPrice" (CGte "price"), bound "maxPrice" (CLte "price") with
  | Some c, Some lo, Some hi =>
      Some (active_filter q ++ c ++ stock ++ lo ++ hi ++ truthy_filter "unitType" q
            ++ search_filter ["name"; "slug"; "description"; "shortDescription";
                              "brand"; "barcode"] q)%list
  | _, _, _ => None
  end.

Definition getAllProducts (req : request) (d : db) : response * db :=
  let q := query req in
  match product_where q with
  | None => (errorHandler (SequelizeDatabaseError "invalid input syntax"), d)
  | Some w =>
      match list_options w q with
      | inl e => (errorHandler e, d)
      | inr o =>
          match findAndCountAll Product id [] o d with
          | inl e => (errorHandler e, d)
          | inr (count, rows) =>
              ({| status := 200;
                  body := JObj [("success", jbool true);
                                ("data",
                                 JObj [("products", JArr (map (with_category d) rows));
                                       ("pagination", pagination_raw req count);
                                       ("filters",
                                        echo ["search"; "categoryId"; "inStock";
                                              "minPrice"; "maxPrice"; "unitType";
                                              "isActive"; "includeInactive";
                                              "includeDeleted"] q
                                             [("includeInactive", VBool false);
                                              ("includeDeleted", VBool false)])])] |},
               d)
          end
      end
  end.

Definition getProductById (req : request) (d : db) : response * db :=
  match findOne Product
          {| fo_where := by_id req;
             fo_paranoid :=
               negb (truthy (Some (with_default "includeDeleted" (VBool false)
                                                (query req))));
             fo_exclude := [] |} d with
  | None => (no_row req "Product not found", d)
  | Some product =>
      ({| status := 200; body := ok_body None (Some (with_category d product)) |}, d)
  end.

Definition updateProduct (now : Z) (req : request) (d : db) : response * db :=
  match derive_slug (rbody req) with
  | inl e => (errorHandler e, d)
  | inr updateData =>
      match findOne Product (plain (by_id req)) d with
      | None => (no_row req "Product not found", d)
      | Some product =>
          match update Product now updateData product d with
          | inl e => (errorHandler e, d)
          | inr (product', d') =>
              ({| status := 200;
                  body := ok_body (Some "Product updated successfully")
                                  (Some (product_by_pk (get product' "id") d')) |}, d')
          end
      end
  end.

Definition deleteProduct (now : Z) (req : request) (d : db) : response * db :=
  match findOne Product (plain (by_id req)) d with
  | None => (no_row req "Product not found", d)
  | Some product =>
      match destroy Product now product d with
      | inl e => (errorHandler e, d)
      | inr (_, d') =>
          ({| status := 200;
              body := ok_body (Some "Product deleted successfully") None |}, d')
      end
  end.

Definition restoreProduct (now : Z) (req : request) (d : db) : response * db :=
  match findOne Product (with_deleted (by_id req)) d with
  | None => (no_row req "Product not found", d)
  | Some product =>
      if is_null (get product "deletedAt")
      then (fail 400 "Product is not deleted", d)
      else
        match restore Product now product d with
        | inl e => (errorHandler e, d)
        | inr (product', d') =>
            ({| status := 200;
                body := ok_body (Some "Product restored successfully")
                                (Some (toJSON product')) |}, d')
        end
  end.

(** *** User (models/user.model.js) *)

Definition hash_password (now : Z) (dv : row) : error + row :=
  match dv !! "password" with
  | Some (VStr pw) =>
      inr (<["lastPasswordChange" := VDate now]>
             (<["password" := VStr (bcrypt_hash pw)]> dv))
  | _ => inl (Error "Illegal arguments")
  end.

Definition User_validators (now : Z) (k : string) (dv : row) : list string :=
  let v := dv !! k in
  if String.eqb k "email" then
    attr_validate (Some "User.email cannot be null") v
      (fun s => (check (isEmail s) "Invalid email format"
                 ++ check (notEmpty s) "Email is required")%list) []
  else if String.eqb k "password" then
    attr_validate (Some "User.password cannot be null") v
      (fun s => (check (notEmpty s) "Validation notEmpty on password failed"
                 ++ check (len 8 128 s) "Validation len on password failed")%list) []
  else if String.eqb k "accountType" then
    attr_validate (Some "User.accountType cannot be null") v (fun _ => []) []
  else [].

Definition User : model := {|
  tbl := users;
  set_tbl := fun t d => {| users := t; admin_profiles := admin_profiles d;
                           categories := categories d; products := products d |};
  rawAttributes := ["id"; "email"; "password"; "accountType"; "authProvider";
                    "isActive"; "lastPasswordChange";
                    "createdAt"; "updatedAt"; "deletedAt"];
  defaultValues := [("authProvider", VStr "local"); ("isActive", VBool true)];
  booleanAttributes := ["isActive"];
  scopeWhere := [];
  scopeExclude := ["password"];
  customSetter := fun _ => None;
  beforeValidate := fun dv => inr dv;
  validators := User_validators;
  beforeCreate := fun now dv =>
    if truthy (dv !! "password") then hash_password now dv else inr dv;
  beforeUpdate := fun now prev dv =>
    if bool_decide (dv !! "password" <> prev !! "password")
    then hash_password now dv else inr dv;
  beforeSave := fun _ => None;
  uniqueColumns := [("email", "Email already in use")];
  foreignKeys := [];
|}.

(** [User.prototype.toJSON]: the values without the password. *)
Definition User_toJSON (i : instance) : json :=
  JObj (map (fun kv : string * value => (kv.1, JVal kv.2))
            (map_to_list (delete "password" (dataValues i)))).

(** *** AdminProfile (models/adminProfile.model.js) *)

Definition is_phone (s : string) : bool :=
  let t := match s with String "+"%char s' => s' | _ => s end in
  match t with
  | String c rest =>
      is_digit c && negb (Ascii.eqb c "0"%char)
      && all_chars is_digit rest && (str_len rest <=? 15)%Z
  | EmptyString => false
  end.

Definition AdminProfile_validators (now : Z) (k : string) (dv : row) : list string :=
  let v := dv !! k in
  if String.eqb k "userId" then
    attr_validate (Some "AdminProfile.userId cannot be null") v (fun _ => []) []
  else if String.eqb k "firstName" then
    attr_validate (Some "AdminProfile.firstName cannot be null") v
      (fun s => (check (notEmpty s) "First name is required"
                 ++ check (len 2 50 s) "Validation len on firstName failed")%list) []
  else if String.eqb k "lastName" then
    attr_validate (Some "AdminProfile.lastName cannot be null") v
      (fun s => (check (notEmpty s) "Last name is required"
                 ++ check (len 2 50 s) "Validation len on lastName failed")%list) []
  else if String.eqb k "phoneNumber" then
    attr_validate None v (fun s => check (is_phone s) "Invalid phone number format") []
  else if String.eqb k "address" then
    attr_validate None v
      (fun s => check (len 0 255 s) "Validation len on address failed") []
  else if String.eqb k "city" then
    attr_validate None v (fun s => check (len 0 100 s) "Validation len on city failed") []
  else if String.eqb k "bio" then
    attr_validate None v (fun s => check (len 0 1000 s) "Validation len on bio failed") []
  else [].

Definition AdminProfile : model := {|
  tbl := admin_profiles;
  set_tbl := fun t d => {| users := users d; admin_profiles := t;
                           categories := categories d; products := products d |};
  rawAttributes := ["id"; "userId"; "firstName"; "lastName"; "phoneNumber";
                    "address"; "city"; "bio"; "profilePicture";
                    "createdAt"; "updatedAt"; "deletedAt"];
  defaultValues := [];
  booleanAttributes := [];
  scopeWhere := [];
  scopeExclude := [];
  customSetter := fun _ => None;
  beforeValidate := fun dv => inr dv;
  validators := AdminProfile_validators;
  beforeCreate := fun _ dv => inr dv;
  beforeUpdate := fun _ _ dv => inr dv;
  beforeSave := fun _ => None;
  uniqueColumns := [("userId", "userId must be unique")];
  foreignKeys := [("userId", users)];
|}.

(** *** Admin validation (utils/validations/admin.validation.js) *)

(** The custom check of [validateEmail]: the email is looked up among the
    users whose account type is admin, the request's own id left out. *)
Definition admin_email_taken (req : request) (email : string) (d : db) : bool :=
  bool_decide (is_Some (findOne User
                          (plain [CEq "email" (VStr email);
                                  CEq "accountType" (VStr "admin");
                                  CNotId (own_id req)]) d)).

(** The [validateEmail] chain. It is shared by the create and the update
    list and was made [optional()] when the latter was built, so an
    [undefined] email is skipped. *)
Definition validateEmail (req : request) (d : db) : list string * payload :=
  match pget "email" (rbody req) with
  | None => ([], rbody req)
  | Some v =>
      let s := normalizeEmail (str_of (Some v)) in
      ((check (isEmail (str_of (Some v))) "Invalid email format"
        ++ check (str_len s <=? 255)%Z "Email must be less than 255 characters"
        ++ check (negb (admin_email_taken req s d))
             "Email already exists for an admin")%list,
       pset "email" (VStr s) (rbody req))
  end.

(** *** Admin controller (controller/admin.controller.js) *)

(** The store after an awaited write whose instance is not used again. *)
Definition written (r : error + (instance * db)) : error + db :=
  match r with
  | inl e => inl e
  | inr (_, d) => inr d
  end.

(** The included [adminProfile] of a user: the profile row that refers to
    it, deleted ones only when the include is not paranoid. *)
Definition profile_of (paranoid : bool) (user : instance) (d : db) : option instance :=
  match get user "id" with
  | Some uid => findOne AdminProfile
                  {| fo_where := [CEq "userId" uid]; fo_paranoid := paranoid;
                     fo_exclude := [] |} d
  | None => None
  end.

(** [User.findOne({ where, include: adminProfile })] *)
Definition find_admin (o : find_options) (profile_paranoid : bool) (d : db)
  : option (instance * option instance) :=
  match findOne User o d with
  | Some user => Some (user, profile_of profile_paranoid user d)
  | None => None
  end.

(** A user serialized with its profile: [toJSON] of the user removes the
    password, the association is serialized by its own model. *)
Definition admin_json (a : instance * option instance) : json :=
  match User_toJSON a.1 with
  | JObj fs => JObj (fs ++ [("adminProfile",
                             match a.2 with
                             | Some pr => toJSON pr
                             | None => JVal VNull
                             end)])
  | j => j
  end.

(** An object literal whose [undefined] members are left out. *)
Definition defined (l : list (string * option value)) : payload :=
  omap (fun kv : string * option value =>
          match kv.2 with Some v => Some (kv.1, v) | None => None end) l.

Definition admin_where (req : request) : list cond :=
  [CEq "id" (default VNull (params_id req)); CEq "accountType" (VStr "admin")].

(** [existingUser] of [createAdmin]: [User.findOne({ where: { email } })] *)
Definition existing_user (email : value) (d : db) : option instance :=
  findOne User (plain [CEq "email" email]) d.

Definition createAdmin (now : Z) (req : request) (d : db) : response * db :=
  let b := rbody req in
  match pget "email" b with
  | None => (errorHandler (Error "WHERE parameter email has invalid undefined value"), d)
  | Some email =>
      match existing_user email d with
      | Some _ => (fail 400 "Email already exists", d)
      | None =>
          match create User now
                  (defined [("email", Some email); ("password", pget "password" b);
                            ("accountType", Some (VStr "admin"));
                            ("authProvider", Some (VStr "local"))]) d with
          | inl e => (errorHandler e, d)
          | inr (user, d1) =>
              match create AdminProfile now
                      (defined [("userId", get user "id");
                                ("firstName", pget "firstName" b);
                                ("lastName", pget "lastName" b);
                                ("phoneNumber", pget "phoneNumber" b);
                                ("address", pget "address" b);
                                ("city", pget "city" b);
                                ("bio", pget "bio" b)]) d1 with
              | inl e => (errorHandler e, d1)
              | inr (adminProfile, d2) =>
                  ({| status := 201;
                      body := ok_body (Some "Admin created successfully")
                                (Some (JObj [("user", User_toJSON user);
                                             ("adminProfile", toJSON adminProfile)])) |},
                   d2)
              end
          end
      end
  end.

(** The columns of the included profile that the search refers to. *)
Definition profile_columns : list string :=
  ["$adminProfile.firstName$"; "$adminProfile.lastName$"].

Definition join_profile (d : db) (r : row) : row :=
  match head (filter (fun pr : row => sql_eq (pr !! "userId") (default VNull (r !! "id"))
                                      && sql_null (pr !! "deletedAt"))
                     (admin_profiles d)) with
  | Some pr =>
      let put (k col : string) (acc : row) : row :=
        match pr !! col with Some v => <[k := v]> acc | None => acc end in
      put "$adminProfile.firstName$" "firstName"
          (put "$adminProfile.lastName$" "lastName" r)
  | None => r
  end.

Definition getAllAdmins (req : request) (d : db) : response * db :=
  let q := query req in
  let w := ([CEq "accountType" (VStr "admin")]
            ++ (if is_defined (pget "isActive" q)
                then [CEq "isActive" (VBool (strict_eq_str (pget "isActive" q) "true"))]
                else [])
            ++ truthy_filter "city" q
            ++ search_filter ("email" :: profile_columns) q)%list in
  match as_string "sortOrder.toUpperCase"
          (Some (with_default "sortOrder" (VStr "DESC") q)) with
  | inl e => (errorHandler e, d)
  | inr so =>
      let o := {| po_find :=
                    {| fo_where := w;
                       fo_paranoid :=
                         negb (strict_eq_str (pget "includeDeleted" q) "true");
                       fo_exclude := [] |};
                  po_limit := parseInt (Some (with_default "limit" (VNum 10) q));
                  po_offset := page_offset q;
                  po_sortBy := str_of (Some (with_default "sortBy" (VStr "createdAt") q));
                  po_sortOrder := toUpperCase so |} in
      match findAndCountAll User (join_profile d) profile_columns o d with
      | inl e => (errorHandler e, d)
      | inr (count, admins) =>
          ({| status := 200;
              body := JObj [("success", jbool true);
                            ("data",
                             JArr (map (fun u => admin_json (u, profile_of true u d))
                                       admins));
                            ("pagination", pagination_parsed req count);
                            ("filters",
                             echo ["search"; "isActive"; "city"; "includeDeleted"]
                                  q [])] |}, d)
      end
  end.

Definition getAdminById (req : request) (d : db) : response * db :=
  match find_admin (plain (admin_where req)) true d with
  | None => (no_row req "Admin not found", d)
  | Some admin => ({| status := 200; body := ok_body None (Some (admin_json admin)) |}, d)
  end.

(** [a !== b] between a payload value and an attribute. *)
Definition strict_ne (a b : option value) : bool := negb (bool_decide (a = b)).

(** [existingUser] of [updateAdmin]: another admin with the new email. *)
Definition other_admin_with_email (req : request) (d : db) : option instance :=
  findOne User
    (plain [CEq "email" (default VNull (pget "email" (rbody req)));
            CEq "accountType" (VStr "admin");
            CNotId (default VNull (params_id req))]) d.

Definition updateAdmin (now : Z) (req : request) (d : db) : response * db :=
  let updateData := rbody req in
  match find_admin (plain (admin_where req)) true d with
  | None => (no_row req "Admin not found", d)
  | Some (admin, adminProfile) =>
      if truthy (pget "email" updateData)
         && strict_ne (pget "email" updateData) (get admin "email")
         && bool_decide (is_Some (other_admin_with_email req d))
      then (fail 400 "Email already exists for another admin", d)
      else
        (* Update user fields *)
        match (if truthy (pget "email" updateData) || truthy (pget "password" updateData)
               then written (update User now updateData admin d)
               else inr d) with
        | inl e => (errorHandler e, d)
        | inr d1 =>
            (* Update admin profile fields *)
            match (match adminProfile with
                   | Some pr => written (update AdminProfile now updateData pr d1)
                   | None => inr d1
                   end) with
            | inl e => (errorHandler e, d1)
            | inr d2 =>
                (* Fetch updated admin *)
                ({| status := 200;
                    body := ok_body (Some "Admin updated successfully")
                              (Some (match find_admin
                                             {| fo_where := by_id req;
                                                fo_paranoid := true;
                                                fo_exclude := ["password"] |} true d2 with
                                     | Some a => admin_json a
                                     | None => JVal VNull
                                     end)) |}, d2)
            end
        end
  end.

Definition deleteAdmin (now : Z) (req : request) (d : db) : response * db :=
  match find_admin (plain (admin_where req)) true d with
  | None => (no_row req "Admin not found", d)
  | Some (admin, adminProfile) =>
      match (match adminProfile with
             | Some pr => written (destroy AdminProfile now pr d)
             | None => inr d
             end) with
      | inl e => (errorHandler e, d)
      | inr d1 =>
          match destroy User now admin d1 with
          | inl e => (errorHandler e, d1)
          | inr (_, d2) =>
              ({| status := 200;
                  body := ok_body (Some "Admin deleted successfully") None |}, d2)
          end
      end
  end.

Definition restoreAdmin (now : Z) (req : request) (d : db) : response * db :=
  match find_admin (with_deleted (admin_where req)) false d with
  | None => (no_row req "Admin not found", d)
  | Some (admin, adminProfile) =>
      (* Restore admin user *)
      match restore User now admin d with
      | inl e => (errorHandler e, d)
      | inr (_, d1) =>
          (* Restore admin profile if it exists *)
          match (match adminProfile with
                 | Some pr => written (restore AdminProfile now pr d1)
                 | None => inr d1
                 end) with
          | inl e => (errorHandler e, d1)
          | inr d2 =>
              ({| status := 200;
                  body := ok_body (Some "Admin and profile restored successfully")
                                  None |}, d2)
          end
      end
  end.

(** *** Routes (routes/category.routes.js)

    The router mounts [handleValidationErrors] with [router.use] ahead of
    every route. A request therefore passes the middleware first, when no
    validator has run on it and there is no failure to report, then the
    validator chains of its route, then the controller. A chain records
    its failures in the request, writes the fields it sanitized back and
    calls the next handler in either case; nothing after the chains reads
    what they recorded. (The rate limiter mounted before the middleware is
    left out.) *)

(** [router.post("/", validate.create, controller.createCategory)] *)
Definition post_category (now : Z) (req : request) (d : db) : response * db :=
  handleValidationErrors [] req d (fun req d =>
    let '(_, b) := categoryValidations req d in
    createCategory now (with_body b req) d).

(** [router.get("/", validate.list, controller.getAllCategories)] *)
Definition get_categories (req : request) (d : db) : response * db :=
  handleValidationErrors [] req d (fun req d =>
    let _ := queryValidations req in
    getAllCategories req d).

(** [router.put("/:id", validate.update, controller.updateCategory)] *)
Definition put_category (now : Z) (req : request) (d : db) : response * db :=
  handleValidationErrors [] req d (fun req d =>
    let _ := idParam Category [] "Category not found" "Invalid ID format" req d in
    let '(_, b) := categoryValidations req d in
    updateCategory now (with_body b req) d).

End Api.

(** ** Sample stores *)

Definition category_row (id : Z) (name slug : string) (active : bool)
    (deletedAt : value) : row :=
  list_to_map [("id", VNum id); ("name", VStr name); ("slug", VStr slug);
               ("description", VNull); ("isActive", VBool active);
               ("createdAt", VDate 1000); ("updatedAt", VDate 1000);
               ("deletedAt", deletedAt)].

Definition user_row (id : Z) (email accountType : string) (deletedAt : value) : row :=
  list_to_map [("id", VNum id); ("email", VStr email);
               ("password", VStr "$2a$12$secret"); ("accountType", VStr accountType);
               ("authProvider", VStr "local"); ("isActive", VBool true);
               ("lastPasswordChange", VNull);
               ("createdAt", VDate 1000); ("updatedAt", VDate 1000);
               ("deletedAt", deletedAt)].

Definition profile_row (id userId : Z) (firstName lastName : string)
    (deletedAt : value) : row :=
  list_to_map [("id", VNum id); ("userId", VNum userId);
               ("firstName", VStr firstName); ("lastName", VStr lastName);
               ("phoneNumber", VNull); ("address", VNull); ("city", VNull);
               ("bio", VNull); ("profilePicture", VNull);
               ("createdAt", VDate 1000); ("updatedAt", VDate 1000);
               ("deletedAt", deletedAt)].

Definition product_row (id : Z) (name slug : string) (quantity minQ maxQ : value) : row :=
  list_to_map [("id", VNum id); ("categoryId", VNum 1); ("name", VStr name);
               ("slug", VStr slug); ("description", VStr "Long grain rice");
               ("shortDescription", VNull); ("price", VNum 5);
               ("quantity", quantity); ("unitType", VStr "kg");
               ("minQuantity", minQ); ("maxQuantity", maxQ);
               ("manufactureDate", VNull); ("expiryDate", VNull);
               ("barcode", VNull); ("inStock", VBool true);
               ("lowStockThreshold", VNum 10); ("weight", VNull);
               ("dimensions", VNull); ("brand", VNull); ("isActive", VBool true);
               ("createdAt", VDate 1000); ("updatedAt", VDate 1000);
               ("deletedAt", VNull)].

(** One active category, one soft-deleted and one inactive; an admin with
    its profile and a customer; one product bounded by 5 and 10. *)
Definition sample_db : db := {|
  users := [user_row 1 "admin@shop.test" "admin" VNull;
            user_row 2 "customer@shop.test" "customer" VNull];
  admin_profiles := [profile_row 1 1 "Ann" "Lee" VNull];
  categories := [category_row 1 "Fruits" "fruits" true VNull;
                 category_row 2 "Cakes" "cakes" true (VDate 2000);
                 category_row 3 "Biscuits" "biscuits" false VNull];
  products := [product_row 1 "Rice" "rice" (VNum 7) (VNum 5) (VNum 10)];
|}.

Definition sample_request (id : option value) (q b : payload) : request :=
  {| params_id := id; query := q; rbody := b; url := "http://shop.test/api" |}.

(** The ids of the objects of a JSON array. *)
Definition ids_of (j : option json) : list (option json) :=
  match j with
  | Some (JArr items) => map (field "id") items
  | _ => []
  end.

(** The rows of a table with a given id. *)
Definition rows_with_id (t : table) (id : value) : list row :=
  filter (fun r : row => bool_decide (r !! "id" = Some id)) t.

(** * Vocabulary of the statements *)

(** The body of a request that creates a product, up to its quantities. *)
Definition oats (quantity minQuantity : value) : payload :=
  [("categoryId", VNum 1); ("name", VStr "Oats");
   ("description", VStr "Rolled oats, 1kg"); ("price", VNum 3);
   ("unitType", VStr "kg"); ("quantity", quantity); ("minQuantity", minQuantity)].

(** [true] when some object inside a JSON value has the key. *)
Fixpoint has_key (k : string) (j : json) : bool :=
  match j with
  | JVal _ => false
  | JObj fs =>
      (fix go (l : list (string * json)) : bool :=
         match l with
         | [] => false
         | (k', j') :: l' => String.eqb k' k || has_key k j' || go l'
         end) fs
  | JArr items =>
      (fix go (l : list json) : bool :=
         match l with
         | [] => false
         | j' :: l' => has_key k j' || go l'
         end) items
  end.

(** Models without [beforeValidate], [beforeCreate], [beforeUpdate] and
    [beforeSave] hooks. *)
Definition hookless (m : model) : Prop :=
  (forall dv, beforeValidate m dv = inr dv)
  /\ (forall now dv, beforeCreate m now dv = inr dv)
  /\ (forall now prev dv, beforeUpdate m now prev dv = inr dv)
  /\ (forall dv, beforeSave m dv = None).

(** What [destroy] and [restore] need of a model: the id is loaded, the
    two time stamps are columns without validators, unique index or
    foreign key. *)
Record stamps_plain (m : model) : Prop := {
  sp_id : mem "id" (rawAttributes m) = true /\ mem "id" (scopeExclude m) = false;
  sp_deletedAt : mem "deletedAt" (rawAttributes m) = true;
  sp_updatedAt : mem "updatedAt" (rawAttributes m) = true;
  sp_validators : forall now dv, validators m now "deletedAt" dv = []
                                 /\ validators m now "updatedAt" dv = [];
  sp_unique : mem "deletedAt" (map fst (uniqueColumns m)) = false
              /\ mem "updatedAt" (map fst (uniqueColumns m)) = false;
  sp_foreign : mem "deletedAt" (map fst (foreignKeys m)) = false
               /\ mem "updatedAt" (map fst (foreignKeys m)) = false;
  sp_get : forall t d, tbl m (set_tbl m t d) = t;
  sp_set : forall t t' d, set_tbl m t' (set_tbl m t d) = set_tbl m t' d;
}.

(** The write of a time stamp pair into the rows with a given id. *)
Definition stamp_rows (id : option value) (deletedAt : value) (now : Z) (t : table)
  : table :=
  update_row id (fun r => <["deletedAt" := deletedAt]> (<["updatedAt" := VDate now]> r)) t.

(** A row after the write of a time stamp pair. *)
Definition stamped (deletedAt : value) (now : Z) (r : row) : row :=
  <["deletedAt" := deletedAt]> (<["updatedAt" := VDate now]> r).

(** The primary key of a table: the ids are numbers and no two rows
    share one. *)
Definition primary_key (t : table) : Prop :=
  NoDup (map (fun r : row => r !! "id") t)
  /\ Forall (fun r : row => exists n, r !! "id" = Some (VNum n)) t.

(** The options of the query for the profile of a user. *)
Definition by_user (uid : value) (paranoid : bool) : find_options :=
  {| fo_where := [CEq "userId" uid]; fo_paranoid := paranoid; fo_exclude := [] |}.

(** The profile the admin handlers load with a user: the first row of
    the profiles table that refers to the user and is not deleted. *)
Definition live_profile (uid : option value) (t : table) : option row :=
  head (filter (fun p : row => sql_eq (p !! "userId") (default VNull uid)
                               && sql_null (p !! "deletedAt")) t).

(** What Category and Product have in common. *)
Record sluggable (slugify : string -> string) (m : model) : Prop := {
  sg_setter : forall k, customSetter m k
                        = if String.eqb k "name" then Some (name_setter slugify) else None;
  sg_slug : mem "slug" (rawAttributes m) = true /\ mem "slug" (scopeExclude m) = false;
  sg_hook : forall dv dv', beforeValidate m dv = inr dv' ->
              exists dv1, slug_hook slugify dv = inr dv1
                          /\ dv' !! "slug" = dv1 !! "slug" /\ dv' !! "id" = dv1 !! "id"
                          /\ dv' !! "name" = dv !! "name";
  sg_create : forall now dv, beforeCreate m now dv = inr dv;
  sg_update : forall now prev dv, beforeUpdate m now prev dv = inr dv;
  sg_valid_slug : forall now dv, validators m now "slug" dv = [] ->
                    sql_null (dv !! "slug") = false
                    /\ is_slug (str_of (dv !! "slug")) = true;
  sg_valid_name : forall now dv, dv !! "name" = Some (VStr "") ->
                    validators m now "name" dv <> [];
  sg_name : mem "name" (rawAttributes m) = true;
  sg_id : mem "id" (rawAttributes m) = true /\ mem "id" (scopeExclude m) = false;
  sg_get : forall t d, tbl m (set_tbl m t d) = t;
  sg_defaults : mem "slug" (map fst (defaultValues m)) = false;
  sg_text : mem "slug" (booleanAttributes m) = false;
}.

(** The slug of the instance after one [set]. *)
Definition slug_after (slugify : string -> string) (k : string) (v : value)
    (slug : option value) : option value :=
  if String.eqb k "name"
  then (if truthy slug then slug
        else match v with VStr s => Some (VStr (slugify s)) | _ => slug end)
  else if String.eqb k "slug" then Some v
  else slug.




(** The ids of a table are set: none is missing, null, 0 or empty, which
    is what [instance.set] takes for a primary key that is not defined
    yet. *)
Definition ids_set (t : table) : Prop :=
  Forall (fun r : row => truthy (r !! "id") = true) t.

(** A table whose rows have distinct numeric ids, none of them 0. *)
Definition keyed (t : table) : Prop := primary_key t /\ ids_set t.



(** The ids of a table, row by row. *)
Definition table_ids (t : table) : list (option value) :=
  map (fun r : row => r !! "id") t.

(** A table after a create: as it was, or with one more row at its end
    whose id is a positive number that no row had. *)
Definition grown (t t' : table) : Prop :=
  t' = t
  \/ exists (r : row) (n : Z),
       t' = (t ++ [r])%list /\ r !! "id" = Some (VNum n) /\ 0 < n
       /\ forall r0 : row, r0 ∈ t -> r0 !! "id" <> Some (VNum n).

(** The unique index on the slug: two rows that share a slug that is not
    null are rows with the same id. *)
Definition slugs_unique (t : table) : Prop :=
  forall a b : row, a ∈ t -> b ∈ t -> a !! "slug" = b !! "slug" ->
                    sql_null (a !! "slug") = false -> a !! "id" = b !! "id".

(** * Properties *)

(** ** The answer to a query by id that brought no row *)

Lemma inr_pair_inv {E A B : Type} (a a' : A) (b b' : B) :
  (inr (a, b) : E + A * B) = inr (a', b') -> a = a' /\ b = b'.
Proof. intros H. injection H. auto. Qed.

Lemma errorHandler_status (e : error) :
  status (errorHandler e) = 400 \/ status (errorHandler e) = 500.
Proof. destruct e; cbn; auto. Qed.

Lemma errorHandler_not_200 (e : error) : status (errorHandler e) <> 200.
Proof. destruct (errorHandler_status e) as [-> | ->]; discriminate. Qed.

Lemma errorHandler_not_201 (e : error) : status (errorHandler e) <> 201.
Proof. destruct (errorHandler_status e) as [-> | ->]; discriminate. Qed.

Lemma no_row_status (req : request) (msg : string) :
  status (no_row req msg) = 404 \/ status (no_row req msg) = 500.
Proof.
  unfold no_row. destruct (id_error req) as [e|] eqn:He; [|now left].
  right. unfold id_error in He.
  destruct (params_id req) as [[]|]; try discriminate;
    try (injection He as <-; reflexivity).
  destruct (int4_in s); [|discriminate]. now injection He as <-.
Qed.

Lemma no_row_not_200 (req : request) (msg : string) : status (no_row req msg) <> 200.
Proof. destruct (no_row_status req msg) as [-> | ->]; discriminate. Qed.

(** Closes a goal whose hypothesis is that the answer to a query without
    a row is a 200. *)
Ltac no_row_absurd :=
  let H := fresh in intros H; cbn [fst] in H; now apply no_row_not_200 in H.


Lemma no_row_well_formed (req : request) (msg : string) :
  id_error req = None -> no_row req msg = fail 404 msg.
Proof. unfold no_row. now intros ->. Qed.

(** An id that equals the number of an integer column is well formed. *)
Lemma sql_eq_well_formed (req : request) (a : Z) :
  sql_eq (Some (VNum a)) (default VNull (params_id req)) = true -> id_error req = None.
Proof.
  unfold id_error.
  destruct (params_id req) as [[]|]; cbn [default from_option id sql_eq];
    try (intros _; reflexivity); try discriminate;
    try (intros H; apply bool_decide_eq_true in H; discriminate H).
  destruct (int4_in s); intros H; [discriminate H|reflexivity].
Qed.

(** ** Restore of a record that is not deleted *)

(** C1, at the failing input. The admin with id 1 of the sample store is
    not deleted ([deletedAt] is [null]); [restoreAdmin] has no test of
    [deletedAt] and answers 200 with [success: true], where the property
    asks for a 400 with [success: false]. *)
Theorem restoreAdmin_reports_success_for_active_admin :
  let req := sample_request (Some (VStr "1")) [] [] in
  let r := restoreAdmin sample_hash sample_isEmail 3000 req sample_db in
  map (fun u : row => u !! "deletedAt") (rows_with_id (users sample_db) (VNum 1))
    = [Some VNull]
  /\ status r.1 = 200
  /\ field "success" (body r.1) = Some (jbool true)
  /\ field "message" (body r.1) = Some (jstr "Admin and profile restored successfully").
Proof. vm_compute. repeat split; reflexivity. Qed.

(** The category and product handlers do test [deletedAt === null], but on
    an instance loaded under the default scope, which leaves [deletedAt]
    out of the loaded attributes: the test compares [undefined] with
    [null]. *)
Lemma restoreCategory_guard_sees_undefined :
  let req := sample_request (Some (VStr "1")) [] [] in
  (fun c => get c "deletedAt")
    <$> findOne (Category slugify_ascii) (with_deleted (by_id req)) sample_db
    = Some None
  /\ status (restoreCategory slugify_ascii 3000 req sample_db).1 = 200.
Proof. vm_compute. split; reflexivity. Qed.

(** ** Listing with [includeDeleted=false] *)

(** C2, at the failing input. The query string [?includeDeleted=false]
    reaches the handler as the string "false", which is truthy, so
    [paranoid: !includeDeleted] is [false] and the soft-deleted category 2
    is listed. *)
Theorem getAllCategories_includeDeleted_false_lists_deleted_row :
  let req := sample_request None [("includeDeleted", VStr "false")] [] in
  let r := getAllCategories slugify_ascii req sample_db in
  map (fun c : row => c !! "deletedAt") (rows_with_id (categories sample_db) (VNum 2))
    = [Some (VDate 2000)]
  /\ status r.1 = 200
  /\ ids_of (field "data" (body r.1) ≫= field "categories")
     = [Some (JVal (VNum 2)); Some (JVal (VNum 1))].
Proof. vm_compute. repeat split; reflexivity. Qed.

(** The same store listed without the parameter, and the admin list,
    which tests [includeDeleted !== "true"]. *)
Lemma getAllCategories_default_hides_deleted_row :
  let r := getAllCategories slugify_ascii (sample_request None [] []) sample_db in
  ids_of (field "data" (body r.1) ≫= field "categories") = [Some (JVal (VNum 1))].
Proof. vm_compute. reflexivity. Qed.

(** ** Quantity bounds at write time *)

(** C3, at the failing input. A JSON body may carry the decimals as
    strings (the request validators accept them). The [beforeSave] hook
    compares the raw values, and two strings are compared as text: "9" is
    not below "10", so the product is stored with quantity 9 under a
    minimum of 10. *)
Theorem createProduct_stores_quantity_below_minimum :
  let req := sample_request None [] (oats (VStr "9") (VStr "10")) in
  let r := createProduct slugify_ascii 3000 req sample_db in
  status r.1 = 201
  /\ map (fun p : row => (p !! "quantity", p !! "minQuantity"))
         (rows_with_id (products r.2) (VNum 2))
     = [(Some (VStr "9"), Some (VStr "10"))]
  /\ (to_number (Some (VStr "9")), to_number (Some (VStr "10"))) = (Some 9, Some 10).
Proof. vm_compute. repeat split; reflexivity. Qed.

(** With numbers the hook does what the property says: on the stored
    product bounded by 5 and 10, quantities 3 and 12 are refused and the
    store is unchanged, 7 is accepted; and the same body as above with
    numbers is refused. *)
Lemma updateProduct_numeric_bounds :
  let upd q := updateProduct slugify_ascii 3000
                 (sample_request (Some (VStr "1")) [] [("quantity", VNum q)]) sample_db in
  (status (upd 3).1 = 500 /\ (upd 3).2 = sample_db)
  /\ (status (upd 12).1 = 500 /\ (upd 12).2 = sample_db)
  /\ (status (upd 7).1 = 200
      /\ map (fun p : row => p !! "quantity") (rows_with_id (products (upd 7).2) (VNum 1))
         = [Some (VNum 7)])
  /\ status (createProduct slugify_ascii 3000
               (sample_request None [] (oats (VNum 9) (VNum 10))) sample_db).1 = 500.
Proof. vm_compute. repeat split; reflexivity. Qed.

(** The decimal validator of the price, on the string form of the
    value. *)
Lemma isDecimal_examples :
  map isDecimal ["3"; "3.50"; "-3.5"; ".5"; "1e3"; "2.5E-2"; ""; "abc"; "+3"; "-.5"; "3e"]
  = [true; true; true; true; true; true; false; false; false; false; false].
Proof. reflexivity. Qed.

(** On numbers, a write that passes the hook leaves the quantity within
    the bounds that are set. *)
Lemma Product_beforeSave_numeric (dv : row) (q : Z) :
  dv !! "quantity" = Some (VNum q) ->
  Product_beforeSave dv = None ->
  (forall lo, dv !! "minQuantity" = Some (VNum lo) -> lo <= q)
  /\ (forall hi, dv !! "maxQuantity" = Some (VNum hi) -> q <= hi).
Proof.
  unfold Product_beforeSave, js_gt, js_lt. intros Hq H. rewrite Hq in H.
  split.
  - intros lo Hlo. rewrite Hlo in H. simpl in H.
    destruct (Z.ltb_spec q lo); [discriminate | lia].
  - intros hi Hhi. rewrite Hhi in H.
    match type of H with (if ?c then _ else _) = _ => destruct c end;
      [discriminate |].
    simpl in H. destruct (Z.ltb_spec hi q); [discriminate | lia].
Qed.

(** ** The pagination envelope *)


(** C6, at the failing input. The category list is requested with
    [?page=1abc&limit=1&includeDeleted=true] on the sample store, where
    two categories match. The validators of the route find the page
    ill-formed, but [handleValidationErrors] has run before them and the
    request reaches the handler. [parseInt] reads page 1 of 2, and the
    link to page 2 is there; [hasNext] compares the raw string with the
    number of pages, which is a comparison with [NaN], and is [false]
    where the property asks for [1 < 2]. *)
Theorem get_categories_hasNext_compares_raw_page :
  let req := sample_request None
               [("page", VStr "1abc"); ("limit", VStr "1");
                ("includeDeleted", VStr "true")] [] in
  let r := get_categories slugify_ascii req sample_db in
  let env := field "data" (body r.1) ≫= field "pagination" in
  queryValidations req = ["Page must be a positive integer"]
  /\ status r.1 = 200
  /\ env ≫= field "currentPage" = Some (JVal (VNum 1))
  /\ env ≫= field "totalItems" = Some (JVal (VNum 2))
  /\ env ≫= field "itemsPerPage" = Some (JVal (VNum 1))
  /\ env ≫= field "totalPages" = Some (JVal (VNum 2))
  /\ env ≫= field "hasNext" = Some (jbool false)
  /\ env ≫= field "nextPageUrl" = Some (jstr "http://shop.test/api?page=2&limit=1").
Proof. vm_compute. repeat split; reflexivity. Qed.

(** A limit of 0 passes as well: the query returns no row, the number of
    pages is [Infinity], which the response writes as [null], and every
    page has a next one. *)
Lemma get_categories_limit_zero :
  let req := sample_request None [("limit", VStr "0")] [] in
  let r := get_categories slugify_ascii req sample_db in
  let env := field "data" (body r.1) ≫= field "pagination" in
  queryValidations req = ["Limit must be between 1 and 100"]
  /\ status r.1 = 200
  /\ ids_of (field "data" (body r.1) ≫= field "categories") = []
  /\ env ≫= field "totalItems" = Some (JVal (VNum 1))
  /\ env ≫= field "totalPages" = Some (JVal VNull)
  /\ env ≫= field "hasNext" = Some (jbool true)
  /\ env ≫= field "nextPageUrl" = Some (jstr "http://shop.test/api?page=2&limit=0").
Proof. vm_compute. repeat split; reflexivity. Qed.

(** The admin list parses the page wherever it reads it, and reports a
    next page on the same query string. *)
Lemma getAllAdmins_hasNext_parses_page :
  let req := sample_request None [("page", VStr "1abc"); ("limit", VStr "1")] [] in
  let r := getAllAdmins sample_hash sample_isEmail req
             {| users := users sample_db ++ [user_row 3 "root@shop.test" "admin" VNull];
                admin_profiles := admin_profiles sample_db;
                categories := categories sample_db; products := products sample_db |} in
  let env := field "pagination" (body r.1) in
  status r.1 = 200
  /\ env ≫= field "currentPage" = Some (JVal (VNum 1))
  /\ env ≫= field "totalPages" = Some (JVal (VNum 2))
  /\ env ≫= field "hasNext" = Some (jbool true).
Proof. vm_compute. repeat split; reflexivity. Qed.

(** ** The password never leaves the server *)

Lemma has_key_app k (fs gs : list (string * json)) :
  has_key k (JObj (fs ++ gs)) = has_key k (JObj fs) || has_key k (JObj gs).
Proof.
  induction fs as [|[k' j'] fs IH]; [reflexivity|].
  cbn [app]. cbn [has_key] in *. rewrite IH. now rewrite orb_assoc.
Qed.

Lemma has_key_leaves k (l : list (string * value)) :
  has_key k (JObj (map (fun kv : string * value => (kv.1, JVal kv.2)) l))
  = existsb (fun kv : string * value => String.eqb kv.1 k) l.
Proof.
  induction l as [|[k' v] l IH]; [reflexivity|].
  cbn [map has_key existsb fst snd] in *. rewrite IH. now rewrite orb_false_r.
Qed.

Lemma has_key_row k (m : row) :
  m !! k = None ->
  has_key k (JObj (map (fun kv : string * value => (kv.1, JVal kv.2)) (map_to_list m)))
  = false.
Proof.
  intros Hk. rewrite has_key_leaves. apply not_true_is_false. intros H.
  apply existsb_exists in H as ([k' v] & Hin & Heq).
  apply String.eqb_eq in Heq. cbn in Heq. subst k'.
  apply list_elem_of_In, elem_of_map_to_list in Hin. congruence.
Qed.

Lemma has_key_arr k (f : instance -> json) (l : list instance) :
  (forall i, has_key k (f i) = false) -> has_key k (JArr (map f l)) = false.
Proof.
  intros Hf. induction l as [|i l IH]; [reflexivity|].
  cbn [map has_key] in *. now rewrite Hf, IH.
Qed.

Lemma has_key_msgs k (msgs : list string) : has_key k (JArr (map jstr msgs)) = false.
Proof. induction msgs as [|m msgs IH]; [reflexivity|]. cbn [map has_key] in *. now rewrite IH. Qed.

Lemma has_key_errorHandler (e : error) :
  has_key "password" (body (errorHandler e)) = false.
Proof.
  destruct e; cbn [errorHandler body fail];
    try (pose proof (has_key_msgs "password" msgs) as H; cbn [has_key] in H);
    cbn [has_key String.eqb Ascii.eqb Bool.eqb orb jbool jstr];
    rewrite ?H; reflexivity.
Qed.

Lemma has_key_no_row (req : request) (msg : string) :
  has_key "password" (body (no_row req msg)) = false.
Proof. unfold no_row. destruct (id_error req); [apply has_key_errorHandler|reflexivity]. Qed.

Lemma has_key_User_toJSON (i : instance) : has_key "password" (User_toJSON i) = false.
Proof. apply has_key_row, lookup_delete_eq. Qed.

Lemma load_hides (m : model) (o : find_options) (r : row) (k : string) :
  mem k (rawAttributes m) = false -> dataValues (load m o r) !! k = None.
Proof.
  intros Hk. cbn [load dataValues]. unfold project.
  apply map_lookup_filter_None. right. intros v _ H. cbn in H.
  apply Is_true_true in H. apply existsb_exists in H as (a & Ha & Heq).
  apply String.eqb_eq in Heq. subst a.
  unfold selected_attributes in Ha.
  apply list_elem_of_In, list_elem_of_filter in Ha as [_ Ha].
  assert (mem k (rawAttributes m) = true); [|congruence].
  apply existsb_exists. exists k. split; [now apply list_elem_of_In | apply String.eqb_refl].
Qed.

Lemma findOne_load (m : model) (o : find_options) (d : db) (i : instance) :
  findOne m o d = Some i -> exists r, r ∈ tbl m d /\ selects m o r = true /\ i = load m o r.
Proof.
  unfold findOne, findAll. intros H.
  destruct (filter _ (tbl m d)) as [|r l] eqn:Hf; [discriminate|].
  injection H as <-. exists r.
  assert (r ∈ filter (fun r => selects m o r) (tbl m d)) as Hr
    by (rewrite Hf; constructor).
  apply list_elem_of_filter in Hr as [Hs Hr]. split; [done|].
  split; [|reflexivity]. now apply Is_true_true.
Qed.

Lemma has_key_profile (o : find_options) (r : row) :
  has_key "password" (toJSON (load (AdminProfile) o r)) = false.
Proof. apply has_key_row, load_hides. reflexivity. Qed.

Lemma set_attr_plain_keys (m : model) k0 v i i' k :
  customSetter m k0 = None ->
  mem k (rawAttributes m) = false ->
  set_attr m k0 v i = inr i' ->
  dataValues i !! k = None ->
  dataValues i' !! k = None /\ isNewRecord i' = isNewRecord i.
Proof.
  unfold set_attr. intros -> Hk H Hnone.
  destruct (mem k0 (rawAttributes m)) eqn:Hk0; cbn [negb] in H;
    [|injection H as <-; done].
  repeat match type of H with
         | (if ?c then _ else _) = _ => destruct c
         end; injection H as <-; try done.
  cbn [dataValues isNewRecord]. split; [|done].
  rewrite lookup_insert_ne; [done|]. intros ->. congruence.
Qed.

Lemma set_all_plain_keys (m : model) p i i' k :
  (forall k0, customSetter m k0 = None) ->
  mem k (rawAttributes m) = false ->
  set_all m p i = inr i' ->
  dataValues i !! k = None ->
  dataValues i' !! k = None /\ isNewRecord i' = isNewRecord i.
Proof.
  intros Hc Hk. revert i. induction p as [|[k0 v] p IH]; intros i H Hnone.
  - injection H as <-. done.
  - cbn [set_all] in H. destruct (set_attr m k0 v i) as [e|i1] eqn:H1; [discriminate|].
    destruct (set_attr_plain_keys m k0 v i i1 k (Hc k0) Hk H1 Hnone) as [Hn1 Hr1].
    destruct (IH i1 H Hn1) as [Hn Hr]. split; [done|congruence].
Qed.

(** *** What a save does to the instance and to the store *)

Lemma stamp_other (new : bool) now fields (dv : row) k :
  k <> "updatedAt" -> k <> "createdAt" -> stamp new now fields dv !! k = dv !! k.
Proof.
  intros H1 H2. unfold stamp.
  repeat match goal with |- context [if ?c then _ else _] => destruct c end;
    repeat (rewrite lookup_insert_ne; [|congruence]); reflexivity.
Qed.

Lemma insert_row_inv (m : model) (dv : row) d i' d' :
  insert_row m dv d = inr (i', d') ->
  exists id, dataValues i' = <["id" := id]> dv
    /\ d' = set_tbl m (tbl m d ++ [write_fields (rawAttributes m) (<["id" := id]> dv)
                                     (list_to_map (map (fun k => (k, VNull))
                                                       (rawAttributes m)))]) d.
Proof.
  unfold insert_row. intros H.
  destruct (unique_violations _ _ _ _); [|discriminate].
  destruct (dangling _ _ _ _); [discriminate|].
  injection H as <- <-. eexists. split; reflexivity.
Qed.

Lemma update_rows_inv (m : model) fields (dv : row) d i' d' :
  update_rows m fields dv d = inr (i', d') ->
  dataValues i' = dv
  /\ d' = set_tbl m (update_row (dv !! "id") (write_fields fields dv) (tbl m d)) d.
Proof.
  unfold update_rows. intros H.
  destruct (unique_violations _ _ _ _); [|discriminate].
  destruct (dangling _ _ _ _); [discriminate|].
  injection H as <- <-. split; reflexivity.
Qed.

(** A save that succeeds ran the hooks on the stamped values; the store
    is either left alone (a stored instance with nothing to write) or
    receives the insert or the update. *)
Lemma save_inv (m : model) hooks now fields0 i d i' d' :
  save m hooks now fields0 i d = inr (i', d') ->
  let new := isNewRecord i in
  let fields := save_fields new fields0 in
  exists dv3 dv4,
    run_hooks m hooks new now fields (previous i) (stamp new now fields (dataValues i))
      = inr (dv3, dv4)
    /\ ((new = true /\ insert_row m dv4 d = inr (i', d'))
        \/ (new = false
            /\ i' = {| dataValues := dv4; previous := previous i; isNewRecord := false |}
            /\ d' = d
            /\ (fields = [] \/ changed m i' = []))
        \/ (new = false
            /\ update_rows m (uniq_concat fields
                 (filter (fun k => bool_decide (dv4 !! k <> dv3 !! k)) (rawAttributes m)))
                 dv4 d = inr (i', d'))).
Proof.
  unfold save. intros H. cbv zeta in *.
  destruct (run_hooks _ _ _ _ _ _ _) as [e|[dv3 dv4]]; [discriminate|].
  exists dv3, dv4. split; [reflexivity|].
  destruct (isNewRecord i); [left; done|right].
  destruct (uniq_concat _ _) as [|f fs] eqn:Hu.
  - cbn in H. injection H as <- <-. left. repeat split; try done.
    left. unfold uniq_concat in Hu. now apply app_eq_nil in Hu as [-> _].
  - cbn [length] in H. rewrite Nat2Z.inj_succ in H.
    destruct (Z.eqb_spec (Z.succ (Z.of_nat (length fs))) 0) as [Hz|_]; [lia|].
    match type of H with
    | (if (Z.of_nat (length ?l) =? 0)%Z then _ else _) = _ =>
        destruct l eqn:Hc
    end.
    + cbn in H. injection H as <- <-. left. repeat split; try done. now right.
    + cbn [length] in H. rewrite Nat2Z.inj_succ in H.
      match type of H with
      | (if ?c then _ else _) = _ => destruct c eqn:Hz
      end; [apply Z.eqb_eq in Hz; lia|].
      right. done.
Qed.

Lemma run_hooks_off (m : model) new now fields prev dv dv3 dv4 :
  run_hooks m false new now fields prev dv = inr (dv3, dv4) -> dv3 = dv /\ dv4 = dv.
Proof.
  unfold run_hooks. intros H. destruct (flat_map _ _); [|discriminate].
  injection H as <- <-. done.
Qed.

Lemma run_hooks_hookless (m : model) hooks new now fields prev dv dv3 dv4 :
  hookless m ->
  run_hooks m hooks new now fields prev dv = inr (dv3, dv4) -> dv3 = dv /\ dv4 = dv.
Proof.
  unfold hookless. intros (Hv & Hc & Hu & Hs). unfold run_hooks.
  intros H. destruct hooks.
  - rewrite Hv in H. destruct (flat_map _ _); [|discriminate].
    destruct new; rewrite ?Hc, ?Hu, Hs in H; injection H as <- <-; done.
  - destruct (flat_map _ _); [|discriminate]. injection H as <- <-; done.
Qed.

Lemma AdminProfile_hookless : hookless AdminProfile.
Proof. repeat split. Qed.

(** A profile instance never carries a [password] value. *)
Lemma create_AdminProfile_no_password now p d i d' :
  create AdminProfile now p d = inr (i, d') -> dataValues i !! "password" = None.
Proof.
  unfold create.
  destruct (set_all _ _ _) as [e|i0] eqn:Hs; [discriminate|].
  apply (set_all_plain_keys AdminProfile p _ i0 "password") in Hs as [Hn Hnew];
    [|reflexivity|reflexivity|apply lookup_empty].
  cbn [isNewRecord] in Hnew.
  intros H. apply save_inv in H as (dv3 & dv4 & Hh & Hcases). rewrite Hnew in *.
  apply (run_hooks_hookless _ _ _ _ _ _ _ _ _ AdminProfile_hookless) in Hh as [_ ->].
  destruct Hcases as [[_ Hi]|[[? _]|[? _]]]; try discriminate.
  apply insert_row_inv in Hi as (id & -> & _).
  rewrite lookup_insert_ne; [|discriminate].
  rewrite stamp_other; [exact Hn|discriminate|discriminate].
Qed.

Lemma has_key_admin_json (u : instance) (pr : option instance) :
  (forall i, pr = Some i -> has_key "password" (toJSON i) = false) ->
  has_key "password" (admin_json (u, pr)) = false.
Proof.
  intros Hpr. unfold admin_json, User_toJSON. cbn [fst snd].
  rewrite has_key_app.
  fold (User_toJSON u). rewrite has_key_User_toJSON.
  destruct pr as [i|].
  - specialize (Hpr i eq_refl). cbn [has_key String.eqb Ascii.eqb Bool.eqb orb] in *.
    now rewrite Hpr.
  - reflexivity.
Qed.

Lemma has_key_profile_of (b : bool) (u : instance) (d : db) i :
  profile_of b u d = Some i -> has_key "password" (toJSON i) = false.
Proof.
  unfold profile_of. destruct (get u "id"); [|discriminate].
  intros H. apply findOne_load in H as (r & _ & _ & ->). apply has_key_profile.
Qed.

Lemma has_key_find_admin hash isEmail o b d a :
  find_admin hash isEmail o b d = Some a -> has_key "password" (admin_json a) = false.
Proof.
  unfold find_admin. destruct (findOne _ o d) as [u|]; [|discriminate].
  intros H. injection H as <-. apply has_key_admin_json.
  intros i. apply has_key_profile_of.
Qed.

Lemma has_key_ok_body msg (data : json) :
  has_key "password" data = false ->
  has_key "password" (ok_body msg (Some data)) = false.
Proof.
  intros H. unfold ok_body, jfields. destruct msg; cbn; rewrite H; reflexivity.
Qed.

Lemma has_key_echo ks q dflt :
  mem "password" ks = false -> has_key "password" (echo ks q dflt) = false.
Proof.
  unfold echo, jfields. induction ks as [|k ks IH]; [reflexivity|].
  cbn [mem existsb]. intros H. apply orb_false_elim in H as [Hk H].
  specialize (IH H). cbn [map omap list_omap fst snd] in *.
  assert (String.eqb k "password" = false) as Hk'
    by (rewrite String.eqb_sym; exact Hk).
  destruct (pget k q) as [v|]; [|destruct (pget k dflt)]; cbn [fmap option_fmap option_map];
    cbn [has_key] in *; rewrite ?Hk', ?IH; reflexivity.
Qed.

Lemma has_key_pagination_parsed req n :
  has_key "password" (pagination_parsed req n) = false.
Proof.
  unfold pagination_parsed, jnum, jquotient.
  repeat match goal with
         | |- context [match ?x with _ => _ end] => destruct x
         end; reflexivity.
Qed.

(** C9. Whatever the store holds and whatever the request, no object in
    the body of a response of the handlers that return admin data (create,
    get by id, list, update) has a [password] field. *)
Theorem password_never_serialized hash isEmail (now : Z) (req : request) (d : db) :
  has_key "password" (body (createAdmin hash isEmail now req d).1) = false
  /\ has_key "password" (body (getAdminById hash isEmail req d).1) = false
  /\ has_key "password" (body (getAllAdmins hash isEmail req d).1) = false
  /\ has_key "password" (body (updateAdmin hash isEmail now req d).1) = false.
Proof.
  repeat split.
  - unfold createAdmin.
    destruct (pget "email" _); [|apply has_key_errorHandler].
    destruct (existing_user _ _ _ _); [reflexivity|].
    destruct (create (User _ _) _ _ _) as [e|[user d1]]; [apply has_key_errorHandler|].
    destruct (create AdminProfile _ _ _) as [e|[pr d2]] eqn:Hp;
      [apply has_key_errorHandler|].
    cbn [fst body]. apply has_key_ok_body.
    apply create_AdminProfile_no_password in Hp.
    pose proof (has_key_User_toJSON user) as Hu.
    pose proof (has_key_row "password" _ Hp) as Hpr. fold (toJSON pr) in Hpr.
    cbn [has_key String.eqb Ascii.eqb Bool.eqb orb] in *. now rewrite Hu, Hpr.
  - unfold getAdminById.
    destruct (find_admin _ _ _ _ _) as [a|] eqn:Ha; [|apply has_key_no_row].
    cbn [fst body]. apply has_key_ok_body. eapply has_key_find_admin, Ha.
  - unfold getAllAdmins.
    destruct (as_string _ _); [apply has_key_errorHandler|].
    destruct (findAndCountAll _ _ _ _ _) as [e|[count admins]];
      [apply has_key_errorHandler|].
    cbn [fst body].
    pose proof (has_key_arr "password"
                  (fun u => admin_json (u, profile_of true u d)) admins) as Harr.
    pose proof (has_key_echo ["search"; "isActive"; "city"; "includeDeleted"]
                  (query req) [] eq_refl) as He.
    pose proof (has_key_pagination_parsed req count) as Hpg.
    cbn [has_key String.eqb Ascii.eqb Bool.eqb orb jbool] in *.
    rewrite Harr, He, Hpg; [reflexivity|].
    intros u. apply has_key_admin_json. intros i. apply has_key_profile_of.
  - unfold updateAdmin.
    destruct (find_admin _ _ _ _ _) as [[admin pr]|]; [|apply has_key_no_row].
    match goal with |- context [if ?c then _ else _] => destruct c end;
      [reflexivity|].
    match goal with |- context [match ?x with inl _ => _ | inr _ => _ end] =>
      destruct x as [e|d1] end; [apply has_key_errorHandler|].
    match goal with |- context [match ?x with inl _ => _ | inr _ => _ end] =>
      destruct x as [e|d2] end; [apply has_key_errorHandler|].
    cbn [fst body]. apply has_key_ok_body.
    destruct (find_admin _ _ _ _ d2) as [a|] eqn:Ha; [|reflexivity].
    eapply has_key_find_admin, Ha.
Qed.

(** ** The user write of the admin update *)

Lemma save_AdminProfile_users hooks now fields i d i' d' :
  save AdminProfile hooks now fields i d = inr (i', d') -> users d' = users d.
Proof.
  intros H. apply save_inv in H as (dv3 & dv4 & _ & [[_ H]|[(_ & _ & -> & _)|[_ H]]]).
  - apply insert_row_inv in H as (id & _ & ->). reflexivity.
  - reflexivity.
  - apply update_rows_inv in H as [_ ->]. reflexivity.
Qed.

Lemma update_AdminProfile_users now p i d i' d' :
  update AdminProfile now p i d = inr (i', d') -> users d' = users d.
Proof.
  unfold update. destruct (set_all _ _ _); [discriminate|].
  apply save_AdminProfile_users.
Qed.

Lemma truthy_defined (o : option value) : truthy o = true -> is_defined o = true.
Proof. destruct o; [reflexivity|discriminate]. Qed.

(** C10. [updateAdmin] writes the users table only when the payload has
    an email or a password; with neither (or with empty ones) the users
    table is left as it was, and the store that results is the one the
    profile update alone produces from the same payload. *)
Theorem updateAdmin_user_write_guard hash isEmail (now : Z) (req : request) (d : db) :
  let p := rbody req in
  let r := updateAdmin hash isEmail now req d in
  (users r.2 <> users d ->
   is_defined (pget "email" p) = true \/ is_defined (pget "password" p) = true)
  /\ (truthy (pget "email" p) = false -> truthy (pget "password" p) = false ->
      users r.2 = users d
      /\ forall admin pr,
           find_admin hash isEmail (plain (admin_where req)) true d = Some (admin, Some pr) ->
           r.2 = match update AdminProfile now p pr d with
                 | inr (_, d2) => d2
                 | inl _ => d
                 end).
Proof.
  intros p r.
  assert (truthy (pget "email" p) = false -> truthy (pget "password" p) = false ->
      users r.2 = users d
      /\ forall admin pr,
           find_admin hash isEmail (plain (admin_where req)) true d = Some (admin, Some pr) ->
           r.2 = match update AdminProfile now p pr d with
                 | inr (_, d2) => d2
                 | inl _ => d
                 end) as Hquiet.
  { intros He Hp. subst r. unfold updateAdmin. fold p.
    destruct (find_admin _ _ _ _ _) as [[admin pr]|]; [|split; [reflexivity|discriminate]].
    rewrite He, Hp. cbn [andb orb].
    destruct pr as [pr|].
    - unfold written.
      destruct (update AdminProfile now p pr d) as [e|[i2 d2]] eqn:Hu.
      + split; [reflexivity|]. intros admin' pr' H. injection H as _ <-.
        now rewrite Hu.
      + split; [exact (update_AdminProfile_users _ _ _ _ _ _ Hu)|].
        intros admin' pr' H. injection H as _ <-. now rewrite Hu.
    - split; [reflexivity|discriminate]. }
  split; [|exact Hquiet].
  intros Hne.
  destruct (truthy (pget "email" p)) eqn:He; [left; now apply truthy_defined|].
  destruct (truthy (pget "password" p)) eqn:Hp; [right; now apply truthy_defined|].
  destruct (Hquiet eq_refl eq_refl) as [Hsame _]. contradiction.
Qed.

(** The guard at work on the sample store: [isActive] alone, with a
    profile field beside it. *)
Lemma updateAdmin_user_write_guard_witness :
  let req := sample_request (Some (VStr "1")) []
               [("isActive", VBool false); ("firstName", VStr "Zed")] in
  let r := updateAdmin sample_hash sample_isEmail 3000 req sample_db in
  users r.2 = users sample_db
  /\ map (fun pr : row => pr !! "firstName") (admin_profiles r.2) = [Some (VStr "Zed")].
Proof.
  intros req r.
  destruct (updateAdmin_user_write_guard sample_hash sample_isEmail 3000 req sample_db)
    as [_ H].
  destruct (H eq_refl eq_refl) as [Hu _].
  split; [exact Hu | vm_compute; reflexivity].
Defined.

(** ** The scope of the email uniqueness checks *)

Lemma findOne_some (m : model) (o : find_options) (d : db) (r : row) :
  r ∈ tbl m d -> selects m o r = true -> is_Some (findOne m o d).
Proof.
  intros Hin Hs. unfold findOne, findAll.
  assert (r ∈ filter (fun r => selects m o r) (tbl m d)) as Hr
    by (apply list_elem_of_filter; split; [now apply Is_true_true | done]).
  destruct (filter _ (tbl m d)); [inversion Hr | eexists; reflexivity].
Qed.

Lemma findOne_none (m : model) (o : find_options) (d : db) :
  (forall r, r ∈ tbl m d -> selects m o r = false) -> findOne m o d = None.
Proof.
  intros H. destruct (findOne m o d) as [i|] eqn:Hf; [|reflexivity].
  apply findOne_load in Hf as (r & Hin & Hs & _). rewrite (H r Hin) in Hs. discriminate.
Qed.

Lemma effective_where_User hash isEmail (w : list cond) :
  effective_where (User hash isEmail) w = w.
Proof. reflexivity. Qed.

(** C8, as stated, fails for the create operation: the only holder of
    the email is a customer, the validator lets it pass, and [createAdmin]
    answers 400 "Email already exists". *)
Lemma createAdmin_rejects_email_of_customer :
  let req := sample_request None []
               [("email", VStr "customer@shop.test"); ("password", VStr "Passw0rd!");
                ("firstName", VStr "Bob"); ("lastName", VStr "Ray")] in
  let r := createAdmin sample_hash sample_isEmail 3000 req sample_db in
  map (fun u : row => u !! "accountType")
      (filter (fun u : row => bool_decide (u !! "email" = Some (VStr "customer@shop.test")))
              (users sample_db))
    = [Some (VStr "customer")]
  /\ (validateEmail sample_hash sample_isEmail sample_normalizeEmail req sample_db).1 = []
  /\ r = (fail 400 "Email already exists", sample_db).
Proof. vm_compute. repeat split; reflexivity. Qed.

(** C8, amended. When every user that holds the email is not an admin,
    the check of the validator (create and update routes) and the check
    inside [updateAdmin] find nothing. The check inside [createAdmin]
    looks among all users that are not deleted, whatever their account
    type: one holder is enough for a 400 that leaves the store as it
    was. *)
Theorem admin_email_check_scope hash isEmail (now : Z) (req : request) (d : db)
    (e : string) :
  pget "email" (rbody req) = Some (VStr e) ->
  (forall r, r ∈ users d -> sql_eq (r !! "email") (VStr e) = true ->
             sql_eq (r !! "accountType") (VStr "admin") = false) ->
  admin_email_taken hash isEmail req e d = false
  /\ other_admin_with_email hash isEmail req d = None
  /\ ((exists r, r ∈ users d /\ sql_eq (r !! "email") (VStr e) = true
                 /\ sql_null (r !! "deletedAt") = true) ->
      createAdmin hash isEmail now req d = (fail 400 "Email already exists", d)).
Proof.
  intros Hemail Hscope.
  assert (forall id, findOne (User hash isEmail)
            (plain [CEq "email" (VStr e); CEq "accountType" (VStr "admin"); CNotId id]) d
          = None) as Hnone.
  { intros id. apply findOne_none. intros r Hin.
    unfold selects. rewrite effective_where_User.
    cbn [fo_where plain forallb row_matches].
    destruct (sql_eq (r !! "email") (VStr e)) eqn:He; [|reflexivity].
    now rewrite (Hscope r Hin He). }
  split; [|split].
  - unfold admin_email_taken. rewrite Hnone. apply bool_decide_eq_false. intros [? ?].
    discriminate.
  - unfold other_admin_with_email. rewrite Hemail. apply Hnone.
  - intros (r & Hin & He & Hdel). unfold createAdmin. rewrite Hemail.
    destruct (existing_user hash isEmail (VStr e) d) as [u|] eqn:Hu; [reflexivity|].
    exfalso. unfold existing_user in Hu.
    destruct (findOne_some (User hash isEmail) (plain [CEq "email" (VStr e)]) d r Hin)
      as [u Hu']; [|congruence].
    unfold selects. rewrite effective_where_User.
    cbn [fo_where plain forallb row_matches fo_paranoid negb orb andb].
    now rewrite He, Hdel.
Qed.

Lemma admin_email_check_scope_witness :
  let req := sample_request (Some (VStr "1")) [] [("email", VStr "customer@shop.test")] in
  admin_email_taken sample_hash sample_isEmail req "customer@shop.test" sample_db = false
  /\ other_admin_with_email sample_hash sample_isEmail req sample_db = None
  /\ createAdmin sample_hash sample_isEmail 3000 req sample_db
     = (fail 400 "Email already exists", sample_db).
Proof.
  intros req.
  assert (forall r : row, r ∈ users sample_db ->
            sql_eq (r !! "email") (VStr "customer@shop.test") = true ->
            sql_eq (r !! "accountType") (VStr "admin") = false) as Hscope.
  { intros r Hr He. unfold sample_db, users in Hr.
    repeat (apply elem_of_cons in Hr as [->|Hr]); [| |inversion Hr];
      vm_compute in He |- *; congruence. }
  destruct (admin_email_check_scope sample_hash sample_isEmail 3000 req sample_db
              "customer@shop.test" eq_refl Hscope) as (H1 & H2 & H3).
  split; [exact H1 | split; [exact H2 |]].
  apply H3. exists (user_row 2 "customer@shop.test" "customer" VNull).
  split; [|split; vm_compute; reflexivity].
  unfold sample_db, users. apply elem_of_cons. right. apply elem_of_cons. now left.
Defined.

(** ** Soft delete followed by restore *)

Lemma mem_spec (k : string) (l : list string) : mem k l = true <-> k ∈ l.
Proof.
  unfold mem. rewrite existsb_exists. split.
  - intros (x & Hin & Heq). apply String.eqb_eq in Heq. subst x. now apply list_elem_of_In.
  - intros Hin. exists k. split; [now apply list_elem_of_In | apply String.eqb_refl].
Qed.

Lemma mem_uniq_concat (k : string) (a b : list string) :
  mem k (uniq_concat a b) = mem k a || mem k b.
Proof.
  apply eq_true_iff_eq. rewrite orb_true_iff, !mem_spec. unfold uniq_concat.
  rewrite elem_of_app, list_elem_of_filter. split.
  - intros [H|[_ H]]; auto.
  - intros [H|H]; [auto|]. destruct (mem k a) eqn:Hk.
    + left. now apply mem_spec.
    + right. split; done.
Qed.

Lemma write_fields_lookup (fields : list string) (dv r : row) (k : string) :
  write_fields fields dv r !! k
  = if mem k fields then match dv !! k with Some v => Some v | None => r !! k end
    else r !! k.
Proof.
  induction fields as [|f fields IH]; [reflexivity|].
  cbn [write_fields foldr mem existsb]. fold (write_fields fields dv r).
  fold (mem k fields).
  destruct (String.eqb_spec k f) as [->|Hne]; cbn [orb].
  - destruct (dv !! f) eqn:Hf; [now rewrite lookup_insert_eq|].
    rewrite IH. now destruct (mem f fields).
  - destruct (dv !! f); [rewrite lookup_insert_ne by congruence|]; exact IH.
Qed.

Lemma Category_stamps_plain slugify : stamps_plain (Category slugify).
Proof. split; repeat split; reflexivity. Qed.
Lemma Product_stamps_plain slugify : stamps_plain (Product slugify).
Proof. split; repeat split; reflexivity. Qed.
Lemma User_stamps_plain hash isEmail : stamps_plain (User hash isEmail).
Proof. split; repeat split; reflexivity. Qed.
Lemma AdminProfile_stamps_plain : stamps_plain AdminProfile.
Proof. split; repeat split; reflexivity. Qed.

Lemma project_lookup (attrs : list string) (r : row) (k : string) :
  project attrs r !! k = if mem k attrs then r !! k else None.
Proof.
  unfold project. destruct (mem k attrs) eqn:Hk.
  - destruct (r !! k) as [v|] eqn:Hr.
    + apply map_lookup_filter_Some. split; [done|]. cbn. now apply Is_true_true.
    + apply map_lookup_filter_None. now left.
  - apply map_lookup_filter_None. right. intros v _ H. cbn in H.
    apply Is_true_true in H. fold (mem k attrs) in H. congruence.
Qed.

Lemma load_id (m : model) (o : find_options) (r : row) :
  stamps_plain m -> fo_exclude o = [] -> dataValues (load m o r) !! "id" = r !! "id".
Proof.
  intros [[Hraw Hex] _ _ _ _ _ _ _] Ho. cbn [load dataValues]. rewrite project_lookup.
  assert (mem "id" (selected_attributes m o) = true) as ->; [|reflexivity].
  apply mem_spec. unfold selected_attributes. apply list_elem_of_filter.
  split; [|now apply mem_spec]. rewrite Ho, app_nil_r.
  fold (mem "id" (scopeExclude m)). now rewrite Hex.
Qed.

Lemma flat_map_nil {A B} (f : A -> list B) (l : list A) :
  (forall x, x ∈ l -> f x = []) -> flat_map f l = [].
Proof.
  induction l as [|x l IH]; [reflexivity|]. intros H. cbn [flat_map].
  rewrite (H x) by constructor. apply IH. intros y Hy. apply H. now constructor.
Qed.

Lemma filter_nil_string (P : string -> bool) (l : list string) :
  (forall x, x ∈ l -> P x = false) -> filter (fun x => P x) l = [].
Proof.
  induction l as [|x l IH]; [reflexivity|]. intros H.
  rewrite filter_cons. rewrite (H x) by constructor. cbn.
  apply IH. intros y Hy. apply H. now constructor.
Qed.

Lemma update_row_ext (id : option value) (f g : row -> row) (t : table) :
  (forall r, f r = g r) -> update_row id f t = update_row id g t.
Proof. intros H. unfold update_row. apply map_ext. intros r. now rewrite H. Qed.

Lemma not_mem_fst {A} (k : string) (l : list (string * A)) (x : string * A) :
  mem k (map fst l) = false -> x ∈ l -> x.1 <> k.
Proof.
  intros Hk Hx Heq. subst k. assert (mem x.1 (map fst l) = true); [|congruence].
  apply mem_spec. apply list_elem_of_fmap. now exists x.
Qed.

(** A save without hooks of an instance on which only [deletedAt] has
    changed writes [deletedAt] and a fresh [updatedAt] into the rows with
    the id of the instance, and nothing else. *)
Lemma save_deletedAt (m : model) (now : Z) (i : instance) (d : db) (del : value) :
  stamps_plain m ->
  isNewRecord i = false ->
  (forall k, k ∈ changed m i -> k = "deletedAt") ->
  "deletedAt" ∈ changed m i ->
  dataValues i !! "deletedAt" = Some del ->
  exists i', save m false now (changed m i) i d
             = inr (i', set_tbl m (stamp_rows (dataValues i !! "id") del now (tbl m d)) d).
Proof.
  intros [Hid Hdel Hupd Hval Huniq Hfk _ _] Hnew Honly Hin Hdv.
  unfold save. rewrite Hnew.
  set (fields := save_fields false (changed m i)).
  assert (forall k, mem k fields = String.eqb k "deletedAt" || String.eqb k "updatedAt")
    as Hfields.
  { intros k. unfold fields, save_fields.
    destruct (changed m i) as [|c cs] eqn:Hc; [inversion Hin|].
    cbn [length]. rewrite Nat2Z.inj_succ.
    destruct (Z.ltb_spec 0 (Z.succ (Z.of_nat (length cs)))) as [_|]; [|lia].
    rewrite mem_uniq_concat.
    assert (mem k ["updatedAt"] = String.eqb k "updatedAt") as ->
      by (cbn; apply orb_false_r).
    f_equal. apply eq_true_iff_eq. rewrite mem_spec, String.eqb_eq. split.
    - intros Hk. now apply Honly.
    - intros ->. exact Hin. }
  set (dv := stamp false now fields (dataValues i)).
  assert (dv = <["updatedAt" := VDate now]> (dataValues i)) as Hdv'.
  { unfold dv, stamp. rewrite Hfields. reflexivity. }
  assert (run_hooks m false false now fields (previous i) dv = inr (dv, dv)) as ->.
  { unfold run_hooks. rewrite flat_map_nil; [reflexivity|].
    intros k Hk. apply mem_spec in Hk. rewrite Hfields in Hk.
    apply orb_true_iff in Hk as [Hk|Hk]; apply String.eqb_eq in Hk; subst k; apply Hval. }
  rewrite (filter_nil_string (fun k => bool_decide (dv !! k <> dv !! k)));
    [|intros k _; now apply bool_decide_eq_false; intros []].
  set (fields' := uniq_concat fields []).
  assert (forall k, mem k fields' = mem k fields) as Hfields'
    by (intros k; unfold fields'; rewrite mem_uniq_concat; apply orb_false_r).
  assert ("deletedAt" ∈ fields') as Hnonempty
    by (apply mem_spec; rewrite Hfields', Hfields; reflexivity).
  destruct fields' as [|f0 fs0] eqn:Hf'; [inversion Hnonempty|]. rewrite <- Hf' in *.
  assert ((Z.of_nat (length fields') =? 0)%Z = false) as ->
    by (rewrite Hf'; cbn [length]; rewrite Nat2Z.inj_succ; apply Z.eqb_neq; lia).
  cbn [negb andb].
  assert ("deletedAt" ∈ changed m {| dataValues := dv; previous := previous i;
                                     isNewRecord := false |}) as Hch.
  { unfold changed in *. apply list_elem_of_filter in Hin as [Hne Hraw].
    apply list_elem_of_filter. split; [|done]. cbn [dataValues previous].
    rewrite Hdv', lookup_insert_ne by discriminate. exact Hne. }
  destruct (changed m {| dataValues := dv; previous := previous i;
                         isNewRecord := false |}) as [|c0 cs0]; [inversion Hch|].
  assert ((Z.of_nat (length (c0 :: cs0)) =? 0)%Z = false) as ->
    by (cbn [length]; rewrite Nat2Z.inj_succ; apply Z.eqb_neq; lia).
  unfold update_rows.
  assert (unique_violations m (tbl m d) fields' dv = []) as ->.
  { unfold unique_violations. apply flat_map_nil. intros cm Hcm.
    assert (mem cm.1 fields' = false) as Hm.
    { rewrite Hfields', Hfields. apply orb_false_iff.
      split; apply String.eqb_neq; eapply not_mem_fst; eauto; apply Huniq. }
    rewrite Hm. now destruct (dv !! cm.1). }
  assert (dangling m d fields' dv = false) as ->.
  { unfold dangling. apply not_true_is_false. intros H.
    apply existsb_exists in H as (ft & Hft & H). apply list_elem_of_In in Hft.
    assert (mem ft.1 fields' = false) as Hm.
    { rewrite Hfields', Hfields. apply orb_false_iff.
      split; apply String.eqb_neq; eapply not_mem_fst; eauto; apply Hfk. }
    rewrite Hm in H. discriminate. }
  eexists. f_equal. f_equal. f_equal. unfold stamp_rows.
  assert (dv !! "id" = dataValues i !! "id") as ->
    by (rewrite Hdv'; now rewrite lookup_insert_ne by discriminate).
  apply update_row_ext. intros r. apply map_eq. intros k.
  rewrite write_fields_lookup, Hfields', Hfields.
  destruct (String.eqb_spec k "deletedAt") as [->|Hk1]; cbn [orb].
  { rewrite Hdv', lookup_insert_ne, Hdv by discriminate. now rewrite lookup_insert_eq. }
  destruct (String.eqb_spec k "updatedAt") as [->|Hk2].
  { rewrite Hdv', lookup_insert_eq, lookup_insert_ne by discriminate.
    now rewrite lookup_insert_eq. }
  now rewrite !lookup_insert_ne by congruence.
Qed.

Lemma changed_setDataValue (m : model) (o : find_options) (r : row) (k v : _) :
  k ∈ changed m (setDataValue "deletedAt" v (load m o r)) -> k = "deletedAt".
Proof.
  unfold changed. intros H. apply list_elem_of_filter in H as [H _].
  destruct (String.eqb_spec k "deletedAt") as [|Hne]; [done|]. exfalso.
  apply Is_true_true, bool_decide_eq_true in H. apply H.
  cbn [setDataValue load dataValues previous]. now rewrite lookup_insert_ne.
Qed.

(** [destroy] on a freshly loaded instance of a row that is not deleted. *)
Lemma destroy_loaded (m : model) (o : find_options) (r : row) (d : db) (now : Z) :
  stamps_plain m -> fo_exclude o = [] -> sql_null (r !! "deletedAt") = true ->
  exists i', destroy m now (load m o r) d
             = inr (i', set_tbl m (stamp_rows (r !! "id") (VDate now) now (tbl m d)) d).
Proof.
  intros Hm Ho Hnull. unfold destroy.
  assert (sql_null (get (load m o r) "deletedAt") = true) as Hg.
  { unfold get. cbn [load dataValues]. rewrite project_lookup.
    now destruct (mem "deletedAt" _). }
  rewrite Hg.
  destruct (save_deletedAt m now (setDataValue "deletedAt" (VDate now) (load m o r)) d
              (VDate now) Hm eq_refl) as [i' Hi'].
  - intros k. apply changed_setDataValue.
  - unfold changed. apply list_elem_of_filter. split; [|apply mem_spec, Hm].
    apply Is_true_true, bool_decide_eq_true.
    cbn [setDataValue load dataValues previous]. rewrite lookup_insert_eq.
    unfold get in Hg. cbn [load dataValues] in Hg. intros Heq. rewrite <- Heq in Hg.
    discriminate.
  - cbn [setDataValue dataValues]. apply lookup_insert_eq.
  - exists i'. rewrite Hi'. do 4 f_equal.
    cbn [setDataValue dataValues]. rewrite lookup_insert_ne by discriminate.
    now apply load_id.
Qed.

(** [restore] on a freshly loaded instance whose [deletedAt] is a date or
    was not loaded. *)
Lemma restore_loaded (m : model) (o : find_options) (r : row) (d : db) (now : Z) :
  stamps_plain m -> fo_exclude o = [] ->
  get (load m o r) "deletedAt" <> Some VNull ->
  exists i', restore m now (load m o r) d
             = inr (i', set_tbl m (stamp_rows (r !! "id") VNull now (tbl m d)) d).
Proof.
  intros Hm Ho Hg. unfold restore.
  destruct (save_deletedAt m now (setDataValue "deletedAt" VNull (load m o r)) d
              VNull Hm eq_refl) as [i' Hi'].
  - intros k. apply changed_setDataValue.
  - unfold changed. apply list_elem_of_filter. split; [|apply mem_spec, Hm].
    apply Is_true_true, bool_decide_eq_true.
    cbn [setDataValue load dataValues previous]. rewrite lookup_insert_eq.
    unfold get in Hg. cbn [load dataValues] in Hg. congruence.
  - cbn [setDataValue dataValues]. apply lookup_insert_eq.
  - exists i'. rewrite Hi'. do 4 f_equal.
    cbn [setDataValue dataValues]. rewrite lookup_insert_ne by discriminate.
    now apply load_id.
Qed.

Lemma sql_eq_num (a b : Z) (v : value) :
  sql_eq (Some (VNum a)) v = true -> sql_eq (Some (VNum b)) v = true -> a = b.
Proof.
  destruct v; cbn [sql_eq]; try discriminate.
  - intros H1 H2. apply bool_decide_eq_true in H1. apply bool_decide_eq_true in H2.
    congruence.
  - destruct (int4_in s); [discriminate|].
    intros H1 H2. apply Z.eqb_eq in H1. apply Z.eqb_eq in H2. congruence.
Qed.

Lemma NoDup_map_inj {A B} (f : A -> B) (l : list A) (x y : A) :
  NoDup (map f l) -> x ∈ l -> y ∈ l -> f x = f y -> x = y.
Proof.
  induction l as [|a l IH]; intros Hnd Hx Hy Hf; [inversion Hx|].
  cbn [map] in Hnd. apply NoDup_cons in Hnd as [Hna Hnd].
  apply elem_of_cons in Hx as [->|Hx]; apply elem_of_cons in Hy as [->|Hy]; auto.
  - exfalso. apply Hna. rewrite Hf. apply list_elem_of_fmap. now exists y.
  - exfalso. apply Hna. rewrite <- Hf. apply list_elem_of_fmap. now exists x.
Qed.

Lemma primary_key_unique (t : table) (r r' : row) (v : value) :
  primary_key t -> r ∈ t -> r' ∈ t ->
  sql_eq (r !! "id") v = true -> sql_eq (r' !! "id") v = true -> r' = r.
Proof.
  intros [Hnd Hnum] Hr Hr' H H'.
  rewrite Forall_forall in Hnum.
  destruct (Hnum r Hr) as [a Ha], (Hnum r' Hr') as [b Hb].
  rewrite Ha in H. rewrite Hb in H'.
  apply (NoDup_map_inj (fun r : row => r !! "id") t r' r Hnd Hr' Hr).
  cbn. rewrite Ha, Hb. f_equal. f_equal. eapply sql_eq_num; eauto.
Qed.

(** The id of a request that matches a row of a table with a primary
    key is well formed. *)
Lemma found_well_formed (t : table) (r : row) (req : request) :
  primary_key t -> r ∈ t ->
  sql_eq (r !! "id") (default VNull (params_id req)) = true -> id_error req = None.
Proof.
  intros [_ Hnum] Hr H. rewrite Forall_forall in Hnum.
  destruct (Hnum r Hr) as [a Ha]. rewrite Ha in H. now apply (sql_eq_well_formed req a).
Qed.

Lemma head_filter_unique (P : row -> bool) (t : table) (r : row) :
  r ∈ t -> P r = true -> (forall r', r' ∈ t -> P r' = true -> r' = r) ->
  head (filter (fun x => P x) t) = Some r.
Proof.
  induction t as [|a t IH]; intros Hr HP Hu; [inversion Hr|].
  destruct (P a) eqn:Ha.
  - rewrite filter_cons_True by (rewrite Ha; exact I). cbn.
    f_equal. apply Hu; [constructor | done].
  - rewrite filter_cons_False by (rewrite Ha; exact id). apply IH.
    + apply elem_of_cons in Hr as [->|Hr]; [congruence | done].
    + done.
    + intros r' Hr'. apply Hu. now constructor.
Qed.

Lemma findOne_unique (m : model) (o : find_options) (d : db) (r : row) :
  r ∈ tbl m d -> selects m o r = true ->
  (forall r', r' ∈ tbl m d -> selects m o r' = true -> r' = r) ->
  findOne m o d = Some (load m o r).
Proof.
  intros Hr Hs Hu. unfold findOne, findAll.
  pose proof (head_filter_unique (selects m o) (tbl m d) r Hr Hs Hu) as H.
  destruct (filter _ (tbl m d)); [discriminate|]. cbn in *. congruence.
Qed.

Lemma stamped_id del now r : stamped del now r !! "id" = r !! "id".
Proof. unfold stamped. now rewrite !lookup_insert_ne by discriminate. Qed.

Lemma stamped_stamped del1 t1 del2 t2 r :
  stamped del2 t2 (stamped del1 t1 r) = stamped del2 t2 r.
Proof.
  unfold stamped. apply map_eq. intros k.
  destruct (String.eqb_spec k "deletedAt") as [->|H1]; [now rewrite !lookup_insert_eq|].
  rewrite !(lookup_insert_ne _ "deletedAt") by congruence.
  destruct (String.eqb_spec k "updatedAt") as [->|H2]; [now rewrite !lookup_insert_eq|].
  now rewrite !lookup_insert_ne by congruence.
Qed.

Lemma stamp_rows_twice id del1 t1 del2 t2 (t : table) :
  stamp_rows id del2 t2 (stamp_rows id del1 t1 t) = stamp_rows id del2 t2 t.
Proof.
  unfold stamp_rows, update_row. rewrite map_map. apply map_ext. intros r.
  fold (stamped del1 t1 r).
  destruct (bool_decide (r !! "id" = id)) eqn:Hid.
  - fold (stamped del2 t2 (stamped del1 t1 r)).
    rewrite stamped_id, Hid. fold (stamped del2 t2 r). apply stamped_stamped.
  - now rewrite Hid.
Qed.

Lemma stamp_rows_ids id del now (t : table) :
  map (fun r : row => r !! "id") (stamp_rows id del now t)
  = map (fun r : row => r !! "id") t.
Proof.
  unfold stamp_rows, update_row. rewrite map_map. apply map_ext. intros r.
  destruct (bool_decide _); [apply stamped_id | reflexivity].
Qed.

Lemma stamp_rows_primary_key id del now (t : table) :
  primary_key t -> primary_key (stamp_rows id del now t).
Proof.
  intros [Hnd Hnum]. split; [now rewrite stamp_rows_ids|].
  unfold stamp_rows, update_row. rewrite Forall_forall in *.
  intros r' Hr'. apply list_elem_of_fmap in Hr' as (r & -> & Hr).
  destruct (bool_decide _); [|now apply Hnum].
  fold (stamped del now r). rewrite stamped_id. now apply Hnum.
Qed.

Lemma stamp_rows_elem del now (t : table) (r : row) :
  r ∈ t -> stamped del now r ∈ stamp_rows (r !! "id") del now t.
Proof.
  intros Hr. unfold stamp_rows, update_row. apply list_elem_of_fmap.
  exists r. split; [|done]. now rewrite bool_decide_eq_true_2.
Qed.

(** The generic step: a row that a [where] singles out by its id is soft
    deleted and restored. The time stamps are the only columns the
    [where] terms may not read. *)
Lemma soft_delete_restore (m : model) (w : list cond) (v : value) (r : row) (d : db)
    (t1 t2 : Z) :
  stamps_plain m -> primary_key (tbl m d) -> r ∈ tbl m d ->
  (forall r', forallb (row_matches r') (effective_where m w) = true ->
              sql_eq (r' !! "id") v = true) ->
  (forall r' del now, forallb (row_matches (stamped del now r')) (effective_where m w)
                      = forallb (row_matches r') (effective_where m w)) ->
  selects m (plain w) r = true ->
  let d1 := set_tbl m (stamp_rows (r !! "id") (VDate t1) t1 (tbl m d)) d in
  let d2 := set_tbl m (stamp_rows (r !! "id") VNull t2 (tbl m d)) d in
  findOne m (plain w) d = Some (load m (plain w) r)
  /\ (exists i1, destroy m t1 (load m (plain w) r) d = inr (i1, d1))
  /\ let r1 := stamped (VDate t1) t1 r in
     findOne m (with_deleted w) d1 = Some (load m (with_deleted w) r1)
     /\ is_null (get (load m (with_deleted w) r1) "deletedAt") = false
     /\ exists i2, restore m t2 (load m (with_deleted w) r1) d1 = inr (i2, d2).
Proof.
  intros Hm Hpk Hr Hid Hframe Hsel d1 d2.
  assert (forallb (row_matches r) (effective_where m w) = true
          /\ sql_null (r !! "deletedAt") = true) as [Hw Hlive].
  { unfold selects in Hsel. apply andb_true_iff in Hsel as [? H]. split; [done|].
    exact H. }
  split; [|split].
  - apply findOne_unique; [done..|].
    intros r' Hr' Hs'. unfold selects in Hs'. apply andb_true_iff in Hs' as [Hw' _].
    eapply primary_key_unique; eauto.
  - apply destroy_loaded; done.
  - cbv zeta.
    assert (tbl m d1 = stamp_rows (r !! "id") (VDate t1) t1 (tbl m d)) as Htbl
      by apply Hm.
    assert (get (load m (with_deleted w) (stamped (VDate t1) t1 r)) "deletedAt"
            <> Some VNull) as Hg.
    { unfold get. cbn [load dataValues]. rewrite project_lookup.
      destruct (mem "deletedAt" _); [|discriminate].
      unfold stamped. rewrite lookup_insert_eq. discriminate. }
    split; [|split].
    + apply findOne_unique.
      * rewrite Htbl. now apply stamp_rows_elem.
      * unfold selects. cbn [fo_where with_deleted fo_paranoid negb orb].
        rewrite Hframe, Hw. reflexivity.
      * intros r' Hr' Hs'. unfold selects in Hs'.
        cbn [fo_where with_deleted] in Hs'. apply andb_true_iff in Hs' as [Hw' _].
        eapply (primary_key_unique (tbl m d1) _ _ v);
          [rewrite Htbl; now apply stamp_rows_primary_key
          |rewrite Htbl; now apply stamp_rows_elem
          |exact Hr'
          |rewrite stamped_id; now apply Hid
          |now apply Hid].
    + destruct (get _ "deletedAt") as [[]|]; try reflexivity. congruence.
    + destruct (restore_loaded m (with_deleted w) (stamped (VDate t1) t1 r) d1 t2
                  Hm eq_refl Hg) as [i2 Hi2].
      exists i2. rewrite Hi2, stamped_id, Htbl, stamp_rows_twice.
      unfold d1, d2. now rewrite (sp_set m Hm).
Qed.

Lemma by_id_where (m : model) (req : request) :
  scopeWhere m = [("isActive", VBool true)] ->
  effective_where m (by_id req)
  = [CEq "isActive" (VBool true); CEq "id" (default VNull (params_id req))].
Proof. intros Hs. unfold effective_where, by_id. rewrite Hs. reflexivity. Qed.

Lemma by_id_frame (m : model) (req : request) (r : row) del now :
  scopeWhere m = [("isActive", VBool true)] ->
  forallb (row_matches (stamped del now r)) (effective_where m (by_id req))
  = forallb (row_matches r) (effective_where m (by_id req)).
Proof.
  intros Hs. rewrite (by_id_where m req Hs). cbn [forallb row_matches].
  unfold stamped. now rewrite !lookup_insert_ne by discriminate.
Qed.

Lemma by_id_determines (m : model) (req : request) (r : row) :
  scopeWhere m = [("isActive", VBool true)] ->
  forallb (row_matches r) (effective_where m (by_id req)) = true ->
  sql_eq (r !! "id") (default VNull (params_id req)) = true.
Proof.
  intros Hs. rewrite (by_id_where m req Hs). cbn [forallb row_matches].
  intros H. apply andb_true_iff in H as [_ H]. now apply andb_true_iff in H as [H _].
Qed.

(** Categories and products. On a table with a primary key, let [r] be
    the row the request names, visible to the handlers (active, not
    deleted). Then delete followed by restore both answer 200, and the
    store that results differs from the original one only in the row [r],
    and there only in [deletedAt], which is [null] again, and in
    [updatedAt], which holds the time of the restore. *)
Lemma delete_then_restore_catalog slugify (t1 t2 : Z) (req : request) (d : db)
    (r : row) :
  let id := default VNull (params_id req) in
  let visible (t : table) :=
    primary_key t /\ r ∈ t /\ sql_eq (r !! "id") id = true
    /\ sql_eq (r !! "isActive") (VBool true) = true
    /\ sql_null (r !! "deletedAt") = true in
  let restored (t : table) :=
    map (fun r0 : row => if bool_decide (r0 !! "id" = r !! "id")
                         then <["deletedAt" := VNull]> (<["updatedAt" := VDate t2]> r0)
                         else r0) t in
  (visible (categories d) ->
   let del := deleteCategory slugify t1 req d in
   let res := restoreCategory slugify t2 req del.2 in
   status del.1 = 200 /\ status res.1 = 200
   /\ res.2 = {| users := users d; admin_profiles := admin_profiles d;
                 categories := restored (categories d); products := products d |})
  /\ (visible (products d) ->
      let del := deleteProduct slugify t1 req d in
      let res := restoreProduct slugify t2 req del.2 in
      status del.1 = 200 /\ status res.1 = 200
      /\ res.2 = {| users := users d; admin_profiles := admin_profiles d;
                    categories := categories d; products := restored (products d) |}).
Proof.
  intros id visible restored. split.
  - intros (Hpk & Hr & Hid & Hact & Hlive).
    destruct (soft_delete_restore (Category slugify) (by_id req) id r d t1 t2
                (Category_stamps_plain slugify) Hpk Hr)
      as (Hf & [i1 Hd] & Hf1 & Hg & [i2 Hres]).
    + intros r'. now apply by_id_determines.
    + intros r' del now. now apply by_id_frame.
    + unfold selects. cbn [plain fo_where fo_paranoid negb orb].
      rewrite by_id_where by reflexivity. cbn [forallb row_matches]. fold id.
      now rewrite Hact, Hid, Hlive.
    + unfold deleteCategory. rewrite Hf, Hd. cbn [fst snd].
      unfold restoreCategory. rewrite Hf1, Hg, Hres. cbn [fst snd status].
      repeat split.
  - intros (Hpk & Hr & Hid & Hact & Hlive).
    destruct (soft_delete_restore (Product slugify) (by_id req) id r d t1 t2
                (Product_stamps_plain slugify) Hpk Hr)
      as (Hf & [i1 Hd] & Hf1 & Hg & [i2 Hres]).
    + intros r'. now apply by_id_determines.
    + intros r' del now. now apply by_id_frame.
    + unfold selects. cbn [plain fo_where fo_paranoid negb orb].
      rewrite by_id_where by reflexivity. cbn [forallb row_matches]. fold id.
      now rewrite Hact, Hid, Hlive.
    + unfold deleteProduct. rewrite Hf, Hd. cbn [fst snd].
      unfold restoreProduct. rewrite Hf1, Hg, Hres. cbn [fst snd status].
      repeat split.
Qed.

(** ** Uniqueness of category names *)

Lemma Category_where slugify (w : list cond) :
  existsb (fun c => String.eqb (cond_key c) "isActive") w = false ->
  effective_where (Category slugify) w = CEq "isActive" (VBool true) :: w.
Proof.
  intros H. unfold effective_where. cbn [scopeWhere Category].
  rewrite filter_cons_True by (cbn [fst]; rewrite H; exact I). reflexivity.
Qed.

(** C4, at the failing input. Category 1 of the sample store is named
    Fruits, is active and is not deleted. A request to create a second
    Fruits under a slug of its own fails the name check of the validator
    chain, but the chain only records the failure:
    [handleValidationErrors] ran before it, the controller runs after it,
    and the model has a unique index on the slug alone. The answer is 201
    and the table holds two categories named Fruits, where the property
    asks for a 400. *)
Theorem post_category_accepts_duplicate_name :
  let req := sample_request None []
               [("name", VStr "Fruits"); ("slug", VStr "fruits-2")] in
  let r := post_category slugify_ascii 3000 req sample_db in
  map (fun c : row => (c !! "name", c !! "isActive", c !! "deletedAt"))
      (rows_with_id (categories sample_db) (VNum 1))
    = [(Some (VStr "Fruits"), Some (VBool true), Some VNull)]
  /\ (categoryValidations slugify_ascii req sample_db).1
     = ["Category name already exists"]
  /\ status r.1 = 201
  /\ map (fun c : row => (c !! "name", c !! "slug")) (categories r.2)
     = [(Some (VStr "Fruits"), Some (VStr "fruits"));
        (Some (VStr "Cakes"), Some (VStr "cakes"));
        (Some (VStr "Biscuits"), Some (VStr "biscuits"));
        (Some (VStr "Fruits"), Some (VStr "fruits-2"))].
Proof. vm_compute. repeat split; reflexivity. Qed.

(** Without a slug of its own the second Fruits is refused, by the unique
    index on the slug that the name setter derives; and an update of
    category 1 to its own name is accepted. *)
Lemma post_category_same_slug_refused :
  let req := sample_request None [] [("name", VStr "Fruits")] in
  let r := post_category slugify_ascii 3000 req sample_db in
  status r.1 = 400
  /\ field "message" (body r.1) = Some (JArr [jstr "This slug is already in use"])
  /\ r.2 = sample_db.
Proof. vm_compute. repeat split; reflexivity. Qed.

Lemma put_category_own_name :
  let req := sample_request (Some (VStr "1")) [] [("name", VStr "Fruits")] in
  (categoryValidations slugify_ascii req sample_db).1 = []
  /\ status (put_category slugify_ascii 3000 req sample_db).1 = 200.
Proof. vm_compute. split; reflexivity. Qed.

(** What the name check of the validator chain looks at: the categories
    with that name that are active, not deleted, and not the record the
    request names by its own id. *)
Lemma category_name_taken_spec slugify (req : request) (d : db) (name : string) :
  category_name_taken slugify req name d = true <->
  exists r, r ∈ categories d
    /\ sql_eq (r !! "isActive") (VBool true) = true
    /\ sql_eq (r !! "name") (VStr name) = true
    /\ sql_eq (r !! "id") (own_id req) = false
    /\ sql_null (r !! "deletedAt") = true.
Proof.
  unfold category_name_taken. rewrite bool_decide_eq_true.
  assert (forall r, selects (Category slugify)
                      (plain [CEq "name" (VStr name); CNotId (own_id req)]) r = true
            <-> sql_eq (r !! "isActive") (VBool true) = true
                /\ sql_eq (r !! "name") (VStr name) = true
                /\ sql_eq (r !! "id") (own_id req) = false
                /\ sql_null (r !! "deletedAt") = true) as Hsel.
  { intros r. unfold selects. cbn [plain fo_where fo_paranoid negb orb].
    rewrite Category_where by reflexivity. cbn [forallb row_matches].
    rewrite !andb_true_iff, negb_true_iff. tauto. }
  split.
  - intros [i Hi]. apply findOne_load in Hi as (r & Hr & Hs & _).
    exists r. split; [done|]. now apply Hsel.
  - intros (r & Hr & H). eapply (findOne_some (Category slugify)); [exact Hr|].
    now apply Hsel.
Qed.

(** ** Slug derivation *)

Section Slug.

Variable slugify : string -> string.

(** What the code relies on: called with [lower: true], slugify returns a
    lower-case string; and it trims its argument, so that a name whose
    slug is empty has an empty slug after trimming as well. *)
Hypothesis slugify_lower : forall s, toLowerCase (slugify s) = slugify s.
Hypothesis slugify_empty : forall s, slugify s = "" -> slugify (trim s) = "".

Lemma slug_hook_other (dv dv1 : row) (k : string) :
  slug_hook slugify dv = inr dv1 -> k <> "slug" -> dv1 !! k = dv !! k.
Proof.
  unfold slug_hook, as_string. intros H Hk.
  repeat match type of H with
         | match (if ?c then _ else _) with _ => _ end = _ => destruct c
         | match (match ?x with _ => _ end) with _ => _ end = _ =>
             destruct x; try discriminate
         | (if ?c then _ else _) = _ => destruct c
         | match ?x with _ => _ end = _ => destruct x; try discriminate
         end; injection H as <-; rewrite ?lookup_insert_ne by congruence; reflexivity.
Qed.

Lemma Category_sluggable : sluggable slugify (Category slugify).
Proof.
  split; try reflexivity; try (split; reflexivity); try (intros; reflexivity).
  - intros dv dv' H. exists dv'. cbn in H. repeat split; [done|].
    now apply (slug_hook_other dv dv').
  - intros now dv. cbn [validators Category]. unfold Category_validators.
    cbn [String.eqb Ascii.eqb Bool.eqb]. unfold attr_validate.
    destruct (sql_null (dv !! "slug")); [discriminate|].
    destruct (is_slug _); [auto | discriminate].
  - intros now dv H. cbn [validators Category]. unfold Category_validators.
    cbn [String.eqb Ascii.eqb Bool.eqb]. rewrite H. discriminate.
Qed.

Lemma Product_sluggable : sluggable slugify (Product slugify).
Proof.
  split; try reflexivity; try (split; reflexivity); try (intros; reflexivity).
  - intros dv dv' H. cbn [beforeValidate Product] in H.
    unfold Product_beforeValidate in H.
    destruct (slug_hook slugify dv) as [e|dv1] eqn:Hh; [discriminate|].
    exists dv1. split; [reflexivity|].
    pose proof (slug_hook_other dv dv1 "name" Hh ltac:(discriminate)) as Hn.
    destruct (is_defined _); injection H as <-; [|auto].
    now rewrite !lookup_insert_ne by discriminate.
  - intros now dv. cbn [validators Product]. unfold Product_validators.
    cbn [String.eqb Ascii.eqb Bool.eqb]. unfold attr_validate.
    destruct (sql_null (dv !! "slug")); [discriminate|].
    destruct (is_slug _); [auto | discriminate].
  - intros now dv H. cbn [validators Product]. unfold Product_validators.
    cbn [String.eqb Ascii.eqb Bool.eqb]. rewrite H. discriminate.
Qed.

Section Sluggable.

Variable m : model.
Hypothesis Hm : sluggable slugify m.

Lemma set_attr_slug k v i i' :
  set_attr m k v i = inr i' ->
  dataValues i' !! "slug" = slug_after slugify k v (dataValues i !! "slug")
  /\ (k = "name" -> exists s, v = VStr s)
  /\ isNewRecord i' = isNewRecord i /\ previous i' = previous i
  /\ (k <> "id" \/ truthy (dataValues i !! "id") = true ->
      dataValues i' !! "id" = dataValues i !! "id").
Proof.
  unfold set_attr, slug_after. rewrite (sg_setter slugify m Hm).
  destruct (String.eqb_spec k "name") as [->|Hname].
  - unfold name_setter, as_string. destruct v; try discriminate.
    intros H. injection H as <-. cbn [dataValues isNewRecord previous].
    rewrite (lookup_insert_ne _ "name" "slug") by discriminate.
    split; [|split; [eauto|split; [done|split; [done|]]]].
    + destruct (truthy (dataValues i !! "slug")); cbn [negb];
        [now rewrite lookup_insert_ne by discriminate | now rewrite lookup_insert_eq].
    + intros _. destruct (negb _); now rewrite !lookup_insert_ne by discriminate.
  - destruct (String.eqb_spec k "slug") as [->|Hslug].
    + rewrite (proj1 (sg_slug slugify m Hm)).
      cbn [negb String.eqb Ascii.eqb Bool.eqb andb].
      assert (mem "slug" readOnlyAttributes = false) as -> by reflexivity.
      rewrite andb_false_r. unfold sanitize. rewrite (sg_text slugify m Hm).
      intros H. injection H as <-.
      cbn [dataValues isNewRecord previous]. rewrite lookup_insert_eq.
      repeat split; try (intros; discriminate).
      intros _. now rewrite lookup_insert_ne by discriminate.
    + intros H.
      repeat match type of H with
             | (if ?c then _ else _) = _ => destruct c eqn:?
             end; injection H as <-; cbn [dataValues isNewRecord previous];
        rewrite ?(lookup_insert_ne _ k "slug") by congruence;
        repeat split; try (intros; congruence).
      intros [Hk|Ht].
      * now rewrite lookup_insert_ne by congruence.
      * match goal with
        | Hc : (String.eqb k "id" && _)%bool = false |- _ =>
            rewrite Ht, andb_true_r in Hc; apply String.eqb_neq in Hc
        end.
        now rewrite lookup_insert_ne by congruence.
Qed.

Lemma pget_notin (k : string) (p : payload) : k ∉ map fst p -> pget k p = None.
Proof.
  induction p as [|[k' v] p IH]; [reflexivity|]. cbn [map fst pget]. intros H.
  apply not_elem_of_cons in H as [Hne H].
  destruct (String.eqb_spec k k'); [congruence | auto].
Qed.

Lemma pget_in (k : string) (v : value) (p : payload) :
  pget k p = Some v -> k ∈ map fst p.
Proof.
  induction p as [|[k' v'] p IH]; [discriminate|]. cbn [map fst pget].
  destruct (String.eqb_spec k k') as [->|]; [constructor | right; auto].
Qed.


Lemma pget_pset_ne (k k0 : string) (v : value) (p : payload) :
  k0 <> k -> pget k0 (pset k v p) = pget k0 p.
Proof.
  intros Hne. induction p as [|[k' v'] p IH]; cbn [pset pget].
  - destruct (String.eqb_spec k0 k); [congruence | reflexivity].
  - destruct (String.eqb_spec k k') as [->|Hk]; cbn [pget].
    + destruct (String.eqb_spec k0 k'); [congruence | reflexivity].
    + now rewrite IH.
Qed.

Lemma pset_keys (k : string) (v : value) (p : payload) (k0 : string) :
  k0 ∈ map fst (pset k v p) <-> k0 = k \/ k0 ∈ map fst p.
Proof.
  induction p as [|[k' v'] p IH]; cbn [pset map fst].
  - rewrite elem_of_cons. rewrite elem_of_nil. tauto.
  - destruct (String.eqb_spec k k') as [->|Hk]; cbn [map fst];
      rewrite !elem_of_cons; [tauto | rewrite IH; tauto].
Qed.

Lemma pset_NoDup (k : string) (v : value) (p : payload) :
  NoDup (map fst p) -> NoDup (map fst (pset k v p)).
Proof.
  induction p as [|[k' v'] p IH]; cbn [pset map fst]; intros H.
  - apply NoDup_singleton.
  - apply NoDup_cons in H as [Hnin H].
    destruct (String.eqb_spec k k') as [->|Hk]; cbn [map fst]; apply NoDup_cons.
    + done.
    + split; [|auto]. rewrite pset_keys. intros [|]; congruence.
Qed.

Lemma set_all_frame (p : payload) (i i' : instance) :
  set_all m p i = inr i' ->
  isNewRecord i' = isNewRecord i /\ previous i' = previous i
  /\ (truthy (dataValues i !! "id") = true ->
      dataValues i' !! "id" = dataValues i !! "id").
Proof.
  revert i. induction p as [|[k v] p IH]; intros i H.
  - injection H as <-. auto.
  - cbn [set_all] in H. destruct (set_attr m k v i) as [e|i1] eqn:H1; [discriminate|].
    apply set_attr_slug in H1 as (_ & _ & Hn & Hp & Hid).
    destruct (IH i1 H) as (Hn' & Hp' & Hid'). repeat split; try congruence.
    intros Ht. rewrite Hid', Hid; auto. rewrite Hid; auto.
Qed.



Lemma set_attr_name k v i i' :
  set_attr m k v i = inr i' ->
  dataValues i' !! "name"
  = if String.eqb k "name"
    then match v with VStr s => Some (VStr (trim s)) | _ => None end
    else dataValues i !! "name".
Proof.
  unfold set_attr. rewrite (sg_setter slugify m Hm).
  destruct (String.eqb_spec k "name") as [->|Hname].
  - unfold name_setter, as_string. destruct v; try discriminate.
    intros H. injection H as <-. cbn [dataValues].
    destruct (negb _); [rewrite lookup_insert_ne by discriminate|];
      now rewrite lookup_insert_eq.
  - intros H.
    repeat match type of H with
           | (if ?c then _ else _) = _ => destruct c eqn:?
           end; injection H as <-; cbn [dataValues];
      rewrite ?lookup_insert_ne by congruence; reflexivity.
Qed.





Lemma mem_save_fields (new : bool) (fields0 : list string) (k : string) :
  mem k fields0 = true -> mem k (save_fields new fields0) = true.
Proof.
  intros H. unfold save_fields.
  destruct new, (0 <? Z.of_nat (length fields0))%Z;
    rewrite ?mem_uniq_concat, ?H; reflexivity.
Qed.





End Sluggable.



End Slug.

(** *** The ASCII slugify satisfies what the derivation relies on *)



















Lemma sample_categories_primary_key : primary_key (categories sample_db).
Proof.
  split.
  - apply (bool_decide_unpack _). vm_compute. exact I.
  - repeat constructor; eexists; reflexivity.
Qed.

(** *** The same for an admin and its profile *)

Lemma findOne_tbl (m : model) (o : find_options) (d d' : db) :
  tbl m d = tbl m d' -> findOne m o d = findOne m o d'.
Proof. unfold findOne, findAll. now intros ->. Qed.

Lemma admin_where_frame hash isEmail (req : request) (r : row) del now :
  forallb (row_matches (stamped del now r))
          (effective_where (User hash isEmail) (admin_where req))
  = forallb (row_matches r) (effective_where (User hash isEmail) (admin_where req)).
Proof.
  rewrite effective_where_User. cbn [admin_where forallb row_matches].
  unfold stamped. now rewrite !lookup_insert_ne by discriminate.
Qed.

Lemma admin_where_determines hash isEmail (req : request) (r : row) :
  forallb (row_matches r) (effective_where (User hash isEmail) (admin_where req)) = true ->
  sql_eq (r !! "id") (default VNull (params_id req)) = true.
Proof.
  rewrite effective_where_User. cbn [admin_where forallb row_matches].
  intros H. now apply andb_true_iff in H as [H _].
Qed.

Lemma by_user_selects (uid : value) (paranoid : bool) (pr : row) :
  selects AdminProfile (by_user uid paranoid) pr
  = sql_eq (pr !! "userId") uid && (negb paranoid || sql_null (pr !! "deletedAt")).
Proof.
  unfold selects, effective_where. cbn [scopeWhere AdminProfile by_user fo_where
    fo_paranoid]. cbn. now rewrite andb_true_r.
Qed.

Lemma delete_then_restore_admin hash isEmail (t1 t2 : Z) (req : request) (d : db)
    (u : row) (profile : option row) :
  let id := default VNull (params_id req) in
  let uid := default VNull (u !! "id") in
  primary_key (users d) -> u ∈ users d ->
  sql_eq (u !! "id") id = true ->
  sql_eq (u !! "accountType") (VStr "admin") = true ->
  sql_null (u !! "deletedAt") = true ->
  (forall pr, pr ∈ admin_profiles d -> sql_eq (pr !! "userId") uid = true ->
              profile = Some pr /\ sql_null (pr !! "deletedAt") = true) ->
  (forall pr, profile = Some pr ->
              pr ∈ admin_profiles d /\ sql_eq (pr !! "userId") uid = true) ->
  let del := deleteAdmin hash isEmail t1 req d in
  let res := restoreAdmin hash isEmail t2 req del.2 in
  status del.1 = 200 /\ status res.1 = 200
  /\ res.2 = {| users := stamp_rows (u !! "id") VNull t2 (users d);
                admin_profiles :=
                  match profile with
                  | Some pr => stamp_rows (pr !! "id") VNull t2 (admin_profiles d)
                  | None => admin_profiles d
                  end;
                categories := categories d; products := products d |}.
Proof.
  intros id uid Hpk Hu Hid Hadm Hlive Hprof Hprof'.
  pose proof (User_stamps_plain hash isEmail) as HU.
  assert (exists n, u !! "id" = Some (VNum n)) as [n Hn].
  { destruct Hpk as [_ Hnum]. rewrite Forall_forall in Hnum. now apply Hnum. }
  assert (uid = VNum n) as Huid by (unfold uid; now rewrite Hn).
  (* the profile that the include finds, given the rows of the profile table *)
  assert (forall (paranoid : bool) o r0 d0 (f : row -> row),
            fo_exclude o = [] -> r0 !! "id" = u !! "id" ->
            admin_profiles d0 = map f (admin_profiles d) ->
            (forall pr, f pr !! "userId" = pr !! "userId") ->
            (forall pr, profile = Some pr ->
                        negb paranoid || sql_null (f pr !! "deletedAt") = true) ->
            profile_of paranoid (load (User hash isEmail) o r0) d0
            = load AdminProfile (by_user uid paranoid) <$> (f <$> profile)) as Hfind.
  { intros paranoid o r0 d0 f Ho Hr0 Hd0 Hf Hl. unfold profile_of, get.
    rewrite (load_id _ o r0 HU Ho), Hr0, Hn.
    fold (by_user (VNum n) paranoid). rewrite <- Huid.
    destruct profile as [pr|]; cbn [fmap option_fmap option_map].
    - destruct (Hprof' pr eq_refl) as [Hin Hsel].
      apply findOne_unique.
      + cbn [tbl AdminProfile]. rewrite Hd0. apply list_elem_of_fmap. eauto.
      + rewrite by_user_selects, Hf, Hsel. now apply Hl.
      + intros pr' Hin' Hs'. cbn [tbl AdminProfile] in Hin'. rewrite Hd0 in Hin'.
        apply list_elem_of_fmap in Hin' as (pr0 & -> & Hin0).
        rewrite by_user_selects, Hf in Hs'. apply andb_true_iff in Hs' as [Hs' _].
        destruct (Hprof pr0 Hin0 Hs') as [Heq _]. congruence.
    - apply findOne_none. intros pr' Hin'. cbn [tbl AdminProfile] in Hin'.
      rewrite Hd0 in Hin'. apply list_elem_of_fmap in Hin' as (pr0 & -> & Hin0).
      rewrite by_user_selects, Hf.
      destruct (sql_eq (pr0 !! "userId") uid) eqn:Hs; [|reflexivity].
      destruct (Hprof pr0 Hin0 Hs) as [Heq _]. discriminate. }
  (* the store after the profile was deleted *)
  set (da := match profile with
             | Some pr => set_tbl AdminProfile
                            (stamp_rows (pr !! "id") (VDate t1) t1 (admin_profiles d)) d
             | None => d
             end).
  assert (users da = users d) as Hda by (unfold da; now destruct profile).
  assert (primary_key (tbl (User hash isEmail) da)) as Hpk'
    by (cbn [tbl User]; now rewrite Hda).
  assert (u ∈ tbl (User hash isEmail) da) as Hu' by (cbn [tbl User]; now rewrite Hda).
  destruct (soft_delete_restore (User hash isEmail) (admin_where req) id u da t1 t2
              HU Hpk' Hu')
    as (Hf & [i1 Hd] & Hf1 & _ & [i2 Hres]).
  { intros r'. apply admin_where_determines. }
  { intros r' del now. apply admin_where_frame. }
  { unfold selects. rewrite effective_where_User.
    cbn [plain admin_where fo_where fo_paranoid forallb row_matches negb orb].
    fold id. now rewrite Hid, Hadm, Hlive. }
  rewrite (findOne_tbl _ _ da d) in Hf by (cbn [tbl User]; exact Hda).
  cbn [tbl User] in Hd, Hf1, Hres. rewrite Hda in Hd, Hf1, Hres.
  (* delete *)
  assert (deleteAdmin hash isEmail t1 req d
          = ({| status := 200;
                body := ok_body (Some "Admin deleted successfully") None |},
             set_tbl (User hash isEmail)
                     (stamp_rows (u !! "id") (VDate t1) t1 (users d)) da)) as Hdel.
  { unfold deleteAdmin, find_admin. rewrite Hf.
    rewrite (Hfind true (plain (admin_where req)) u d (fun r => r) eq_refl eq_refl);
      [|now rewrite map_id|reflexivity|].
    2: { intros pr Hpr. destruct (Hprof' pr Hpr) as [Hin Hsel].
         now destruct (Hprof pr Hin Hsel) as [_ ->]. }
    destruct profile as [pr|]; cbn [fmap option_fmap option_map].
    - destruct (Hprof' pr eq_refl) as [Hin Hsel].
      destruct (Hprof pr Hin Hsel) as [_ Hl].
      destruct (destroy_loaded AdminProfile (by_user uid true) pr d t1
                  AdminProfile_stamps_plain eq_refl Hl) as [ip Hip].
      change (tbl AdminProfile d) with (admin_profiles d) in Hip.
      rewrite Hip. cbn [written]. fold da. now rewrite Hd.
    - cbn [written]. fold da. now rewrite Hd. }
  intros del res. subst del res. rewrite Hdel. cbn [fst snd status].
  split; [reflexivity|].
  (* restore *)
  unfold restoreAdmin, find_admin. rewrite Hf1, Hres. cbn [written].
  rewrite (Hfind false (with_deleted (admin_where req)) (stamped (VDate t1) t1 u) _
             (match profile with
              | Some pr => fun r => if bool_decide (r !! "id" = pr !! "id")
                                    then stamped (VDate t1) t1 r else r
              | None => fun r => r
              end) eq_refl (stamped_id _ _ _)); [| |  |reflexivity].
  2: { unfold da. destruct profile; [reflexivity|]. cbn. now rewrite map_id. }
  2: { intros pr. destruct profile; [|reflexivity].
       destruct (bool_decide _); [|reflexivity].
       unfold stamped. now rewrite !lookup_insert_ne by discriminate. }
  destruct profile as [pr|]; cbn [fmap option_fmap option_map].
  - rewrite bool_decide_eq_true_2 by reflexivity.
    destruct (restore_loaded AdminProfile (by_user uid false) (stamped (VDate t1) t1 pr)
                (set_tbl (User hash isEmail)
                         (stamp_rows (u !! "id") VNull t2 (users d)) da) t2
                AdminProfile_stamps_plain eq_refl) as [ip Hip].
    { unfold get. cbn [load dataValues]. rewrite project_lookup.
      destruct (mem "deletedAt" _); [|discriminate].
      unfold stamped. rewrite lookup_insert_eq. discriminate. }
    rewrite Hip. cbn [fst snd status]. split; [reflexivity|].
    rewrite stamped_id. unfold da.
    cbn [written snd set_tbl tbl User AdminProfile users admin_profiles categories
         products].
    now rewrite stamp_rows_twice.
  - cbn [fst snd status]. split; reflexivity.
Qed.

(** C7. Let [r] be the row the request names in a table with a primary
    key, visible to the delete handler. Delete followed by restore both
    answer 200, and the store that results differs from the original one
    only in that row, and there only in [deletedAt], which is [null]
    again, and in [updatedAt], which holds the time of the restore. For an
    admin the same holds of the user row and of the row of its profile,
    when it has one. *)
Theorem delete_then_restore_frame slugify hash isEmail (t1 t2 : Z) (req : request)
    (d : db) (r : row) (profile : option row) :
  let id := default VNull (params_id req) in
  let named (t : table) :=
    primary_key t /\ r ∈ t /\ sql_eq (r !! "id") id = true in
  let live (x : row) := sql_null (x !! "deletedAt") = true in
  let restored (x : row) (t : table) :=
    map (fun r0 : row => if bool_decide (r0 !! "id" = x !! "id")
                         then <["deletedAt" := VNull]> (<["updatedAt" := VDate t2]> r0)
                         else r0) t in
  (named (categories d) -> sql_eq (r !! "isActive") (VBool true) = true -> live r ->
   let del := deleteCategory slugify t1 req d in
   let res := restoreCategory slugify t2 req del.2 in
   status del.1 = 200 /\ status res.1 = 200
   /\ res.2 = {| users := users d; admin_profiles := admin_profiles d;
                 categories := restored r (categories d); products := products d |})
  /\ (named (products d) -> sql_eq (r !! "isActive") (VBool true) = true -> live r ->
      let del := deleteProduct slugify t1 req d in
      let res := restoreProduct slugify t2 req del.2 in
      status del.1 = 200 /\ status res.1 = 200
      /\ res.2 = {| users := users d; admin_profiles := admin_profiles d;
                    categories := categories d; products := restored r (products d) |})
  /\ (named (users d) -> sql_eq (r !! "accountType") (VStr "admin") = true -> live r ->
      (forall pr, pr ∈ admin_profiles d ->
                  sql_eq (pr !! "userId") (default VNull (r !! "id")) = true ->
                  profile = Some pr /\ live pr) ->
      (forall pr, profile = Some pr ->
                  pr ∈ admin_profiles d
                  /\ sql_eq (pr !! "userId") (default VNull (r !! "id")) = true) ->
      let del := deleteAdmin hash isEmail t1 req d in
      let res := restoreAdmin hash isEmail t2 req del.2 in
      status del.1 = 200 /\ status res.1 = 200
      /\ res.2 = {| users := restored r (users d);
                    admin_profiles := match profile with
                                      | Some pr => restored pr (admin_profiles d)
                                      | None => admin_profiles d
                                      end;
                    categories := categories d; products := products d |}).
Proof.
  intros id named live restored.
  destruct (delete_then_restore_catalog slugify t1 t2 req d r) as [Hc Hp].
  split; [|split].
  - intros (Hpk & Hr & Hid) Hact Hlive. apply Hc.
    exact (conj Hpk (conj Hr (conj Hid (conj Hact Hlive)))).
  - intros (Hpk & Hr & Hid) Hact Hlive. apply Hp.
    exact (conj Hpk (conj Hr (conj Hid (conj Hact Hlive)))).
  - intros (Hpk & Hr & Hid) Hadm Hlive Hprof Hprof'.
    exact (delete_then_restore_admin hash isEmail t1 t2 req d r profile
             Hpk Hr Hid Hadm Hlive Hprof Hprof').
Qed.

Lemma sample_users_primary_key : primary_key (users sample_db).
Proof.
  split.
  - apply (bool_decide_unpack _). vm_compute. exact I.
  - repeat constructor; eexists; reflexivity.
Qed.

Lemma delete_then_restore_frame_witness :
  (let req := sample_request (Some (VStr "1")) [] [] in
   let del := deleteCategory slugify_ascii 3000 req sample_db in
   let res := restoreCategory slugify_ascii 4000 req del.2 in
   status del.1 = 200 /\ status res.1 = 200
   /\ map map_to_list (categories res.2)
      = map map_to_list
          [<["updatedAt" := VDate 4000]> (category_row 1 "Fruits" "fruits" true VNull);
           category_row 2 "Cakes" "cakes" true (VDate 2000);
           category_row 3 "Biscuits" "biscuits" false VNull])
  /\ (let req := sample_request (Some (VStr "1")) [] [] in
      let del := deleteAdmin sample_hash sample_isEmail 3000 req sample_db in
      let res := restoreAdmin sample_hash sample_isEmail 4000 req del.2 in
      status del.1 = 200 /\ status res.1 = 200
      /\ map map_to_list (users res.2)
         = map map_to_list
             [<["updatedAt" := VDate 4000]> (user_row 1 "admin@shop.test" "admin" VNull);
              user_row 2 "customer@shop.test" "customer" VNull]
      /\ map map_to_list (admin_profiles res.2)
         = map map_to_list
             [<["updatedAt" := VDate 4000]> (profile_row 1 1 "Ann" "Lee" VNull)]).
Proof.
  split.
  - intros req del res.
    destruct (delete_then_restore_frame slugify_ascii sample_hash sample_isEmail
                3000 4000 req sample_db
                (category_row 1 "Fruits" "fruits" true VNull) None) as [H _].
    destruct H as (H1 & H2 & H3).
    + split; [exact sample_categories_primary_key|].
      split; [unfold sample_db, categories; apply elem_of_cons; now left|].
      vm_compute; reflexivity.
    + vm_compute; reflexivity.
    + vm_compute; reflexivity.
    + split; [exact H1|]. split; [exact H2|].
      fold del res in H3. rewrite H3. vm_compute. reflexivity.
  - intros req del res.
    destruct (delete_then_restore_frame slugify_ascii sample_hash sample_isEmail
                3000 4000 req sample_db
                (user_row 1 "admin@shop.test" "admin" VNull)
                (Some (profile_row 1 1 "Ann" "Lee" VNull))) as (_ & _ & H).
    destruct H as (H1 & H2 & H3).
    + split; [exact sample_users_primary_key|].
      split; [unfold sample_db, users; apply elem_of_cons; now left|].
      vm_compute; reflexivity.
    + vm_compute; reflexivity.
    + vm_compute; reflexivity.
    + intros pr Hpr Hs. unfold sample_db, admin_profiles in Hpr.
      apply elem_of_cons in Hpr as [->|Hpr]; [|inversion Hpr].
      split; [reflexivity | vm_compute; reflexivity].
    + intros pr Hpr. injection Hpr as <-.
      split; [unfold sample_db, admin_profiles; apply elem_of_cons; now left|].
      vm_compute; reflexivity.
    + split; [exact H1|]. split; [exact H2|].
      fold del res in H3. rewrite H3. split; vm_compute; reflexivity.
Defined.

(** * Further properties of the handlers *)

(** ** Records the handlers cannot see *)

Lemma by_id_none (m : model) (req : request) (d : db) (paranoid : bool) :
  scopeWhere m = [("isActive", VBool true)] ->
  (forall r, r ∈ tbl m d ->
             sql_eq (r !! "id") (default VNull (params_id req)) = true ->
             sql_eq (r !! "isActive") (VBool true) = true ->
             paranoid = true /\ sql_null (r !! "deletedAt") = false) ->
  findOne m {| fo_where := by_id req; fo_paranoid := paranoid; fo_exclude := [] |} d = None.
Proof.
  intros Hs H. apply findOne_none. intros r Hr. unfold selects.
  cbn [fo_where fo_paranoid]. rewrite (by_id_where m req Hs).
  cbn [forallb row_matches].
  destruct (sql_eq (r !! "isActive") _) eqn:Ha; [|reflexivity].
  destruct (sql_eq (r !! "id") _) eqn:Hi; [|reflexivity].
  destruct (H r Hr Hi Ha) as [-> ->]. reflexivity.
Qed.

Lemma derive_slug_string slugify (p : payload) :
  (forall v, pget "name" p = Some v -> exists s, v = VStr s) ->
  exists p', derive_slug slugify p = inr p'.
Proof.
  intros H. unfold derive_slug.
  destruct (pget "name" p) as [v|] eqn:Hn.
  - destruct (H v eq_refl) as [s ->].
    destruct (_ && _); cbn [as_string]; eauto.
  - cbn [truthy andb]. eauto.
Qed.

Lemma truthy_with_default (k : string) (q : payload) :
  truthy (Some (with_default k (VBool false) q)) = truthy (pget k q).
Proof. unfold with_default. now destruct (pget k q). Qed.

Lemma find_admin_none hash isEmail (req : request) (d : db) (paranoid b : bool) :
  (forall r, r ∈ users d ->
             sql_eq (r !! "id") (default VNull (params_id req)) = true ->
             sql_eq (r !! "accountType") (VStr "admin") = true ->
             paranoid = true /\ sql_null (r !! "deletedAt") = false) ->
  find_admin hash isEmail
    {| fo_where := admin_where req; fo_paranoid := paranoid; fo_exclude := [] |} b d = None.
Proof.
  intros H. unfold find_admin.
  rewrite (findOne_none (User hash isEmail)); [reflexivity|].
  intros r Hr. unfold selects. cbn [fo_where fo_paranoid].
  rewrite effective_where_User. cbn [admin_where forallb row_matches].
  destruct (sql_eq (r !! "id") _) eqn:Hi; [|reflexivity].
  destruct (sql_eq (r !! "accountType") _) eqn:Ha; [|reflexivity].
  destruct (H r Hr Hi Ha) as [-> ->]. reflexivity.
Qed.

(** X1. Let the id of the URL be an integer literal of 32 bits, and let
    the table hold no row with that id that is active (for an admin: of
    account type admin) and not deleted. Then a read and a delete by id
    answer 404 and leave the store as it is; for [getProductById] this
    needs [includeDeleted] to be absent or falsy, since the handler looks
    among the deleted rows otherwise. An update by id does not answer 200
    and leaves the store as it is; it answers 404 when the name in the
    body is a string or the body has no name (the category and product
    handlers derive the slug from the name before they look the record
    up). Restore, and [getProductById] whatever [includeDeleted] holds,
    answer 404 when no active row has the id, deleted or not. *)
Theorem hidden_record_not_found slugify hash isEmail (now : Z) (req : request) (d : db) :
  let id := default VNull (params_id req) in
  let none (live : bool) (flag : string) (v : value) (t : table) :=
    Forall (fun r : row => sql_eq (r !! "id") id && sql_eq (r !! flag) v
                           && (negb live || sql_null (r !! "deletedAt")) = false) t in
  let named := forall v, pget "name" (rbody req) = Some v -> exists s, v = VStr s in
  let refused (r : response * db) := status r.1 <> 200 /\ r.2 = d in
  id_error req = None ->
  (none true "isActive" (VBool true) (categories d) ->
   getCategoryById slugify req d = (fail 404 "Category not found", d)
   /\ deleteCategory slugify now req d = (fail 404 "Category not found", d)
   /\ refused (updateCategory slugify now req d)
   /\ (named -> updateCategory slugify now req d = (fail 404 "Category not found", d)))
  /\ (none false "isActive" (VBool true) (categories d) ->
      restoreCategory slugify now req d = (fail 404 "Category not found", d))
  /\ (none true "isActive" (VBool true) (products d) ->
      (truthy (pget "includeDeleted" (query req)) = false ->
       getProductById slugify req d = (fail 404 "Product not found", d))
      /\ deleteProduct slugify now req d = (fail 404 "Product not found", d)
      /\ refused (updateProduct slugify now req d)
      /\ (named -> updateProduct slugify now req d = (fail 404 "Product not found", d)))
  /\ (none false "isActive" (VBool true) (products d) ->
      getProductById slugify req d = (fail 404 "Product not found", d)
      /\ restoreProduct slugify now req d = (fail 404 "Product not found", d))
  /\ (none true "accountType" (VStr "admin") (users d) ->
      getAdminById hash isEmail req d = (fail 404 "Admin not found", d)
      /\ updateAdmin hash isEmail now req d = (fail 404 "Admin not found", d)
      /\ deleteAdmin hash isEmail now req d = (fail 404 "Admin not found", d))
  /\ (none false "accountType" (VStr "admin") (users d) ->
      restoreAdmin hash isEmail now req d = (fail 404 "Admin not found", d)).
Proof.
  intros id none named refused Hwf.
  assert (forall msg, no_row req msg = fail 404 msg) as Hnr.
  { intros msg. now apply no_row_well_formed. }
  assert (forall live flag v t, none live flag v t ->
            forall r, r ∈ t -> sql_eq (r !! "id") id = true ->
                      sql_eq (r !! flag) v = true ->
                      live = true /\ sql_null (r !! "deletedAt") = false) as Hconv.
  { intros live flag v t H r Hr Hi Ha. unfold none in H. rewrite Forall_forall in H.
    specialize (H r Hr). rewrite Hi, Ha in H. cbn [andb] in H.
    apply orb_false_iff in H as [H1 H2]. apply negb_false_iff in H1. done. }
  repeat apply conj.
  - intros H0. pose proof (Hconv _ _ _ _ H0) as H.
    pose proof (by_id_none (Category slugify) req d true eq_refl H) as Hf.
    change {| fo_where := by_id req; fo_paranoid := true; fo_exclude := [] |}
      with (plain (by_id req)) in Hf.
    unfold getCategoryById, deleteCategory, updateCategory, refused.
    rewrite Hf, !Hnr.
    split; [reflexivity|]. split; [reflexivity|]. split.
    + destruct (derive_slug slugify (rbody req)) as [e|p']; cbn [fst snd];
        (split; [|reflexivity]); [apply errorHandler_not_200 | discriminate].
    + intros Hn.
      destruct (derive_slug_string slugify (rbody req) Hn) as [p' ->]. reflexivity.
  - intros H0. pose proof (Hconv _ _ _ _ H0) as H.
    pose proof (by_id_none (Category slugify) req d false eq_refl H) as Hf.
    unfold restoreCategory, with_deleted. now rewrite Hf, Hnr.
  - intros H0. pose proof (Hconv _ _ _ _ H0) as H.
    pose proof (by_id_none (Product slugify) req d true eq_refl H) as Hf.
    unfold getProductById, deleteProduct, updateProduct, plain, refused.
    rewrite Hf, !Hnr.
    split; [|split; [reflexivity|split]].
    + intros Hq. rewrite truthy_with_default, Hq. cbn [negb]. now rewrite Hf.
    + destruct (derive_slug slugify (rbody req)) as [e|p']; cbn [fst snd];
        (split; [|reflexivity]); [apply errorHandler_not_200 | discriminate].
    + intros Hn.
      destruct (derive_slug_string slugify (rbody req) Hn) as [p' ->]. reflexivity.
  - intros H0. pose proof (Hconv _ _ _ _ H0) as H. split.
    + unfold getProductById. rewrite (by_id_none (Product slugify) req d); [now rewrite Hnr|done|].
      intros r Hr Hi Ha. destruct (H r Hr Hi Ha) as [? _]. discriminate.
    + pose proof (by_id_none (Product slugify) req d false eq_refl H) as Hf.
      unfold restoreProduct, with_deleted. now rewrite Hf, Hnr.
  - intros H0. pose proof (Hconv _ _ _ _ H0) as H.
    pose proof (find_admin_none hash isEmail req d true true H) as Hf.
    unfold getAdminById, updateAdmin, deleteAdmin, plain. now rewrite Hf, !Hnr.
  - intros H0. pose proof (Hconv _ _ _ _ H0) as H.
    pose proof (find_admin_none hash isEmail req d false false H) as Hf.
    unfold restoreAdmin, with_deleted. now rewrite Hf, Hnr.
Qed.

(** The same requests with an id that is no integer literal: the query
    fails in the store and the answer is a 500. *)
Lemma getCategoryById_ill_formed_id :
  let req := sample_request (Some (VStr "abc")) [] [] in
  status (getCategoryById slugify_ascii req sample_db).1 = 500
  /\ status (deleteCategory slugify_ascii 3000 req sample_db).1 = 500
  /\ status (restoreProduct slugify_ascii 3000 req sample_db).1 = 500
  /\ status (getAdminById sample_hash sample_isEmail
               (sample_request (Some (VStr "2147483648")) [] []) sample_db).1 = 500.
Proof. vm_compute. repeat split; reflexivity. Qed.

(** ** Restore of a record that was never deleted: categories and products *)

Lemma load_no_deletedAt (m : model) (o : find_options) (r : row) :
  mem "deletedAt" (scopeExclude m) = true ->
  get (load m o r) "deletedAt" = None.
Proof.
  intros H. unfold get. cbn [load dataValues]. rewrite project_lookup.
  assert (mem "deletedAt" (selected_attributes m o) = false) as ->; [|reflexivity].
  apply not_true_is_false. intros Hm. apply mem_spec in Hm.
  unfold selected_attributes in Hm. apply list_elem_of_filter in Hm as [Hm _].
  apply Is_true_true in Hm. apply negb_true_iff in Hm.
  rewrite existsb_app in Hm. apply orb_false_iff in Hm as [Hm _].
  unfold mem in H. congruence.
Qed.

Lemma restore_by_id (m : model) (req : request) (d : db) (now : Z) :
  stamps_plain m -> scopeWhere m = [("isActive", VBool true)] ->
  mem "deletedAt" (scopeExclude m) = true ->
  let id := default VNull (params_id req) in
  let found (r : row) :=
    r ∈ tbl m d /\ sql_eq (r !! "id") id = true
    /\ sql_eq (r !! "isActive") (VBool true) = true in
  match findOne m (with_deleted (by_id req)) d with
  | None => forall r, ~ found r
  | Some i =>
      is_null (get i "deletedAt") = false
      /\ exists r i', found r
           /\ restore m now i d
              = inr (i', set_tbl m (stamp_rows (r !! "id") VNull now (tbl m d)) d)
  end.
Proof.
  intros Hm Hs Hex id found.
  destruct (findOne m (with_deleted (by_id req)) d) as [i|] eqn:Hf.
  - apply findOne_load in Hf as (r & Hr & Hsel & ->).
    rewrite (load_no_deletedAt m _ r Hex). split; [reflexivity|].
    destruct (restore_loaded m (with_deleted (by_id req)) r d now Hm eq_refl)
      as [i' Hi'].
    { now rewrite (load_no_deletedAt m _ r Hex). }
    exists r, i'. split; [|exact Hi'].
    unfold selects in Hsel. cbn [with_deleted fo_where] in Hsel.
    rewrite (by_id_where m req Hs) in Hsel. cbn [forallb row_matches] in Hsel.
    apply andb_true_iff in Hsel as [Hsel _].
    apply andb_true_iff in Hsel as [Ha Hi]. apply andb_true_iff in Hi as [Hi _].
    repeat split; assumption.
  - intros r (Hr & Hi & Ha).
    pose proof (findOne_some m (with_deleted (by_id req)) d r Hr) as Hsome.
    rewrite Hf in Hsome. destruct Hsome as [x Hx]; [|discriminate].
    unfold selects. cbn [with_deleted fo_where fo_paranoid negb orb].
    rewrite (by_id_where m req Hs). cbn [forallb row_matches]. fold id.
    now rewrite Hi, Ha.
Qed.


(** ** A deleted record is out of reach *)

Lemma stamp_rows_inv id del now (t : table) (r' : row) :
  r' ∈ stamp_rows id del now t ->
  exists r0, r0 ∈ t
    /\ r' = if bool_decide (r0 !! "id" = id) then stamped del now r0 else r0.
Proof.
  unfold stamp_rows, update_row. intros H.
  apply list_elem_of_fmap in H as (r0 & -> & H0). exists r0. split; [done|].
  reflexivity.
Qed.

Lemma deleted_row_unselected (m : model) (w : list cond) (v : value) (r : row) (d : db)
    (t : Z) :
  stamps_plain m -> primary_key (tbl m d) -> r ∈ tbl m d ->
  sql_eq (r !! "id") v = true ->
  (forall r', forallb (row_matches r') (effective_where m w) = true ->
              sql_eq (r' !! "id") v = true) ->
  findOne m (plain w) (set_tbl m (stamp_rows (r !! "id") (VDate t) t (tbl m d)) d) = None.
Proof.
  intros Hm Hpk Hr Hv Hid. apply findOne_none. intros r' Hr'.
  rewrite (sp_get m Hm) in Hr'. apply stamp_rows_inv in Hr' as (r0 & Hr0 & ->).
  unfold selects. cbn [plain fo_where fo_paranoid negb orb].
  destruct (forallb _ _) eqn:Hw; [|reflexivity]. apply Hid in Hw.
  destruct (bool_decide (r0 !! "id" = r !! "id")) eqn:Hb.
  - unfold stamped. now rewrite lookup_insert_eq.
  - apply bool_decide_eq_false in Hb. exfalso. apply Hb.
    now rewrite (primary_key_unique (tbl m d) r r0 v Hpk Hr Hr0 Hv Hw).
Qed.

Lemma delete_by_id (m : model) (req : request) (d : db) (r : row) (t : Z) :
  stamps_plain m -> scopeWhere m = [("isActive", VBool true)] ->
  primary_key (tbl m d) -> r ∈ tbl m d ->
  sql_eq (r !! "id") (default VNull (params_id req)) = true ->
  sql_eq (r !! "isActive") (VBool true) = true ->
  sql_null (r !! "deletedAt") = true ->
  let d1 := set_tbl m (stamp_rows (r !! "id") (VDate t) t (tbl m d)) d in
  findOne m (plain (by_id req)) d = Some (load m (plain (by_id req)) r)
  /\ (exists i1, destroy m t (load m (plain (by_id req)) r) d = inr (i1, d1))
  /\ findOne m (plain (by_id req)) d1 = None
  /\ stamped (VDate t) t r ∈ tbl m d1.
Proof.
  intros Hm Hs Hpk Hr Hid Hact Hlive d1.
  destruct (soft_delete_restore m (by_id req) (default VNull (params_id req)) r d t t
              Hm Hpk Hr) as (Hf & Hd & _).
  - intros r'. now apply by_id_determines.
  - intros r' del now. now apply by_id_frame.
  - unfold selects. cbn [plain fo_where fo_paranoid negb orb].
    rewrite (by_id_where m req Hs). cbn [forallb row_matches].
    now rewrite Hact, Hid, Hlive.
  - split; [exact Hf|]. split; [exact Hd|]. split.
    + apply (deleted_row_unselected m (by_id req) (default VNull (params_id req)));
        try assumption.
      intros r'. now apply by_id_determines.
    + unfold d1. rewrite (sp_get m Hm). now apply stamp_rows_elem.
Qed.

(** X3. After a category or a product was deleted through its handler,
    the row is still stored, with [deletedAt] set to the time of the
    request. A read of the same id (for a product: without
    [includeDeleted], or with a falsy one) and a second delete answer 404;
    an update does not answer 200, and answers 404 when the name in its
    body is a string or the body has no name. None of them changes the
    store. *)
Theorem deleted_record_is_gone slugify (t1 t2 : Z) (req : request) (d : db) (r : row) :
  let id := default VNull (params_id req) in
  let target (t : table) :=
    primary_key t /\ r ∈ t /\ sql_eq (r !! "id") id = true
    /\ sql_eq (r !! "isActive") (VBool true) = true
    /\ sql_null (r !! "deletedAt") = true in
  let kept : row := <["deletedAt" := VDate t1]> (<["updatedAt" := VDate t1]> r) in
  let named := forall v, pget "name" (rbody req) = Some v -> exists s, v = VStr s in
  (target (categories d) ->
   let del := deleteCategory slugify t1 req d in
   status del.1 = 200 /\ kept ∈ categories del.2
   /\ getCategoryById slugify req del.2 = (fail 404 "Category not found", del.2)
   /\ deleteCategory slugify t2 req del.2 = (fail 404 "Category not found", del.2)
   /\ (status (updateCategory slugify t2 req del.2).1 <> 200
       /\ (updateCategory slugify t2 req del.2).2 = del.2)
   /\ (named ->
       updateCategory slugify t2 req del.2 = (fail 404 "Category not found", del.2)))
  /\ (target (products d) ->
      let del := deleteProduct slugify t1 req d in
      status del.1 = 200 /\ kept ∈ products del.2
      /\ (truthy (pget "includeDeleted" (query req)) = false ->
          getProductById slugify req del.2 = (fail 404 "Product not found", del.2))
      /\ deleteProduct slugify t2 req del.2 = (fail 404 "Product not found", del.2)
      /\ (status (updateProduct slugify t2 req del.2).1 <> 200
          /\ (updateProduct slugify t2 req del.2).2 = del.2)
      /\ (named ->
          updateProduct slugify t2 req del.2 = (fail 404 "Product not found", del.2))).
Proof.
  intros id target kept named. split.
  - intros (Hpk & Hr & Hid & Hact & Hlive).
    assert (forall msg, no_row req msg = fail 404 msg) as Hnr.
    { intros msg. apply no_row_well_formed. exact (found_well_formed _ r req Hpk Hr Hid). }
    destruct (delete_by_id (Category slugify) req d r t1 (Category_stamps_plain slugify)
                eq_refl Hpk Hr Hid Hact Hlive) as (Hf & [i1 Hd] & Hnone & Hin).
    unfold deleteCategory at 1. rewrite Hf, Hd. cbn [fst snd status].
    split; [reflexivity|]. split; [exact Hin|].
    unfold getCategoryById, deleteCategory, updateCategory. rewrite Hnone, !Hnr.
    split; [reflexivity|]. split; [reflexivity|]. split.
    + destruct (derive_slug slugify (rbody req)) as [e|p']; cbn [fst snd];
        (split; [|reflexivity]); [apply errorHandler_not_200 | discriminate].
    + intros Hn.
      destruct (derive_slug_string slugify (rbody req) Hn) as [p' ->]. reflexivity.
  - intros (Hpk & Hr & Hid & Hact & Hlive).
    assert (forall msg, no_row req msg = fail 404 msg) as Hnr.
    { intros msg. apply no_row_well_formed. exact (found_well_formed _ r req Hpk Hr Hid). }
    destruct (delete_by_id (Product slugify) req d r t1 (Product_stamps_plain slugify)
                eq_refl Hpk Hr Hid Hact Hlive) as (Hf & [i1 Hd] & Hnone & Hin).
    unfold deleteProduct at 1. rewrite Hf, Hd. cbn [fst snd status].
    split; [reflexivity|]. split; [exact Hin|].
    unfold getProductById, deleteProduct, updateProduct. rewrite Hnone, !Hnr.
    split; [|split; [reflexivity|split]].
    + intros Hq. rewrite truthy_with_default, Hq. cbn [negb].
      fold (plain (by_id req)). now rewrite Hnone.
    + destruct (derive_slug slugify (rbody req)) as [e|p']; cbn [fst snd];
        (split; [|reflexivity]); [apply errorHandler_not_200 | discriminate].
    + intros Hn.
      destruct (derive_slug_string slugify (rbody req) Hn) as [p' ->]. reflexivity.
Qed.

Lemma sample_products_primary_key : primary_key (products sample_db).
Proof.
  split.
  - apply (bool_decide_unpack _). vm_compute. exact I.
  - repeat constructor; eexists; reflexivity.
Qed.

Lemma hidden_record_not_found_witness :
  (let req := sample_request (Some (VStr "2")) [] [("name", VStr "Pies")] in
   getCategoryById slugify_ascii req sample_db = (fail 404 "Category not found", sample_db)
   /\ deleteCategory slugify_ascii 3000 req sample_db
      = (fail 404 "Category not found", sample_db)
   /\ updateCategory slugify_ascii 3000 req sample_db
      = (fail 404 "Category not found", sample_db)
   /\ getProductById slugify_ascii req sample_db = (fail 404 "Product not found", sample_db)
   /\ restoreProduct slugify_ascii 3000 req sample_db
      = (fail 404 "Product not found", sample_db)
   /\ getAdminById sample_hash sample_isEmail req sample_db
      = (fail 404 "Admin not found", sample_db)
   /\ restoreAdmin sample_hash sample_isEmail 3000 req sample_db
      = (fail 404 "Admin not found", sample_db))
  /\ (let req := sample_request (Some (VStr "3")) [] [] in
      restoreCategory slugify_ascii 3000 req sample_db
      = (fail 404 "Category not found", sample_db)).
Proof.
  split.
  - intros req.
    destruct (hidden_record_not_found slugify_ascii sample_hash sample_isEmail 3000 req
                sample_db eq_refl) as (Hc & _ & Hp & Hp' & Ha & Ha').
    destruct Hc as (H1 & H2 & _ & H3); [repeat constructor|].
    destruct Hp as (_ & _ & _ & _); [repeat constructor|].
    destruct Hp' as (H4 & H5); [repeat constructor|].
    destruct Ha as (H6 & _ & _); [repeat constructor|].
    specialize (Ha' ltac:(repeat constructor)).
    assert (forall v, pget "name" (rbody req) = Some v -> exists s, v = VStr s) as Hn.
    { intros v Hv. injection Hv as <-. eauto. }
    exact (conj H1 (conj H2 (conj (H3 Hn) (conj H4 (conj H5 (conj H6 Ha')))))).
  - intros req.
    destruct (hidden_record_not_found slugify_ascii sample_hash sample_isEmail 3000 req
                sample_db eq_refl) as (_ & Hc & _).
    apply Hc. repeat constructor.
Defined.

Lemma deleted_record_is_gone_witness :
  let req := sample_request (Some (VStr "1")) [] [] in
  (let del := deleteCategory slugify_ascii 3000 req sample_db in
   status del.1 = 200
   /\ getCategoryById slugify_ascii req del.2 = (fail 404 "Category not found", del.2)
   /\ deleteCategory slugify_ascii 4000 req del.2 = (fail 404 "Category not found", del.2)
   /\ updateCategory slugify_ascii 4000 req del.2
      = (fail 404 "Category not found", del.2))
  /\ (let del := deleteProduct slugify_ascii 3000 req sample_db in
      status del.1 = 200
      /\ getProductById slugify_ascii req del.2 = (fail 404 "Product not found", del.2)
      /\ deleteProduct slugify_ascii 4000 req del.2
         = (fail 404 "Product not found", del.2)).
Proof.
  intros req. split.
  - destruct (deleted_record_is_gone slugify_ascii 3000 4000 req sample_db
                (category_row 1 "Fruits" "fruits" true VNull)) as [H _].
    destruct H as (H1 & _ & H2 & H3 & _ & H4).
    { split; [exact sample_categories_primary_key|].
      split; [unfold sample_db, categories; apply elem_of_cons; now left|].
      repeat split; vm_compute; reflexivity. }
    refine (conj H1 (conj H2 (conj H3 (H4 _)))). intros v Hv. discriminate.
  - destruct (deleted_record_is_gone slugify_ascii 3000 4000 req sample_db
                (product_row 1 "Rice" "rice" (VNum 7) (VNum 5) (VNum 10))) as [_ H].
    destruct H as (H1 & _ & H2 & H3 & _).
    { split; [exact sample_products_primary_key|].
      split; [unfold sample_db, products; apply elem_of_cons; now left|].
      repeat split; vm_compute; reflexivity. }
    exact (conj H1 (conj (H2 eq_refl) H3)).
Defined.

(** ** What a list request returns *)

Lemma insert_by_elem (k : string) (r x : row) (l : list row) :
  x ∈ insert_by k r l <-> x = r \/ x ∈ l.
Proof.
  induction l as [|r' l IH]; cbn [insert_by].
  - rewrite list_elem_of_singleton. split; [auto|]. intros [H|H]; [done|inversion H].
  - destruct (value_le _ _).
    + now rewrite elem_of_cons.
    + rewrite !elem_of_cons, IH. tauto.
Qed.

Lemma insert_by_length (k : string) (r : row) (l : list row) :
  length (insert_by k r l) = S (length l).
Proof.
  induction l as [|r' l IH]; cbn [insert_by]; [reflexivity|].
  destruct (value_le _ _); cbn [length]; congruence.
Qed.

Lemma sort_by_elem (k : string) (x : row) (l : list row) : x ∈ sort_by k l <-> x ∈ l.
Proof.
  unfold sort_by. induction l as [|r l IH]; cbn [foldr]; [reflexivity|].
  now rewrite insert_by_elem, elem_of_cons, IH.
Qed.

Lemma sort_by_length (k : string) (l : list row) : length (sort_by k l) = length l.
Proof.
  unfold sort_by. induction l as [|r l IH]; cbn [foldr]; [reflexivity|].
  now rewrite insert_by_length, IH.
Qed.

(** The page of a query: rows of the table that the query selects, no more
    than the limit and no more than the count. *)
Lemma findAndCountAll_rows (m : model) join extra (o : page_options) (d : db) count rows :
  findAndCountAll m join extra o d = inr (count, rows) ->
  exists rs l,
    rows = map (load m (po_find o)) rs
    /\ Forall (fun r => r ∈ tbl m d /\ selects m (po_find o) (join r) = true) rs
    /\ po_limit o = Some l /\ 0 <= l
    /\ Z.of_nat (length rs) <= l /\ Z.of_nat (length rs) <= count.
Proof.
  unfold findAndCountAll. destruct (_ || _); [discriminate|].
  destruct (po_limit o) as [l|]; [|discriminate].
  destruct (po_offset o) as [off|]; [|discriminate].
  destruct (_ || _) eqn:Hneg; [discriminate|].
  apply orb_false_iff in Hneg as [Hl Hoff]. apply Z.ltb_ge in Hl.
  set (matching := filter _ (tbl m d)).
  set (asc := sort_by _ matching).
  assert (forall rows0 : list row,
            (forall x, x ∈ rows0 -> x ∈ matching) -> length rows0 = length matching ->
            let rs := take (Z.to_nat l) (drop (Z.to_nat off) rows0) in
            Forall (fun r => r ∈ tbl m d /\ selects m (po_find o) (join r) = true) rs
            /\ Z.of_nat (length rs) <= l
            /\ Z.of_nat (length rs) <= Z.of_nat (length matching)) as Hpage.
  { intros rows0 Hin Hlen rs. split; [|split].
    - apply Forall_forall. intros x Hx.
      assert (x ∈ matching) as Hm.
      { apply Hin. eapply subseteq_drop, subseteq_take, Hx. }
      apply list_elem_of_filter in Hm as [Hs Ht]. split; [done|].
      now apply Is_true_true.
    - unfold rs. rewrite length_take. lia.
    - unfold rs. rewrite length_take, length_drop. lia. }
  destruct (String.eqb (po_sortOrder o) "ASC").
  - intros H. injection H as <- <-.
    destruct (Hpage asc) as (H1 & H2 & H3).
    { intros x. apply sort_by_elem. } { apply sort_by_length. }
    eexists _, l. repeat split; eauto.
  - destruct (String.eqb (po_sortOrder o) "DESC"); [|discriminate].
    intros H. injection H as <- <-.
    destruct (Hpage (rev asc)) as (H1 & H2 & H3).
    { intros x Hx. apply list_elem_of_In, in_rev, list_elem_of_In in Hx.
      now apply sort_by_elem in Hx. }
    { rewrite length_rev. apply sort_by_length. }
    eexists _, l. repeat split; eauto.
Qed.

Lemma effective_where_own (m : model) (w : list cond) (r : row) :
  forallb (row_matches r) (effective_where m w) = true ->
  forallb (row_matches r) w = true.
Proof.
  unfold effective_where. rewrite forallb_app. intros H.
  now apply andb_true_iff in H as [_ H].
Qed.

Lemma effective_where_scope (m : model) (w : list cond) (r : row) :
  scopeWhere m = [("isActive", VBool true)] ->
  existsb (fun c => String.eqb (cond_key c) "isActive") w = false ->
  forallb (row_matches r) (effective_where m w) = true ->
  sql_eq (r !! "isActive") (VBool true) = true.
Proof.
  intros Hs Hw. unfold effective_where. rewrite Hs.
  rewrite filter_cons_True by (cbn [fst]; rewrite Hw; exact I).
  rewrite filter_nil. cbn [map app forallb row_matches fst snd].
  intros H. now apply andb_true_iff in H as [H _].
Qed.

(** The [isActive] value the rows of a list have: the parameter when it
    is given, [true] otherwise. *)
Lemma active_filter_rows (m : model) (q : payload) (w : list cond) (r : row) :
  scopeWhere m = [("isActive", VBool true)] ->
  existsb (fun c => String.eqb (cond_key c) "isActive") w = false ->
  forallb (row_matches r) (effective_where m (active_filter q ++ w)) = true ->
  sql_eq (r !! "isActive")
         (VBool (if is_defined (pget "isActive" q)
                 then strict_eq_str (pget "isActive" q) "true" else true)) = true.
Proof.
  intros Hs Hw H. unfold active_filter in H.
  destruct (is_defined (pget "isActive" q)).
  - apply effective_where_own in H. cbn [app forallb row_matches] in H.
    now apply andb_true_iff in H as [H _].
  - destruct (negb _).
    + apply effective_where_own in H. cbn [app forallb row_matches] in H.
      now apply andb_true_iff in H as [H _].
    + cbn [app] in H. now apply (effective_where_scope m w r Hs Hw).
Qed.

Lemma search_filter_key (ks : list string) (q : payload) :
  existsb (fun c => String.eqb (cond_key c) "isActive") (search_filter ks q) = false.
Proof. unfold search_filter. now destruct (truthy _). Qed.

Lemma list_options_find (w : list cond) (q : payload) (o : page_options) :
  list_options w q = inr o ->
  po_find o = {| fo_where := w;
                 fo_paranoid := negb (truthy (pget "includeDeleted" q));
                 fo_exclude := [] |}
  /\ po_limit o = parseInt (Some (with_default "limit" (VNum 10) q)).
Proof.
  unfold list_options. destruct (as_string _ _); [discriminate|].
  intros H. injection H as <-. cbn [po_find po_limit].
  unfold with_default at 1. now destruct (pget "includeDeleted" q).
Qed.

Lemma getAllCategories_page slugify (req : request) (d : db) :
  let q := query req in
  let w := (active_filter q ++ search_filter ["name"; "slug"; "description"] q)%list in
  status (getAllCategories slugify req d).1 = 200 ->
  exists rs l count,
    field "data" (body (getAllCategories slugify req d).1)
    = Some (JObj [("categories",
                   JArr (map (fun r => toJSON (load (Category slugify) (plain []) r)) rs));
                  ("pagination", pagination_raw req count);
                  ("filters", echo ["search"; "isActive"; "includeInactive";
                                    "includeDeleted"] q
                                   [("includeInactive", VBool false);
                                    ("includeDeleted", VBool false)])])
    /\ Forall (fun r => r ∈ categories d
                 /\ forallb (row_matches r) (effective_where (Category slugify) w) = true
                 /\ (truthy (pget "includeDeleted" q) = false ->
                     sql_null (r !! "deletedAt") = true)) rs
    /\ parseInt (Some (with_default "limit" (VNum 10) q)) = Some l
    /\ Z.of_nat (length rs) <= l /\ Z.of_nat (length rs) <= count.
Proof.
  intros q w. unfold getAllCategories. fold q. fold w.
  destruct (list_options w q) as [e|o] eqn:Ho.
  { intros H. cbn [fst] in H. now apply errorHandler_not_200 in H. }
  destruct (findAndCountAll _ _ _ o d) as [e|[count rows]] eqn:Hf.
  { intros H. cbn [fst] in H. now apply errorHandler_not_200 in H. }
  intros _. apply list_options_find in Ho as [Hfind Hlim].
  apply findAndCountAll_rows in Hf as (rs & l & -> & Hrs & Hl & _ & Hle & Hcount).
  exists rs, l, count. cbn [fst body field jget String.eqb Ascii.eqb Bool.eqb].
  split; [|split; [|split; [congruence|split; assumption]]].
  - rewrite map_map. erewrite map_ext; [reflexivity|].
    intros r. cbn beta. unfold load, selected_attributes. now rewrite Hfind.
  - eapply Forall_impl; [exact Hrs|]. cbn beta. intros r [Hr Hs].
    split; [exact Hr|]. unfold selects in Hs. rewrite Hfind in Hs.
    cbn [fo_where fo_paranoid] in Hs. apply andb_true_iff in Hs as [Hw Hp].
    split; [exact Hw|]. intros Hq. now rewrite Hq in Hp.
Qed.

Lemma product_where_shape (q : payload) (w : list cond) :
  product_where q = Some w ->
  exists w', w = (active_filter q ++ w')%list
    /\ existsb (fun c => String.eqb (cond_key c) "isActive") w' = false.
Proof.
  unfold product_where.
  destruct (truthy (pget "categoryId" q)); [destruct (parseInt _); [|discriminate]|];
  (destruct (truthy (pget "minPrice" q));
     [destruct (parseInt (pget "minPrice" q)); [|discriminate]|]);
  (destruct (truthy (pget "maxPrice" q));
     [destruct (parseInt (pget "maxPrice" q)); [|discriminate]|]);
  intros H; injection H as <-; eexists; (split; [reflexivity|]);
  unfold truthy_filter, search_filter;
  destruct (is_defined (pget "inStock" q)), (truthy (pget "unitType" q)),
    (truthy (pget "search" q)); reflexivity.
Qed.

Lemma getAllProducts_page slugify (req : request) (d : db) :
  let q := query req in
  status (getAllProducts slugify req d).1 = 200 ->
  exists rs l count w,
    field "data" (body (getAllProducts slugify req d).1)
    = Some (JObj [("products",
                   JArr (map (fun r => with_category slugify d
                                         (load (Product slugify) (plain []) r)) rs));
                  ("pagination", pagination_raw req count);
                  ("filters", echo ["search"; "categoryId"; "inStock"; "minPrice";
                                    "maxPrice"; "unitType"; "isActive";
                                    "includeInactive"; "includeDeleted"] q
                                   [("includeInactive", VBool false);
                                    ("includeDeleted", VBool false)])])
    /\ product_where q = Some w
    /\ Forall (fun r => r ∈ products d
                 /\ forallb (row_matches r) (effective_where (Product slugify) w) = true
                 /\ (truthy (pget "includeDeleted" q) = false ->
                     sql_null (r !! "deletedAt") = true)) rs
    /\ parseInt (Some (with_default "limit" (VNum 10) q)) = Some l
    /\ Z.of_nat (length rs) <= l /\ Z.of_nat (length rs) <= count.
Proof.
  intros q. unfold getAllProducts. fold q.
  destruct (product_where q) as [w|] eqn:Hw.
  2: { intros H. cbn [fst] in H. now apply errorHandler_not_200 in H. }
  destruct (list_options w q) as [e|o] eqn:Ho.
  { intros H. cbn [fst] in H. now apply errorHandler_not_200 in H. }
  destruct (findAndCountAll _ _ _ o d) as [e|[count rows]] eqn:Hf.
  { intros H. cbn [fst] in H. now apply errorHandler_not_200 in H. }
  intros _. apply list_options_find in Ho as [Hfind Hlim].
  apply findAndCountAll_rows in Hf as (rs & l & -> & Hrs & Hl & _ & Hle & Hcount).
  exists rs, l, count, w. cbn [fst body field jget String.eqb Ascii.eqb Bool.eqb].
  split; [|split; [reflexivity|split; [|split; [congruence|split; assumption]]]].
  - rewrite map_map. erewrite map_ext; [reflexivity|].
    intros r. cbn beta. unfold load, selected_attributes. now rewrite Hfind.
  - eapply Forall_impl; [exact Hrs|]. cbn beta. intros r [Hr Hs].
    split; [exact Hr|]. unfold selects in Hs. rewrite Hfind in Hs.
    cbn [fo_where fo_paranoid] in Hs. apply andb_true_iff in Hs as [Hw' Hp].
    split; [exact Hw'|]. intros Hq. now rewrite Hq in Hp.
Qed.

Lemma join_profile_lookup (d : db) (r : row) (k : string) :
  k <> "$adminProfile.firstName$" -> k <> "$adminProfile.lastName$" ->
  join_profile d r !! k = r !! k.
Proof.
  intros H1 H2. unfold join_profile. destruct (head _) as [pr|]; [|reflexivity].
  destruct (pr !! "firstName"), (pr !! "lastName");
    rewrite ?lookup_insert_ne by congruence; reflexivity.
Qed.

Lemma getAllAdmins_page hash isEmail (req : request) (d : db) :
  let q := query req in
  status (getAllAdmins hash isEmail req d).1 = 200 ->
  exists rs l count,
    body (getAllAdmins hash isEmail req d).1
    = JObj [("success", jbool true);
            ("data",
             JArr (map (fun r => let u := load (User hash isEmail) (plain []) r in
                                 admin_json (u, profile_of true u d)) rs));
            ("pagination", pagination_parsed req count);
            ("filters", echo ["search"; "isActive"; "city"; "includeDeleted"] q [])]
    /\ Forall (fun r : row =>
                 r ∈ users d
                 /\ sql_eq (r !! "accountType") (VStr "admin") = true
                 /\ (is_defined (pget "isActive" q) = true ->
                     sql_eq (r !! "isActive")
                            (VBool (strict_eq_str (pget "isActive" q) "true")) = true)
                 /\ (strict_eq_str (pget "includeDeleted" q) "true" = false ->
                     sql_null (r !! "deletedAt") = true)) rs
    /\ parseInt (Some (with_default "limit" (VNum 10) q)) = Some l
    /\ Z.of_nat (length rs) <= l /\ Z.of_nat (length rs) <= count.
Proof.
  intros q. unfold getAllAdmins. fold q.
  destruct (as_string _ _) as [e|so]. { intros H. cbn [fst] in H. now apply errorHandler_not_200 in H. }
  match goal with
  | |- context [findAndCountAll ?m ?j ?x ?o d] =>
      destruct (findAndCountAll m j x o d) as [e|[count rows]] eqn:Hf
  end.
  { intros H. cbn [fst] in H. now apply errorHandler_not_200 in H. }
  intros _.
  apply findAndCountAll_rows in Hf as (rs & l & -> & Hrs & Hl & _ & Hle & Hcount).
  cbn [po_find po_limit] in *.
  exists rs, l, count. cbn [fst body].
  split; [|split; [|split; [congruence|split; assumption]]].
  - rewrite map_map. reflexivity.
  - eapply Forall_impl; [exact Hrs|]. cbn beta. intros r [Hr Hs].
    split; [exact Hr|]. unfold selects in Hs. rewrite effective_where_User in Hs.
    cbn [fo_where fo_paranoid app forallb row_matches] in Hs.
    rewrite !join_profile_lookup in Hs by discriminate.
    apply andb_true_iff in Hs as [Hw Hp]. apply andb_true_iff in Hw as [Hadm Hw].
    split; [exact Hadm|]. split.
    + intros Hdef. rewrite Hdef in Hw. cbn [app forallb row_matches] in Hw.
      rewrite join_profile_lookup in Hw by discriminate.
      now apply andb_true_iff in Hw as [Hw _].
    + intros Hq. rewrite Hq in Hp. exact Hp.
Qed.

(** X4. Every item of a list response is a row of the table that passes
    the filters of the request. For categories and products the rows have
    [isActive] equal to the [isActive] parameter read as [=== "true"] when
    it is given and to [true] otherwise, whatever [includeInactive] says
    (the default scope adds [isActive: true] whenever the handler sets no
    [isActive] term), and they are not deleted unless [includeDeleted] is
    truthy. For admins the rows have account type admin, match the
    [isActive] parameter when it is given, and are not deleted unless
    [includeDeleted] is the string "true". *)
Theorem list_returns_filtered_rows slugify hash isEmail (req : request) (d : db) :
  let q := query req in
  let active := if is_defined (pget "isActive" q)
                then strict_eq_str (pget "isActive" q) "true" else true in
  let shown (r : row) :=
    sql_eq (r !! "isActive") (VBool active) = true
    /\ (truthy (pget "includeDeleted" q) = false -> sql_null (r !! "deletedAt") = true) in
  let lc := getAllCategories slugify req d in
  let lp := getAllProducts slugify req d in
  let la := getAllAdmins hash isEmail req d in
  (status lc.1 = 200 ->
   exists rs,
     field "data" (body lc.1) ≫= field "categories"
     = Some (JArr (map (fun r => toJSON (load (Category slugify) (plain []) r)) rs))
     /\ Forall (fun r => r ∈ categories d /\ shown r) rs)
  /\ (status lp.1 = 200 ->
      exists rs,
        field "data" (body lp.1) ≫= field "products"
        = Some (JArr (map (fun r => with_category slugify d
                                      (load (Product slugify) (plain []) r)) rs))
        /\ Forall (fun r => r ∈ products d /\ shown r) rs)
  /\ (status la.1 = 200 ->
      exists rs,
        field "data" (body la.1)
        = Some (JArr (map (fun r => let u := load (User hash isEmail) (plain []) r in
                                    admin_json (u, profile_of true u d)) rs))
        /\ Forall (fun r : row =>
                     r ∈ users d
                     /\ sql_eq (r !! "accountType") (VStr "admin") = true
                     /\ (is_defined (pget "isActive" q) = true ->
                         sql_eq (r !! "isActive") (VBool active) = true)
                     /\ (strict_eq_str (pget "includeDeleted" q) "true" = false ->
                         sql_null (r !! "deletedAt") = true)) rs).
Proof.
  intros q active shown lc lp la. split; [|split].
  - intros H. apply getAllCategories_page in H as (rs & l & count & Hb & Hrs & _).
    exists rs. subst lc. rewrite Hb. split; [reflexivity|].
    eapply Forall_impl; [exact Hrs|]. cbn beta. intros r (Hr & Hw & Hdel).
    split; [exact Hr|]. split; [|exact Hdel].
    apply (active_filter_rows (Category slugify) q _ r eq_refl (search_filter_key _ _) Hw).
  - intros H. apply getAllProducts_page in H as (rs & l & count & w & Hb & Hpw & Hrs & _).
    exists rs. subst lp. rewrite Hb. split; [reflexivity|].
    apply product_where_shape in Hpw as (w' & -> & Hw').
    eapply Forall_impl; [exact Hrs|]. cbn beta. intros r (Hr & Hw & Hdel).
    split; [exact Hr|]. split; [|exact Hdel].
    apply (active_filter_rows (Product slugify) q _ r eq_refl Hw' Hw).
  - intros H. apply getAllAdmins_page in H as (rs & l & count & Hb & Hrs & _).
    exists rs. subst la. rewrite Hb. split; [reflexivity|].
    eapply Forall_impl; [exact Hrs|]. cbn beta. intros r (Hr & Hadm & Hact & Hdel).
    split; [exact Hr|]. split; [exact Hadm|]. split; [|exact Hdel].
    intros Hdef. unfold active. rewrite Hdef. now apply Hact.
Qed.

Lemma list_returns_filtered_rows_witness :
  let req := sample_request None [("includeInactive", VStr "true")] [] in
  (exists rs,
     field "data" (body (getAllCategories slugify_ascii req sample_db).1)
       ≫= field "categories"
     = Some (JArr (map (fun r => toJSON (load (Category slugify_ascii) (plain []) r)) rs))
     /\ Forall (fun r : row => r ∈ categories sample_db
                               /\ sql_eq (r !! "isActive") (VBool true) = true
                               /\ sql_null (r !! "deletedAt") = true) rs)
  /\ (exists rs,
        field "data" (body (getAllAdmins sample_hash sample_isEmail req sample_db).1)
        = Some (JArr (map (fun r => let u := load (User sample_hash sample_isEmail)
                                                  (plain []) r in
                                    admin_json (u, profile_of true u sample_db)) rs))
        /\ Forall (fun r : row => r ∈ users sample_db
                                  /\ sql_eq (r !! "accountType") (VStr "admin") = true
                                  /\ sql_null (r !! "deletedAt") = true) rs).
Proof.
  intros req.
  destruct (list_returns_filtered_rows slugify_ascii sample_hash sample_isEmail req
              sample_db) as (Hc & _ & Ha).
  split.
  - destruct Hc as (rs & Hb & Hrs); [vm_compute; reflexivity|].
    exists rs. split; [exact Hb|].
    eapply Forall_impl; [exact Hrs|]. cbn beta. intros r (Hr & Hact & Hdel).
    split; [exact Hr|]. split; [exact Hact|]. apply Hdel. reflexivity.
  - destruct Ha as (rs & Hb & Hrs); [vm_compute; reflexivity|].
    exists rs. split; [exact Hb|].
    eapply Forall_impl; [exact Hrs|]. cbn beta. intros r (Hr & Hadm & _ & Hdel).
    split; [exact Hr|]. split; [exact Hadm|]. apply Hdel. reflexivity.
Defined.



(** ** The pagination block of a well-formed list request *)






(** ** Queries on a column the table does not have *)

Lemma findAndCountAll_unknown (m : model) join extra (o : page_options) (d : db) :
  mem (po_sortBy o) (rawAttributes m) = false
  \/ existsb (unknown_column m extra) (fo_where (po_find o)) = true ->
  findAndCountAll m join extra o d = inl (SequelizeDatabaseError "column does not exist").
Proof.
  intros H. unfold findAndCountAll.
  assert (negb (mem (po_sortBy o) (rawAttributes m))
          || existsb (unknown_column m extra) (fo_where (po_find o)) = true) as ->;
    [|reflexivity].
  destruct H as [-> | ->]; [reflexivity|apply orb_true_r].
Qed.

Lemma as_string_error (what : string) (o : option value) (e : error) :
  as_string what o = inl e -> status (errorHandler e) = 500.
Proof.
  unfold as_string. destruct o as [[]|]; intros H; try discriminate;
    injection H as <-; reflexivity.
Qed.

(** X6. The [city] filter of the admin list is put on the users table,
    which has no such column: a request with a non-empty [city] parameter
    is answered with 500, whatever the store holds. *)
Theorem getAllAdmins_city_filter_fails hash isEmail (req : request) (d : db) :
  truthy (pget "city" (query req)) = true ->
  mem "city" (rawAttributes (User hash isEmail)) = false
  /\ status (getAllAdmins hash isEmail req d).1 = 500
  /\ (getAllAdmins hash isEmail req d).2 = d.
Proof.
  intros Hc. split; [reflexivity|]. unfold getAllAdmins.
  destruct (as_string _ _) as [e|so] eqn:Hs.
  { split; [exact (as_string_error _ _ _ Hs) | reflexivity]. }
  rewrite findAndCountAll_unknown; [split; reflexivity|].
  right. cbn [po_find fo_where]. unfold truthy_filter. rewrite Hc.
  rewrite !existsb_app. cbn [existsb unknown_column]. 
  replace (negb (mem "city" (rawAttributes (User hash isEmail)))) with true
    by reflexivity.
  cbn [orb]. now rewrite !orb_true_r.
Qed.

Lemma getAllAdmins_city_filter_fails_witness :
  let req := sample_request None [("city", VStr "Kandy")] [] in
  status (getAllAdmins sample_hash sample_isEmail req sample_db).1 = 500
  /\ (getAllAdmins sample_hash sample_isEmail req sample_db).2 = sample_db.
Proof.
  intros req.
  exact (proj2 (getAllAdmins_city_filter_fails sample_hash sample_isEmail req sample_db
                  eq_refl)).
Defined.

(** X7. A list request whose [sortBy] parameter names no column of the
    table is answered with 500 and the store is left as it is. *)
Theorem list_unknown_sort_column_fails slugify hash isEmail (req : request) (d : db)
    (s : string) :
  pget "sortBy" (query req) = Some (VStr s) ->
  (mem s (rawAttributes (Category slugify)) = false ->
   status (getAllCategories slugify req d).1 = 500
   /\ (getAllCategories slugify req d).2 = d)
  /\ (mem s (rawAttributes (Product slugify)) = false ->
      status (getAllProducts slugify req d).1 = 500
      /\ (getAllProducts slugify req d).2 = d)
  /\ (mem s (rawAttributes (User hash isEmail)) = false ->
      status (getAllAdmins hash isEmail req d).1 = 500
      /\ (getAllAdmins hash isEmail req d).2 = d).
Proof.
  intros Hs.
  assert (forall w o, list_options w (query req) = inr o -> po_sortBy o = s) as Hsort.
  { intros w o. unfold list_options. destruct (as_string _ _); [discriminate|].
    intros H. injection H as <-. cbn [po_sortBy]. unfold with_default.
    now rewrite Hs. }
  assert (forall w e, list_options w (query req) = inl e ->
                      status (errorHandler e) = 500) as Herr.
  { intros w e. unfold list_options.
    destruct (as_string _ _) as [e'|] eqn:Ha; [|discriminate].
    intros H. injection H as <-. exact (as_string_error _ _ _ Ha). }
  split; [|split].
  - intros Hm. unfold getAllCategories.
    destruct (list_options _ _) as [e|o] eqn:Ho.
    + split; [exact (Herr _ _ Ho) | reflexivity].
    + rewrite findAndCountAll_unknown; [split; reflexivity|].
      left. now rewrite (Hsort _ _ Ho).
  - intros Hm. unfold getAllProducts.
    destruct (product_where _) as [w|]; [|split; reflexivity].
    destruct (list_options _ _) as [e|o] eqn:Ho.
    + split; [exact (Herr _ _ Ho) | reflexivity].
    + rewrite findAndCountAll_unknown; [split; reflexivity|].
      left. now rewrite (Hsort _ _ Ho).
  - intros Hm. unfold getAllAdmins.
    destruct (as_string _ _) as [e|so] eqn:Ha.
    { split; [exact (as_string_error _ _ _ Ha) | reflexivity]. }
    rewrite findAndCountAll_unknown; [split; reflexivity|].
    left. cbn [po_sortBy]. unfold with_default. now rewrite Hs.
Qed.

Lemma list_unknown_sort_column_fails_witness :
  let req := sample_request None [("sortBy", VStr "price")] [] in
  status (getAllCategories slugify_ascii req sample_db).1 = 500
  /\ status (getAllAdmins sample_hash sample_isEmail req sample_db).1 = 500.
Proof.
  intros req.
  destruct (list_unknown_sort_column_fails slugify_ascii sample_hash sample_isEmail req
              sample_db "price" eq_refl) as (Hc & _ & Ha).
  exact (conj (proj1 (Hc eq_refl)) (proj1 (Ha eq_refl))).
Defined.

(** ** Building and inserting an instance of a model without setters *)

Lemma defaults_lookup (p : payload) (l : list (string * value)) (k : string) :
  (list_to_map (filter (fun kv : string * value => negb (is_defined (pget kv.1 p))) l)
     : row) !! k
  = if is_defined (pget k p) then None else (list_to_map l : row) !! k.
Proof.
  induction l as [|[k0 v0] l IH].
  - rewrite filter_nil. cbn [list_to_map foldr]. rewrite lookup_empty.
    now destruct (is_defined _).
  - rewrite (list_to_map_cons l k0 v0).
    destruct (is_defined (pget k0 p)) eqn:Hk0.
    + rewrite filter_cons_False by (cbn [fst]; rewrite Hk0; cbn; tauto).
      rewrite IH. destruct (String.eqb_spec k k0) as [->|Hne].
      * now rewrite Hk0.
      * rewrite (lookup_insert_ne (list_to_map l) k0 k v0) by congruence. reflexivity.
    + rewrite filter_cons_True by (cbn [fst]; rewrite Hk0; exact I).
      rewrite (list_to_map_cons _ k0 v0).
      destruct (String.eqb_spec k k0) as [->|Hne].
      * now rewrite !lookup_insert_eq, Hk0.
      * rewrite !lookup_insert_ne by congruence. exact IH.
Qed.

Lemma set_attr_new_plain (m : model) (k0 : string) (v : value) (i : instance) :
  customSetter m k0 = None -> isNewRecord i = true -> k0 <> "id" ->
  set_attr m k0 v i
  = inr (if mem k0 (rawAttributes m)
         then {| dataValues := <[k0 := sanitize m k0 v]> (dataValues i);
                 previous := previous i;
                 isNewRecord := isNewRecord i |}
         else i).
Proof.
  intros Hc Hn Hid. unfold set_attr. rewrite Hc, Hn.
  destruct (mem k0 (rawAttributes m)); [|reflexivity]. cbn [negb andb].
  now destruct (String.eqb_spec k0 "id").
Qed.

Lemma set_all_new_plain (m : model) (p : payload) (i : instance) :
  (forall k, customSetter m k = None) -> isNewRecord i = true ->
  NoDup (map fst p) -> pget "id" p = None ->
  exists i', set_all m p i = inr i' /\ isNewRecord i' = true
    /\ forall k, dataValues i' !! k
                 = match pget k p with
                   | Some v => if mem k (rawAttributes m) then Some (sanitize m k v)
                               else dataValues i !! k
                   | None => dataValues i !! k
                   end.
Proof.
  intros Hc. revert i. induction p as [|[k0 v] p IH]; intros i Hn Hnd Hid.
  - exists i. done.
  - cbn [map fst] in Hnd. apply NoDup_cons in Hnd as [Hk0 Hnd].
    cbn [pget] in Hid. destruct (String.eqb_spec "id" k0) as [|Hne]; [discriminate|].
    cbn [set_all]. rewrite (set_attr_new_plain m k0 v i (Hc k0) Hn) by congruence.
    set (i1 := if mem k0 (rawAttributes m) then _ else i).
    assert (isNewRecord i1 = true) as Hn1 by (unfold i1; now destruct (mem _ _)).
    destruct (IH i1 Hn1 Hnd Hid) as (i' & -> & Hn' & Hl).
    exists i'. split; [reflexivity|]. split; [exact Hn'|].
    intros k. rewrite Hl. cbn [pget].
    destruct (String.eqb_spec k k0) as [->|Hk].
    + rewrite (pget_notin k0 p Hk0). unfold i1.
      destruct (mem k0 (rawAttributes m)); [|reflexivity].
      cbn [dataValues]. now rewrite lookup_insert_eq.
    + assert (dataValues i1 !! k = dataValues i !! k) as ->; [|reflexivity].
      unfold i1. destruct (mem k0 (rawAttributes m)); [|reflexivity].
      cbn [dataValues]. now rewrite lookup_insert_ne by congruence.
Qed.

(** The values of a new instance of a model without setters, before it
    is saved. *)
Lemma build_plain (m : model) (p : payload) :
  (forall k, customSetter m k = None) -> NoDup (map fst p) -> pget "id" p = None ->
  exists i, set_all m p {| dataValues := list_to_map
                             (filter (fun kv : string * value =>
                                        negb (is_defined (pget kv.1 p)))
                                     (defaultValues m));
                           previous := ∅; isNewRecord := true |} = inr i
    /\ isNewRecord i = true
    /\ forall k, dataValues i !! k
                 = match pget k p with
                   | Some v => if mem k (rawAttributes m) then Some (sanitize m k v)
                               else None
                   | None => (list_to_map (defaultValues m) : row) !! k
                   end.
Proof.
  intros Hc Hnd Hid.
  destruct (set_all_new_plain m p
              {| dataValues := list_to_map
                   (filter (fun kv : string * value => negb (is_defined (pget kv.1 p)))
                           (defaultValues m));
                 previous := ∅; isNewRecord := true |} Hc eq_refl Hnd Hid)
    as (i & Hs & Hn & Hl).
  exists i. split; [exact Hs|]. split; [exact Hn|].
  intros k. rewrite Hl. cbn [dataValues]. rewrite defaults_lookup.
  now destruct (pget k p).
Qed.

Lemma next_id_bound (t : table) (r : row) (n : Z) :
  r ∈ t -> r !! "id" = Some (VNum n) -> n < next_id t.
Proof.
  unfold next_id. induction t as [|r0 t IH]; intros Hr Hn; [inversion Hr|].
  cbn [foldr]. apply elem_of_cons in Hr as [<-|Hr].
  - rewrite Hn. lia.
  - specialize (IH Hr Hn). destruct (r0 !! "id") as [[]|]; lia.
Qed.

Lemma next_id_fresh (t : table) (r : row) :
  r ∈ t -> r !! "id" <> Some (VNum (next_id t)).
Proof. intros Hr Hn. pose proof (next_id_bound t r _ Hr Hn). lia. Qed.

Lemma next_id_positive (t : table) : 0 < next_id t.
Proof.
  unfold next_id.
  assert (0 <= foldr (fun (r : row) acc => match r !! "id" with
                                           | Some (VNum n) => Z.max n acc
                                           | _ => acc
                                           end) 0 t); [|lia].
  induction t as [|r t IH]; cbn [foldr]; [lia|].
  destruct (r !! "id") as [[]|]; lia.
Qed.

Lemma flat_map_nil_inv {A B} (f : A -> list B) (l : list A) (x : A) :
  flat_map f l = [] -> x ∈ l -> f x = [].
Proof.
  induction l as [|a l IH]; intros H Hx; [inversion Hx|].
  cbn [flat_map] in H. apply app_eq_nil in H as [Ha Hl].
  apply elem_of_cons in Hx as [->|Hx]; auto.
Qed.

Lemma blank_lookup (attrs : list string) (k : string) :
  (list_to_map (map (fun k => (k, VNull)) attrs) : row) !! k
  = if mem k attrs then Some VNull else None.
Proof.
  induction attrs as [|a attrs IH]; [apply lookup_empty|].
  cbn [map mem existsb]. rewrite (list_to_map_cons _ a VNull).
  destruct (String.eqb_spec k a) as [->|Hne].
  - now rewrite lookup_insert_eq.
  - rewrite lookup_insert_ne by congruence. exact IH.
Qed.

(** A column of the row an insert writes. *)
Lemma inserted_lookup (attrs : list string) (dv : row) (k : string) :
  write_fields attrs dv (list_to_map (map (fun k => (k, VNull)) attrs)) !! k
  = if mem k attrs then Some (default VNull (dv !! k)) else None.
Proof.
  rewrite write_fields_lookup, blank_lookup.
  destruct (mem k attrs); [|reflexivity]. now destruct (dv !! k).
Qed.

(** ** Creating a user *)

Lemma User_save_fields hash isEmail :
  save_fields true (rawAttributes (User hash isEmail)) = rawAttributes (User hash isEmail).
Proof. reflexivity. Qed.

Lemma stamp_new_lookup (now : Z) (fields : list string) (dv : row) (k : string) :
  mem "updatedAt" fields = true -> dv !! "createdAt" = None ->
  stamp true now fields dv !! k
  = if String.eqb k "createdAt" || String.eqb k "updatedAt" then Some (VDate now)
    else dv !! k.
Proof.
  intros Hf Hc. unfold stamp. rewrite Hf.
  rewrite lookup_insert_ne, Hc by discriminate. cbn [truthy negb andb].
  destruct (String.eqb_spec k "createdAt") as [->|H1]; [now rewrite lookup_insert_eq|].
  rewrite lookup_insert_ne by congruence.
  destruct (String.eqb_spec k "updatedAt") as [->|H2]; [now rewrite lookup_insert_eq|].
  now rewrite lookup_insert_ne by congruence.
Qed.

(** What a successful [User.create] was given and what it stored. *)
Lemma create_User_inv hash isEmail (now : Z) (p : payload) (d : db) (user : instance)
    (d1 : db) :
  NoDup (map fst p) ->
  Forall (fun k => pget k p = None)
         ["id"; "createdAt"; "updatedAt"; "deletedAt"; "lastPasswordChange"] ->
  create (User hash isEmail) now p d = inr (user, d1) ->
  exists e pw u,
    pget "email" p = Some e /\ pget "password" p = Some (VStr pw)
    /\ isEmail (str_of (Some e)) = true /\ len 8 128 pw = true
    /\ (forall r, r ∈ users d -> r !! "email" <> Some e)
    /\ d1 = {| users := users d ++ [u]; admin_profiles := admin_profiles d;
               categories := categories d; products := products d |}
    /\ get user "id" = Some (VNum (next_id (users d)))
    /\ u !! "id" = Some (VNum (next_id (users d)))
    /\ u !! "email" = Some e
    /\ u !! "password" = Some (VStr (hash pw))
    /\ u !! "accountType" = pget "accountType" p
    /\ u !! "authProvider" = Some (default (VStr "local") (pget "authProvider" p))
    /\ u !! "isActive" = Some (match pget "isActive" p with
                                | Some v => sanitize (User hash isEmail) "isActive" v
                                | None => VBool true
                                end)
    /\ u !! "lastPasswordChange" = Some (VDate now)
    /\ u !! "createdAt" = Some (VDate now) /\ u !! "updatedAt" = Some (VDate now)
    /\ u !! "deletedAt" = Some VNull.
Proof.
  intros Hnd Hkeys. 
  apply Forall_cons in Hkeys as [Hid Hkeys]. apply Forall_cons in Hkeys as [Hca Hkeys].
  apply Forall_cons in Hkeys as [Hua Hkeys]. apply Forall_cons in Hkeys as [Hda Hkeys].
  apply Forall_cons in Hkeys as [Hlp _].
  unfold create.
  destruct (build_plain (User hash isEmail) p (fun _ => eq_refl) Hnd Hid)
    as (i & -> & Hn & Hl).
  assert (forall k, k <> "isActive" ->
            dataValues i !! k
            = match pget k p with
              | Some v => if mem k (rawAttributes (User hash isEmail)) then Some v else None
              | None => (list_to_map (defaultValues (User hash isEmail)) : row) !! k
              end) as Hl'.
  { intros k Hk. rewrite Hl. destruct (pget k p) as [v|]; [|reflexivity].
    unfold sanitize. cbn [booleanAttributes User mem existsb].
    destruct (String.eqb_spec k "isActive"); [congruence|reflexivity]. }
  intros H. apply save_inv in H as (dv3 & dv4 & Hh & Hcases). rewrite Hn in *.
  destruct Hcases as [[_ Hins]|[[? _]|[? _]]]; try discriminate.
  rewrite User_save_fields in Hh.
  set (dv := stamp true now _ (dataValues i)) in Hh.
  assert (forall k, dv !! k
                    = if String.eqb k "createdAt" || String.eqb k "updatedAt"
                      then Some (VDate now) else dataValues i !! k) as Hdv.
  { intros k. apply stamp_new_lookup; [reflexivity|]. now rewrite Hl', Hca by discriminate. }
  unfold run_hooks in Hh. cbn [beforeValidate beforeCreate beforeSave User] in Hh.
  destruct (flat_map _ _) eqn:Hv; [|discriminate].
  assert (forall k, k ∈ rawAttributes (User hash isEmail) ->
                    User_validators isEmail now k dv = []) as Hval.
  { intros k Hk. exact (flat_map_nil_inv _ _ k Hv Hk). }
  (* the email *)
  pose proof (Hval "email" ltac:(apply mem_spec; reflexivity)) as He.
  unfold User_validators in He. cbn [String.eqb Ascii.eqb Bool.eqb] in He.
  rewrite Hdv, Hl' in He by discriminate. cbn [String.eqb Ascii.eqb Bool.eqb orb] in He.
  replace (mem "email" (rawAttributes (User hash isEmail))) with true in He
    by reflexivity.
  unfold attr_validate in He.
  destruct (pget "email" p) as [e|] eqn:Hpe; [|discriminate].
  destruct (sql_null (Some e)) eqn:Hen; [discriminate|].
  apply app_eq_nil in He as [He _]. unfold check in He.
  destruct (isEmail (str_of (Some e))) eqn:Hie; [|discriminate]. clear He.
  (* the password *)
  pose proof (Hval "password" ltac:(apply mem_spec; reflexivity)) as Hp.
  unfold User_validators in Hp. cbn [String.eqb Ascii.eqb Bool.eqb] in Hp.
  assert (dv !! "password" = pget "password" p) as Hdp.
  { rewrite Hdv, Hl' by discriminate. cbn [String.eqb Ascii.eqb Bool.eqb orb].
    now destruct (pget "password" p). }
  rewrite Hdp in Hp, Hh. unfold attr_validate in Hp.
  destruct (pget "password" p) as [pwv|] eqn:Hpp; [|discriminate].
  destruct (sql_null (Some pwv)) eqn:Hpn; [discriminate|].
  apply app_eq_nil in Hp as [Hp _]. apply app_eq_nil in Hp as [_ Hp].
  unfold check in Hp. destruct (len 8 128 (str_of (Some pwv))) eqn:Hlen; [|discriminate].
  clear Hp.
  assert (exists pw, pwv = VStr pw /\ truthy (Some pwv) = true) as (pw & -> & Htp).
  { destruct pwv as [|b|n|s|t]; try discriminate.
    - destruct b; discriminate.
    - destruct (truthy (Some (VNum n))) eqn:Ht.
      + unfold hash_password in Hh. rewrite Hdp in Hh. discriminate.
      + cbn in Ht. apply negb_false_iff, Z.eqb_eq in Ht. subst n. discriminate.
    - exists s. split; [reflexivity|]. destruct s; [discriminate|reflexivity].
    - unfold hash_password in Hh. rewrite Hdp in Hh. discriminate. }
  rewrite Htp in Hh. unfold hash_password in Hh. rewrite Hdp in Hh.
  injection Hh as <- <-.
  (* the insert *)
  unfold insert_row in Hins.
  set (dv4 := <["lastPasswordChange" := VDate now]> (<["password" := VStr (hash pw)]> dv))
    in Hins.
  assert (forall k, k <> "password" -> k <> "lastPasswordChange" -> dv4 !! k = dv !! k)
    as Hdv4.
  { intros k H1 H2. unfold dv4. now rewrite !lookup_insert_ne by congruence. }
  assert (dv4 !! "id" = None) as Hnoid.
  { rewrite Hdv4, Hdv, Hl', Hid by discriminate. reflexivity. }
  rewrite Hnoid in Hins.
  set (nid := VNum (next_id (tbl (User hash isEmail) d))) in Hins.
  destruct (unique_violations _ _ _ _) eqn:Hu; [|discriminate].
  destruct (dangling _ _ _ _); [discriminate|].
  apply inr_pair_inv in Hins as [<- <-].
  assert (forall k, k <> "id" -> (<["id" := nid]> dv4 : row) !! k = dv4 !! k) as Hdv5.
  { intros k Hk. now rewrite lookup_insert_ne by congruence. }
  exists e, pw, (write_fields (rawAttributes (User hash isEmail)) (<["id" := nid]> dv4)
                   (list_to_map (map (fun k => (k, VNull))
                                     (rawAttributes (User hash isEmail))))).
  split; [reflexivity|]. split; [reflexivity|]. split; [exact Hie|].
  split; [exact Hlen|]. split.
  { intros r Hr Hre.
    unfold unique_violations in Hu. cbn [uniqueColumns User flat_map fst snd] in Hu.
    rewrite Hdv5, Hdv4, Hdv, Hl', Hpe in Hu by discriminate.
    cbn [String.eqb Ascii.eqb Bool.eqb orb] in Hu.
    replace (mem "email" (rawAttributes (User hash isEmail))) with true in Hu
      by reflexivity.
    rewrite Hen in Hu. cbn [negb andb] in Hu.
    destruct (clashes _ _ _ _) eqn:Hc; [discriminate|].
    unfold clashes in Hc.
    apply not_true_iff_false in Hc. apply Hc.
    apply existsb_exists. exists r. split; [now apply list_elem_of_In|].
    rewrite bool_decide_eq_true_2 by exact Hre. rewrite lookup_insert_eq.
    rewrite bool_decide_eq_false_2; [reflexivity|]. now apply next_id_fresh. }
  split; [reflexivity|]. split.
  { unfold get. cbn [dataValues]. now rewrite lookup_insert_eq. }
  repeat split; rewrite inserted_lookup;
    match goal with
    | |- context [mem ?k (rawAttributes _)] =>
        replace (mem k (rawAttributes (User hash isEmail))) with true by reflexivity
    end.
  - now rewrite lookup_insert_eq.
  - now rewrite Hdv5, Hdv4, Hdv, Hl', Hpe by discriminate.
  - rewrite Hdv5 by discriminate. unfold dv4.
    now rewrite lookup_insert_ne, lookup_insert_eq by discriminate.
  - pose proof (Hval "accountType" ltac:(apply mem_spec; reflexivity)) as Ha.
    unfold User_validators in Ha. cbn [String.eqb Ascii.eqb Bool.eqb] in Ha.
    rewrite Hdv5, Hdv4 by discriminate. unfold attr_validate in Ha.
    destruct (dv !! "accountType") as [a|] eqn:Hda'; [|discriminate].
    rewrite Hdv, Hl' in Hda' by discriminate. cbn [String.eqb Ascii.eqb Bool.eqb orb] in Hda'.
    destruct (pget "accountType" p); [|discriminate]. now rewrite <- Hda'.
  - rewrite Hdv5, Hdv4, Hdv, Hl' by discriminate.
    now destruct (pget "authProvider" p).
  - rewrite Hdv5, Hdv4, Hdv, Hl by discriminate.
    now destruct (pget "isActive" p).
  - rewrite Hdv5 by discriminate. unfold dv4. now rewrite lookup_insert_eq.
  - rewrite Hdv5, Hdv4, Hdv by discriminate. reflexivity.
  - rewrite Hdv5, Hdv4, Hdv by discriminate. reflexivity.
  - rewrite Hdv5, Hdv4, Hdv, Hl', Hda by discriminate. reflexivity.
Qed.

(** ** Creating a profile *)

Lemma create_AdminProfile_inv (now : Z) (p : payload) (d : db) (i : instance) (d' : db) :
  NoDup (map fst p) ->
  Forall (fun k => pget k p = None) ["id"; "createdAt"; "updatedAt"; "deletedAt"] ->
  create AdminProfile now p d = inr (i, d') ->
  exists pr,
    d' = {| users := users d; admin_profiles := admin_profiles d ++ [pr];
            categories := categories d; products := products d |}
    /\ pr !! "userId" = pget "userId" p
    /\ pr !! "firstName" = pget "firstName" p
    /\ pr !! "lastName" = pget "lastName" p
    /\ pr !! "deletedAt" = Some VNull
    /\ (forall k, k ∈ ["phoneNumber"; "address"; "city"; "bio"; "profilePicture"] ->
                  pr !! k = Some (default VNull (pget k p))).
Proof.
  intros Hnd Hkeys.
  apply Forall_cons in Hkeys as [Hid Hkeys]. apply Forall_cons in Hkeys as [Hca Hkeys].
  apply Forall_cons in Hkeys as [Hua Hkeys]. apply Forall_cons in Hkeys as [Hda _].
  unfold create.
  destruct (build_plain AdminProfile p (fun _ => eq_refl) Hnd Hid) as (i0 & -> & Hn & Hl).
  change (forall k, dataValues i0 !! k
                    = match pget k p with
                      | Some v => if mem k (rawAttributes AdminProfile) then Some v else None
                      | None => (list_to_map (defaultValues AdminProfile) : row) !! k
                      end) in Hl.
  intros H. apply save_inv in H as (dv3 & dv4 & Hh & Hcases). rewrite Hn in *.
  destruct Hcases as [[_ Hins]|[[? _]|[? _]]]; try discriminate.
  change (save_fields true (rawAttributes AdminProfile))
    with (rawAttributes AdminProfile) in Hh.
  set (dv := stamp true now _ (dataValues i0)) in Hh.
  assert (forall k, dv !! k
                    = if String.eqb k "createdAt" || String.eqb k "updatedAt"
                      then Some (VDate now) else dataValues i0 !! k) as Hdv.
  { intros k. apply stamp_new_lookup; [reflexivity|]. now rewrite Hl, Hca. }
  unfold run_hooks in Hh. cbn [beforeValidate beforeCreate beforeSave AdminProfile] in Hh.
  destruct (flat_map _ _) eqn:Hv; [|discriminate]. injection Hh as <- <-.
  assert (forall k, k ∈ ["userId"; "firstName"; "lastName"] ->
                    exists v, pget k p = Some v /\ dv !! k = Some v) as Hreq.
  { intros k Hk.
    assert (k = "userId" \/ k = "firstName" \/ k = "lastName") as Hcases.
    { apply elem_of_cons in Hk as [->|Hk]; [now left|].
      apply elem_of_cons in Hk as [->|Hk]; [now right; left|].
      apply elem_of_cons in Hk as [->|Hk]; [now right; right|]. inversion Hk. }
    assert (k ∈ rawAttributes AdminProfile) as Hraw.
    { apply mem_spec. destruct Hcases as [->|[->| ->]]; reflexivity. }
    pose proof (flat_map_nil_inv _ _ k Hv Hraw) as Hval.
    cbn [validators AdminProfile] in Hval. unfold AdminProfile_validators in Hval.
    assert (dv !! k = pget k p) as Hk'.
    { rewrite Hdv, Hl.
      destruct Hcases as [->|[->| ->]]; cbn [String.eqb Ascii.eqb Bool.eqb orb];
        match goal with
        | |- context [mem ?k0 (rawAttributes AdminProfile)] =>
            change (mem k0 (rawAttributes AdminProfile)) with true
        end;
        match goal with
        | |- match pget ?k0 p with _ => _ end = _ =>
            destruct (pget k0 p); [reflexivity|]
        end; cbn [defaultValues AdminProfile list_to_map foldr]; now rewrite lookup_empty. }
    rewrite Hk' in *.
    destruct Hcases as [->|[->| ->]];
      cbn [String.eqb Ascii.eqb Bool.eqb] in Hval; unfold attr_validate in Hval;
      match type of Hk' with
      | _ = pget ?k0 p => destruct (pget k0 p) as [v|]; [eauto|discriminate]
      end. }
  unfold insert_row in Hins.
  assert (dv !! "id" = None) as Hnoid by (now rewrite Hdv, Hl, Hid).
  rewrite Hnoid in Hins.
  destruct (unique_violations _ _ _ _); [|discriminate].
  destruct (dangling _ _ _ _); [discriminate|].
  apply inr_pair_inv in Hins as [<- <-].
  eexists. split; [reflexivity|].
  assert (forall k, mem k (rawAttributes AdminProfile) = true -> k <> "id" ->
                    String.eqb k "createdAt" || String.eqb k "updatedAt" = false ->
                    write_fields (rawAttributes AdminProfile)
                      (<["id" := VNum (next_id (tbl AdminProfile d))]> dv)
                      (list_to_map (map (fun k => (k, VNull)) (rawAttributes AdminProfile)))
                      !! k
                    = Some (default VNull (match pget k p with
                                           | Some v => Some v | None => None end)))
    as Hcol.
  { intros k Hm Hk Hs. rewrite inserted_lookup, Hm.
    rewrite lookup_insert_ne by congruence. rewrite Hdv, Hs, Hl, Hm.
    destruct (pget k p); [reflexivity|].
    cbn [defaultValues AdminProfile list_to_map foldr]. now rewrite lookup_empty. }
  repeat split.
  - destruct (Hreq "userId" ltac:(apply mem_spec; reflexivity)) as (v & Hv1 & _).
    rewrite Hcol, Hv1 by (first [reflexivity|discriminate]). reflexivity.
  - destruct (Hreq "firstName" ltac:(apply mem_spec; reflexivity)) as (v & Hv1 & _).
    rewrite Hcol, Hv1 by (first [reflexivity|discriminate]). reflexivity.
  - destruct (Hreq "lastName" ltac:(apply mem_spec; reflexivity)) as (v & Hv1 & _).
    rewrite Hcol, Hv1 by (first [reflexivity|discriminate]). reflexivity.
  - rewrite Hcol, Hda by (first [reflexivity|discriminate]). reflexivity.
  - intros k Hk.
    repeat (apply elem_of_cons in Hk as [->|Hk];
            [rewrite Hcol by (first [reflexivity|discriminate]);
             match goal with
             | |- context [pget ?k0 p] => now destruct (pget k0 p)
             end|]).
    inversion Hk.
Qed.

Lemma defined_cons (k : string) (o : option value) (l : list (string * option value)) :
  defined ((k, o) :: l)
  = match o with Some v => (k, v) :: defined l | None => defined l end.
Proof. now destruct o. Qed.

Lemma defined_key_in (k : string) (l : list (string * option value)) :
  k ∈ map fst (defined l) -> k ∈ map fst l.
Proof.
  induction l as [|[k0 o] l IH]; [done|]. rewrite defined_cons. cbn [map fst].
  destruct o; cbn [map fst]; rewrite ?elem_of_cons; intuition.
Qed.

Lemma defined_keys (l : list (string * option value)) :
  NoDup (map fst l) -> NoDup (map fst (defined l)).
Proof.
  induction l as [|[k o] l IH]; [done|]. rewrite defined_cons. cbn [map fst].
  intros H. apply NoDup_cons in H as [Hk H]. destruct o; [|auto].
  cbn [map fst]. apply NoDup_cons. split; [|auto].
  intros Hin. apply Hk. now apply defined_key_in.
Qed.

Lemma pget_defined_cons (k k0 : string) (o : option value)
    (l : list (string * option value)) :
  pget k (defined ((k0, o) :: l))
  = if String.eqb k k0
    then match o with Some v => Some v | None => pget k (defined l) end
    else pget k (defined l).
Proof. rewrite defined_cons. destruct o; cbn [pget]; now destruct (String.eqb k k0). Qed.

Ltac pget_defined :=
  rewrite ?pget_defined_cons; cbn [String.eqb Ascii.eqb Bool.eqb];
  change (defined []) with (@nil (string * value)); cbn [pget].

(** X8. What [createAdmin] stores when it answers 201: one new user row
    and one new profile row that refers to it. The account type is admin,
    the provider local and the account active whatever the body says about
    them; the password column holds the hash of the submitted password,
    which is a string of 8 to 128 characters; no other user row, deleted or
    not, has the email. *)
Theorem createAdmin_stores_admin_account hash isEmail (now : Z) (req : request) (d : db) :
  let b := rbody req in
  let r := createAdmin hash isEmail now req d in
  status r.1 = 201 ->
  exists e pw u pr,
    pget "email" b = Some e /\ pget "password" b = Some (VStr pw)
    /\ len 8 128 pw = true /\ isEmail (str_of (Some e)) = true
    /\ (forall r0, r0 ∈ users d -> r0 !! "email" <> Some e)
    /\ r.2 = {| users := users d ++ [u]; admin_profiles := admin_profiles d ++ [pr];
                categories := categories d; products := products d |}
    /\ u !! "id" = Some (VNum (next_id (users d)))
    /\ u !! "email" = Some e
    /\ u !! "password" = Some (VStr (hash pw))
    /\ u !! "accountType" = Some (VStr "admin")
    /\ u !! "authProvider" = Some (VStr "local")
    /\ u !! "isActive" = Some (VBool true)
    /\ u !! "deletedAt" = Some VNull
    /\ pr !! "userId" = u !! "id"
    /\ pr !! "firstName" = pget "firstName" b
    /\ pr !! "lastName" = pget "lastName" b
    /\ pr !! "deletedAt" = Some VNull.
Proof.
  intros b r. subst r. unfold createAdmin. fold b.
  destruct (pget "email" b) as [e|] eqn:He; [|discriminate].
  destruct (existing_user _ _ _ _); [discriminate|].
  match goal with
  | |- context [create (User hash isEmail) now ?p d] =>
      set (pu := p); destruct (create (User hash isEmail) now pu d)
        as [err|[user d1]] eqn:Hu
  end.
  { intros H. cbn [fst] in H. now apply errorHandler_not_201 in H. }
  match goal with
  | |- context [create AdminProfile now ?p d1] =>
      set (pp := p); destruct (create AdminProfile now pp d1) as [err|[prof d2]] eqn:Hp
  end.
  { intros H. cbn [fst] in H. now apply errorHandler_not_201 in H. }
  intros _. cbn [snd].
  assert (NoDup (map fst pu)) as Hndu.
  { apply defined_keys. cbn [map fst]. apply (bool_decide_unpack _). vm_compute. exact I. }
  assert (NoDup (map fst pp)) as Hndp.
  { apply defined_keys. cbn [map fst]. apply (bool_decide_unpack _). vm_compute. exact I. }
  apply create_User_inv in Hu as (e' & pw & u & He' & Hpw & Hie & Hlen & Hfree & -> & Hgid
                                  & Hid & Hem & Hpass & Hacc & Hprov & Hact & _ & _ & _ & Hdel);
    [|exact Hndu|].
  2: { unfold pu. repeat constructor; pget_defined; reflexivity. }
  apply create_AdminProfile_inv in Hp as (pr & -> & Huid & Hfn & Hln & Hpdel & _);
    [|exact Hndp|].
  2: { unfold pp. repeat constructor; pget_defined; reflexivity. }
  assert (pget "email" pu = Some e) as Hpe.
  { unfold pu. pget_defined. reflexivity. }
  assert (pget "password" pu = pget "password" b) as Hpp.
  { unfold pu. pget_defined. now destruct (pget "password" b). }
  assert (pget "accountType" pu = Some (VStr "admin")
          /\ pget "authProvider" pu = Some (VStr "local")
          /\ pget "isActive" pu = None) as (Hpa & Hpv & Hpi).
  { unfold pu. repeat split; pget_defined; reflexivity. }
  assert (pget "userId" pp = Some (VNum (next_id (users d)))
          /\ pget "firstName" pp = pget "firstName" b
          /\ pget "lastName" pp = pget "lastName" b) as (Hpuid & Hpfn & Hpln).
  { unfold pp. rewrite Hgid. repeat split; pget_defined; try reflexivity.
    - now destruct (pget "firstName" b).
    - now destruct (pget "lastName" b). }
  rewrite Hpe in He'. injection He' as <-. rewrite Hpp in Hpw.
  exists e, pw, u, pr. cbn [users admin_profiles categories products].
  rewrite Hacc, Hprov, Hact, Hpa, Hpv, Hpi, Huid, Hpuid, Hfn, Hln, Hpfn, Hpln, Hid.
  repeat split; assumption.
Qed.

Lemma createAdmin_stores_admin_account_witness :
  let req := sample_request None []
               [("email", VStr "new@shop.test"); ("password", VStr "Passw0rd!");
                ("firstName", VStr "Bob"); ("lastName", VStr "Ray");
                ("accountType", VStr "customer"); ("isActive", VBool false)] in
  exists u pr,
    (createAdmin sample_hash sample_isEmail 3000 req sample_db).2
    = {| users := users sample_db ++ [u];
         admin_profiles := admin_profiles sample_db ++ [pr];
         categories := categories sample_db; products := products sample_db |}
    /\ u !! "password" = Some (VStr (sample_hash "Passw0rd!"))
    /\ u !! "accountType" = Some (VStr "admin")
    /\ u !! "isActive" = Some (VBool true)
    /\ pr !! "userId" = u !! "id".
Proof.
  intros req.
  destruct (createAdmin_stores_admin_account sample_hash sample_isEmail 3000 req sample_db)
    as (e & pw & u & pr & _ & Hpw & _ & _ & _ & Hd & _ & _ & Hpass & Hacc & _ & Hact & _
        & Huid & _); [vm_compute; reflexivity|].
  exists u, pr. injection Hpw as <-. auto.
Defined.

(** ** A user created without its profile *)

Lemma run_hooks_User_ok hash isEmail (now : Z) (prev dv : row) (e pw : string) :
  dv !! "email" = Some (VStr e) -> isEmail e = true -> notEmpty e = true ->
  dv !! "password" = Some (VStr pw) -> notEmpty pw = true -> len 8 128 pw = true ->
  sql_null (dv !! "accountType") = false ->
  run_hooks (User hash isEmail) true true now (rawAttributes (User hash isEmail)) prev dv
  = inr (dv, <["lastPasswordChange" := VDate now]> (<["password" := VStr (hash pw)]> dv)).
Proof.
  intros He Hie Hne Hp Hnp Hlen Ha. unfold run_hooks.
  cbn [beforeValidate beforeCreate beforeSave User].
  rewrite flat_map_nil.
  - rewrite Hp. assert (truthy (Some (VStr pw)) = true) as ->.
    { destruct pw; [discriminate|reflexivity]. }
    unfold hash_password. now rewrite Hp.
  - intros k Hk. cbn [validators User]. unfold User_validators, attr_validate.
    repeat (apply elem_of_cons in Hk as [->|Hk];
            [cbn [String.eqb Ascii.eqb Bool.eqb];
             rewrite ?He, ?Hp, ?Ha; cbn [sql_null str_of];
             rewrite ?Hie, ?Hne, ?Hnp, ?Hlen; reflexivity|]).
    inversion Hk.
Qed.

Lemma create_User_ok hash isEmail (now : Z) (p : payload) (d : db) (e pw : string) :
  NoDup (map fst p) ->
  Forall (fun k => pget k p = None) ["id"; "createdAt"; "updatedAt"] ->
  pget "email" p = Some (VStr e) -> isEmail e = true -> notEmpty e = true ->
  pget "password" p = Some (VStr pw) -> notEmpty pw = true -> len 8 128 pw = true ->
  sql_null (pget "accountType" p) = false ->
  (forall r, r ∈ users d -> r !! "email" <> Some (VStr e)) ->
  exists user u,
    create (User hash isEmail) now p d
    = inr (user, {| users := users d ++ [u]; admin_profiles := admin_profiles d;
                    categories := categories d; products := products d |})
    /\ get user "id" = Some (VNum (next_id (users d)))
    /\ u !! "email" = Some (VStr e)
    /\ u !! "accountType" = pget "accountType" p.
Proof.
  intros Hnd Hkeys He Hie Hne Hp Hnp Hlen Ha Hfree.
  apply Forall_cons in Hkeys as [Hid Hkeys]. apply Forall_cons in Hkeys as [Hca Hkeys].
  apply Forall_cons in Hkeys as [Hua _].
  unfold create.
  destruct (build_plain (User hash isEmail) p (fun _ => eq_refl) Hnd Hid)
    as (i & -> & Hn & Hl).
  assert (forall k, k <> "isActive" ->
            dataValues i !! k
            = match pget k p with
              | Some v => if mem k (rawAttributes (User hash isEmail)) then Some v else None
              | None => (list_to_map (defaultValues (User hash isEmail)) : row) !! k
              end) as Hl'.
  { intros k Hk. rewrite Hl. destruct (pget k p) as [v|]; [|reflexivity].
    unfold sanitize. cbn [booleanAttributes User mem existsb].
    destruct (String.eqb_spec k "isActive"); [congruence|reflexivity]. }
  unfold save. rewrite Hn, User_save_fields.
  set (dv := stamp true now _ (dataValues i)).
  assert (forall k, dv !! k
                    = if String.eqb k "createdAt" || String.eqb k "updatedAt"
                      then Some (VDate now) else dataValues i !! k) as Hdv.
  { intros k. apply stamp_new_lookup; [reflexivity|]. now rewrite Hl', Hca by discriminate. }
  assert (dv !! "accountType" = pget "accountType" p) as Hacc.
  { rewrite Hdv, Hl' by discriminate. cbn [String.eqb Ascii.eqb Bool.eqb orb].
    destruct (pget "accountType" p); [reflexivity|discriminate]. }
  rewrite (run_hooks_User_ok hash isEmail now (previous i) dv e pw);
    try assumption.
  2: { rewrite Hdv, Hl', He by discriminate. reflexivity. }
  2: { rewrite Hdv, Hl', Hp by discriminate. reflexivity. }
  2: { now rewrite Hacc. }
  set (dv4 := <["lastPasswordChange" := VDate now]> (<["password" := VStr (hash pw)]> dv)).
  assert (forall k, k <> "password" -> k <> "lastPasswordChange" -> dv4 !! k = dv !! k)
    as Hdv4.
  { intros k H1 H2. unfold dv4. now rewrite !lookup_insert_ne by congruence. }
  unfold insert_row.
  assert (dv4 !! "id" = None) as ->.
  { rewrite Hdv4, Hdv, Hl', Hid by discriminate. reflexivity. }
  set (nid := VNum (next_id (tbl (User hash isEmail) d))).
  assert (unique_violations (User hash isEmail) (tbl (User hash isEmail) d)
            (rawAttributes (User hash isEmail)) (<["id" := nid]> dv4) = []) as ->.
  { unfold unique_violations. cbn [uniqueColumns User flat_map fst snd].
    rewrite lookup_insert_ne, Hdv4, Hdv, Hl', He by discriminate.
    cbn [String.eqb Ascii.eqb Bool.eqb orb].
    replace (mem "email" (rawAttributes (User hash isEmail))) with true by reflexivity.
    cbn [sql_null negb andb].
    assert (clashes (tbl (User hash isEmail) d) ((<["id" := nid]> dv4 : row) !! "id")
                    "email" (VStr e) = false) as ->; [|reflexivity].
    apply not_true_iff_false. intros Hc. unfold clashes in Hc.
    apply existsb_exists in Hc as (r & Hr & Hc). apply list_elem_of_In in Hr.
    apply andb_true_iff in Hc as [Hc _]. apply bool_decide_eq_true in Hc.
    now apply (Hfree r Hr). }
  unfold dangling. cbn [foreignKeys User existsb].
  eexists _, _. split; [reflexivity|]. split.
  { unfold get. cbn [dataValues]. now rewrite lookup_insert_eq. }
  split; rewrite inserted_lookup;
    match goal with
    | |- context [mem ?k (rawAttributes _)] =>
        replace (mem k (rawAttributes (User hash isEmail))) with true by reflexivity
    end; rewrite lookup_insert_ne, Hdv4 by discriminate.
  - rewrite Hdv, Hl', He by discriminate. reflexivity.
  - rewrite Hacc. destruct (pget "accountType" p); [reflexivity|discriminate].
Qed.

Lemma flat_map_cons_inv {A B} (f : A -> list B) (l : list A) (x : A) :
  x ∈ l -> f x <> [] -> exists b bs, flat_map f l = b :: bs.
Proof.
  intros Hx Hf. destruct (flat_map f l) as [|b bs] eqn:H; [|eauto].
  now rewrite (flat_map_nil_inv f l x H Hx) in Hf.
Qed.

(** A profile without a first name is refused by the validators of the
    model. *)
Lemma create_AdminProfile_refused (now : Z) (p : payload) (d : db) :
  NoDup (map fst p) -> pget "id" p = None -> pget "createdAt" p = None ->
  pget "firstName" p = None ->
  exists msgs, create AdminProfile now p d = inl (SequelizeValidationError msgs).
Proof.
  intros Hnd Hid Hca Hfn. unfold create.
  destruct (build_plain AdminProfile p (fun _ => eq_refl) Hnd Hid) as (i & -> & Hn & Hl).
  unfold save. rewrite Hn.
  change (save_fields true (rawAttributes AdminProfile)) with (rawAttributes AdminProfile).
  set (dv := stamp true now _ (dataValues i)).
  assert (dv !! "firstName" = None) as Hdv.
  { unfold dv. rewrite stamp_other, Hl, Hfn by discriminate.
    cbn [defaultValues AdminProfile list_to_map foldr]. apply lookup_empty. }
  unfold run_hooks. cbn [beforeValidate AdminProfile].
  destruct (flat_map_cons_inv (fun k => validators AdminProfile now k dv)
              (rawAttributes AdminProfile) "firstName") as (m & ms & ->).
  - apply mem_spec. reflexivity.
  - cbn [validators AdminProfile]. unfold AdminProfile_validators.
    cbn [String.eqb Ascii.eqb Bool.eqb]. now rewrite Hdv.
  - eauto.
Qed.

(** X9. [createAdmin] writes the user before the profile and runs no
    transaction: when the body has no [firstName], the profile is refused
    with 400, and the user row that was inserted just before stays in the
    store, without any profile. *)
Theorem createAdmin_keeps_user_without_profile hash isEmail (now : Z) (req : request)
    (d : db) (e pw : string) :
  let b := rbody req in
  let r := createAdmin hash isEmail now req d in
  pget "email" b = Some (VStr e) -> isEmail e = true -> notEmpty e = true ->
  pget "password" b = Some (VStr pw) -> notEmpty pw = true -> len 8 128 pw = true ->
  (forall r0, r0 ∈ users d -> sql_eq (r0 !! "email") (VStr e) = false) ->
  pget "firstName" b = None ->
  status r.1 = 400
  /\ exists u, r.2 = {| users := users d ++ [u]; admin_profiles := admin_profiles d;
                        categories := categories d; products := products d |}
               /\ u !! "email" = Some (VStr e)
               /\ u !! "accountType" = Some (VStr "admin").
Proof.
  intros b r He Hie Hne Hp Hnp Hlen Hfree Hfn. subst r. unfold createAdmin. fold b.
  rewrite He.
  assert (existing_user hash isEmail (VStr e) d = None) as ->.
  { apply findOne_none. intros r0 Hr0. unfold selects.
    rewrite effective_where_User. cbn [plain fo_where forallb row_matches].
    cbn [tbl User] in Hr0. now rewrite (Hfree r0 Hr0). }
  match goal with
  | |- context [create (User hash isEmail) now ?p d] => set (pu := p)
  end.
  destruct (create_User_ok hash isEmail now pu d e pw)
    as (user & u & -> & Hgid & Hue & Hua).
  - apply defined_keys. cbn [map fst]. apply (bool_decide_unpack _). vm_compute. exact I.
  - unfold pu. repeat constructor; pget_defined; reflexivity.
  - unfold pu. pget_defined. reflexivity.
  - exact Hie.
  - exact Hne.
  - unfold pu. pget_defined. now rewrite Hp.
  - exact Hnp.
  - exact Hlen.
  - unfold pu. pget_defined. reflexivity.
  - intros r0 Hr0 Heq. specialize (Hfree r0 Hr0). rewrite Heq in Hfree.
    cbn in Hfree. now rewrite bool_decide_eq_true_2 in Hfree.
  - match goal with
    | |- context [create AdminProfile now ?p ?d1] =>
        destruct (create_AdminProfile_refused now p d1) as (msgs & ->)
    end.
    + apply defined_keys. cbn [map fst]. apply (bool_decide_unpack _). vm_compute.
      exact I.
    + pget_defined. reflexivity.
    + pget_defined. reflexivity.
    + rewrite Hgid, Hfn. pget_defined. reflexivity.
    + cbn [fst snd errorHandler status]. split; [reflexivity|].
      exists u. split; [reflexivity|]. split; [exact Hue|].
      rewrite Hua. unfold pu. pget_defined. reflexivity.
Qed.

Lemma createAdmin_keeps_user_without_profile_witness :
  let req := sample_request None []
               [("email", VStr "new@shop.test"); ("password", VStr "Passw0rd!");
                ("lastName", VStr "Ray")] in
  let r := createAdmin sample_hash sample_isEmail 3000 req sample_db in
  status r.1 = 400
  /\ exists u, users r.2 = (users sample_db ++ [u])%list
               /\ admin_profiles r.2 = admin_profiles sample_db
               /\ u !! "email" = Some (VStr "new@shop.test").
Proof.
  intros req r.
  destruct (createAdmin_keeps_user_without_profile sample_hash sample_isEmail 3000 req
              sample_db "new@shop.test" "Passw0rd!") as (Hs & u & Hd & He & _);
    try reflexivity.
  - intros r0 Hr0. unfold sample_db, users in Hr0.
    repeat (apply elem_of_cons in Hr0 as [->|Hr0]; [vm_compute; reflexivity|]).
    inversion Hr0.
  - split; [exact Hs|]. exists u. fold r in Hd. rewrite Hd. auto.
Defined.

(** ** Creating a category or a product *)

Lemma name_setter_other slugify (v : value) (dv dv' : row) (k : string) :
  name_setter slugify v dv = inr dv' -> k <> "name" -> k <> "slug" -> dv' !! k = dv !! k.
Proof.
  unfold name_setter, as_string. destruct v; try discriminate.
  intros H H1 H2. apply (inj inr) in H. subst dv'.
  destruct (negb _); rewrite !lookup_insert_ne by congruence; reflexivity.
Qed.

Lemma set_attr_other slugify (m : model) (k0 : string) (v : value) (i i' : instance)
    (k : string) :
  sluggable slugify m -> set_attr m k0 v i = inr i' -> isNewRecord i = true ->
  k <> "name" -> k <> "slug" -> k <> "id" ->
  dataValues i' !! k
  = if String.eqb k k0 && mem k (rawAttributes m) then Some (sanitize m k v)
    else dataValues i !! k.
Proof.
  intros Hm H Hn H1 H2 H3. unfold set_attr in H. rewrite (sg_setter slugify m Hm) in H.
  destruct (String.eqb_spec k0 "name") as [->|Hk0].
  - destruct (name_setter slugify v (dataValues i)) as [e|dv'] eqn:Hs; [discriminate|].
    apply (inj inr) in H. subst i'. cbn [dataValues].
    rewrite (name_setter_other slugify v _ dv' k Hs H1 H2).
    destruct (String.eqb_spec k "name"); [congruence|reflexivity].
  - rewrite Hn in H. cbn [negb andb] in H.
    destruct (String.eqb_spec k k0) as [->|Hk].
    + cbn [andb]. destruct (mem k0 (rawAttributes m)); cbn [negb] in H.
      * destruct (String.eqb_spec k0 "id"); [congruence|]. cbn [andb] in H.
        apply (inj inr) in H. subst i'. cbn [dataValues]. now rewrite lookup_insert_eq.
      * apply (inj inr) in H. now subst i'.
    + cbn [andb].
      destruct (negb (mem k0 (rawAttributes m))); [apply (inj inr) in H; now subst i'|].
      destruct (_ && _); apply (inj inr) in H; subst i'; [reflexivity|].
      cbn [dataValues]. now rewrite lookup_insert_ne by congruence.
Qed.

Lemma set_all_other slugify (m : model) (p : payload) (i i' : instance) (k : string) :
  sluggable slugify m -> NoDup (map fst p) -> set_all m p i = inr i' ->
  isNewRecord i = true -> k <> "name" -> k <> "slug" -> k <> "id" ->
  dataValues i' !! k
  = match pget k p with
    | Some v => if mem k (rawAttributes m) then Some (sanitize m k v)
                else dataValues i !! k
    | None => dataValues i !! k
    end.
Proof.
  intros Hm. revert i. induction p as [|[k0 v] p IH]; intros i Hnd H Hn H1 H2 H3.
  - apply (inj inr) in H. now subst i'.
  - cbn [map fst] in Hnd. apply NoDup_cons in Hnd as [Hk0 Hnd]. cbn [set_all] in H.
    destruct (set_attr m k0 v i) as [e|i1] eqn:Hs; [discriminate|].
    destruct (set_attr_slug slugify m Hm k0 v i i1 Hs) as (_ & _ & Hn1 & _).
    rewrite (IH i1 Hnd H) by congruence.
    rewrite (set_attr_other slugify m k0 v i i1 k Hm Hs Hn H1 H2 H3). cbn [pget].
    destruct (String.eqb_spec k k0) as [->|Hk]; cbn [andb].
    + rewrite (pget_notin k0 p Hk0). now destruct (mem k0 (rawAttributes m)).
    + reflexivity.
Qed.

(** The id of a new instance: the one of the body when it has one. *)
Lemma set_all_new_id slugify (m : model) (p : payload) (i i' : instance) :
  sluggable slugify m -> set_all m p i = inr i' -> pget "id" p = None ->
  dataValues i' !! "id" = dataValues i !! "id".
Proof.
  intros Hm. revert i. induction p as [|[k0 v] p IH]; intros i H Hid.
  - apply (inj inr) in H. now subst i'.
  - cbn [pget] in Hid. destruct (String.eqb_spec "id" k0) as [|Hk]; [discriminate|].
    cbn [set_all] in H. destruct (set_attr m k0 v i) as [e|i1] eqn:Hs; [discriminate|].
    rewrite (IH i1 H Hid).
    destruct (set_attr_slug slugify m Hm k0 v i i1 Hs) as (_ & _ & _ & _ & Hi).
    apply Hi. left. congruence.
Qed.

Lemma set_all_name_cases slugify (m : model) (p : payload) (i i' : instance) :
  sluggable slugify m -> NoDup (map fst p) -> set_all m p i = inr i' ->
  match pget "name" p with
  | Some v => exists n, v = VStr n /\ dataValues i' !! "name" = Some (VStr (trim n))
  | None => dataValues i' !! "name" = dataValues i !! "name"
  end.
Proof.
  intros Hm. revert i. induction p as [|[k0 v] p IH]; intros i Hnd H.
  - apply (inj inr) in H. now subst i'.
  - cbn [map fst] in Hnd. apply NoDup_cons in Hnd as [Hk0 Hnd]. cbn [set_all] in H.
    destruct (set_attr m k0 v i) as [e|i1] eqn:Hs; [discriminate|].
    pose proof (set_attr_name slugify m Hm k0 v i i1 Hs) as Hn1.
    destruct (set_attr_slug slugify m Hm k0 v i i1 Hs) as (_ & Hstr & _).
    specialize (IH i1 Hnd H). cbn [pget].
    destruct (String.eqb_spec "name" k0) as [<-|Hk].
    + destruct (Hstr eq_refl) as [n ->]. exists n. split; [reflexivity|].
      rewrite (pget_notin "name" p Hk0) in IH. rewrite IH, Hn1. reflexivity.
    + destruct (String.eqb_spec k0 "name") as [|_]; [congruence|].
      destruct (pget "name" p); [exact IH|]. now rewrite IH, Hn1.
Qed.

Lemma insert_row_new (m : model) (dv : row) (d : db) (i' : instance) (d' : db) :
  insert_row m dv d = inr (i', d') -> dv !! "id" = None ->
  let dv5 : row := <["id" := VNum (next_id (tbl m d))]> dv in
  d' = set_tbl m (tbl m d ++ [write_fields (rawAttributes m) dv5
                                (list_to_map (map (fun k => (k, VNull))
                                                  (rawAttributes m)))]) d
  /\ unique_violations m (tbl m d) (rawAttributes m) dv5 = []
  /\ dangling m d (rawAttributes m) dv5 = false.
Proof.
  unfold insert_row. intros H Hid. rewrite Hid in H. cbv zeta.
  destruct (unique_violations _ _ _ _); [|discriminate].
  destruct (dangling _ _ _ _); [discriminate|].
  apply inr_pair_inv in H as [_ <-]. repeat split.
Qed.

Lemma unique_free (m : model) (t : table) (fields : list string) (dv : row)
    (c msg : string) (v : value) :
  unique_violations m t fields dv = [] ->
  (c, msg) ∈ uniqueColumns m -> mem c fields = true ->
  dv !! c = Some v -> sql_null (Some v) = false ->
  forall r0, r0 ∈ t -> r0 !! "id" <> dv !! "id" -> r0 !! c <> Some v.
Proof.
  intros Hu Hc Hm Hv Hnn r0 Hr0 Hid Heq. unfold unique_violations in Hu.
  pose proof (flat_map_nil_inv _ _ (c, msg) Hu Hc) as H.
  cbn [fst snd] in H. rewrite Hv, Hm, Hnn in H. cbn [negb andb] in H.
  destruct (clashes t (dv !! "id") c v) eqn:Hcl; [discriminate|].
  apply not_true_iff_false in Hcl. apply Hcl. unfold clashes.
  apply existsb_exists. exists r0. split; [now apply list_elem_of_In|].
  rewrite bool_decide_eq_true_2 by exact Heq.
  now rewrite bool_decide_eq_false_2 by exact Hid.
Qed.

(** The values of a new category or product when the hooks of its save
    start. *)
Lemma create_built slugify (m : model) (now : Z) (p : payload) (d : db) (i : instance)
    (d' : db) :
  sluggable slugify m -> mem "updatedAt" (rawAttributes m) = true ->
  Forall (fun k => (list_to_map (defaultValues m) : row) !! k = None)
         ["id"; "name"; "createdAt"] ->
  NoDup (map fst p) ->
  Forall (fun k => pget k p = None) ["id"; "createdAt"; "updatedAt"] ->
  create m now p d = inr (i, d') ->
  exists dv dv3 dv4 : row,
    run_hooks m true true now (save_fields true (rawAttributes m)) ∅ dv = inr (dv3, dv4)
    /\ insert_row m dv4 d = inr (i, d')
    /\ dv !! "id" = None
    /\ dv !! "createdAt" = Some (VDate now) /\ dv !! "updatedAt" = Some (VDate now)
    /\ match pget "name" p with
       | Some v => exists n, v = VStr n /\ dv !! "name" = Some (VStr (trim n))
       | None => dv !! "name" = None
       end
    /\ forall k, k ∉ ["name"; "slug"; "id"; "createdAt"; "updatedAt"] ->
                 dv !! k = match pget k p with
                           | Some v => if mem k (rawAttributes m)
                                       then Some (sanitize m k v) else None
                           | None => (list_to_map (defaultValues m) : row) !! k
                           end.
Proof.
  intros Hm Hupd Hdef Hnd Hkeys.
  apply Forall_cons in Hdef as [Hdid Hdef]. apply Forall_cons in Hdef as [Hdn Hdef].
  apply Forall_cons in Hdef as [Hdc _].
  apply Forall_cons in Hkeys as [Hid Hkeys]. apply Forall_cons in Hkeys as [Hca Hkeys].
  apply Forall_cons in Hkeys as [Hua _].
  unfold create.
  set (init := {| dataValues := _; previous := ∅; isNewRecord := true |}).
  destruct (set_all m p init) as [e|i0] eqn:Hs; [discriminate|].
  destruct (set_all_frame slugify m Hm p init i0 Hs) as (Hn & Hprev & _).
  cbn [init isNewRecord previous] in Hn, Hprev.
  assert (forall k, dataValues init !! k
                    = if is_defined (pget k p) then None
                      else (list_to_map (defaultValues m) : row) !! k) as Hinit.
  { intros k. apply defaults_lookup. }
  intros H. apply save_inv in H as (dv3 & dv4 & Hh & Hcases). rewrite Hn, Hprev in *.
  destruct Hcases as [[_ Hins]|[[? _]|[? _]]]; try discriminate.
  set (dv := stamp true now _ (dataValues i0)) in Hh.
  assert (dataValues i0 !! "createdAt" = None) as Hc0.
  { rewrite (set_all_other slugify m p init i0 "createdAt" Hm Hnd Hs eq_refl)
      by discriminate.
    now rewrite Hca, Hinit, Hca, Hdc. }
  assert (forall k, dv !! k
                    = if String.eqb k "createdAt" || String.eqb k "updatedAt"
                      then Some (VDate now) else dataValues i0 !! k) as Hdv.
  { intros k. apply stamp_new_lookup; [|exact Hc0]. now apply mem_save_fields. }
  exists dv, dv3, dv4. split; [exact Hh|]. split; [exact Hins|].
  split. { rewrite Hdv. cbn [String.eqb Ascii.eqb Bool.eqb orb].
           rewrite (set_all_new_id slugify m p init i0 Hm Hs Hid).
           now rewrite Hinit, Hid, Hdid. }
  split; [now rewrite Hdv|]. split; [now rewrite Hdv|]. split.
  - pose proof (set_all_name_cases slugify m p init i0 Hm Hnd Hs) as Hname.
    rewrite Hdv. cbn [String.eqb Ascii.eqb Bool.eqb orb].
    destruct (pget "name" p) eqn:Hpn; [exact Hname|].
    now rewrite Hname, Hinit, Hpn, Hdn.
  - intros k Hk. rewrite Hdv.
    assert (k <> "name" /\ k <> "slug" /\ k <> "id" /\ k <> "createdAt"
            /\ k <> "updatedAt") as (H1 & H2 & H3 & H4 & H5).
    { repeat split; intros ->; apply Hk; apply mem_spec; reflexivity. }
    destruct (String.eqb_spec k "createdAt"); [congruence|].
    destruct (String.eqb_spec k "updatedAt"); [congruence|]. cbn [orb].
    rewrite (set_all_other slugify m p init i0 k Hm Hnd Hs eq_refl H1 H2 H3).
    rewrite Hinit. now destruct (pget k p).
Qed.

(** X10. What [createCategory] stores when it answers 201, for a body
    without [id] and time stamp keys: one new row at the end of the
    categories table and nothing else. The id of the row is a positive
    number that no stored row has. The row has the trimmed name, a slug
    that matches the slug pattern and that no stored row has (inactive and
    deleted rows included), both time stamps at the time of the request
    and [deletedAt] null. Its [isActive] is [true] when the body has none,
    and the boolean the body gives when it gives one, as a boolean or as
    one of "true", "false", 1 and 0; its [description] is [null] when
    the body has none and the string of the body when it gives one. *)
Theorem createCategory_stores_row slugify (now : Z) (req : request) (d : db) :
  let b := rbody req in
  let r := createCategory slugify now req d in
  NoDup (map fst b) ->
  Forall (fun k => pget k b = None) ["id"; "createdAt"; "updatedAt"; "deletedAt"] ->
  status r.1 = 201 ->
  exists (added : row) (id : Z) (n : string) (slug : value),
    pget "name" b = Some (VStr n)
    /\ r.2 = {| users := users d; admin_profiles := admin_profiles d;
                categories := categories d ++ [added]; products := products d |}
    /\ added !! "id" = Some (VNum id) /\ 0 < id
    /\ (forall r0, r0 ∈ categories d -> r0 !! "id" <> Some (VNum id))
    /\ added !! "name" = Some (VStr (trim n))
    /\ added !! "slug" = Some slug /\ is_slug (str_of (Some slug)) = true
    /\ (forall r0, r0 ∈ categories d -> r0 !! "slug" <> Some slug)
    /\ match pget "isActive" b with
       | None => added !! "isActive" = Some (VBool true)
       | Some v => forall a, to_boolean v = Some a -> added !! "isActive" = Some (VBool a)
       end
    /\ match pget "description" b with
       | None => added !! "description" = Some VNull
       | Some v => forall s, v = VStr s -> added !! "description" = Some (VStr s)
       end
    /\ added !! "createdAt" = Some (VDate now) /\ added !! "updatedAt" = Some (VDate now)
    /\ added !! "deletedAt" = Some VNull.
Proof.
  intros b r Hnd Hkeys. subst r. unfold createCategory. fold b.
  destruct (create (Category slugify) now b d) as [e|[c d']] eqn:Hc.
  { intros H. cbn [fst] in H. now apply errorHandler_not_201 in H. }
  intros _. cbn [snd].
  pose proof (Category_sluggable slugify) as Hm.
  assert (pget "deletedAt" b = None) as Hdel.
  { rewrite Forall_forall in Hkeys. apply Hkeys, mem_spec. reflexivity. }
  destruct (create_built slugify (Category slugify) now b d c d' Hm eq_refl)
    as (dv & dv3 & dv4 & Hh & Hins & Hid & Hca & Hua & Hname & Hother); try assumption.
  { repeat constructor. }
  { rewrite Forall_forall in Hkeys. repeat constructor; apply Hkeys, mem_spec;
      reflexivity. }
  unfold run_hooks in Hh.
  cbn [beforeValidate beforeCreate beforeSave Category] in Hh.
  destruct (slug_hook slugify dv) as [e|dv1] eqn:Hsh; [discriminate|].
  destruct (flat_map _ _) eqn:Hv; [|discriminate].
  apply inr_pair_inv in Hh as [<- <-].
  assert (forall k, k <> "slug" -> dv1 !! k = dv !! k) as Hdv1.
  { intros k Hk. now apply (slug_hook_other slugify dv dv1 k Hsh). }
  assert (forall k, mem k (rawAttributes (Category slugify)) = true ->
                    validators (Category slugify) now k dv1 = []) as Hval.
  { intros k Hk. apply (flat_map_nil_inv _ _ k Hv). apply mem_spec.
    now apply mem_save_fields. }
  (* the name *)
  assert (exists n, pget "name" b = Some (VStr n)
                    /\ dv1 !! "name" = Some (VStr (trim n))) as (n & Hpn & Hn1).
  { destruct (pget "name" b) as [v|] eqn:Hpn.
    - destruct Hname as (n & -> & Hn). exists n. split; [reflexivity|].
      now rewrite Hdv1 by discriminate.
    - pose proof (Hval "name" eq_refl) as Hvn. cbn [validators Category] in Hvn.
      unfold Category_validators in Hvn. cbn [String.eqb Ascii.eqb Bool.eqb] in Hvn.
      rewrite Hdv1, Hname in Hvn by discriminate. discriminate. }
  (* the slug *)
  destruct (sg_valid_slug slugify _ Hm now dv1 (Hval "slug" eq_refl)) as [Hsn Hss].
  destruct (dv1 !! "slug") as [slug|] eqn:Hslug; [|discriminate].
  (* the insert *)
  apply insert_row_new in Hins as (-> & Huniq & _);
    [|now rewrite Hdv1, Hid by discriminate].
  set (dv5 := <["id" := VNum (next_id (tbl (Category slugify) d))]> dv1) in *.
  assert (forall k, k <> "id" -> dv5 !! k = dv1 !! k) as Hdv5.
  { intros k Hk. unfold dv5. now rewrite lookup_insert_ne by congruence. }
  eexists _, (next_id (categories d)), n, slug.
  split; [exact Hpn|]. split; [reflexivity|].
  assert (forall k, mem k (rawAttributes (Category slugify)) = true ->
            write_fields (rawAttributes (Category slugify)) dv5
              (list_to_map (map (fun k => (k, VNull)) (rawAttributes (Category slugify))))
              !! k = Some (default VNull (dv5 !! k))) as Hcol.
  { intros k Hk. now rewrite inserted_lookup, Hk. }
  assert (forall k, k ∉ ["name"; "slug"; "id"; "createdAt"; "updatedAt"] ->
                    dv5 !! k = dv !! k) as Hplain.
  { intros k Hk. rewrite Hdv5, Hdv1; [reflexivity| |];
      intros ->; apply Hk, mem_spec; reflexivity. }
  assert (forall k : string, mem k ["name"; "slug"; "id"; "createdAt"; "updatedAt"] = false ->
                    k ∉ ["name"; "slug"; "id"; "createdAt"; "updatedAt"]) as Hnot.
  { intros k Hk Hin. apply mem_spec in Hin. congruence. }
  split. { rewrite Hcol by reflexivity. unfold dv5. now rewrite lookup_insert_eq. }
  split. { apply next_id_positive. }
  split. { intros r0 Hr0. now apply next_id_fresh. }
  split. { rewrite Hcol, Hdv5, Hn1 by (first [reflexivity|discriminate]). reflexivity. }
  split. { rewrite Hcol, Hdv5, Hslug by (first [reflexivity|discriminate]). reflexivity. }
  split; [exact Hss|].
  split.
  { intros r0 Hr0.
    apply (unique_free (Category slugify) (categories d) (rawAttributes (Category slugify))
             dv5 "slug" "This slug is already in use" slug Huniq); try reflexivity.
    + apply list_elem_of_singleton. reflexivity.
    + now rewrite Hdv5, Hslug by discriminate.
    + exact Hsn.
    + exact Hr0.
    + unfold dv5. rewrite lookup_insert_eq. now apply next_id_fresh. }
  split.
  { rewrite Hcol, (Hplain "isActive"), (Hother "isActive")
      by (first [reflexivity|now apply Hnot]).
    replace (mem "isActive" (rawAttributes (Category slugify))) with true by reflexivity.
    destruct (pget "isActive" b) as [v|]; [|reflexivity].
    intros a Ha. unfold sanitize. cbn [booleanAttributes Category mem existsb
                                       String.eqb Ascii.eqb Bool.eqb orb].
    now rewrite Ha. }
  split.
  { rewrite Hcol, (Hplain "description"), (Hother "description")
      by (first [reflexivity|now apply Hnot]).
    replace (mem "description" (rawAttributes (Category slugify))) with true
      by reflexivity.
    destruct (pget "description" b) as [v|]; [|reflexivity].
    intros s0 ->. reflexivity. }
  split. { rewrite Hcol, Hdv5, Hdv1, Hca by (first [reflexivity|discriminate]). reflexivity. }
  split. { rewrite Hcol, Hdv5, Hdv1, Hua by (first [reflexivity|discriminate]). reflexivity. }
  rewrite Hcol, (Hplain "deletedAt"), (Hother "deletedAt"), Hdel
    by (first [reflexivity|now apply Hnot]).
  reflexivity.
Qed.

Lemma derive_slug_other slugify (p p' : payload) :
  derive_slug slugify p = inr p' -> NoDup (map fst p) ->
  NoDup (map fst p') /\ forall k, k <> "slug" -> pget k p' = pget k p.
Proof.
  unfold derive_slug. intros H Hnd. destruct (_ && _).
  - destruct (as_string _ _) as [e|n]; [discriminate|]. apply (inj inr) in H. subst p'.
    split; [now apply pset_NoDup|]. intros k Hk. now apply pget_pset_ne.
  - apply (inj inr) in H. subst p'. split; [exact Hnd|reflexivity].
Qed.

Lemma createCategory_stores_row_witness :
  let req := sample_request None []
               [("name", VStr "  Fresh Vegetables "); ("isActive", VStr "false")] in
  exists (added : row) (id : Z),
    categories (createCategory slugify_ascii 3000 req sample_db).2
    = (categories sample_db ++ [added])%list
    /\ added !! "id" = Some (VNum id) /\ 0 < id
    /\ added !! "name" = Some (VStr "Fresh Vegetables")
    /\ added !! "isActive" = Some (VBool false)
    /\ added !! "description" = Some VNull
    /\ added !! "deletedAt" = Some VNull.
Proof.
  intros req.
  destruct (createCategory_stores_row slugify_ascii 3000 req sample_db)
    as (added & id & n & slug & Hn & Hd & Hid & Hpos & _ & Hname & _ & _ & _ & Hact & Hdesc
        & _ & _ & Hdel).
  - apply (bool_decide_unpack _). vm_compute. exact I.
  - repeat constructor.
  - vm_compute. reflexivity.
  - exists added, id. rewrite Hd. injection Hn as <-.
    split; [reflexivity|]. split; [exact Hid|]. split; [exact Hpos|].
    split; [exact Hname|]. split; [exact (Hact false eq_refl)|].
    split; [exact Hdesc|exact Hdel].
Defined.

(** ** What an update by id can write *)

Lemma load_lookup (m : model) (o : find_options) (r : row) (k : string) :
  fo_exclude o = [] ->
  dataValues (load m o r) !! k
  = if mem k (rawAttributes m) && negb (mem k (scopeExclude m)) then r !! k else None.
Proof.
  intros Ho. cbn [load dataValues]. rewrite project_lookup.
  assert (mem k (selected_attributes m o)
          = mem k (rawAttributes m) && negb (mem k (scopeExclude m))) as ->;
    [|reflexivity].
  apply eq_true_iff_eq. rewrite andb_true_iff, mem_spec, negb_true_iff, mem_spec.
  unfold selected_attributes. rewrite list_elem_of_filter, Ho, app_nil_r.
  fold (mem k (scopeExclude m)).
  destruct (mem k (scopeExclude m)); cbn [negb]; split; intros [H1 H2];
    split; try done.
Qed.

Lemma stamp_stored (now : Z) (fields : list string) (dv : row) (k : string) :
  k <> "updatedAt" -> stamp false now fields dv !! k = dv !! k.
Proof.
  intros H. unfold stamp. cbn [andb].
  destruct (mem "updatedAt" fields); [|reflexivity].
  now rewrite lookup_insert_ne by congruence.
Qed.

(** [set] on a stored instance of Category or Product, seen from an
    attribute other than the name and the slug. *)
Lemma set_attr_stored slugify (m : model) (k0 : string) (v : value) (i i' : instance)
    (k : string) :
  sluggable slugify m -> set_attr m k0 v i = inr i' -> isNewRecord i = false ->
  k <> "name" -> k <> "slug" ->
  dataValues i' !! k
  = if String.eqb k k0 && mem k (rawAttributes m)
       && negb (String.eqb k "id" && truthy (dataValues i !! "id"))
       && negb (mem k readOnlyAttributes)
    then Some (sanitize m k v) else dataValues i !! k.
Proof.
  intros Hm H Hn H1 H2. unfold set_attr in H. rewrite (sg_setter slugify m Hm) in H.
  destruct (String.eqb_spec k0 "name") as [->|Hk0].
  - destruct (name_setter slugify v (dataValues i)) as [e|dv'] eqn:Hs; [discriminate|].
    apply (inj inr) in H. subst i'. cbn [dataValues].
    rewrite (name_setter_other slugify v _ dv' k Hs H1 H2).
    destruct (String.eqb_spec k "name"); [congruence|reflexivity].
  - rewrite Hn in H. cbn [negb andb] in H.
    destruct (String.eqb_spec k k0) as [->|Hk]; cbn [andb].
    + destruct (mem k0 (rawAttributes m)); cbn [negb andb] in *;
        [|apply (inj inr) in H; now subst i'].
      destruct (String.eqb k0 "id" && truthy (dataValues i !! "id")); cbn [negb andb];
        [apply (inj inr) in H; now subst i'|].
      destruct (mem k0 readOnlyAttributes); cbn [negb];
        apply (inj inr) in H; subst i'; [reflexivity|].
      cbn [dataValues]. now rewrite lookup_insert_eq.
    + destruct (negb (mem k0 (rawAttributes m))); [apply (inj inr) in H; now subst i'|].
      destruct (_ && _); [apply (inj inr) in H; now subst i'|].
      destruct (mem k0 readOnlyAttributes); apply (inj inr) in H; subst i';
        [reflexivity|].
      cbn [dataValues]. now rewrite lookup_insert_ne by congruence.
Qed.

Lemma set_all_stored slugify (m : model) (p : payload) (i i' : instance) (k : string) :
  sluggable slugify m -> set_all m p i = inr i' -> isNewRecord i = false ->
  truthy (dataValues i !! "id") = true ->
  k <> "name" -> k <> "slug" ->
  (mem k ("id" :: readOnlyAttributes) = true -> dataValues i' !! k = dataValues i !! k)
  /\ (mem k ("id" :: readOnlyAttributes) = false -> NoDup (map fst p) ->
      dataValues i' !! k
      = match pget k p with
        | Some v => if mem k (rawAttributes m) then Some (sanitize m k v)
                    else dataValues i !! k
        | None => dataValues i !! k
        end).
Proof.
  intros Hm. revert i. induction p as [|[k0 v] p IH]; intros i H Hn Hid H1 H2.
  - apply (inj inr) in H. subst i'. now split.
  - cbn [set_all] in H.
    destruct (set_attr m k0 v i) as [e|i1] eqn:Hs; [discriminate|].
    destruct (set_attr_slug slugify m Hm k0 v i i1 Hs) as (_ & _ & Hn1 & _ & Hid1).
    specialize (Hid1 (or_intror Hid)).
    destruct (IH i1 H) as [IHa IHb]; try congruence.
    pose proof (set_attr_stored slugify m k0 v i i1 k Hm Hs Hn H1 H2) as Hk.
    rewrite Hid in Hk. split.
    + intros Hro. rewrite (IHa Hro), Hk.
      cbn [mem existsb] in Hro. fold (mem k readOnlyAttributes) in Hro.
      destruct (String.eqb k "id"), (mem k readOnlyAttributes);
        try discriminate; cbn [andb negb]; rewrite ?andb_false_r; reflexivity.
    + intros Hro Hnd. cbn [map fst] in Hnd. apply NoDup_cons in Hnd as [Hk0 Hnd].
      rewrite (IHb Hro Hnd), Hk.
      cbn [mem existsb] in Hro. fold (mem k readOnlyAttributes) in Hro.
      apply orb_false_iff in Hro as [-> ->]. cbn [andb negb pget].
      rewrite !andb_true_r.
      destruct (String.eqb_spec k k0) as [->|Hne]; cbn [andb].
      * rewrite (pget_notin k0 p Hk0). now destruct (mem k0 (rawAttributes m)).
      * reflexivity.
Qed.

Lemma run_hooks_stored slugify (m : model) (now : Z) (fields : list string)
    (prev dv dv3 dv4 : row) :
  sluggable slugify m ->
  run_hooks m true false now fields prev dv = inr (dv3, dv4) ->
  beforeValidate m dv = inr dv4 /\ dv3 = dv4
  /\ flat_map (fun k => validators m now k dv4) fields = []
  /\ beforeSave m dv4 = None.
Proof.
  intros Hm H. unfold run_hooks in H.
  destruct (beforeValidate m dv) as [e|dv'] eqn:Hbv; [discriminate|].
  destruct (flat_map _ fields) eqn:Hval; [|discriminate].
  rewrite (sg_update slugify m Hm) in H.
  destruct (beforeSave m dv') eqn:Hbs; [discriminate|].
  apply inr_pair_inv in H as [<- <-]. done.
Qed.

Lemma filter_nil_elem {A} (P : A -> bool) (l : list A) (x : A) :
  filter (fun a => P a) l = [] -> x ∈ l -> P x = false.
Proof.
  intros H Hx. destruct (P x) eqn:HP; [|reflexivity]. exfalso.
  assert (x ∈ filter (fun a => P a) l) as Hin.
  { apply list_elem_of_filter. split; [now apply Is_true_true | exact Hx]. }
  rewrite H in Hin. inversion Hin.
Qed.

(** What [instance.update(body)] writes for a category or a product that
    was loaded through the default scope: either nothing, or the fields
    of the body and [updatedAt] into the rows with the id of the
    instance. The values written are those of the body except for the id
    and the time stamps, which the body cannot set. *)
Lemma update_inv slugify (m : model) (now : Z) (p : payload) (d : db) (o : find_options)
    (r : row) (i' : instance) (d' : db) :
  sluggable slugify m ->
  (forall dv dv' k, beforeValidate m dv = inr dv' ->
                    k <> "slug" -> k <> "inStock" -> dv' !! k = dv !! k) ->
  fo_exclude o = [] -> truthy (r !! "id") = true ->
  update m now p (load m o r) d = inr (i', d') ->
  exists (fields : list string) (dv : row),
    dv !! "id" = r !! "id"
    /\ (forall k, k ∈ ["createdAt"; "deletedAt"] ->
                  dv !! k = dataValues (load m o r) !! k)
    /\ (NoDup (map fst p) ->
        forall k, k ∉ ["name"; "slug"; "inStock"; "id"; "createdAt"; "updatedAt";
                       "deletedAt"] ->
                  dv !! k = match pget k p with
                            | Some v => if mem k (rawAttributes m)
                                        then Some (sanitize m k v)
                                        else dataValues (load m o r) !! k
                            | None => dataValues (load m o r) !! k
                            end)
    /\ ((d' = d
         /\ ((forall k, k ∈ map fst p -> mem k (rawAttributes m) = false)
             \/ (forall k, mem k (rawAttributes m) = true ->
                           dv !! k = dataValues (load m o r) !! k)))
        \/ (d' = set_tbl m (update_row (r !! "id") (write_fields fields dv) (tbl m d)) d
            /\ (forall k, k ∈ map fst p -> mem k (rawAttributes m) = true ->
                          mem k fields = true)
            /\ unique_violations m (tbl m d) fields dv = [])).
Proof.
  intros Hm Hhook Ho Hid. unfold update.
  destruct (set_all m p (load m o r)) as [e|i0] eqn:Hs; [discriminate|].
  pose proof (load_lookup m o r "id" Ho) as Hlid.
  rewrite (proj1 (sg_id slugify m Hm)), (proj2 (sg_id slugify m Hm)) in Hlid.
  cbn [negb andb] in Hlid.
  destruct (set_all_frame slugify m Hm p _ i0 Hs) as (Hnew & Hprev & _).
  cbn [load isNewRecord previous] in Hnew, Hprev.
  fold (dataValues (load m o r)) in Hprev.
  assert (truthy (dataValues (load m o r) !! "id") = true) as Hid0 by now rewrite Hlid.
  set (fields0 := filter _ (rawAttributes m)).
  intros H. apply save_inv in H as (dv3 & dv4 & Hh & Hcases). rewrite Hnew in *.
  apply (run_hooks_stored slugify m _ _ _ _ _ _ Hm) in Hh as (Hbv & -> & _ & _).
  assert (forall k, k <> "slug" -> k <> "inStock" -> k <> "updatedAt" ->
                    dv4 !! k = dataValues i0 !! k) as Hdv.
  { intros k H1 H2 H3. rewrite (Hhook _ _ k Hbv H1 H2). now apply stamp_stored. }
  exists (uniq_concat (save_fields false fields0)
            (filter (fun k => bool_decide (dv4 !! k <> dv4 !! k)) (rawAttributes m))), dv4.
  split; [|split; [|split]].
  - rewrite Hdv by discriminate.
    destruct (set_all_stored slugify m p _ i0 "id" Hm Hs eq_refl Hid0) as [Ha _];
      try discriminate.
    now rewrite Ha.
  - intros k Hk. assert (k = "createdAt" \/ k = "deletedAt") as Hk'.
    { apply elem_of_cons in Hk as [->|Hk]; [now left|].
      apply elem_of_cons in Hk as [->|Hk]; [now right|]. inversion Hk. }
    destruct Hk' as [-> | ->]; rewrite Hdv by discriminate.
    + destruct (set_all_stored slugify m p _ i0 "createdAt" Hm Hs eq_refl Hid0)
        as [Ha _]; try discriminate.
      now apply Ha.
    + destruct (set_all_stored slugify m p _ i0 "deletedAt" Hm Hs eq_refl Hid0)
        as [Ha _]; try discriminate.
      now apply Ha.
  - intros Hnd k Hk.
    assert (Forall (fun k0 => k <> k0)
              ["name"; "slug"; "inStock"; "id"; "createdAt"; "updatedAt"; "deletedAt"])
      as Hne.
    { apply Forall_forall. intros k0 Hk0 ->. now apply Hk. }
    repeat match goal with
           | H : Forall _ (_ :: _) |- _ => apply Forall_cons in H as [? H]
           end.
    rewrite Hdv by assumption.
    destruct (set_all_stored slugify m p _ i0 k Hm Hs eq_refl Hid0) as [_ Hb];
      try assumption.
    apply Hb; [|exact Hnd].
    cbn [mem existsb readOnlyAttributes].
    repeat match goal with
           | |- context [String.eqb k ?s] =>
               destruct (String.eqb_spec k s); [congruence|]
           end.
    reflexivity.
  - assert (forall k, k ∈ map fst p -> mem k (rawAttributes m) = true ->
                      mem k (save_fields false fields0) = true) as Hf0.
    { intros k Hk Hraw. apply mem_save_fields, mem_spec. unfold fields0.
      apply list_elem_of_filter. split; [|now apply mem_spec].
      apply Is_true_true. rewrite mem_uniq_concat. apply orb_true_iff. left.
      now apply mem_spec. }
    destruct Hcases as [[? _]|[(_ & Hi' & -> & Hnone)|[_ Hupd]]]; [discriminate| |].
    + left. split; [reflexivity|]. destruct Hnone as [Hnil|Hnil].
      * left. intros k Hk. destruct (mem k (rawAttributes m)) eqn:Hraw; [|reflexivity].
        specialize (Hf0 k Hk Hraw). rewrite Hnil in Hf0. discriminate.
      * right. intros k Hraw. unfold changed in Hnil.
        apply (filter_nil_elem _ _ k) in Hnil; [|now apply mem_spec].
        apply bool_decide_eq_false in Hnil. subst i'.
        cbn [dataValues previous] in Hnil. rewrite Hprev in Hnil.
        destruct (decide (dv4 !! k = dataValues (load m o r) !! k)); [done|].
        exfalso. now apply Hnil.
    + right.
      assert (unique_violations m (tbl m d)
                (uniq_concat (save_fields false fields0)
                   (filter (fun k => bool_decide (dv4 !! k <> dv4 !! k))
                           (rawAttributes m))) dv4 = []) as Huniq.
      { unfold update_rows in Hupd. now destruct (unique_violations _ _ _ _). }
      apply update_rows_inv in Hupd as [_ ->]. split; [|split; [|exact Huniq]].
      * do 2 f_equal.
        rewrite Hdv by discriminate.
        destruct (set_all_stored slugify m p _ i0 "id" Hm Hs eq_refl Hid0) as [Ha _];
          try discriminate.
        now rewrite Ha, Hlid.
      * intros k Hk Hraw. rewrite mem_uniq_concat, (Hf0 k Hk Hraw). reflexivity.
Qed.

Lemma Category_hook_frame slugify (dv dv' : row) (k : string) :
  beforeValidate (Category slugify) dv = inr dv' ->
  k <> "slug" -> k <> "inStock" -> dv' !! k = dv !! k.
Proof. intros H Hk _. now apply (slug_hook_other slugify dv dv'). Qed.

Lemma Product_hook_frame slugify (dv dv' : row) (k : string) :
  beforeValidate (Product slugify) dv = inr dv' ->
  k <> "slug" -> k <> "inStock" -> dv' !! k = dv !! k.
Proof.
  cbn [beforeValidate Product]. unfold Product_beforeValidate. intros H H1 H2.
  destruct (slug_hook slugify dv) as [e|dv1] eqn:Hh; [discriminate|].
  rewrite <- (slug_hook_other slugify dv dv1 k Hh H1).
  destruct (is_defined _); apply (inj inr) in H; subst dv'; [|reflexivity].
  now rewrite lookup_insert_ne by congruence.
Qed.

Lemma update_row_same (id : option value) (t : table) :
  update_row id (fun r => r) t = t.
Proof.
  unfold update_row. rewrite <- (map_id t) at 2. apply map_ext.
  intros r. now destruct (bool_decide _).
Qed.

(** The row that a query by id found. *)
Lemma by_id_found (m : model) (req : request) (d : db) (i : instance) :
  scopeWhere m = [("isActive", VBool true)] ->
  findOne m (plain (by_id req)) d = Some i ->
  exists r, i = load m (plain (by_id req)) r /\ r ∈ tbl m d
            /\ sql_eq (r !! "id") (default VNull (params_id req)) = true
            /\ sql_eq (r !! "isActive") (VBool true) = true
            /\ sql_null (r !! "deletedAt") = true.
Proof.
  intros Hs H. apply findOne_load in H as (r & Hr & Hsel & ->).
  exists r. split; [reflexivity|]. split; [exact Hr|].
  unfold selects in Hsel. cbn [plain fo_where fo_paranoid negb orb] in Hsel.
  rewrite (by_id_where m req Hs) in Hsel. cbn [forallb row_matches] in Hsel.
  apply andb_true_iff in Hsel as [Hsel Hlive].
  apply andb_true_iff in Hsel as [Ha Hi]. apply andb_true_iff in Hi as [Hi _].
  done.
Qed.

(** An update by id of a category or a product, in terms of the rows. *)
Lemma update_by_id slugify (m : model) (now : Z) (req : request) (p : payload) (d : db)
    (i i' : instance) (d' : db) :
  sluggable slugify m ->
  (forall dv dv' k, beforeValidate m dv = inr dv' ->
                    k <> "slug" -> k <> "inStock" -> dv' !! k = dv !! k) ->
  scopeWhere m = [("isActive", VBool true)] ->
  mem "createdAt" (scopeExclude m) = true -> mem "deletedAt" (scopeExclude m) = true ->
  mem "isActive" (rawAttributes m) = true -> mem "isActive" (scopeExclude m) = false ->
  (forall d0, set_tbl m (tbl m d0) d0 = d0) ->
  ids_set (tbl m d) ->
  findOne m (plain (by_id req)) d = Some i ->
  update m now p i d = inr (i', d') ->
  exists (r : row) (f : row -> row),
    r ∈ tbl m d
    /\ sql_eq (r !! "id") (default VNull (params_id req)) = true
    /\ sql_eq (r !! "isActive") (VBool true) = true
    /\ sql_null (r !! "deletedAt") = true
    /\ d' = set_tbl m (update_row (r !! "id") f (tbl m d)) d
    /\ (forall r0 : row, f r0 !! "createdAt" = r0 !! "createdAt"
                         /\ f r0 !! "deletedAt" = r0 !! "deletedAt"
                         /\ (r0 !! "id" = r !! "id" -> f r0 !! "id" = r0 !! "id"))
    /\ (NoDup (map fst p) -> forall b, pget "isActive" p = Some (VBool b) ->
        forall r0 : row, f r0 !! "isActive" = Some (VBool b) \/ (b = true /\ f r0 = r0)).
Proof.
  intros Hm Hhook Hs Hca Hda Hraw Hex Heta Hids Hf Hu.
  apply (by_id_found m req d i Hs) in Hf as (r & -> & Hr & Hid & Hact & Hlive).
  assert (truthy (r !! "id") = true) as Ht.
  { unfold ids_set in Hids. rewrite Forall_forall in Hids. now apply Hids. }
  destruct (update_inv slugify m now p d (plain (by_id req)) r i' d' Hm Hhook eq_refl Ht Hu)
    as (fields & dv & Hdid & Hro & Hval & Hcases).
  assert (forall k, dataValues (load m (plain (by_id req)) r) !! k
                    = if mem k (rawAttributes m) && negb (mem k (scopeExclude m))
                      then r !! k else None) as Hload.
  { intros k. now apply load_lookup. }
  assert (dv !! "createdAt" = None) as Hdc.
  { rewrite Hro, Hload, Hca, andb_false_r; [reflexivity|]. apply elem_of_cons. now left. }
  assert (dv !! "deletedAt" = None) as Hdd.
  { rewrite Hro, Hload, Hda, andb_false_r; [reflexivity|].
    apply elem_of_cons. right. apply elem_of_cons. now left. }
  assert (r !! "isActive" = Some (VBool true)) as Hra.
  { unfold sql_eq in Hact. destruct (r !! "isActive") as [[]|]; try discriminate.
    apply bool_decide_eq_true in Hact. now rewrite Hact. }
  assert (NoDup (map fst p) -> forall b, pget "isActive" p = Some (VBool b) ->
          dv !! "isActive" = Some (VBool b)) as Hdact.
  { intros Hnd b Hb. rewrite (Hval Hnd), Hb, Hraw; [|intros Hin; apply mem_spec in Hin;
                                                      discriminate].
    unfold sanitize. now destruct (mem "isActive" (booleanAttributes m)). }
  destruct Hcases as [[-> Hsame]|(-> & Hfields & _)].
  - exists r, (fun r0 => r0). repeat split; try assumption.
    + now rewrite update_row_same, Heta.
    + intros Hnd b Hb r0. destruct b; [right; split; reflexivity|]. exfalso.
      destruct Hsame as [Hnone|Hsame].
      * specialize (Hnone "isActive" (pget_in _ _ _ Hb)). congruence.
      * specialize (Hsame "isActive" Hraw).
        rewrite (Hdact Hnd false Hb), Hload, Hraw, Hex, Hra in Hsame. discriminate.
  - exists r, (write_fields fields dv). repeat split; try assumption.
    + rewrite write_fields_lookup, Hdc. now destruct (mem "createdAt" fields).
    + rewrite write_fields_lookup, Hdd. now destruct (mem "deletedAt" fields).
    + intros H0. rewrite write_fields_lookup, Hdid, <- H0.
      destruct (mem "id" fields); [|reflexivity]. now destruct (r0 !! "id").
    + intros Hnd b Hb r0. left.
      rewrite write_fields_lookup, (Hfields "isActive" (pget_in _ _ _ Hb) Hraw).
      now rewrite (Hdact Hnd b Hb).
Qed.

Lemma Category_eta slugify (d : db) :
  set_tbl (Category slugify) (tbl (Category slugify) d) d = d.
Proof. now destruct d. Qed.

Lemma Product_eta slugify (d : db) :
  set_tbl (Product slugify) (tbl (Product slugify) d) d = d.
Proof. now destruct d. Qed.

(** X12. An update of a category or of a product by id that answers 200
    has written only the rows whose id is the one of the active, not
    deleted row it found: the rest of the table and the other tables are
    as before. Whatever the body holds, the id, [createdAt] and
    [deletedAt] of the written rows are unchanged. An update that does
    not answer 200 has written nothing. *)
Theorem update_writes_one_record slugify (now : Z) (req : request) (d : db) :
  let id := default VNull (params_id req) in
  let found (t : table) (r : row) :=
    r ∈ t /\ sql_eq (r !! "id") id = true
    /\ sql_eq (r !! "isActive") (VBool true) = true
    /\ sql_null (r !! "deletedAt") = true in
  let kept (f : row -> row) (r : row) :=
    forall r0 : row, f r0 !! "createdAt" = r0 !! "createdAt"
                     /\ f r0 !! "deletedAt" = r0 !! "deletedAt"
                     /\ (r0 !! "id" = r !! "id" -> f r0 !! "id" = r0 !! "id") in
  let uc := updateCategory slugify now req d in
  let up := updateProduct slugify now req d in
  (ids_set (categories d) ->
   (status uc.1 = 200 ->
    exists r f, found (categories d) r /\ kept f r
      /\ uc.2 = {| users := users d; admin_profiles := admin_profiles d;
                   categories := update_row (r !! "id") f (categories d);
                   products := products d |})
   /\ (status uc.1 <> 200 -> uc.2 = d))
  /\ (ids_set (products d) ->
      (status up.1 = 200 ->
       exists r f, found (products d) r /\ kept f r
         /\ up.2 = {| users := users d; admin_profiles := admin_profiles d;
                      categories := categories d;
                      products := update_row (r !! "id") f (products d) |})
      /\ (status up.1 <> 200 -> up.2 = d)).
Proof.
  intros id found kept uc up. split.
  - intros Hids. subst uc. unfold updateCategory.
    destruct (derive_slug slugify (rbody req)) as [e|p]; [split; [|reflexivity]|].
    { intros H. cbn [fst] in H. now apply errorHandler_not_200 in H. }
    destruct (findOne _ _ d) as [i|] eqn:Hf; [|split; [no_row_absurd|reflexivity]].
    destruct (update _ now p i d) as [e|[i' d']] eqn:Hu; [split; [|reflexivity]|].
    { intros H. cbn [fst] in H. now apply errorHandler_not_200 in H. }
    split; [intros _|intros H; now cbn in H]. cbn [snd].
    destruct (update_by_id slugify (Category slugify) now req p d i i' d'
                (Category_sluggable slugify) (Category_hook_frame slugify)
                eq_refl eq_refl eq_refl eq_refl eq_refl (Category_eta slugify)
                Hids Hf Hu)
      as (r & f & Hr & Hid & Hact & Hlive & -> & Hkept & _).
    exists r, f. split; [done|]. split; [exact Hkept|reflexivity].
  - intros Hids. subst up. unfold updateProduct.
    destruct (derive_slug slugify (rbody req)) as [e|p]; [split; [|reflexivity]|].
    { intros H. cbn [fst] in H. now apply errorHandler_not_200 in H. }
    destruct (findOne _ _ d) as [i|] eqn:Hf; [|split; [no_row_absurd|reflexivity]].
    destruct (update _ now p i d) as [e|[i' d']] eqn:Hu; [split; [|reflexivity]|].
    { intros H. cbn [fst] in H. now apply errorHandler_not_200 in H. }
    split; [intros _|intros H; now cbn in H]. cbn [snd].
    destruct (update_by_id slugify (Product slugify) now req p d i i' d'
                (Product_sluggable slugify) (Product_hook_frame slugify)
                eq_refl eq_refl eq_refl eq_refl eq_refl (Product_eta slugify)
                Hids Hf Hu)
      as (r & f & Hr & Hid & Hact & Hlive & -> & Hkept & _).
    exists r, f. split; [done|]. split; [exact Hkept|reflexivity].
Qed.

(** ** A record that was deactivated *)

Lemma deactivated_rows (t : table) (r : row) (v : value) (f : row -> row) :
  primary_key t -> r ∈ t -> sql_eq (r !! "id") v = true ->
  (forall r0 : row, f r0 !! "isActive" = Some (VBool false)) ->
  forall r', r' ∈ update_row (r !! "id") f t ->
             sql_eq (r' !! "id") v = true ->
             sql_eq (r' !! "isActive") (VBool true) = false.
Proof.
  intros Hpk Hr Hv Hoff r' Hr' Hv'. unfold update_row in Hr'.
  apply list_elem_of_fmap in Hr' as (r0 & -> & Hr0).
  destruct (bool_decide (r0 !! "id" = r !! "id")) eqn:Hb.
  - now rewrite Hoff.
  - apply bool_decide_eq_false in Hb. exfalso. apply Hb.
    now rewrite (primary_key_unique t r r0 v Hpk Hr Hr0 Hv Hv').
Qed.

Lemma deactivate_by_id slugify (m : model) (now : Z) (req req' : request) (p : payload)
    (d : db) (i i' : instance) (d' : db) (paranoid : bool) :
  sluggable slugify m ->
  (forall dv dv' k, beforeValidate m dv = inr dv' ->
                    k <> "slug" -> k <> "inStock" -> dv' !! k = dv !! k) ->
  scopeWhere m = [("isActive", VBool true)] ->
  mem "createdAt" (scopeExclude m) = true -> mem "deletedAt" (scopeExclude m) = true ->
  mem "isActive" (rawAttributes m) = true -> mem "isActive" (scopeExclude m) = false ->
  (forall d0, set_tbl m (tbl m d0) d0 = d0) ->
  keyed (tbl m d) ->
  params_id req' = params_id req ->
  NoDup (map fst p) -> pget "isActive" p = Some (VBool false) ->
  findOne m (plain (by_id req)) d = Some i ->
  update m now p i d = inr (i', d') ->
  findOne m {| fo_where := by_id req'; fo_paranoid := paranoid; fo_exclude := [] |} d'
  = None.
Proof.
  intros Hm Hhook Hs Hca Hda Hraw Hex Heta [Hpk Hids] Hreq Hnd Hoff Hf Hu.
  destruct (update_by_id slugify m now req p d i i' d' Hm Hhook Hs Hca Hda Hraw Hex
              Heta Hids Hf Hu)
    as (r & f & Hr & Hid & Hact & Hlive & -> & _ & Hval).
  specialize (Hval Hnd false Hoff).
  apply by_id_none; [exact Hs|]. rewrite (sg_get slugify m Hm), Hreq.
  intros r' Hr' Hi' Ha'. exfalso.
  rewrite (deactivated_rows (tbl m d) r _ f Hpk Hr Hid) in Ha'; try done.
  intros r0. destruct (Hval r0) as [H|[H _]]; [exact H|discriminate].
Qed.

Lemma updateCategory_ok slugify (now : Z) (req : request) (d : db) :
  status (updateCategory slugify now req d).1 = 200 ->
  exists p i i',
    derive_slug slugify (rbody req) = inr p
    /\ findOne (Category slugify) (plain (by_id req)) d = Some i
    /\ update (Category slugify) now p i d
       = inr (i', (updateCategory slugify now req d).2).
Proof.
  unfold updateCategory.
  destruct (derive_slug slugify (rbody req)) as [e|p].
  { intros H. cbn [fst] in H. now apply errorHandler_not_200 in H. }
  destruct (findOne _ _ d) as [i|]; [|no_row_absurd].
  destruct (update _ now p i d) as [e|[i' d']] eqn:Hu.
  { intros H. cbn [fst] in H. now apply errorHandler_not_200 in H. }
  intros _. exists p, i, i'. repeat split. exact Hu.
Qed.

Lemma updateProduct_ok slugify (now : Z) (req : request) (d : db) :
  status (updateProduct slugify now req d).1 = 200 ->
  exists p i i',
    derive_slug slugify (rbody req) = inr p
    /\ findOne (Product slugify) (plain (by_id req)) d = Some i
    /\ update (Product slugify) now p i d
       = inr (i', (updateProduct slugify now req d).2).
Proof.
  unfold updateProduct.
  destruct (derive_slug slugify (rbody req)) as [e|p].
  { intros H. cbn [fst] in H. now apply errorHandler_not_200 in H. }
  destruct (findOne _ _ d) as [i|]; [|no_row_absurd].
  destruct (update _ now p i d) as [e|[i' d']] eqn:Hu.
  { intros H. cbn [fst] in H. now apply errorHandler_not_200 in H. }
  intros _. exists p, i, i'. repeat split. exact Hu.
Qed.

(** X13. Deactivation through the API cannot be undone through the API.
    After an update by id with [isActive: false] in the body answered
    200, a read, a delete or a restore of the same id answers 404, an
    update of the same id does not answer 200, and none of them changes
    the store: the default scope of the model hides the row from every
    handler that looks a record up by its id. *)
Theorem deactivated_record_is_gone slugify (t1 t2 : Z) (req req' : request) (d : db) :
  params_id req' = params_id req ->
  NoDup (map fst (rbody req)) ->
  pget "isActive" (rbody req) = Some (VBool false) ->
  (keyed (categories d) ->
   let upd := updateCategory slugify t1 req d in
   status upd.1 = 200 ->
   getCategoryById slugify req' upd.2 = (fail 404 "Category not found", upd.2)
   /\ deleteCategory slugify t2 req' upd.2 = (fail 404 "Category not found", upd.2)
   /\ restoreCategory slugify t2 req' upd.2 = (fail 404 "Category not found", upd.2)
   /\ status (updateCategory slugify t2 req' upd.2).1 <> 200
   /\ (updateCategory slugify t2 req' upd.2).2 = upd.2)
  /\ (keyed (products d) ->
      let upd := updateProduct slugify t1 req d in
      status upd.1 = 200 ->
      getProductById slugify req' upd.2 = (fail 404 "Product not found", upd.2)
      /\ deleteProduct slugify t2 req' upd.2 = (fail 404 "Product not found", upd.2)
      /\ restoreProduct slugify t2 req' upd.2 = (fail 404 "Product not found", upd.2)
      /\ status (updateProduct slugify t2 req' upd.2).1 <> 200
      /\ (updateProduct slugify t2 req' upd.2).2 = upd.2).
Proof.
  intros Hreq Hnd Hoff. split.
  - intros Hk upd Hok.
    destruct (updateCategory_ok slugify t1 req d Hok) as (p & i & i' & Hd & Hf & Hu).
    fold upd in Hu. generalize dependent (upd.2). intros d' Hu. clear upd Hok.
    destruct (derive_slug_other slugify _ p Hd Hnd) as [Hnd' Hp].
    rewrite <- (Hp "isActive") in Hoff by discriminate.
    pose proof (fun paranoid =>
                  deactivate_by_id slugify (Category slugify) t1 req req' p d i i' d'
                    paranoid (Category_sluggable slugify) (Category_hook_frame slugify)
                    eq_refl eq_refl eq_refl eq_refl eq_refl (Category_eta slugify)
                    Hk Hreq Hnd' Hoff Hf Hu) as Hnone.
    pose proof (Hnone true) as Ht. pose proof (Hnone false) as Hff.
    fold (plain (by_id req')) in Ht. fold (with_deleted (by_id req')) in Hff.
    assert (forall msg, no_row req' msg = fail 404 msg) as Hnr.
    { intros msg. apply no_row_well_formed.
      destruct (by_id_found (Category slugify) req d i eq_refl Hf) as (r & _ & Hr & Hid & _).
      unfold id_error. rewrite Hreq.
      exact (found_well_formed _ r req (proj1 Hk) Hr Hid). }
    unfold getCategoryById, deleteCategory, restoreCategory, updateCategory.
    rewrite Ht, Hff, !Hnr. repeat split.
    + destruct (derive_slug slugify (rbody req')); cbn [fst];
        [apply errorHandler_not_200 | discriminate].
    + now destruct (derive_slug slugify (rbody req')).
  - intros Hk upd Hok.
    destruct (updateProduct_ok slugify t1 req d Hok) as (p & i & i' & Hd & Hf & Hu).
    fold upd in Hu. generalize dependent (upd.2). intros d' Hu. clear upd Hok.
    destruct (derive_slug_other slugify _ p Hd Hnd) as [Hnd' Hp].
    rewrite <- (Hp "isActive") in Hoff by discriminate.
    pose proof (fun paranoid =>
                  deactivate_by_id slugify (Product slugify) t1 req req' p d i i' d'
                    paranoid (Product_sluggable slugify) (Product_hook_frame slugify)
                    eq_refl eq_refl eq_refl eq_refl eq_refl (Product_eta slugify)
                    Hk Hreq Hnd' Hoff Hf Hu) as Hnone.
    pose proof (Hnone true) as Ht. pose proof (Hnone false) as Hff.
    pose proof (Hnone (negb (truthy (Some (with_default "includeDeleted" (VBool false)
                                                        (query req')))))) as Hq.
    fold (plain (by_id req')) in Ht. fold (with_deleted (by_id req')) in Hff.
    assert (forall msg, no_row req' msg = fail 404 msg) as Hnr.
    { intros msg. apply no_row_well_formed.
      destruct (by_id_found (Product slugify) req d i eq_refl Hf) as (r & _ & Hr & Hid & _).
      unfold id_error. rewrite Hreq.
      exact (found_well_formed _ r req (proj1 Hk) Hr Hid). }
    unfold getProductById, deleteProduct, restoreProduct, updateProduct.
    rewrite Ht, Hff, Hq, !Hnr. repeat split.
    + destruct (derive_slug slugify (rbody req')); cbn [fst];
        [apply errorHandler_not_200 | discriminate].
    + now destruct (derive_slug slugify (rbody req')).
Qed.

(** ** The primary key under the handlers *)

Lemma update_row_ids (id : option value) (f : row -> row) (t : table) :
  (forall r0 : row, r0 !! "id" = id -> f r0 !! "id" = r0 !! "id") ->
  map (fun r : row => r !! "id") (update_row id f t) = map (fun r : row => r !! "id") t.
Proof.
  intros H. unfold update_row. rewrite map_map. apply map_ext. intros r.
  destruct (bool_decide (r !! "id" = id)) eqn:Hb; [|reflexivity].
  apply bool_decide_eq_true in Hb. now apply H.
Qed.

Lemma keyed_ids (t t' : table) :
  map (fun r : row => r !! "id") t' = map (fun r : row => r !! "id") t ->
  keyed t -> keyed t'.
Proof.
  intros H [[Hnd Hnum] Hids]. unfold keyed, ids_set in *.
  pose proof (proj2 (Forall_fmap (fun r : row => r !! "id")
                       (fun o : option value => exists n, o = Some (VNum n)) t) Hnum)
    as Hnum'.
  pose proof (proj2 (Forall_fmap (fun r : row => r !! "id")
                       (fun o : option value => truthy o = true) t) Hids) as Hids'.
  change (fmap (M:=list) (fun r : row => r !! "id") t)
    with (map (fun r : row => r !! "id") t) in Hnum', Hids'.
  rewrite <- H in Hnum', Hids'.
  split; [split|].
  - now rewrite H.
  - exact (proj1 (Forall_fmap (fun r : row => r !! "id") _ t') Hnum').
  - exact (proj1 (Forall_fmap (fun r : row => r !! "id") _ t') Hids').
Qed.

Lemma keyed_grown (t t' : table) : keyed t -> grown t t' -> keyed t'.
Proof.
  intros Hk [->|(r & n & -> & Hr & Hpos & Hfresh)]; [exact Hk|].
  destruct Hk as [[Hnd Hnum] Hids]. unfold keyed, primary_key, ids_set in *.
  split; [split|].
  - rewrite map_app. cbn [map]. apply NoDup_app. split; [exact Hnd|]. split.
    + intros o Ho Ho'. apply list_elem_of_singleton in Ho'. subst o.
      apply list_elem_of_fmap in Ho as (r0 & Heq & Hr0).
      apply (Hfresh r0 Hr0). congruence.
    + apply NoDup_singleton.
  - apply Forall_app. split; [exact Hnum|]. repeat constructor. eauto.
  - apply Forall_app. split; [exact Hids|]. repeat constructor.
    rewrite Hr. cbn [truthy]. apply negb_true_iff, Z.eqb_neq. lia.
Qed.

Lemma derive_slug_get slugify (p p' : payload) (k : string) :
  derive_slug slugify p = inr p' -> k <> "slug" -> pget k p' = pget k p.
Proof.
  unfold derive_slug. intros H Hk.
  destruct (_ && _).
  - destruct (as_string _ _) as [e|n]; [discriminate|].
    apply (inj inr) in H. subst p'. now apply pget_pset_ne.
  - apply (inj inr) in H. now subst p'.
Qed.

(** A category or a product created from a body without [id] is appended
    with the next id of the table. *)
Lemma create_appends slugify (m : model) (now : Z) (p : payload) (d : db) (i : instance)
    (d' : db) :
  sluggable slugify m ->
  (list_to_map (defaultValues m) : row) !! "id" = None ->
  pget "id" p = None ->
  create m now p d = inr (i, d') ->
  exists r : row,
    d' = set_tbl m (tbl m d ++ [r]) d
    /\ r !! "id" = Some (VNum (next_id (tbl m d)))
    /\ forall c msg v, (c, msg) ∈ uniqueColumns m -> mem c (rawAttributes m) = true ->
                       r !! c = Some v -> sql_null (Some v) = false ->
                       forall a : row, a ∈ tbl m d -> a !! c <> Some v.
Proof.
  intros Hm Hdef Hid. unfold create.
  set (init := {| dataValues := _; previous := ∅; isNewRecord := true |}).
  destruct (set_all m p init) as [e|i0] eqn:Hs; [discriminate|].
  destruct (set_all_frame slugify m Hm p init i0 Hs) as (Hn & _ & _).
  cbn [init isNewRecord] in Hn.
  pose proof (set_all_new_id slugify m p init i0 Hm Hs Hid) as Hi0.
  cbn [init dataValues] in Hi0. rewrite defaults_lookup, Hid in Hi0.
  cbn [is_defined] in Hi0. rewrite Hdef in Hi0.
  intros H. apply save_inv in H as (dv3 & dv4 & Hh & Hcases). rewrite Hn in *.
  destruct Hcases as [[_ Hins]|[[? _]|[? _]]]; try discriminate.
  assert (dv4 !! "id" = None) as H4.
  { unfold run_hooks in Hh.
    destruct (beforeValidate m _) as [e|dv'] eqn:Hbv; [discriminate|].
    destruct (flat_map _ _); [|discriminate].
    rewrite (sg_create slugify m Hm) in Hh.
    destruct (beforeSave m dv'); [discriminate|].
    apply inr_pair_inv in Hh as [_ <-].
    apply (sg_hook slugify m Hm) in Hbv as (dv1 & Hh1 & _ & -> & _).
    rewrite (slug_hook_other slugify _ dv1 "id" Hh1) by discriminate.
    now rewrite stamp_other by discriminate. }
  apply insert_row_new in Hins as (-> & Huniq & _); [|exact H4].
  eexists. split; [reflexivity|]. split.
  - rewrite write_fields_lookup, (proj1 (sg_id slugify m Hm)).
    now rewrite lookup_insert_eq.
  - intros c msg v Hc Hraw Hv Hnn a Ha.
    rewrite inserted_lookup, Hraw in Hv.
    apply (unique_free m (tbl m d) (rawAttributes m) _ c msg v Huniq Hc Hraw);
      [|exact Hnn|exact Ha|].
    + destruct (_ !! c) as [v'|] eqn:Hv'; cbn [default] in Hv; [exact Hv|].
      apply (inj Some) in Hv. subst v. discriminate.
    + rewrite lookup_insert_eq. now apply next_id_fresh.
Qed.

Lemma destroy_by_id (m : model) (now : Z) (req : request) (d : db) (i i' : instance)
    (d' : db) :
  stamps_plain m -> scopeWhere m = [("isActive", VBool true)] ->
  findOne m (plain (by_id req)) d = Some i ->
  destroy m now i d = inr (i', d') ->
  exists r : row,
    r ∈ tbl m d /\ d' = set_tbl m (stamp_rows (r !! "id") (VDate now) now (tbl m d)) d.
Proof.
  intros Hm Hs Hf Hd.
  apply (by_id_found m req d i Hs) in Hf as (r & -> & Hr & _ & _ & Hlive).
  destruct (destroy_loaded m (plain (by_id req)) r d now Hm eq_refl Hlive) as [i1 H1].
  rewrite H1 in Hd. apply inr_pair_inv in Hd as [_ <-]. eauto.
Qed.

Section Keyed.

Variable slugify : string -> string.
Variable m : model.
Hypothesis Hm : sluggable slugify m.
Hypothesis Hsp : stamps_plain m.
Hypothesis Hhook : forall dv dv' k, beforeValidate m dv = inr dv' ->
                     k <> "slug" -> k <> "inStock" -> dv' !! k = dv !! k.
Hypothesis Hscope : scopeWhere m = [("isActive", VBool true)].
Hypothesis Hexc : mem "createdAt" (scopeExclude m) = true
                  /\ mem "deletedAt" (scopeExclude m) = true.
Hypothesis Hact : mem "isActive" (rawAttributes m) = true
                  /\ mem "isActive" (scopeExclude m) = false.
Hypothesis Heta : forall d0, set_tbl m (tbl m d0) d0 = d0.
Hypothesis Hdef : (list_to_map (defaultValues m) : row) !! "id" = None.

Lemma create_grown (now : Z) (p : payload) (d : db) (i : instance) (d' : db) :
  pget "id" p = None ->
  create m now p d = inr (i, d') -> grown (tbl m d) (tbl m d').
Proof.
  intros Hid H.
  destruct (create_appends slugify m now p d i d' Hm Hdef Hid H) as (r & -> & Hr & _).
  rewrite (sg_get slugify m Hm). right. exists r, (next_id (tbl m d)).
  split; [reflexivity|]. split; [exact Hr|]. split; [apply next_id_positive|].
  intros r0 Hr0. now apply next_id_fresh.
Qed.

Lemma update_ids (now : Z) (req : request) (p : payload) (d : db) (i i' : instance)
    (d' : db) :
  ids_set (tbl m d) -> findOne m (plain (by_id req)) d = Some i ->
  update m now p i d = inr (i', d') -> table_ids (tbl m d') = table_ids (tbl m d).
Proof.
  intros Hk Hf Hu.
  destruct (update_by_id slugify m now req p d i i' d' Hm Hhook Hscope (proj1 Hexc)
              (proj2 Hexc) (proj1 Hact) (proj2 Hact) Heta Hk Hf Hu)
    as (r & f & _ & _ & _ & _ & -> & Hkept & _).
  rewrite (sg_get slugify m Hm).
  apply update_row_ids. intros r0 H0. now apply Hkept.
Qed.

Lemma destroy_ids (now : Z) (req : request) (d : db) (i i' : instance) (d' : db) :
  findOne m (plain (by_id req)) d = Some i ->
  destroy m now i d = inr (i', d') -> table_ids (tbl m d') = table_ids (tbl m d).
Proof.
  intros Hf Hd.
  destruct (destroy_by_id m now req d i i' d' Hsp Hscope Hf Hd) as (r & _ & ->).
  rewrite (sg_get slugify m Hm). apply stamp_rows_ids.
Qed.

Lemma restore_ids (now : Z) (req : request) (d : db) (i i' : instance) (d' : db) :
  findOne m (with_deleted (by_id req)) d = Some i ->
  restore m now i d = inr (i', d') -> table_ids (tbl m d') = table_ids (tbl m d).
Proof.
  intros Hf Hr.
  pose proof (restore_by_id m req d now Hsp Hscope (proj2 Hexc)) as H.
  cbv zeta in H. rewrite Hf in H. destruct H as (_ & r & i1 & _ & H1).
  rewrite H1 in Hr. apply inr_pair_inv in Hr as [_ <-].
  rewrite (sg_get slugify m Hm). apply stamp_rows_ids.
Qed.

End Keyed.

(** X14. The handlers of categories and products keep the primary key of
    their table. On a table whose ids are distinct non-zero numbers, an
    update, a delete or a restore leaves the id of every row as it is,
    whatever the request and whatever the answer; a create from a body
    without [id] leaves the table as it is or appends one row, whose id
    is a positive number that no stored row has. After each of them the
    ids of the table are distinct non-zero numbers again. *)
Theorem handlers_keep_primary_key slugify (now : Z) (req : request) (d : db) :
  let same (t t' : table) := table_ids t' = table_ids t /\ keyed t' in
  (keyed (categories d) ->
   (pget "id" (rbody req) = None ->
    grown (categories d) (categories (createCategory slugify now req d).2)
    /\ keyed (categories (createCategory slugify now req d).2))
   /\ same (categories d) (categories (updateCategory slugify now req d).2)
   /\ same (categories d) (categories (deleteCategory slugify now req d).2)
   /\ same (categories d) (categories (restoreCategory slugify now req d).2))
  /\ (keyed (products d) ->
      (pget "id" (rbody req) = None ->
       grown (products d) (products (createProduct slugify now req d).2)
       /\ keyed (products (createProduct slugify now req d).2))
      /\ same (products d) (products (updateProduct slugify now req d).2)
      /\ same (products d) (products (deleteProduct slugify now req d).2)
      /\ same (products d) (products (restoreProduct slugify now req d).2)).
Proof.
  intros same.
  assert (forall t t', keyed t -> table_ids t' = table_ids t -> same t t') as Hsame.
  { intros t t' Hk H. split; [exact H|]. exact (keyed_ids t t' H Hk). }
  assert (forall t t', keyed t -> grown t t' -> grown t t' /\ keyed t') as Hgrown.
  { intros t t' Hk H. split; [exact H|]. exact (keyed_grown t t' Hk H). }
  split; intros Hk; (split; [|split; [|split]]).
  - intros Hid. apply (Hgrown _ _ Hk). unfold createCategory.
    destruct (create _ now _ d) as [e|[i d']] eqn:Hc; [now left|].
    apply (create_grown slugify (Category slugify) (Category_sluggable slugify) eq_refl
             now (rbody req) d i d' Hid Hc).
  - apply (Hsame _ _ Hk). unfold updateCategory.
    destruct (derive_slug slugify (rbody req)) as [e|p]; [reflexivity|].
    destruct (findOne _ _ d) as [i|] eqn:Hf; [|reflexivity].
    destruct (update _ now p i d) as [e|[i' d']] eqn:Hu; [reflexivity|].
    apply (update_ids slugify (Category slugify) (Category_sluggable slugify)
             (Category_hook_frame slugify) eq_refl (conj eq_refl eq_refl)
             (conj eq_refl eq_refl) (Category_eta slugify) now req p d i i' d'
             (proj2 Hk) Hf Hu).
  - apply (Hsame _ _ Hk). unfold deleteCategory.
    destruct (findOne _ _ d) as [i|] eqn:Hf; [|reflexivity].
    destruct (destroy _ now i d) as [e|[i' d']] eqn:Hd; [reflexivity|].
    apply (destroy_ids slugify (Category slugify) (Category_sluggable slugify)
             (Category_stamps_plain slugify) eq_refl now req d i i' d' Hf Hd).
  - apply (Hsame _ _ Hk). unfold restoreCategory.
    destruct (findOne _ _ d) as [i|] eqn:Hf; [|reflexivity].
    destruct (is_null _); [reflexivity|].
    destruct (restore _ now i d) as [e|[i' d']] eqn:Hr; [reflexivity|].
    apply (restore_ids slugify (Category slugify) (Category_sluggable slugify)
             (Category_stamps_plain slugify) eq_refl (conj eq_refl eq_refl)
             now req d i i' d' Hf Hr).
  - intros Hid. apply (Hgrown _ _ Hk). unfold createProduct.
    destruct (derive_slug slugify (rbody req)) as [e|p] eqn:Hp; [now left|].
    destruct (create _ now _ d) as [e|[i d']] eqn:Hc; [now left|].
    rewrite <- (derive_slug_get slugify _ p "id" Hp) in Hid by discriminate.
    apply (create_grown slugify (Product slugify) (Product_sluggable slugify) eq_refl
             now p d i d' Hid Hc).
  - apply (Hsame _ _ Hk). unfold updateProduct.
    destruct (derive_slug slugify (rbody req)) as [e|p]; [reflexivity|].
    destruct (findOne _ _ d) as [i|] eqn:Hf; [|reflexivity].
    destruct (update _ now p i d) as [e|[i' d']] eqn:Hu; [reflexivity|].
    apply (update_ids slugify (Product slugify) (Product_sluggable slugify)
             (Product_hook_frame slugify) eq_refl (conj eq_refl eq_refl)
             (conj eq_refl eq_refl) (Product_eta slugify) now req p d i i' d'
             (proj2 Hk) Hf Hu).
  - apply (Hsame _ _ Hk). unfold deleteProduct.
    destruct (findOne _ _ d) as [i|] eqn:Hf; [|reflexivity].
    destruct (destroy _ now i d) as [e|[i' d']] eqn:Hd; [reflexivity|].
    apply (destroy_ids slugify (Product slugify) (Product_sluggable slugify)
             (Product_stamps_plain slugify) eq_refl now req d i i' d' Hf Hd).
  - apply (Hsame _ _ Hk). unfold restoreProduct.
    destruct (findOne _ _ d) as [i|] eqn:Hf; [|reflexivity].
    destruct (is_null _); [reflexivity|].
    destruct (restore _ now i d) as [e|[i' d']] eqn:Hr; [reflexivity|].
    apply (restore_ids slugify (Product slugify) (Product_sluggable slugify)
             (Product_stamps_plain slugify) eq_refl (conj eq_refl eq_refl)
             now req d i i' d' Hf Hr).
Qed.

Lemma update_writes_one_record_witness :
  let req := sample_request (Some (VStr "1")) []
               [("name", VStr "Fresh Fruits"); ("id", VNum 99);
                ("deletedAt", VDate 5)] in
  let uc := updateCategory slugify_ascii 3000 req sample_db in
  status uc.1 = 200
  /\ exists (r : row) (f : row -> row),
       r ∈ categories sample_db
       /\ (forall r0 : row, f r0 !! "createdAt" = r0 !! "createdAt"
                            /\ f r0 !! "deletedAt" = r0 !! "deletedAt"
                            /\ (r0 !! "id" = r !! "id" -> f r0 !! "id" = r0 !! "id"))
       /\ uc.2 = {| users := users sample_db;
                    admin_profiles := admin_profiles sample_db;
                    categories := update_row (r !! "id") f (categories sample_db);
                    products := products sample_db |}.
Proof.
  intros req uc.
  destruct (update_writes_one_record slugify_ascii 3000 req sample_db) as [[H _] _].
  { repeat constructor. }
  assert (status uc.1 = 200) as Hok by (vm_compute; reflexivity).
  destruct (H Hok) as (r & f & Hr & Hkept & Hst).
  split; [exact Hok|]. exists r, f.
  exact (conj (proj1 Hr) (conj Hkept Hst)).
Defined.

Lemma deactivated_record_is_gone_witness :
  let req := sample_request (Some (VStr "1")) [] [("isActive", VBool false)] in
  let req' := sample_request (Some (VStr "1")) [] [("isActive", VBool true)] in
  let upd := updateCategory slugify_ascii 3000 req sample_db in
  status upd.1 = 200
  /\ getCategoryById slugify_ascii req' upd.2 = (fail 404 "Category not found", upd.2)
  /\ restoreCategory slugify_ascii 4000 req' upd.2
     = (fail 404 "Category not found", upd.2)
  /\ (updateCategory slugify_ascii 4000 req' upd.2).2 = upd.2.
Proof.
  intros req req' upd.
  destruct (deactivated_record_is_gone slugify_ascii 3000 4000 req req' sample_db)
    as [H _].
  - reflexivity.
  - apply NoDup_singleton.
  - reflexivity.
  - assert (status upd.1 = 200) as Hok by (vm_compute; reflexivity).
    destruct H as (H1 & _ & H3 & _ & H5).
    + split; [exact sample_categories_primary_key | repeat constructor].
    + exact Hok.
    + exact (conj Hok (conj H1 (conj H3 H5))).
Defined.

Lemma handlers_keep_primary_key_witness :
  let req := sample_request (Some (VStr "1")) [] [("name", VStr "Nuts")] in
  (grown (categories sample_db) (categories (createCategory slugify_ascii 3000 req sample_db).2)
   /\ keyed (categories (createCategory slugify_ascii 3000 req sample_db).2))
  /\ table_ids (categories (updateCategory slugify_ascii 3000 req sample_db).2)
     = table_ids (categories sample_db)
  /\ table_ids (products (deleteProduct slugify_ascii 3000 req sample_db).2)
     = table_ids (products sample_db).
Proof.
  intros req.
  destruct (handlers_keep_primary_key slugify_ascii 3000 req sample_db) as [Hc Hp].
  destruct Hc as (H1 & H2 & _ & _).
  { split; [exact sample_categories_primary_key | repeat constructor]. }
  destruct Hp as (_ & _ & H3 & _).
  { split; [exact sample_products_primary_key | repeat constructor]. }
  exact (conj (H1 eq_refl) (conj (proj1 H2) (proj1 H3))).
Defined.

(** ** The tables a handler leaves alone *)

Section Frame.

Variable m : model.
Variable sel : db -> table.
Hypothesis Hsel : forall t d, sel (set_tbl m t d) = sel d.

Lemma save_frame hooks now fields i d i' d' :
  save m hooks now fields i d = inr (i', d') -> sel d' = sel d.
Proof.
  intros H. apply save_inv in H as (dv3 & dv4 & _ & [[_ H]|[(_ & _ & -> & _)|[_ H]]]).
  - apply insert_row_inv in H as (id & _ & ->). apply Hsel.
  - reflexivity.
  - apply update_rows_inv in H as [_ ->]. apply Hsel.
Qed.

Lemma create_frame now p d i' d' :
  create m now p d = inr (i', d') -> sel d' = sel d.
Proof. unfold create. destruct (set_all _ _ _); [discriminate|]. apply save_frame. Qed.

Lemma update_frame now p i d i' d' :
  update m now p i d = inr (i', d') -> sel d' = sel d.
Proof. unfold update. destruct (set_all _ _ _); [discriminate|]. apply save_frame. Qed.

Lemma destroy_frame now i d i' d' :
  destroy m now i d = inr (i', d') -> sel d' = sel d.
Proof. unfold destroy. apply save_frame. Qed.

Lemma restore_frame now i d i' d' :
  restore m now i d = inr (i', d') -> sel d' = sel d.
Proof. unfold restore. apply save_frame. Qed.

Lemma written_frame (w : error + (instance * db)) d d' :
  (forall i', w = inr (i', d') -> sel d' = sel d) ->
  written w = inr d' -> sel d' = sel d.
Proof.
  intros H. unfold written. destruct w as [e|[i' d0]]; [discriminate|].
  intros Hw. apply (inj inr) in Hw. subst d0. now apply (H i').
Qed.

End Frame.

Lemma category_handlers_frame slugify (sel : db -> table) (now : Z) (req : request)
    (d : db) :
  (forall t d, sel (set_tbl (Category slugify) t d) = sel d) ->
  sel (createCategory slugify now req d).2 = sel d
  /\ sel (updateCategory slugify now req d).2 = sel d
  /\ sel (deleteCategory slugify now req d).2 = sel d
  /\ sel (restoreCategory slugify now req d).2 = sel d.
Proof.
  intros Hsel. repeat split.
  - unfold createCategory.
    destruct (create _ now _ d) as [e|[j d']] eqn:H; [reflexivity|].
    apply (create_frame _ sel Hsel _ _ _ _ _ H).
  - unfold updateCategory.
    destruct (derive_slug _ _); [reflexivity|].
    destruct (findOne _ _ d); [|reflexivity].
    destruct (update _ now _ _ d) as [e|[j d']] eqn:H; [reflexivity|].
    apply (update_frame _ sel Hsel _ _ _ _ _ _ H).
  - unfold deleteCategory.
    destruct (findOne _ _ d); [|reflexivity].
    destruct (destroy _ now _ d) as [e|[j d']] eqn:H; [reflexivity|].
    apply (destroy_frame _ sel Hsel _ _ _ _ _ H).
  - unfold restoreCategory.
    destruct (findOne _ _ d); [|reflexivity].
    destruct (is_null _); [reflexivity|].
    destruct (restore _ now _ d) as [e|[j d']] eqn:H; [reflexivity|].
    apply (restore_frame _ sel Hsel _ _ _ _ _ H).
Qed.

Lemma product_handlers_frame slugify (sel : db -> table) (now : Z) (req : request)
    (d : db) :
  (forall t d, sel (set_tbl (Product slugify) t d) = sel d) ->
  sel (createProduct slugify now req d).2 = sel d
  /\ sel (updateProduct slugify now req d).2 = sel d
  /\ sel (deleteProduct slugify now req d).2 = sel d
  /\ sel (restoreProduct slugify now req d).2 = sel d.
Proof.
  intros Hsel. repeat split.
  - unfold createProduct.
    destruct (derive_slug _ _); [reflexivity|].
    destruct (create _ now _ d) as [e|[j d']] eqn:H; [reflexivity|].
    apply (create_frame _ sel Hsel _ _ _ _ _ H).
  - unfold updateProduct.
    destruct (derive_slug _ _); [reflexivity|].
    destruct (findOne _ _ d); [|reflexivity].
    destruct (update _ now _ _ d) as [e|[j d']] eqn:H; [reflexivity|].
    apply (update_frame _ sel Hsel _ _ _ _ _ _ H).
  - unfold deleteProduct.
    destruct (findOne _ _ d); [|reflexivity].
    destruct (destroy _ now _ d) as [e|[j d']] eqn:H; [reflexivity|].
    apply (destroy_frame _ sel Hsel _ _ _ _ _ H).
  - unfold restoreProduct.
    destruct (findOne _ _ d); [|reflexivity].
    destruct (is_null _); [reflexivity|].
    destruct (restore _ now _ d) as [e|[j d']] eqn:H; [reflexivity|].
    apply (restore_frame _ sel Hsel _ _ _ _ _ H).
Qed.

Lemma admin_handlers_frame hash isEmail (sel : db -> table) (now : Z) (req : request)
    (d : db) :
  (forall t d, sel (set_tbl (User hash isEmail) t d) = sel d) ->
  (forall t d, sel (set_tbl AdminProfile t d) = sel d) ->
  sel (createAdmin hash isEmail now req d).2 = sel d
  /\ sel (updateAdmin hash isEmail now req d).2 = sel d
  /\ sel (deleteAdmin hash isEmail now req d).2 = sel d
  /\ sel (restoreAdmin hash isEmail now req d).2 = sel d.
Proof.
  intros Hu Hp. repeat split.
  - unfold createAdmin.
    destruct (pget "email" _); [|reflexivity].
    destruct (existing_user _ _ _ _); [reflexivity|].
    destruct (create (User _ _) now _ d) as [e|[user d1]] eqn:H1; [reflexivity|].
    pose proof (create_frame _ sel Hu _ _ _ _ _ H1) as E1.
    destruct (create AdminProfile now _ d1) as [e|[pr d2]] eqn:H2; [exact E1|].
    cbn [snd]. rewrite <- E1. apply (create_frame _ sel Hp _ _ _ _ _ H2).
  - unfold updateAdmin.
    destruct (find_admin _ _ _ _ d) as [[admin pr]|]; [|reflexivity].
    match goal with |- context [if ?c then _ else _] => destruct c end; [reflexivity|].
    match goal with
    | |- context [match ?x with inl _ => _ | inr _ => _ end] =>
        destruct x as [e|d1] eqn:H1
    end; [reflexivity|].
    assert (sel d1 = sel d) as E1.
    { destruct (_ || _).
      - apply (written_frame sel _ d d1) in H1; [exact H1|].
        intros i' Hi'. apply (update_frame _ sel Hu _ _ _ _ _ _ Hi').
      - apply (inj inr) in H1. now subst d1. }
    match goal with
    | |- context [match ?x with inl _ => _ | inr _ => _ end] =>
        destruct x as [e|d2] eqn:H2
    end; [exact E1|].
    cbn [snd]. rewrite <- E1. destruct pr as [pr|].
    + apply (written_frame sel _ d1 d2) in H2; [exact H2|].
      intros i' Hi'. apply (update_frame _ sel Hp _ _ _ _ _ _ Hi').
    + apply (inj inr) in H2. now subst d2.
  - unfold deleteAdmin.
    destruct (find_admin _ _ _ _ d) as [[admin pr]|]; [|reflexivity].
    match goal with
    | |- context [match ?x with inl _ => _ | inr _ => _ end] =>
        destruct x as [e|d1] eqn:H1
    end; [reflexivity|].
    assert (sel d1 = sel d) as E1.
    { destruct pr as [pr|].
      - apply (written_frame sel _ d d1) in H1; [exact H1|].
        intros i' Hi'. apply (destroy_frame _ sel Hp _ _ _ _ _ Hi').
      - apply (inj inr) in H1. now subst d1. }
    destruct (destroy _ now admin d1) as [e|[i2 d2]] eqn:H2; [exact E1|].
    cbn [snd]. rewrite <- E1. apply (destroy_frame _ sel Hu _ _ _ _ _ H2).
  - unfold restoreAdmin.
    destruct (find_admin _ _ _ _ d) as [[admin pr]|]; [|reflexivity].
    destruct (restore _ now admin d) as [e|[i1 d1]] eqn:H1; [reflexivity|].
    pose proof (restore_frame _ sel Hu _ _ _ _ _ H1) as E1.
    match goal with
    | |- context [match ?x with inl _ => _ | inr _ => _ end] =>
        destruct x as [e|d2] eqn:H2
    end; [exact E1|].
    cbn [snd]. rewrite <- E1. destruct pr as [pr|].
    + apply (written_frame sel _ d1 d2) in H2; [exact H2|].
      intros i' Hi'. apply (restore_frame _ sel Hp _ _ _ _ _ Hi').
    + apply (inj inr) in H2. now subst d2.
Qed.

(** X15. A handler writes only the tables of its own resource. The
    category handlers leave users, profiles and products as they are (a
    deleted or deactivated category keeps its products, which are neither
    deleted nor deactivated with it); the product handlers leave users,
    profiles and categories as they are; the admin handlers leave
    categories and products as they are. *)
Theorem handlers_write_own_tables slugify hash isEmail (now : Z) (req : request)
    (d : db) :
  let same (sel : db -> table) (l : list (response * db)) :=
    Forall (fun r : response * db => sel r.2 = sel d) l in
  let cat := [createCategory slugify now req d; updateCategory slugify now req d;
              deleteCategory slugify now req d; restoreCategory slugify now req d] in
  let prod := [createProduct slugify now req d; updateProduct slugify now req d;
               deleteProduct slugify now req d; restoreProduct slugify now req d] in
  let adm := [createAdmin hash isEmail now req d; updateAdmin hash isEmail now req d;
              deleteAdmin hash isEmail now req d; restoreAdmin hash isEmail now req d] in
  (same users cat /\ same admin_profiles cat /\ same products cat)
  /\ (same users prod /\ same admin_profiles prod /\ same categories prod)
  /\ (same categories adm /\ same products adm).
Proof.
  intros same cat prod adm.
  assert (forall sel a b c e, sel a.2 = sel d /\ sel b.2 = sel d /\ sel c.2 = sel d
                              /\ sel e.2 = sel d -> same sel [a; b; c; e]) as Hall.
  { intros sel a b c e (Ha & Hb & Hc & He). repeat constructor; assumption. }
  repeat apply conj; apply Hall;
    first [ apply category_handlers_frame; reflexivity
          | apply product_handlers_frame; reflexivity
          | apply admin_handlers_frame; reflexivity ].
Qed.

(** ** A new password of an admin *)

Lemma set_attr_stored_plain (m : model) (k0 : string) (v : value) (i : instance) :
  customSetter m k0 = None -> isNewRecord i = false ->
  truthy (dataValues i !! "id") = true ->
  set_attr m k0 v i
  = inr (if mem k0 (rawAttributes m) && negb (mem k0 ("id" :: readOnlyAttributes))
         then {| dataValues := <[k0 := sanitize m k0 v]> (dataValues i);
                 previous := previous i; isNewRecord := isNewRecord i |}
         else i).
Proof.
  intros Hc Hn Hid. unfold set_attr. rewrite Hc, Hn, Hid.
  destruct (mem k0 (rawAttributes m)); [|reflexivity]. cbn [negb andb mem existsb].
  fold (mem k0 readOnlyAttributes). rewrite andb_true_r.
  destruct (String.eqb k0 "id"); [reflexivity|]. cbn [orb].
  now destruct (mem k0 readOnlyAttributes).
Qed.

Lemma set_all_stored_plain (m : model) (p : payload) (i : instance) :
  (forall k, customSetter m k = None) -> isNewRecord i = false ->
  truthy (dataValues i !! "id") = true -> NoDup (map fst p) ->
  exists i', set_all m p i = inr i' /\ isNewRecord i' = false
    /\ previous i' = previous i
    /\ forall k, dataValues i' !! k
                 = match pget k p with
                   | Some v =>
                       if mem k (rawAttributes m)
                          && negb (mem k ("id" :: readOnlyAttributes))
                       then Some (sanitize m k v) else dataValues i !! k
                   | None => dataValues i !! k
                   end.
Proof.
  intros Hc. revert i. induction p as [|[k0 v] p IH]; intros i Hn Hid Hnd.
  - exists i. done.
  - cbn [map fst] in Hnd. apply NoDup_cons in Hnd as [Hk0 Hnd].
    cbn [set_all]. rewrite (set_attr_stored_plain m k0 v i (Hc k0) Hn Hid).
    set (c := mem k0 (rawAttributes m) && negb (mem k0 ("id" :: readOnlyAttributes))).
    set (i1 := if c then _ else i).
    assert (forall k, dataValues i1 !! k
                      = if String.eqb k k0 && c then Some (sanitize m k v)
                        else dataValues i !! k)
      as Hi1.
    { intros k. unfold i1. destruct c eqn:Hcc; [|now rewrite andb_false_r].
      cbn [dataValues]. rewrite andb_true_r.
      destruct (String.eqb_spec k k0) as [->|Hk];
        [now rewrite lookup_insert_eq | now rewrite lookup_insert_ne by congruence]. }
    assert (isNewRecord i1 = false) as Hn1 by (unfold i1; now destruct c).
    assert (previous i1 = previous i) as Hp1 by (unfold i1; now destruct c).
    assert (truthy (dataValues i1 !! "id") = true) as Hid1.
    { rewrite Hi1. destruct (String.eqb_spec "id" k0) as [<-|]; [|exact Hid].
      unfold c. cbn [mem existsb String.eqb Ascii.eqb Bool.eqb orb negb].
      now rewrite andb_false_r. }
    destruct (IH i1 Hn1 Hid1 Hnd) as (i' & -> & Hn' & Hp' & Hl).
    exists i'. split; [reflexivity|]. split; [exact Hn'|].
    split; [congruence|].
    intros k. rewrite Hl, Hi1. cbn [pget].
    destruct (String.eqb_spec k k0) as [->|Hk]; cbn [andb].
    + rewrite (pget_notin k0 p Hk0). reflexivity.
    + reflexivity.
Qed.

(** What a successful update of a user with a password in the body has
    checked and written. *)
Lemma update_User_password hash isEmail (now : Z) (p : payload) (d : db)
    (o : find_options) (u : row) (i' : instance) (d' : db) (pw : string) :
  fo_exclude o = [] -> truthy (u !! "id") = true ->
  NoDup (map fst p) -> pget "password" p = Some (VStr pw) ->
  update (User hash isEmail) now p (load (User hash isEmail) o u) d = inr (i', d') ->
  len 8 128 pw = true
  /\ exists f : row -> row,
       d' = set_tbl (User hash isEmail) (update_row (u !! "id") f (users d)) d
       /\ forall r0 : row,
            f r0 !! "password" = Some (VStr (hash pw))
            /\ (r0 !! "id" = u !! "id" -> f r0 !! "id" = r0 !! "id").
Proof.
  intros Ho Hid Hnd Hpw. unfold update.
  set (U := User hash isEmail).
  pose proof (load_lookup U o u) as Hload. 
  assert (dataValues (load U o u) !! "id" = u !! "id") as Hlid.
  { now rewrite Hload. }
  assert (dataValues (load U o u) !! "password" = None) as Hlpw.
  { now rewrite Hload. }
  destruct (set_all_stored_plain U p (load U o u) (fun _ => eq_refl) eq_refl)
    as (i0 & -> & Hn & Hprev & Hl); [now rewrite Hlid | exact Hnd |].
  assert (previous i0 !! "password" = None) as Hpp by (rewrite Hprev; exact Hlpw).
  assert (dataValues i0 !! "password" = Some (VStr pw)) as H0pw.
  { rewrite Hl, Hpw. reflexivity. }
  assert (dataValues i0 !! "id" = u !! "id") as H0id.
  { rewrite Hl. destruct (pget "id" p); [|exact Hlid].
    cbn [mem existsb String.eqb Ascii.eqb Bool.eqb orb negb].
    rewrite andb_false_r. exact Hlid. }
  set (fields0 := filter _ (rawAttributes U)).
  assert (mem "password" fields0 = true) as Hf0.
  { apply mem_spec. unfold fields0. apply list_elem_of_filter.
    split; [|apply mem_spec; reflexivity]. apply Is_true_true.
    rewrite mem_uniq_concat. apply orb_true_iff. left.
    apply mem_spec. eapply pget_in, Hpw. }
  intros H. apply save_inv in H as (dv3 & dv4 & Hh & Hcases). rewrite Hn in *.
  set (fields := save_fields false fields0) in *.
  assert (mem "password" fields = true) as Hf by now apply mem_save_fields.
  set (dvs := stamp false now fields (dataValues i0)) in Hh.
  assert (dvs !! "password" = Some (VStr pw)) as Hspw.
  { unfold dvs. now rewrite stamp_stored by discriminate. }
  assert (dvs !! "id" = u !! "id") as Hsid.
  { unfold dvs. now rewrite stamp_stored by discriminate. }
  unfold run_hooks in Hh. cbn [U beforeValidate beforeUpdate beforeSave User] in Hh.
  destruct (flat_map _ fields) eqn:Hv; [|discriminate].
  pose proof (flat_map_nil_inv _ _ "password" Hv ltac:(now apply mem_spec)) as Hvp.
  cbn [U validators User] in Hvp. unfold User_validators in Hvp.
  cbn [String.eqb Ascii.eqb Bool.eqb] in Hvp. rewrite Hspw in Hvp.
  unfold attr_validate in Hvp. cbn [sql_null str_of] in Hvp.
  apply app_eq_nil in Hvp as [Hvp _]. apply app_eq_nil in Hvp as [_ Hvp].
  unfold check in Hvp. destruct (len 8 128 pw) eqn:Hlen; [|discriminate].
  split; [reflexivity|].
  rewrite Hpp, Hspw in Hh.
  rewrite bool_decide_eq_true_2 in Hh by discriminate.
  unfold hash_password in Hh. rewrite Hspw in Hh.
  apply inr_pair_inv in Hh as [<- <-].
  set (dv4 := <["lastPasswordChange" := VDate now]>
                (<["password" := VStr (hash pw)]> dvs)) in *.
  assert (dv4 !! "password" = Some (VStr (hash pw))) as H4pw.
  { unfold dv4. now rewrite lookup_insert_ne, lookup_insert_eq by discriminate. }
  assert (dv4 !! "id" = u !! "id") as H4id.
  { unfold dv4. now rewrite !lookup_insert_ne by discriminate. }
  destruct Hcases as [[? _]|[(_ & Hi' & _ & Hnone)|[_ Hupd]]]; [discriminate| |].
  - exfalso. destruct Hnone as [Hnil|Hnil].
    + fold fields in Hnil. rewrite Hnil in Hf. discriminate.
    + unfold changed in Hnil.
      apply (filter_nil_elem _ _ "password") in Hnil; [|apply mem_spec; reflexivity].
      apply bool_decide_eq_false in Hnil. apply Hnil. subst i'.
      cbn [dataValues previous]. rewrite Hpp, H4pw. discriminate.
  - apply update_rows_inv in Hupd as [_ ->]. rewrite H4id.
    eexists. split; [reflexivity|]. intros r0. split.
    + now rewrite write_fields_lookup, mem_uniq_concat, Hf, H4pw.
    + intros H0. rewrite write_fields_lookup, H4id, <- H0.
      destruct (mem "id" _); [|reflexivity]. now destruct (r0 !! "id").
Qed.

(** X16. A password sent to [updateAdmin] is stored hashed. When the
    body holds a non-empty string as [password] and the answer is 200,
    the password has 8 to 128 characters, and the row of the admin (every
    row with its id) holds [bcrypt.hash] of it in the [password] column;
    the other rows of the users table are as before. *)
Theorem updateAdmin_hashes_password hash isEmail (now : Z) (req : request) (d : db)
    (pw : string) :
  let b := rbody req in
  let r := updateAdmin hash isEmail now req d in
  ids_set (users d) ->
  NoDup (map fst b) ->
  pget "password" b = Some (VStr pw) -> pw <> "" ->
  status r.1 = 200 ->
  len 8 128 pw = true
  /\ exists (u : row) (f : row -> row),
       u ∈ users d
       /\ sql_eq (u !! "id") (default VNull (params_id req)) = true
       /\ sql_eq (u !! "accountType") (VStr "admin") = true
       /\ sql_null (u !! "deletedAt") = true
       /\ users r.2 = update_row (u !! "id") f (users d)
       /\ forall r0 : row,
            f r0 !! "password" = Some (VStr (hash pw))
            /\ (r0 !! "id" = u !! "id" -> f r0 !! "id" = r0 !! "id").
Proof.
  intros b r Hids Hnd Hpw Hne Hok. subst r. unfold updateAdmin in *. fold b in Hok |- *.
  unfold find_admin in *.
  destruct (findOne _ _ d) as [admin|] eqn:Hf;
    [|cbn [fst] in Hok; now apply no_row_not_200 in Hok].
  apply findOne_load in Hf as (u & Hu & Hsel & ->).
  assert (truthy (pget "password" b) = true) as Htp.
  { rewrite Hpw. cbn. destruct (String.eqb_spec pw ""); [congruence|reflexivity]. }
  rewrite Htp, orb_true_r in *.
  match type of Hok with
  | context [if ?c then _ else _] => destruct c
  end; [discriminate|].
  destruct (update (User hash isEmail) now b _ d) as [e|[i1 d1]] eqn:Hupd.
  { cbn [written fst] in Hok. now apply errorHandler_not_200 in Hok. }
  cbn [written] in *.
  assert (truthy (u !! "id") = true) as Ht.
  { unfold ids_set in Hids. rewrite Forall_forall in Hids. now apply Hids. }
  destruct (update_User_password hash isEmail now b d (plain (admin_where req)) u i1 d1 pw
              eq_refl Ht Hnd Hpw
              Hupd) as (Hlen & f & Hd1 & Hfr).
  split; [exact Hlen|]. exists u, f.
  unfold selects in Hsel. rewrite effective_where_User in Hsel.
  cbn [plain admin_where fo_where fo_paranoid forallb row_matches negb orb] in Hsel.
  apply andb_true_iff in Hsel as [Hsel Hlive].
  apply andb_true_iff in Hsel as [Hid Hadm]. apply andb_true_iff in Hadm as [Hadm _].
  split; [exact Hu|]. split; [exact Hid|]. split; [exact Hadm|]. split; [exact Hlive|].
  split; [|exact Hfr].
  match goal with
  | |- context [match ?x with inl _ => _ | inr _ => _ end] =>
      destruct x as [e|d2] eqn:H2
  end.
  { cbn [fst] in Hok. now apply errorHandler_not_200 in Hok. }
  cbn [snd].
  assert (users d2 = users d1) as ->; [|now rewrite Hd1].
  match type of H2 with
  | match ?x with Some _ => _ | None => _ end = _ => destruct x as [pr|]
  end.
  - apply (written_frame users _ d1 d2) in H2; [exact H2|].
    intros i' Hi'. apply (update_frame AdminProfile users (fun _ _ => eq_refl)
                            _ _ _ _ _ _ Hi').
  - apply (inj inr) in H2. now subst d2.
Qed.

(** ** A deleted admin *)

(** The user row and the profile row that the query of the admin
    handlers found. *)
Lemma find_admin_found hash isEmail (req : request) (d : db) (admin : instance)
    (profile : option instance) :
  find_admin hash isEmail (plain (admin_where req)) true d = Some (admin, profile) ->
  exists u : row,
    admin = load (User hash isEmail) (plain (admin_where req)) u
    /\ u ∈ users d
    /\ sql_eq (u !! "id") (default VNull (params_id req)) = true
    /\ sql_eq (u !! "accountType") (VStr "admin") = true
    /\ sql_null (u !! "deletedAt") = true
    /\ match profile with
       | Some pr =>
           exists p : row,
             pr = load AdminProfile (by_user (default VNull (u !! "id")) true) p
             /\ p ∈ admin_profiles d
             /\ sql_eq (p !! "userId") (default VNull (u !! "id")) = true
             /\ sql_null (p !! "deletedAt") = true
       | None => True
       end.
Proof.
  unfold find_admin. destruct (findOne _ _ d) as [a|] eqn:Hf; [|discriminate].
  intros H. apply (inj Some) in H.
  apply findOne_load in Hf as (u & Hu & Hsel & ->). exists u.
  unfold selects in Hsel. rewrite effective_where_User in Hsel.
  cbn [plain admin_where fo_where fo_paranoid forallb row_matches negb orb] in Hsel.
  apply andb_true_iff in Hsel as [Hsel Hlive].
  apply andb_true_iff in Hsel as [Hid Hadm]. apply andb_true_iff in Hadm as [Hadm _].
  assert (admin = load (User hash isEmail) (plain (admin_where req)) u) as Ha
    by congruence.
  assert (profile = profile_of true (load (User hash isEmail)
                                       (plain (admin_where req)) u) d) as Hp
    by congruence.
  clear H. repeat (split; [assumption|]).
  destruct profile as [pr|]; [|exact I].
  symmetry in Hp. unfold profile_of, get in Hp.
  rewrite (load_id _ (plain (admin_where req)) u (User_stamps_plain hash isEmail)
             eq_refl) in Hp.
  destruct (u !! "id") as [uid|]; [|discriminate]. cbn [default].
  fold (by_user uid true) in Hp.
  apply findOne_load in Hp as (p & Hin & Hs & ->).
  rewrite by_user_selects in Hs. apply andb_true_iff in Hs as [Hs Hl].
  exists p. done.
Qed.

Lemma deleteAdmin_ok hash isEmail (now : Z) (req : request) (d : db) :
  status (deleteAdmin hash isEmail now req d).1 = 200 ->
  exists admin profile d1 i2,
    find_admin hash isEmail (plain (admin_where req)) true d = Some (admin, profile)
    /\ match profile with
       | Some pr => written (destroy AdminProfile now pr d)
       | None => inr d
       end = inr d1
    /\ destroy (User hash isEmail) now admin d1
       = inr (i2, (deleteAdmin hash isEmail now req d).2).
Proof.
  unfold deleteAdmin.
  destruct (find_admin _ _ _ _ d) as [[admin profile]|]; [|no_row_absurd].
  match goal with
  | |- context [match ?x with inl _ => _ | inr _ => _ end] =>
      destruct x as [e|d1] eqn:H1
  end.
  { intros H. cbn [fst] in H. now apply errorHandler_not_200 in H. }
  destruct (destroy _ now admin d1) as [e|[i2 d2]] eqn:H2.
  { intros H. cbn [fst] in H. now apply errorHandler_not_200 in H. }
  intros _. exists admin, profile, d1, i2. repeat split; assumption.
Qed.

(** The profile that comes with a loaded user is the live profile of
    its row. *)
Lemma profile_of_live hash isEmail (o : find_options) (u : row) (d : db) :
  fo_exclude o = [] ->
  profile_of true (load (User hash isEmail) o u) d
  = load AdminProfile (by_user (default VNull (u !! "id")) true)
      <$> live_profile (u !! "id") (admin_profiles d).
Proof.
  intros Ho. unfold profile_of, get, live_profile.
  rewrite (load_id _ o u (User_stamps_plain hash isEmail) Ho).
  destruct (u !! "id") as [uid|]; cbn [default from_option id].
  - fold (by_user uid true). unfold findOne, findAll. cbn [tbl AdminProfile].
    rewrite (list_filter_iff (fun r : row => selects AdminProfile (by_user uid true) r)
               (fun p : row => sql_eq (p !! "userId") uid && sql_null (p !! "deletedAt"))).
    + now destruct (filter _ (admin_profiles d)).
    + intros pr. now rewrite by_user_selects.
  - rewrite (list_filter_iff _ (fun _ : row => false)).
    + now induction (admin_profiles d).
    + intros pr. now destruct (pr !! "userId") as [[]|].
Qed.

(** X17. After [deleteAdmin] answered 200, the row of the admin is still
    stored, with [deletedAt] set to the time of the request, and so is the
    row of its profile: the first row of the profiles table that refers to
    the admin and was not deleted, when there is one (the profiles table
    is as before when there is none). A read, an update or a second
    delete of the same id answers 404 and leaves the store as it is. *)
Theorem deleted_admin_is_gone hash isEmail (t1 t2 : Z) (req req' : request) (d : db) :
  let del := deleteAdmin hash isEmail t1 req d in
  primary_key (users d) -> params_id req' = params_id req ->
  status del.1 = 200 ->
  (exists u : row,
     u ∈ users d
     /\ sql_eq (u !! "id") (default VNull (params_id req)) = true
     /\ sql_eq (u !! "accountType") (VStr "admin") = true
     /\ sql_null (u !! "deletedAt") = true
     /\ users del.2 = stamp_rows (u !! "id") (VDate t1) t1 (users d)
     /\ stamped (VDate t1) t1 u ∈ users del.2
     /\ match live_profile (u !! "id") (admin_profiles d) with
        | Some p =>
            admin_profiles del.2
            = stamp_rows (p !! "id") (VDate t1) t1 (admin_profiles d)
            /\ stamped (VDate t1) t1 p ∈ admin_profiles del.2
        | None => admin_profiles del.2 = admin_profiles d
        end)
  /\ getAdminById hash isEmail req' del.2 = (fail 404 "Admin not found", del.2)
  /\ updateAdmin hash isEmail t2 req' del.2 = (fail 404 "Admin not found", del.2)
  /\ deleteAdmin hash isEmail t2 req' del.2 = (fail 404 "Admin not found", del.2).
Proof.
  intros del Hpk Hreq Hok.
  destruct (deleteAdmin_ok hash isEmail t1 req d Hok)
    as (admin & profile & d1 & i2 & Hf & Hw1 & Hd).
  fold del in Hd. generalize dependent (del.2). intros d2 Hd. clear del Hok.
  assert (profile = profile_of true admin d) as Hprofile.
  { unfold find_admin in Hf. destruct (findOne _ _ d); [|discriminate]. congruence. }
  apply find_admin_found in Hf as (u & -> & Hu & Hid & Hadm & Hlive & _).
  rewrite (profile_of_live hash isEmail (plain (admin_where req)) u d eq_refl)
    in Hprofile.
  pose proof (User_stamps_plain hash isEmail) as HU.
  assert (forall msg, no_row req' msg = fail 404 msg) as Hnr.
  { intros msg. apply no_row_well_formed. unfold id_error. rewrite Hreq.
    exact (found_well_formed _ u req Hpk Hu Hid). }
  (* the profile *)
  assert (users d1 = users d
          /\ match live_profile (u !! "id") (admin_profiles d) with
             | Some p =>
                 admin_profiles d1
                 = stamp_rows (p !! "id") (VDate t1) t1 (admin_profiles d)
                 /\ stamped (VDate t1) t1 p ∈ admin_profiles d1
             | None => admin_profiles d1 = admin_profiles d
             end) as (Hu1 & Hpr1).
  { unfold live_profile in *.
    destruct (head _) as [p|] eqn:Hhead; cbn [fmap option_fmap option_map] in Hprofile;
      subst profile.
    - assert (p ∈ admin_profiles d /\ sql_null (p !! "deletedAt") = true) as [Hin Hl].
      { assert (p ∈ filter (fun p : row =>
                              sql_eq (p !! "userId") (default VNull (u !! "id"))
                              && sql_null (p !! "deletedAt")) (admin_profiles d)) as H.
        { destruct (filter _ (admin_profiles d)); [discriminate|].
          apply (inj Some) in Hhead. subst p. constructor. }
        apply list_elem_of_filter in H as [H Hin]. split; [exact Hin|].
        apply Is_true_true, andb_true_iff in H. apply H. }
      destruct (destroy_loaded AdminProfile (by_user (default VNull (u !! "id")) true)
                  p d t1 AdminProfile_stamps_plain eq_refl Hl) as [i1 Hd1].
      rewrite Hd1 in Hw1. cbn [written] in Hw1. apply (inj inr) in Hw1. subst d1.
      split; [reflexivity|]. cbn [admin_profiles set_tbl tbl AdminProfile].
      split; [reflexivity|]. now apply stamp_rows_elem.
    - apply (inj inr) in Hw1. subst d1. split; reflexivity. }
  destruct (destroy_loaded (User hash isEmail) (plain (admin_where req)) u d1 t1 HU
              eq_refl Hlive) as [i3 Hd2].
  rewrite Hd2 in Hd. apply inr_pair_inv in Hd as [_ <-].
  split.
  { exists u. repeat (split; [assumption|]).
    cbn [tbl User set_tbl users admin_profiles]. rewrite Hu1.
    split; [reflexivity|]. split; [now apply stamp_rows_elem|exact Hpr1]. }
  assert (find_admin hash isEmail (plain (admin_where req')) true
            (set_tbl (User hash isEmail)
               (stamp_rows (u !! "id") (VDate t1) t1 (tbl (User hash isEmail) d1)) d1)
          = None) as Hnone.
  { unfold find_admin.
    rewrite (deleted_row_unselected (User hash isEmail) (admin_where req')
               (default VNull (params_id req)) u d1 t1 HU); try done.
    - cbn [tbl User]. now rewrite Hu1.
    - cbn [tbl User]. now rewrite Hu1.
    - intros r' Hr'. rewrite <- Hreq. now apply (admin_where_determines hash isEmail). }
  unfold getAdminById, updateAdmin, deleteAdmin. rewrite Hnone, !Hnr. done.
Qed.

Lemma updateAdmin_hashes_password_witness :
  let req := sample_request (Some (VStr "1")) [] [("password", VStr "new-secret-1")] in
  let r := updateAdmin sample_hash sample_isEmail 3000 req sample_db in
  status r.1 = 200
  /\ exists (u : row) (f : row -> row),
       u ∈ users sample_db
       /\ users r.2 = update_row (u !! "id") f (users sample_db)
       /\ forall r0 : row,
            f r0 !! "password" = Some (VStr (sample_hash "new-secret-1"))
            /\ (r0 !! "id" = u !! "id" -> f r0 !! "id" = r0 !! "id").
Proof.
  intros req r.
  assert (status r.1 = 200) as Hok by (vm_compute; reflexivity).
  destruct (updateAdmin_hashes_password sample_hash sample_isEmail 3000 req sample_db
              "new-secret-1") as (_ & u & f & Hu & _ & _ & _ & Hst & Hf).
  - repeat constructor.
  - apply NoDup_singleton.
  - reflexivity.
  - discriminate.
  - exact Hok.
  - split; [exact Hok|]. exists u, f. exact (conj Hu (conj Hst Hf)).
Defined.

Lemma deleted_admin_is_gone_witness :
  let req := sample_request (Some (VStr "1")) [] [] in
  let del := deleteAdmin sample_hash sample_isEmail 3000 req sample_db in
  status del.1 = 200
  /\ (exists u : row,
        users del.2 = stamp_rows (u !! "id") (VDate 3000) 3000 (users sample_db)
        /\ stamped (VDate 3000) 3000 u ∈ users del.2)
  /\ getAdminById sample_hash sample_isEmail req del.2
     = (fail 404 "Admin not found", del.2)
  /\ updateAdmin sample_hash sample_isEmail 4000 req del.2
     = (fail 404 "Admin not found", del.2)
  /\ deleteAdmin sample_hash sample_isEmail 4000 req del.2
     = (fail 404 "Admin not found", del.2).
Proof.
  intros req del.
  assert (status del.1 = 200) as Hok by (vm_compute; reflexivity).
  destruct (deleted_admin_is_gone sample_hash sample_isEmail 3000 4000 req req sample_db
              sample_users_primary_key eq_refl Hok)
    as ((u & _ & _ & _ & _ & Hus & Hin & _) & H1 & H2 & H3).
  exact (conj Hok (conj (ex_intro _ u (conj Hus Hin)) (conj H1 (conj H2 H3)))).
Defined.

(** ** The unique index on the slug under the handlers *)

Section UniqueSlug.

Variable slugify : string -> string.
Variable m : model.
Hypothesis Hm : sluggable slugify m.
Hypothesis Hsp : stamps_plain m.
Hypothesis Hhook : forall dv dv' k, beforeValidate m dv = inr dv' ->
                     k <> "slug" -> k <> "inStock" -> dv' !! k = dv !! k.
Hypothesis Hscope : scopeWhere m = [("isActive", VBool true)].
Hypothesis Hexc : mem "deletedAt" (scopeExclude m) = true.
Hypothesis Hdef : (list_to_map (defaultValues m) : row) !! "id" = None.
Hypothesis Huniq : exists msg, ("slug", msg) ∈ uniqueColumns m.

Lemma create_unique (now : Z) (p : payload) (d : db) (i : instance) (d' : db) :
  slugs_unique (tbl m d) -> pget "id" p = None ->
  create m now p d = inr (i, d') -> slugs_unique (tbl m d').
Proof.
  intros Hu Hid H. destruct Huniq as [msg Hmsg].
  destruct (create_appends slugify m now p d i d' Hm Hdef Hid H) as (r & -> & _ & Hr).
  rewrite (sg_get slugify m Hm).
  assert (forall a, a ∈ tbl m d -> a !! "slug" = r !! "slug" ->
                    sql_null (r !! "slug") = false -> False) as Hnew.
  { intros a Ha Heq Hnn. destruct (r !! "slug") as [v|] eqn:Hv; [|discriminate].
    now apply (Hr "slug" msg v Hmsg (proj1 (sg_slug slugify m Hm)) Hv Hnn a Ha). }
  intros a b Ha Hb Heq Hnn.
  apply elem_of_app in Ha as [Ha|Ha]; apply elem_of_app in Hb as [Hb|Hb].
  - now apply Hu.
  - apply list_elem_of_singleton in Hb. subst b. exfalso.
    apply (Hnew a Ha Heq). now rewrite <- Heq.
  - apply list_elem_of_singleton in Ha. subst a. exfalso.
    now apply (Hnew b Hb (eq_sym Heq)).
  - apply list_elem_of_singleton in Ha, Hb. now subst.
Qed.

Lemma update_unique (now : Z) (req : request) (p : payload) (d : db) (i i' : instance)
    (d' : db) :
  slugs_unique (tbl m d) ->
  ids_set (tbl m d) ->
  findOne m (plain (by_id req)) d = Some i ->
  update m now p i d = inr (i', d') -> slugs_unique (tbl m d').
Proof.
  intros Hu Hids Hf Hupd. destruct Huniq as [msg Hmsg].
  apply (by_id_found m req d i Hscope) in Hf as (r & -> & Hr & _ & _ & _).
  assert (truthy (r !! "id") = true) as Ht.
  { unfold ids_set in Hids. rewrite Forall_forall in Hids. now apply Hids. }
  destruct (update_inv slugify m now p d (plain (by_id req)) r i' d' Hm Hhook eq_refl Ht
              Hupd) as (fields & dv & Hdid & _ & _ & [[-> _]|(-> & _ & Hv)]);
    [exact Hu|].
  rewrite (sg_get slugify m Hm).
  set (g := fun r0 : row => if bool_decide (r0 !! "id" = r !! "id")
                            then write_fields fields dv r0 else r0).
  assert (forall x, g x !! "id" = x !! "id") as Hgid.
  { intros x. unfold g. destruct (bool_decide _) eqn:Hb; [|reflexivity].
    apply bool_decide_eq_true in Hb.
    rewrite write_fields_lookup, Hdid, <- Hb.
    destruct (mem "id" fields); [|reflexivity]. now destruct (x !! "id"). }
  assert (forall x, g x !! "slug" = x !! "slug"
                    \/ (x !! "id" = r !! "id" /\ mem "slug" fields = true
                        /\ g x !! "slug" = dv !! "slug")) as Hgs.
  { intros x. unfold g. destruct (bool_decide _) eqn:Hb; [|now left].
    apply bool_decide_eq_true in Hb. rewrite write_fields_lookup.
    destruct (mem "slug" fields); [|now left].
    destruct (dv !! "slug"); [right; done | now left]. }
  assert (forall x y, x ∈ tbl m d -> y ∈ tbl m d ->
                      x !! "id" = r !! "id" -> mem "slug" fields = true ->
                      g x !! "slug" = dv !! "slug" -> g y !! "slug" = y !! "slug" ->
                      g x !! "slug" = g y !! "slug" ->
                      sql_null (g x !! "slug") = false -> x !! "id" = y !! "id") as Hmix.
  { intros x y Hx Hy Hxid Hmem Hxs Hys Heq Hnn.
    destruct (decide (y !! "id" = dv !! "id")) as [Hyid|Hyid]; [congruence|].
    exfalso. destruct (dv !! "slug") as [v|] eqn:Hdv;
      [|rewrite Hxs in Hnn; discriminate].
    apply (unique_free m (tbl m d) fields dv "slug" msg v Hv Hmsg Hmem Hdv) with y;
      try assumption.
    - now rewrite Hxs in Hnn.
    - congruence. }
  intros a' b' Ha' Hb' Heq Hnn. unfold update_row in Ha', Hb'. fold g in Ha', Hb'.
  apply list_elem_of_fmap in Ha' as (a & -> & Ha).
  apply list_elem_of_fmap in Hb' as (b & -> & Hb).
  rewrite !Hgid.
  destruct (Hgs a) as [Hsa|(Haid & Hma & Hsa)], (Hgs b) as [Hsb|(Hbid & Hmb & Hsb)].
  - apply Hu; try assumption; congruence.
  - symmetry. apply (Hmix b a Hb Ha Hbid Hmb Hsb Hsa (eq_sym Heq)).
    now rewrite <- Heq.
  - exact (Hmix a b Ha Hb Haid Hma Hsa Hsb Heq Hnn).
  - congruence.
Qed.

Lemma stamped_unique (id : option value) (del : value) (now : Z) (t : table) :
  slugs_unique t -> slugs_unique (stamp_rows id del now t).
Proof.
  intros Hu a' b' Ha' Hb'.
  apply stamp_rows_inv in Ha' as (a & Ha & ->).
  apply stamp_rows_inv in Hb' as (b & Hb & ->).
  assert (forall x : row,
            (if bool_decide (x !! "id" = id) then stamped del now x else x) !! "slug"
            = x !! "slug"
            /\ (if bool_decide (x !! "id" = id) then stamped del now x else x) !! "id"
               = x !! "id") as Hx.
  { intros x. destruct (bool_decide _); [|done]. unfold stamped.
    now rewrite !lookup_insert_ne by discriminate. }
  rewrite !(proj1 (Hx _)), !(proj2 (Hx _)). now apply Hu.
Qed.

Lemma destroy_unique (now : Z) (req : request) (d : db) (i i' : instance) (d' : db) :
  slugs_unique (tbl m d) -> findOne m (plain (by_id req)) d = Some i ->
  destroy m now i d = inr (i', d') -> slugs_unique (tbl m d').
Proof.
  intros Hu Hf Hd.
  destruct (destroy_by_id m now req d i i' d' Hsp Hscope Hf Hd) as (r & _ & ->).
  rewrite (sg_get slugify m Hm). now apply stamped_unique.
Qed.

Lemma restore_unique (now : Z) (req : request) (d : db) (i i' : instance) (d' : db) :
  slugs_unique (tbl m d) -> findOne m (with_deleted (by_id req)) d = Some i ->
  restore m now i d = inr (i', d') -> slugs_unique (tbl m d').
Proof.
  intros Hu Hf Hr.
  pose proof (restore_by_id m req d now Hsp Hscope Hexc) as H.
  cbv zeta in H. rewrite Hf in H. destruct H as (_ & r & i1 & _ & H1).
  rewrite H1 in Hr. apply inr_pair_inv in Hr as [_ <-].
  rewrite (sg_get slugify m Hm). now apply stamped_unique.
Qed.

End UniqueSlug.

Lemma Category_slug_unique slugify :
  exists msg, ("slug", msg) ∈ uniqueColumns (Category slugify).
Proof. eexists. apply elem_of_cons. now left. Qed.

Lemma Product_slug_unique slugify :
  exists msg, ("slug", msg) ∈ uniqueColumns (Product slugify).
Proof. eexists. apply elem_of_cons. now left. Qed.

(** X18. The handlers of categories and products keep the slugs of their
    table distinct. When no two stored rows with different ids share a
    slug (deleted and inactive rows included) and the ids are set, this
    still holds after a create (from a body without [id]), an update, a
    delete or a restore, whatever the request and whatever the answer. *)
Theorem handlers_keep_slugs_unique slugify (now : Z) (req : request) (d : db) :
  (slugs_unique (categories d) -> ids_set (categories d) ->
   (pget "id" (rbody req) = None ->
    slugs_unique (categories (createCategory slugify now req d).2))
   /\ slugs_unique (categories (updateCategory slugify now req d).2)
   /\ slugs_unique (categories (deleteCategory slugify now req d).2)
   /\ slugs_unique (categories (restoreCategory slugify now req d).2))
  /\ (slugs_unique (products d) -> ids_set (products d) ->
      (pget "id" (rbody req) = None ->
       slugs_unique (products (createProduct slugify now req d).2))
      /\ slugs_unique (products (updateProduct slugify now req d).2)
      /\ slugs_unique (products (deleteProduct slugify now req d).2)
      /\ slugs_unique (products (restoreProduct slugify now req d).2)).
Proof.
  split; intros Hk Hids; (split; [|split; [|split]]).
  - intros Hid. unfold createCategory.
    destruct (create _ now _ d) as [e|[i d']] eqn:Hc; [exact Hk|].
    exact (create_unique slugify (Category slugify) (Category_sluggable slugify) eq_refl
             (Category_slug_unique slugify) now (rbody req) d i d' Hk Hid Hc).
  - unfold updateCategory.
    destruct (derive_slug slugify (rbody req)) as [e|p]; [exact Hk|].
    destruct (findOne _ _ d) as [i|] eqn:Hf; [|exact Hk].
    destruct (update _ now p i d) as [e|[i' d']] eqn:Hu; [exact Hk|].
    exact (update_unique slugify (Category slugify) (Category_sluggable slugify)
             (Category_hook_frame slugify) eq_refl (Category_slug_unique slugify)
             now req p d i i' d' Hk Hids Hf Hu).
  - unfold deleteCategory.
    destruct (findOne _ _ d) as [i|] eqn:Hf; [|exact Hk].
    destruct (destroy _ now i d) as [e|[i' d']] eqn:Hd; [exact Hk|].
    exact (destroy_unique slugify (Category slugify) (Category_sluggable slugify)
             (Category_stamps_plain slugify) eq_refl now req d i i' d' Hk Hf Hd).
  - unfold restoreCategory.
    destruct (findOne _ _ d) as [i|] eqn:Hf; [|exact Hk].
    destruct (is_null _); [exact Hk|].
    destruct (restore _ now i d) as [e|[i' d']] eqn:Hr; [exact Hk|].
    exact (restore_unique slugify (Category slugify) (Category_sluggable slugify)
             (Category_stamps_plain slugify) eq_refl eq_refl
             now req d i i' d' Hk Hf Hr).
  - intros Hid. unfold createProduct.
    destruct (derive_slug slugify (rbody req)) as [e|p] eqn:Hp; [exact Hk|].
    destruct (create _ now _ d) as [e|[i d']] eqn:Hc; [exact Hk|].
    rewrite <- (derive_slug_get slugify _ p "id" Hp) in Hid by discriminate.
    exact (create_unique slugify (Product slugify) (Product_sluggable slugify) eq_refl
             (Product_slug_unique slugify) now p d i d' Hk Hid Hc).
  - unfold updateProduct.
    destruct (derive_slug slugify (rbody req)) as [e|p]; [exact Hk|].
    destruct (findOne _ _ d) as [i|] eqn:Hf; [|exact Hk].
    destruct (update _ now p i d) as [e|[i' d']] eqn:Hu; [exact Hk|].
    exact (update_unique slugify (Product slugify) (Product_sluggable slugify)
             (Product_hook_frame slugify) eq_refl (Product_slug_unique slugify)
             now req p d i i' d' Hk Hids Hf Hu).
  - unfold deleteProduct.
    destruct (findOne _ _ d) as [i|] eqn:Hf; [|exact Hk].
    destruct (destroy _ now i d) as [e|[i' d']] eqn:Hd; [exact Hk|].
    exact (destroy_unique slugify (Product slugify) (Product_sluggable slugify)
             (Product_stamps_plain slugify) eq_refl now req d i i' d' Hk Hf Hd).
  - unfold restoreProduct.
    destruct (findOne _ _ d) as [i|] eqn:Hf; [|exact Hk].
    destruct (is_null _); [exact Hk|].
    destruct (restore _ now i d) as [e|[i' d']] eqn:Hr; [exact Hk|].
    exact (restore_unique slugify (Product slugify) (Product_sluggable slugify)
             (Product_stamps_plain slugify) eq_refl eq_refl
             now req d i i' d' Hk Hf Hr).
Qed.

Lemma sample_categories_slugs : slugs_unique (categories sample_db).
Proof.
  intros a b Ha Hb Heq _. unfold sample_db, categories in Ha, Hb.
  repeat (apply elem_of_cons in Ha as [->|Ha]); [| | |inversion Ha];
    (repeat (apply elem_of_cons in Hb as [->|Hb]); [| | |inversion Hb]);
    first [reflexivity | vm_compute in Heq; discriminate].
Qed.

Lemma handlers_keep_slugs_unique_witness :
  let req := sample_request (Some (VStr "1")) [] [("name", VStr "Nuts")] in
  slugs_unique (categories (createCategory slugify_ascii 3000 req sample_db).2)
  /\ slugs_unique (categories (updateCategory slugify_ascii 3000 req sample_db).2).
Proof.
  intros req.
  destruct (handlers_keep_slugs_unique slugify_ascii 3000 req sample_db) as [Hc _].
  destruct Hc as (H1 & H2 & _ & _).
  - exact sample_categories_slugs.
  - repeat constructor.
  - exact (conj (H1 eq_refl) H2).
Defined.
